(** * OpenLink ColdFire: BDM transport, GDB RSP server and flash engine

    A shallow embedding of the host-side C sources
    ([src/openlink_protocol.c], [src/m68k-gdbserver.c], [src/flash_gpl.c],
    [src/elf_loader.c]) and of the on-target flashloader
    ([flashloader/flashloader.c]), with the properties of the specification
    stated and proved over the embedded code.

    Conventions.
    - C integers are [Z]; a [uint8_t]/[uint16_t]/[uint32_t] store is written
      out as a reduction modulo 2^8 / 2^16 / 2^32.
    - Arrays are [list Z]; [cmd[i] = v] is stdpp's [<[i:=v]>].
    - The USB pod, the socket and the C run time are the environment: their
      answers are scripted in the [world] record and consumed in order.
    - A [string] is a C string without its terminating NUL; reading the
      terminator yields NUL.  What the packet buffer holds behind the
      terminator is not part of the model: where the C code reads there,
      the model reads NUL (see [write_registers_from] and
      [write_memory_word]). *)

From Stdlib Require Import ZArith Lia Ascii String.
From stdpp Require Import base numbers list strings.

Open Scope Z_scope.

(** ** Bytes, words and C arrays *)

Definition u8 (x : Z) : Z := x mod 256.
Definition u16 (x : Z) : Z := x mod 65536.
Definition u32 (x : Z) : Z := x mod 4294967296.

(** [a[i]] for an array of bytes; reading past the end of the model list
    yields 0 (the embedded code never does so on a 256-byte buffer). *)
Definition byte_at (a : list Z) (i : nat) : Z := default 0 (a !! i).

(** [(x >> k) & 0xFF] *)
Definition byte_of (x : Z) (k : Z) : Z := Z.land (Z.shiftr x k) 255.

(** The four bytes of a 32-bit value, most significant first. *)
Definition be32 (x : Z) : list Z :=
  [byte_of x 24; byte_of x 16; byte_of x 8; byte_of x 0].

(** The two bytes of a 16-bit value, most significant first. *)
Definition be16 (x : Z) : list Z := [byte_of x 8; byte_of x 0].

(** [(b0 << 24) | (b1 << 16) | (b2 << 8) | b3] stored in a [uint32_t]. *)
Definition word_of_bytes (b0 b1 b2 b3 : Z) : Z :=
  u32 (Z.lor (Z.lor (Z.lor (Z.shiftl b0 24) (Z.shiftl b1 16)) (Z.shiftl b2 8)) b3).

(** Consecutive stores [a[i] = v0; a[i+1] = v1; ...]. *)
Fixpoint poke (i : nat) (vs : list Z) (a : list Z) : list Z :=
  match vs with
  | [] => a
  | v :: vs' => poke (S i) vs' (<[i := v]> a)
  end.

(** [memcpy(dst, src, n)] onto the start of [dst] (for [n <= length dst]). *)
Definition memcpy (dst src : list Z) (n : nat) : list Z :=
  take n src ++ drop n dst.

(** A list cut or zero-extended to exactly 256 cells: the shape of every
    [unsigned char x[256]] object. *)
Definition fit256 (l : list Z) : list Z := take 256 (l ++ replicate 256 0).

(** The index sequence of [for (i = start; i < stop; i += stride)]. *)
Fixpoint loop_indices (fuel : nat) (start stop stride : nat) : list nat :=
  match fuel with
  | O => []
  | S f => if (start <? stop)%nat
           then start :: loop_indices f (start + stride) stop stride
           else []
  end.

(** ** The environment: USB endpoints, socket, indeterminate memory *)

Definition LIBUSB_ERROR_TIMEOUT : Z := -7.

Record world := World {
  (** [unsigned char g_cmd_buffer[256]], the persistent command buffer *)
  g_cmd_buffer : list Z;
  (** return codes of the coming bulk transfers on [ENDPOINT_OUT]
      (0 = success); an exhausted script means success *)
  out_results : list Z;
  (** return code and bytes delivered by the coming bulk transfers on
      [ENDPOINT_IN]; an exhausted script means the pod stays silent and the
      transfer times out *)
  in_results : list (Z * list Z);
  (** every buffer handed to a bulk transfer on [ENDPOINT_OUT], oldest first *)
  sent : list (list Z);
  (** number of bulk transfers started on [ENDPOINT_IN] *)
  in_reads : nat;
  (** what an uninitialised [unsigned char x[256]] local happens to hold *)
  stack_junk : list Z;
  (** what a fresh [malloc] block happens to hold *)
  heap_junk : list Z;
  (** packets written to the GDB socket by [send_packet], oldest first *)
  tx : list string;
  (** [m68k-gdbserver.c] globals *)
  g_step_count : Z;
  g_target_halted : Z;
  g_cached_sp : Z;
  g_cached_pc : Z;
  g_registers_initialized : Z
}.

Definition set_buffer (b : list Z) (w : world) : world :=
  World b (out_results w) (in_results w) (sent w) (in_reads w)
        (stack_junk w) (heap_junk w) (tx w) (g_step_count w)
        (g_target_halted w) (g_cached_sp w) (g_cached_pc w)
        (g_registers_initialized w).

Definition set_step_count (c : Z) (w : world) : world :=
  World (g_cmd_buffer w) (out_results w) (in_results w) (sent w) (in_reads w)
        (stack_junk w) (heap_junk w) (tx w) c
        (g_target_halted w) (g_cached_sp w) (g_cached_pc w)
        (g_registers_initialized w).

Definition set_target_halted (h : Z) (w : world) : world :=
  World (g_cmd_buffer w) (out_results w) (in_results w) (sent w) (in_reads w)
        (stack_junk w) (heap_junk w) (tx w) (g_step_count w)
        h (g_cached_sp w) (g_cached_pc w)
        (g_registers_initialized w).

Definition set_register_cache (sp pc : Z) (w : world) : world :=
  World (g_cmd_buffer w) (out_results w) (in_results w) (sent w) (in_reads w)
        (stack_junk w) (heap_junk w) (tx w) (g_step_count w)
        (g_target_halted w) sp pc 1.

(** ** A state monad over the world *)

Definition M (A : Type) : Type := world -> A * world.

#[export] Instance M_ret : MRet M := fun A a w => (a, w).
#[export] Instance M_bind : MBind M :=
  fun A B f m w => let (a, w') := m w in f a w'.

Definition get {A} (proj : world -> A) : M A := fun w => (proj w, w).
Definition modify (f : world -> world) : M unit := fun w => (tt, f w).

(** [libusb_bulk_transfer(handle, ENDPOINT_OUT, data, 256, &n, t)] *)
Definition usb_out (data : list Z) : M Z := fun w =>
  let r := match out_results w with [] => 0 | r :: _ => r end in
  (r, World (g_cmd_buffer w) (tail (out_results w)) (in_results w)
            (sent w ++ [data]) (in_reads w) (stack_junk w) (heap_junk w)
            (tx w) (g_step_count w) (g_target_halted w) (g_cached_sp w)
            (g_cached_pc w) (g_registers_initialized w)).

(** [libusb_bulk_transfer(handle, ENDPOINT_IN, dst, maxlen, &n, t)]: the
    return code and the bytes the pod delivered, at most [maxlen] of them.
    The caller stores them over the start of [dst] with [memcpy]. *)
Definition usb_in (maxlen : nat) : M (Z * list Z) := fun w =>
  let ev := match in_results w with
            | [] => (LIBUSB_ERROR_TIMEOUT, [])
            | (r, d) :: _ => if r <? 0 then (r, []) else (r, take maxlen d)
            end in
  (ev, World (g_cmd_buffer w) (out_results w) (tail (in_results w))
             (sent w) (S (in_reads w)) (stack_junk w) (heap_junk w)
             (tx w) (g_step_count w) (g_target_halted w) (g_cached_sp w)
             (g_cached_pc w) (g_registers_initialized w)).

(** Bytes [data] received into the array [dst]. *)
Definition recv_into (dst data : list Z) : list Z :=
  memcpy dst data (length data).

(** ** [openlink_protocol.c]: the framed USB channel *)

(** [unsigned char *cmd = g_cmd_buffer; cmd[..] = ..;] — the builder [f]
    writes through the alias, the result is the buffer's new contents. *)
Definition with_cmd_buffer (f : list Z -> list Z) : M (list Z) := fun w =>
  let b := f (g_cmd_buffer w) in (b, set_buffer b w).

(** [send_aa_command(handle, cmd_data, 256, name)].  Every caller passes
    [g_cmd_buffer] as [cmd_data], so the final [memcpy(cmd_data,
    response_buffer, 256)] lands in the persistent buffer.  The local
    [response_buffer] is uninitialised: past the bytes received it holds
    whatever the stack held. *)
Definition send_aa_command (cmd_data : list Z) : M Z :=
  r ← usb_out cmd_data;
  if negb (r =? 0) then mret (-1) else
  junk ← get stack_junk;
  '(r, data) ← usb_in 256;
  if r <? 0 then mret (-1) else
  let response_buffer := recv_into (fit256 junk) data in
  _ ← modify (set_buffer (memcpy cmd_data response_buffer 256));
  mret 0.

(** [send_aa_command_no_response]: the OUT transfer only. *)
Definition send_aa_command_no_response (cmd_data : list Z) : M Z :=
  r ← usb_out cmd_data;
  if negb (r =? 0) then mret (-1) else mret 0.

(** [validate_response(buffer, length, min_length, &response_type)]:
    the return code and the response type written on success. *)
Definition validate_response (buffer : list Z) (length min_length : Z)
  : Z * option Z :=
  if length <? min_length then (-1, None) else
  let std := (byte_at buffer 0 =? 0x99) && (byte_at buffer 1 =? 0x66) in
  let mrd := (byte_at buffer 0 =? 0x88) && (byte_at buffer 1 =? 0xa5) in
  let ok := (5 <=? length) && (byte_at buffer 4 =? 0xee) in
  if std && ok then (0, Some 0x9966)
  else if std && (5 <=? length) then (-1, None)
  else if mrd && ok then (0, Some 0x88a5)
  else if mrd && (5 <=? length) then (-1, None)
  else (-1, None).

(** *** Request builders

    Each builder is the sequence of stores the C function performs on
    [g_cmd_buffer] before the OUT transfer. *)

Definition cmd_write_memory_byte_addr_request (addr data : Z) : list Z -> list Z :=
  poke 0 ([0xaa; 0x55; 0x00; 0x0a; 0x07; 0x15; 0x18; 0x00] ++ be32 addr ++ [0x00; u8 data]).

Definition cmd_write_memory_word_addr_request (addr data : Z) : list Z -> list Z :=
  poke 0 ([0xaa; 0x55; 0x00; 0x06; 0x07; 0x16] ++ be32 addr ++ be16 data).

Definition cmd_write_memory_short_addr_request (addr data : Z) : list Z -> list Z :=
  poke 0 ([0xaa; 0x55; 0x00; 0x08; 0x07; 0x16] ++ be16 addr ++ be32 data).

Definition cmd_write_memory_long_addr_request (addr data : Z) : list Z -> list Z :=
  poke 0 ([0xaa; 0x55; 0x00; 0x0A; 0x07; 0x16] ++ be32 addr ++ be32 data).

Definition cmd_set_memory_window_request (window_addr : Z) : list Z -> list Z :=
  poke 0 ([0xaa; 0x55; 0x00; 0x05; 0x07; 0x10] ++ be32 window_addr).

Definition cmd_read_memory_long_addr_request (addr : Z) : list Z -> list Z :=
  poke 0 ([0xaa; 0x55; 0x00; 0x06; 0x07; 0x13] ++ be32 addr).

Definition cmd_0717_read_memory_request (addr length : Z) : list Z -> list Z :=
  let request_length := u16 (((length + 3) / 4) * 6) in
  poke 0 ([0xaa; 0x55; 0x00; 0x08; 0x07; 0x17] ++ be32 addr ++ be16 request_length).

Definition cmd_bdm_resume_request : list Z -> list Z :=
  poke 0 [0xaa; 0x55; 0x00; 0x04; 0x04; 0x40; 0x58; 0x04].

Definition cmd_07_02_bdm_go_request : list Z -> list Z :=
  poke 0 [0xaa; 0x55; 0x00; 0x05; 0x07; 0x02; 0xfc; 0x0c; 0x00].

Definition cmd_07_14_write_bdm_reg_request (reg value : Z) : list Z -> list Z :=
  poke 0 ([0xaa; 0x55; 0x00; 0x0c; 0x07; 0x14; 0x28; 0x80; 0x00; 0x00]
          ++ be16 reg ++ be32 value).

Definition cmd_07_14_write_debug_reg_request (drc value : Z) : list Z -> list Z :=
  poke 0 ([0xaa; 0x55; 0x00; 0x0c; 0x07; 0x14; 0x2C;
           Z.lor 0x42 (Z.land drc 0x1F); 0x00; 0x00; 0x00; Z.land drc 0xFF]
          ++ be32 value).

Definition cmd_bdm_freeze_request : list Z -> list Z :=
  poke 0 [0xaa; 0x55; 0x00; 0x04; 0x04; 0x7f; 0xfe; 0x02].

Definition cmd_enter_mode_request (mode : Z) : list Z -> list Z :=
  poke 0 [0xaa; 0x55; 0x00; 0x03; 0x07; 0x01; u8 mode].

Definition cmd_enable_memory_access_request (param : Z) : list Z -> list Z :=
  poke 0 [0xaa; 0x55; 0x00; 0x03; 0x07; 0x0a; u8 param].

Definition cmd_write_bdm_reg_request (reg data : Z) : list Z -> list Z :=
  poke 0 ([0xaa; 0x55; 0x00; 0x08; 0x07; 0x16] ++ be16 reg ++ be32 data).

Definition cmd_07_11_request (reg p1 p2 p3 p4 : Z) : list Z -> list Z :=
  poke 0 ([0xaa; 0x55; 0x00; 0x08; 0x07; 0x11] ++ be16 reg
          ++ [u8 p1; u8 p2; u8 p3; u8 p4]).

Definition cmd_07_16_write_pc_request (pc_value : Z) : list Z -> list Z :=
  poke 0 ([0xaa; 0x55; 0x00; 0x08; 0x07; 0x16; 0x08; 0x0f] ++ be32 pc_value).

Definition cmd_bdm_halt_request : list Z -> list Z :=
  poke 0 [0xaa; 0x55; 0x00; 0x04; 0x04; 0x40; 0x00; 0x01].

Definition cmd_07_95_request : list Z -> list Z :=
  poke 0 [0xaa; 0x55; 0x00; 0x02; 0x07; 0x95].

Definition cmd_bdm_cmd_00_02_request : list Z -> list Z :=
  poke 0 [0xaa; 0x55; 0x00; 0x04; 0x04; 0x40; 0x00; 0x02].

Definition cmd_07_14_request (reg p1 p2 p3 p4 addr : Z) : list Z -> list Z :=
  poke 0 ([0xaa; 0x55; 0x00; 0x0C; 0x07; 0x14] ++ be16 reg
          ++ [u8 p1; u8 p2; u8 p3; u8 p4] ++ be32 addr).

Definition cmd_07_10_request (reg : Z) : list Z -> list Z :=
  poke 0 ([0xaa; 0x55; 0x00; 0x05; 0x07; 0x10; 0x00] ++ be16 reg).

Definition cmd_07_17_request : list Z -> list Z :=
  poke 0 [0xaa; 0x55; 0x00; 0x08; 0x07; 0x17; 0x20; 0x00; 0x00; 0x0C; 0x00; 0x04].

Definition cmd_01_0b_request : list Z -> list Z :=
  poke 0 [0xaa; 0x55; 0x00; 0x02; 0x01; 0x0b].

Definition cmd_07_a2_request (param : Z) : list Z -> list Z :=
  poke 0 [0xaa; 0x55; 0x00; 0x03; 0x07; 0xa2; u8 param].

Definition cmd_04_40_58_04_request : list Z -> list Z :=
  poke 0 [0xaa; 0x55; 0x00; 0x04; 0x04; 0x40; 0x58; 0x04].

Definition cmd_04_7f_fe_02_request : list Z -> list Z :=
  poke 0 [0xaa; 0x55; 0x00; 0x04; 0x04; 0x7f; 0xfe; 0x02].

Definition cmd_04_40_00_02_request : list Z -> list Z :=
  poke 0 [0xaa; 0x55; 0x00; 0x04; 0x04; 0x40; 0x00; 0x02].

Definition cmd_07_13_request (reg : Z) : list Z -> list Z :=
  poke 0 ([0xaa; 0x55; 0x00; 0x04; 0x07; 0x13] ++ be16 reg).

Definition cmd_read_memory_byte_addr_request (addr : Z) : list Z -> list Z :=
  poke 0 ([0xaa; 0x55; 0x00; 0x04; 0x07; 0x13] ++ be32 addr).

Definition cmd_read_memory_word_addr_request (addr : Z) : list Z -> list Z :=
  poke 0 ([0xaa; 0x55; 0x00; 0x04; 0x07; 0x13] ++ be32 addr).

Definition cmd_071b_request (addr length : Z) : list Z -> list Z :=
  poke 0 ([0xaa; 0x55; 0x00; 0x08; 0x07; 0x1b] ++ be32 addr ++ be16 length).

Definition cmd_read_memory_block_request (addr : Z) : list Z -> list Z :=
  poke 0 ([0xaa; 0x55; 0x00; 0x08; 0x07; 0x17] ++ be32 addr ++ [0x01; 0x00]).

Definition cmd_07_1b_request (addr size : Z) : list Z -> list Z :=
  poke 0 ([0xaa; 0x55; 0x00; 0x08; 0x07; 0x1b] ++ be32 addr ++ be16 size).

Definition cmd_read_bdm_reg_request (reg : Z) : list Z -> list Z :=
  poke 0 ([0xaa; 0x55; 0x00; 0x04; 0x07; 0x13] ++ be16 reg).

(** [cmd_07_15]: [length = 4 + param_count] goes into bytes 2 and 3, and
    the loop [for (i = 0; i < param_count && i < 248; i++)
    cmd[8 + i] = params[i]] copies the parameters ([params] holds at least
    [param_count] bytes). *)
Definition cmd_07_15_request (reg : Z) (params : list Z) (param_count : Z)
    (cmd : list Z) : list Z :=
  let length := 4 + param_count in
  poke 8 (map (byte_at params) (seq 0 (Z.to_nat (Z.min param_count 248))))
       (poke 0 ([0xaa; 0x55; byte_of length 8; byte_of length 0; 0x07; 0x15]
                ++ be16 reg) cmd).

(** [for (i = from; i < 256; i += 2) { cmd[i] = a; if (i+1 < 256) cmd[i+1] = b; }] *)
Definition pad_pairs (from : nat) (a b : Z) (cmd : list Z) : list Z :=
  foldl (fun c i => if (i + 1 <? 256)%nat then <[(i + 1)%nat := b]> (<[i := a]> c)
                    else <[i := a]> c)
        cmd (loop_indices 256 from 256 2).

Definition cmd_07_12_request (param : Z) (cmd : list Z) : list Z :=
  pad_pairs 6 (byte_of param 8) (byte_of param 0)
            (poke 0 [0xaa; 0x55; 0x00; 0x02; 0x07; 0x12] cmd).

Definition cmd_07_1e_request (p1 p2 p3 : Z) (cmd : list Z) : list Z :=
  pad_pairs 13 0x00 0xff
            (poke 0 ([0xaa; 0x55; 0x00; 0x09; 0x07; 0x1e] ++ be16 p1 ++ be32 p2
                     ++ [u8 p3]) cmd).

Definition cmd_071e_write_sram_request (addr data : Z) (cmd : list Z) : list Z :=
  pad_pairs 16 0x00 0xff
            (poke 0 ([0xaa; 0x55; 0x00; 0x0c; 0x07; 0x1e; 0x00; 0x04]
                     ++ be32 addr ++ be32 data) cmd).

Definition cmd_07_11_read_bdm_reg_request (window reg : Z) (cmd : list Z) : list Z :=
  pad_pairs 12 0xff 0x00
            (poke 0 ([0xaa; 0x55; 0x00; 0x08; 0x07; 0x11] ++ be16 window
                     ++ [0x00; 0x00] ++ be16 reg) cmd).

Definition cmd_07_17_setup_window_request (addr : Z) (cmd : list Z) : list Z :=
  pad_pairs 12 0xff 0x00
            (poke 0 ([0xaa; 0x55; 0x00; 0x08; 0x07; 0x17] ++ be32 addr
                     ++ [0x00; 0x04]) cmd).

(** [cmd_07_19]: [memset(cmd, 0, 256)], then the loop
    [for (i = 16; i < 256; i += 6) { cmd[i] = 0x02; cmd[i+5] = 0x02; }],
    then the sixteen header bytes. *)
Definition cmd_07_19_request (addr data : Z) (cmd : list Z) : list Z :=
  let zeroed := replicate 256 0 in
  let padded := foldl (fun c i => <[(i + 5)%nat := 0x02]> (<[i := 0x02]> c))
                      zeroed (loop_indices 256 16 256 6) in
  poke 0 ([0xaa; 0x55; 0x00; 0x0C; 0x07; 0x19; 0x00; 0x04]
          ++ be32 addr ++ be32 data) padded.

(** *** Commands *)

Definition cmd_write_memory_byte_addr (addr data : Z) : M Z :=
  cmd ← with_cmd_buffer (cmd_write_memory_byte_addr_request addr data);
  send_aa_command cmd.

Definition cmd_write_memory_word_addr (addr data : Z) : M Z :=
  cmd ← with_cmd_buffer (cmd_write_memory_word_addr_request addr data);
  send_aa_command cmd.

Definition cmd_write_memory_short_addr (addr data : Z) : M Z :=
  cmd ← with_cmd_buffer (cmd_write_memory_short_addr_request addr data);
  send_aa_command cmd.

Definition cmd_write_memory_long_addr (addr data : Z) : M Z :=
  cmd ← with_cmd_buffer (cmd_write_memory_long_addr_request addr data);
  send_aa_command cmd.

Definition cmd_set_memory_window (window_addr : Z) : M Z :=
  cmd ← with_cmd_buffer (cmd_set_memory_window_request window_addr);
  send_aa_command cmd.

Definition cmd_bdm_resume : M Z :=
  cmd ← with_cmd_buffer cmd_bdm_resume_request;
  send_aa_command_no_response cmd.

Definition cmd_07_02_bdm_go : M Z :=
  cmd ← with_cmd_buffer cmd_07_02_bdm_go_request;
  send_aa_command cmd.

Definition cmd_07_14_write_bdm_reg (reg value : Z) : M Z :=
  cmd ← with_cmd_buffer (cmd_07_14_write_bdm_reg_request reg value);
  send_aa_command cmd.

Definition cmd_07_14_write_debug_reg (drc value : Z) : M Z :=
  cmd ← with_cmd_buffer (cmd_07_14_write_debug_reg_request drc value);
  send_aa_command cmd.

Definition cmd_enter_mode (mode : Z) : M Z :=
  cmd ← with_cmd_buffer (cmd_enter_mode_request mode);
  send_aa_command cmd.

Definition cmd_enable_memory_access (param : Z) : M Z :=
  cmd ← with_cmd_buffer (cmd_enable_memory_access_request param);
  send_aa_command cmd.

Definition cmd_write_bdm_reg (reg data : Z) : M Z :=
  cmd ← with_cmd_buffer (cmd_write_bdm_reg_request reg data);
  send_aa_command cmd.

Definition cmd_07_11 (reg p1 p2 p3 p4 : Z) : M Z :=
  cmd ← with_cmd_buffer (cmd_07_11_request reg p1 p2 p3 p4);
  send_aa_command cmd.

Definition cmd_07_16_write_pc (pc_value : Z) : M Z :=
  cmd ← with_cmd_buffer (cmd_07_16_write_pc_request pc_value);
  send_aa_command cmd.

Definition cmd_bdm_halt : M Z :=
  cmd ← with_cmd_buffer cmd_bdm_halt_request;
  send_aa_command cmd.

Definition cmd_07_95 : M Z :=
  cmd ← with_cmd_buffer cmd_07_95_request;
  send_aa_command cmd.

Definition cmd_bdm_cmd_00_02 : M Z :=
  cmd ← with_cmd_buffer cmd_bdm_cmd_00_02_request;
  send_aa_command cmd.

Definition cmd_07_14 (reg p1 p2 p3 p4 addr : Z) : M Z :=
  cmd ← with_cmd_buffer (cmd_07_14_request reg p1 p2 p3 p4 addr);
  send_aa_command cmd.

Definition cmd_07_10 (reg : Z) : M Z :=
  cmd ← with_cmd_buffer (cmd_07_10_request reg);
  send_aa_command cmd.

Definition cmd_07_17 : M Z :=
  cmd ← with_cmd_buffer cmd_07_17_request;
  send_aa_command_no_response cmd.

Definition cmd_01_0b : M Z :=
  cmd ← with_cmd_buffer cmd_01_0b_request;
  send_aa_command cmd.

Definition cmd_07_a2 (param : Z) : M Z :=
  cmd ← with_cmd_buffer (cmd_07_a2_request param);
  send_aa_command cmd.

Definition cmd_04_40_58_04 : M Z :=
  cmd ← with_cmd_buffer cmd_04_40_58_04_request;
  send_aa_command cmd.

Definition cmd_04_7f_fe_02 : M Z :=
  cmd ← with_cmd_buffer cmd_04_7f_fe_02_request;
  send_aa_command cmd.

Definition cmd_04_40_00_02 : M Z :=
  cmd ← with_cmd_buffer cmd_04_40_00_02_request;
  send_aa_command cmd.

Definition cmd_07_12 (param : Z) : M Z :=
  cmd ← with_cmd_buffer (cmd_07_12_request param);
  send_aa_command cmd.

Definition cmd_07_1e (p1 p2 p3 : Z) : M Z :=
  cmd ← with_cmd_buffer (cmd_07_1e_request p1 p2 p3);
  send_aa_command cmd.

Definition cmd_071e_write_sram (addr data : Z) : M Z :=
  cmd ← with_cmd_buffer (cmd_071e_write_sram_request addr data);
  send_aa_command cmd.

Definition cmd_07_19 (addr data : Z) : M Z :=
  cmd ← with_cmd_buffer (cmd_07_19_request addr data);
  send_aa_command cmd.

(** [cmd_bdm_freeze(handle, &is_frozen)]: the return code and the value of
    [*is_frozen] afterwards ([is_frozen] is its value before the call).  The
    IN transfer stores straight into [g_cmd_buffer]. *)
Definition cmd_bdm_freeze (is_frozen : Z) : M (Z * Z) :=
  cmd ← with_cmd_buffer cmd_bdm_freeze_request;
  r ← usb_out cmd;
  if negb (r =? 0) then mret (-1, is_frozen) else
  '(r, data) ← usb_in 256;
  _ ← modify (fun w => set_buffer (recv_into (g_cmd_buffer w) data) w);
  if r <? 0 then
    if r =? LIBUSB_ERROR_TIMEOUT then mret (0, 0) else mret (-1, is_frozen)
  else
  let actual_response_len := Z.of_nat (length data) in
  buf ← get g_cmd_buffer;
  if negb (fst (validate_response buf actual_response_len 5) =? 0)
  then mret (-1, is_frozen) else
  if 6 <=? actual_response_len then
    let status := byte_at buf 5 in
    if (status =? 0x01) || (status =? 0x00) then mret (0, 1) else mret (0, 0)
  else mret (0, 0).

(** [cmd_07_13(handle, reg, &value)]: the response goes to a local array,
    the persistent buffer keeps the request. *)
Definition cmd_07_13 (reg value : Z) : M (Z * Z) :=
  cmd ← with_cmd_buffer (cmd_07_13_request reg);
  r ← usb_out cmd;
  if negb (r =? 0) then mret (-1, value) else
  junk ← get stack_junk;
  '(r, data) ← usb_in 256;
  if r <? 0 then mret (-1, value) else
  let response := recv_into (fit256 junk) data in
  let actual_response_len := Z.of_nat (length data) in
  if (9 <=? actual_response_len) && (byte_at response 0 =? 0x99)
     && (byte_at response 1 =? 0x66) && (byte_at response 4 =? 0xee)
  then mret (0, word_of_bytes (byte_at response 5) (byte_at response 6)
                              (byte_at response 7) (byte_at response 8))
  else mret (-1, value).

(** [cmd_07_11_read_bdm_reg(handle, window, reg, &value)] *)
Definition cmd_07_11_read_bdm_reg (window reg value : Z) : M (Z * Z) :=
  cmd ← with_cmd_buffer (cmd_07_11_read_bdm_reg_request window reg);
  ret ← usb_out cmd;
  if ret <? 0 then mret (-1, value) else
  junk ← get stack_junk;
  '(ret, data) ← usb_in 256;
  if ret <? 0 then mret (-1, value) else
  let resp := recv_into (fit256 junk) data in
  if (byte_at resp 0 =? 0x99) && (byte_at resp 1 =? 0x66) && (byte_at resp 4 =? 0xee)
  then mret (0, word_of_bytes (byte_at resp 5) (byte_at resp 6)
                              (byte_at resp 7) (byte_at resp 8))
  else mret (-1, value).

Definition cmd_read_pc (pc_value : Z) : M (Z * Z) :=
  cmd_07_11_read_bdm_reg 0x2980 0x080F pc_value.

Definition cmd_read_sr (sr_value : Z) : M (Z * Z) :=
  cmd_07_11_read_bdm_reg 0x2980 0x080E sr_value.

Definition cmd_write_pc (pc_value : Z) : M Z :=
  r ← cmd_07_14_write_bdm_reg 0x080F pc_value;
  if negb (r =? 0) then mret r else
  cmd_07_12 0xFFFF.

(** [cmd_read_memory_long_addr(handle, addr, &data)] *)
Definition cmd_read_memory_long_addr (addr data : Z) : M (Z * Z) :=
  cmd ← with_cmd_buffer (cmd_read_memory_long_addr_request addr);
  r ← usb_out cmd;
  if negb (r =? 0) then mret (-1, data) else
  '(r, rx) ← usb_in 256;
  _ ← modify (fun w => set_buffer (recv_into (g_cmd_buffer w) rx) w);
  if r <? 0 then mret (-1, data) else
  let actual_response_len := Z.of_nat (length rx) in
  buf ← get g_cmd_buffer;
  if negb (fst (validate_response buf actual_response_len 9) =? 0)
  then mret (-1, data) else
  mret (0, word_of_bytes (byte_at buf 5) (byte_at buf 6)
                         (byte_at buf 7) (byte_at buf 8)).

(** Bytes [data] received at offset [off] of the array [dst]
    ([libusb_bulk_transfer(.., dst + off, ..)]). *)
Definition recv_at (dst : list Z) (off : nat) (data : list Z) : list Z :=
  take off dst ++ recv_into (drop off dst) data.

(** The loop of [cmd_0717_read_memory] that gathers further IN packets into
    [g_cmd_buffer + total_received].  [packet_num] runs from 2 to 9, so eight
    rounds of fuel let the loop end by its own condition.  Result: return
    code and [total_received]. *)
Fixpoint read_more_packets (fuel : nat) (total_expected total_received packet_num : Z)
  : M (Z * Z) :=
  match fuel with
  | O => mret (0, total_received)
  | S f =>
    if (total_received <? total_expected) && (total_received <? 256)
       && (packet_num <? 10)
    then
      let remaining_space := 256 - total_received in
      if remaining_space <=? 0 then mret (0, total_received) else
      '(r, chunk) ← usb_in (Z.to_nat remaining_space);
      _ ← modify (fun w => set_buffer
                 (recv_at (g_cmd_buffer w) (Z.to_nat total_received) chunk) w);
      if r <? 0 then mret (-1, total_received) else
      let chunk_len := Z.of_nat (length chunk) in
      if chunk_len <? remaining_space then mret (0, total_received + chunk_len)
      else read_more_packets f total_expected (total_received + chunk_len)
                             (packet_num + 1)
    else mret (0, total_received)
  end.

(** [memcpy(buffer + off, src, length src)] *)
Definition copy_at (buffer : list Z) (off : nat) (src : list Z) : list Z :=
  take off buffer ++ src ++ drop (off + length src) buffer.

(** The de-interleaving loop of [cmd_0717_read_memory]: four data bytes out
    of every six.  [bytes_remaining] falls by at least one per round, so the
    requested length is enough fuel. *)
Fixpoint extract_groups (fuel : nat) (src : list Z) (total_received : Z)
    (buffer : list Z) (src_offset dst_offset : nat) (bytes_remaining : Z)
  : list Z :=
  match fuel with
  | O => buffer
  | S f =>
    if (0 <? bytes_remaining) && (Z.of_nat src_offset + 4 <=? total_received)
    then
      let chunk := if 4 <=? bytes_remaining then 4 else bytes_remaining in
      extract_groups f src total_received
        (copy_at buffer dst_offset (take (Z.to_nat chunk) (drop src_offset src)))
        (src_offset + 6) (dst_offset + Z.to_nat chunk) (bytes_remaining - chunk)
    else buffer
  end.

(** [cmd_0717_read_memory(handle, addr, length, buffer, buffer_size)]: the
    return code and the caller's [buffer] afterwards.  [length] is a
    [uint16_t] parameter. *)
Definition cmd_0717_read_memory (addr length : Z) (buffer : list Z) (buffer_size : Z)
  : M (Z * list Z) :=
  let length := u16 length in
  if buffer_size <? length then mret (-1, buffer) else
  cmd ← with_cmd_buffer (cmd_0717_read_memory_request addr length);
  r ← usb_out cmd;
  if negb (r =? 0) then mret (-1, buffer) else
  '(r, rx) ← usb_in 256;
  _ ← modify (fun w => set_buffer (recv_into (g_cmd_buffer w) rx) w);
  if r <? 0 then mret (-1, buffer) else
  let actual_response_len := Z.of_nat (List.length rx) in
  if actual_response_len <? 4 then mret (-1, buffer) else
  buf ← get g_cmd_buffer;
  let response_len := u16 (Z.lor (Z.shiftl (byte_at buf 2) 8) (byte_at buf 3)) in
  let total_expected := 4 + response_len in
  '(r, total_received) ← read_more_packets 8 total_expected actual_response_len 2;
  if r <? 0 then mret (-1, buffer) else
  buf ← get g_cmd_buffer;
  if negb (fst (validate_response buf total_received (5 + length)) =? 0)
  then mret (-1, buffer) else
  mret (0, extract_groups (Z.to_nat length) buf total_received buffer 5 0 length).

(** [cmd_read_memory_byte_addr(handle, addr, &data)] *)
Definition cmd_read_memory_byte_addr (addr data : Z) : M (Z * Z) :=
  cmd ← with_cmd_buffer (cmd_read_memory_byte_addr_request addr);
  r ← usb_out cmd;
  if negb (r =? 0) then mret (-1, data) else
  '(r, rx) ← usb_in 256;
  _ ← modify (fun w => set_buffer (recv_into (g_cmd_buffer w) rx) w);
  if r <? 0 then mret (-1, data) else
  let actual_response_len := Z.of_nat (length rx) in
  buf ← get g_cmd_buffer;
  if negb (fst (validate_response buf actual_response_len 9) =? 0)
  then mret (-1, data) else
  mret (0, byte_at buf 8).

(** [cmd_read_memory_word_addr(handle, addr, &data)] *)
Definition cmd_read_memory_word_addr (addr data : Z) : M (Z * Z) :=
  cmd ← with_cmd_buffer (cmd_read_memory_word_addr_request addr);
  r ← usb_out cmd;
  if negb (r =? 0) then mret (-1, data) else
  '(r, rx) ← usb_in 256;
  _ ← modify (fun w => set_buffer (recv_into (g_cmd_buffer w) rx) w);
  if r <? 0 then mret (-1, data) else
  let actual_response_len := Z.of_nat (length rx) in
  buf ← get g_cmd_buffer;
  if negb (fst (validate_response buf actual_response_len 9) =? 0)
  then mret (-1, data) else
  mret (0, u16 (Z.lor (Z.shiftl (byte_at buf 7) 8) (byte_at buf 8))).

(** [cmd_071b(handle, addr, length, buffer, buffer_size)]: the return code
    and the caller's [buffer] afterwards.  The response is gathered as in
    [cmd_0717_read_memory]; [length] bytes from offset 5 are copied out
    (the check against [total_received], at most 256, keeps [length] at
    251 or less there). *)
Definition cmd_071b (addr length : Z) (buffer : list Z) (buffer_size : Z)
  : M (Z * list Z) :=
  let length := u16 length in
  if buffer_size <? length then mret (-1, buffer) else
  cmd ← with_cmd_buffer (cmd_071b_request addr length);
  r ← usb_out cmd;
  if negb (r =? 0) then mret (-1, buffer) else
  '(r, rx) ← usb_in 256;
  _ ← modify (fun w => set_buffer (recv_into (g_cmd_buffer w) rx) w);
  if r <? 0 then mret (-1, buffer) else
  let actual_response_len := Z.of_nat (List.length rx) in
  if actual_response_len <? 4 then mret (-1, buffer) else
  buf ← get g_cmd_buffer;
  let response_len := u16 (Z.lor (Z.shiftl (byte_at buf 2) 8) (byte_at buf 3)) in
  let total_expected := 4 + response_len in
  '(r, total_received) ← read_more_packets 8 total_expected actual_response_len 2;
  if r <? 0 then mret (-1, buffer) else
  buf ← get g_cmd_buffer;
  if negb (fst (validate_response buf total_received (5 + length)) =? 0)
  then mret (-1, buffer) else
  mret (0, memcpy buffer (drop 5 buf) (Z.to_nat length)).


(** [cmd_read_memory_block(handle, addr, buffer, buffer_size)]: the return
    code (the number of bytes copied on success) and the caller's [buffer]
    afterwards; [None] is a null pointer.  A response that declares length
    0 makes [data_length] -1, which [memcpy] takes for a huge size; the
    model copies nothing then. *)
Definition cmd_read_memory_block (addr : Z) (buffer : option (list Z))
    (buffer_size : Z) : M (Z * option (list Z)) :=
  match buffer with
  | None => mret (-1, None)
  | Some b =>
    if buffer_size <=? 0 then mret (-1, buffer) else
    cmd ← with_cmd_buffer (cmd_read_memory_block_request addr);
    ret ← usb_out cmd;
    if ret <? 0 then mret (ret, buffer) else
    '(ret, rx) ← usb_in 256;
    _ ← modify (fun w => set_buffer (recv_into (g_cmd_buffer w) rx) w);
    if ret <? 0 then mret (ret, buffer) else
    buf ← get g_cmd_buffer;
    if negb (byte_at buf 0 =? 0x99) || negb (byte_at buf 1 =? 0x66)
    then mret (-1, buffer) else
    let response_length := Z.lor (Z.shiftl (byte_at buf 2) 8) (byte_at buf 3) in
    let status := byte_at buf 4 in
    if negb (status =? 0xee) then mret (-1, buffer) else
    let data_length := response_length - 1 in
    let data_length := if buffer_size <? data_length then buffer_size
                       else data_length in
    mret (data_length, Some (memcpy b (drop 5 buf) (Z.to_nat data_length)))
  end.

(** [cmd_07_17_setup_window(handle, addr)]: the OUT transfer only. *)
Definition cmd_07_17_setup_window (addr : Z) : M Z :=
  cmd ← with_cmd_buffer (cmd_07_17_setup_window_request addr);
  ret ← usb_out cmd;
  if ret <? 0 then mret ret else mret 0.

(** [cmd_07_1b(handle, addr, size)]: the OUT transfer only. *)
Definition cmd_07_1b (addr size : Z) : M Z :=
  cmd ← with_cmd_buffer (cmd_07_1b_request addr size);
  ret ← usb_out cmd;
  if ret <? 0 then mret ret else mret 0.

(** [cmd_read_bdm_reg(handle, reg, &value)], with a non-null [value]. *)
Definition cmd_read_bdm_reg (reg value : Z) : M (Z * Z) :=
  cmd ← with_cmd_buffer (cmd_read_bdm_reg_request reg);
  ret ← usb_out cmd;
  if ret <? 0 then mret (ret, value) else
  '(ret, rx) ← usb_in 256;
  _ ← modify (fun w => set_buffer (recv_into (g_cmd_buffer w) rx) w);
  if ret <? 0 then mret (ret, value) else
  buf ← get g_cmd_buffer;
  if negb (byte_at buf 0 =? 0x99) || negb (byte_at buf 1 =? 0x66)
  then mret (-1, value) else
  if negb (byte_at buf 4 =? 0xee) then mret (-1, value) else
  mret (0, u16 (Z.lor (Z.shiftl (byte_at buf 5) 8) (byte_at buf 6))).

(** [cmd_07_15(handle, reg, params, param_count)] *)
Definition cmd_07_15 (reg : Z) (params : list Z) (param_count : Z) : M Z :=
  cmd ← with_cmd_buffer (cmd_07_15_request reg params param_count);
  send_aa_command cmd.

(** ** [m68k-gdbserver.c]: RSP text helpers *)

Definition hex_digit (n : Z) : ascii :=
  default "0"%char (String.get (Z.to_nat n) "0123456789abcdef").

(** [sprintf(.., "%02x", b)] for a byte. *)
Definition hex2 (b : Z) : string :=
  String (hex_digit (Z.land (Z.shiftr b 4) 15))
         (String (hex_digit (Z.land b 15)) EmptyString).

(** [bytes_to_hex(bytes, len, hex)] *)
Fixpoint bytes_to_hex_list (bytes : list Z) : string :=
  match bytes with
  | [] => EmptyString
  | b :: rest => hex2 b +:+ bytes_to_hex_list rest
  end.

Definition bytes_to_hex (bytes : list Z) (len : Z) : string :=
  bytes_to_hex_list (take (Z.to_nat len) bytes).

(** [sprintf(.., "%08x", v)] for a 32-bit value. *)
Definition hex8 (v : Z) : string := bytes_to_hex_list (be32 v).



Definition char_code (c : ascii) : Z := Z.of_N (N_of_ascii c).

(** [calc_checksum]: the sum of the characters in a [uint8_t]. *)
Fixpoint calc_checksum_from (sum : Z) (data : string) : Z :=
  match data with
  | EmptyString => sum
  | String c rest => calc_checksum_from (u8 (sum + char_code c)) rest
  end.

Definition calc_checksum (data : string) : Z := calc_checksum_from 0 data.

Definition MAX_PACKET_SIZE : Z := 4096.

Fixpoint string_take (n : nat) (s : string) : string :=
  match n, s with
  | S n', String c rest => String c (string_take n' rest)
  | _, _ => EmptyString
  end.

(** What [snprintf(packet, sizeof(packet), "$%s#%02x", data, checksum)]
    stores: at most 4095 characters. *)
Definition rsp_frame (data : string) : string :=
  string_take (Z.to_nat (MAX_PACKET_SIZE - 1))
              ("$" +:+ data +:+ "#" +:+ hex2 (calc_checksum data)).

(** [send_packet(sock, data)].  The socket accepts every write; the packet
    is logged in [tx]. *)
Definition send_packet (data : string) : M Z := fun w =>
  (0, World (g_cmd_buffer w) (out_results w) (in_results w) (sent w)
            (in_reads w) (stack_junk w) (heap_junk w)
            (tx w ++ [rsp_frame data]) (g_step_count w) (g_target_halted w)
            (g_cached_sp w) (g_cached_pc w) (g_registers_initialized w)).

Definition send_ok : M Z := send_packet "OK".

(** [send_error(sock, errno_val)]: ["E%02x"] of [errno_val & 0xff]. *)
Definition send_error (errno_val : Z) : M Z :=
  send_packet ("E" +:+ hex2 (Z.land errno_val 0xff)).

(** [hex_to_nibble] *)
Definition hex_to_nibble (c : ascii) : Z :=
  let n := char_code c in
  if (48 <=? n) && (n <=? 57) then n - 48
  else if (97 <=? n) && (n <=? 102) then n - 97 + 10
  else if (65 <=? n) && (n <=? 70) then n - 65 + 10
  else -1.

(** [strchr(s, c)]: the suffix of [s] that starts at the first [c]. *)
Fixpoint strchr (s : string) (c : ascii) : option string :=
  match s with
  | EmptyString => None
  | String d rest => if Ascii.eqb d c then Some s else strchr rest c
  end.

(** The C library's [strtoul(s, NULL, 16)] on an LP64 host: white space,
    an optional sign, an optional [0x], then hexadecimal digits.  A value
    that does not fit is reported as [ULONG_MAX], with or without a sign;
    a minus sign negates a value that fits modulo 2^64. *)
Definition ULONG_MAX : Z := 18446744073709551615.

Definition isspace (c : ascii) : bool :=
  let n := char_code c in (n =? 32) || ((9 <=? n) && (n <=? 13)).

Fixpoint skip_spaces (s : string) : string :=
  match s with
  | String c rest => if isspace c then skip_spaces rest else s
  | EmptyString => s
  end.

Fixpoint hex_digits_value (acc : Z) (s : string) : Z :=
  match s with
  | String c rest =>
      let d := hex_to_nibble c in
      if d <? 0 then acc
      else hex_digits_value (Z.min ULONG_MAX (acc * 16 + d)) rest
  | EmptyString => acc
  end.

Definition skip_0x (s : string) : string :=
  match s with
  | String "0"%char (String x (String d rest)) =>
      if (Ascii.eqb x "x" || Ascii.eqb x "X") && (0 <=? hex_to_nibble d)
      then String d rest else s
  | _ => s
  end.

(** The digits read without a bound, to tell an overflow from the value
    [ULONG_MAX] itself. *)
Fixpoint hex_digits_exact (acc : Z) (s : string) : Z :=
  match s with
  | String c rest =>
      let d := hex_to_nibble c in
      if d <? 0 then acc else hex_digits_exact (acc * 16 + d) rest
  | EmptyString => acc
  end.

Definition strtoul16 (s : string) : Z :=
  match skip_spaces s with
  | String "-"%char rest =>
      let v := hex_digits_exact 0 (skip_0x rest) in
      if ULONG_MAX <? v then ULONG_MAX else (- v) mod (ULONG_MAX + 1)
  | String "+"%char rest => hex_digits_value 0 (skip_0x rest)
  | rest => hex_digits_value 0 (skip_0x rest)
  end.

(** [p + 1] for a pointer [p] into a string. *)
Definition string_tail (s : string) : string :=
  match s with
  | String _ rest => rest
  | EmptyString => EmptyString
  end.

(** [malloc(n)]: the allocation succeeds and the block holds whatever the
    heap held. *)
Definition malloc (n : Z) : M (list Z) := fun w =>
  (take (Z.to_nat n) (heap_junk w ++ replicate (Z.to_nat n) 0), w).

(** [handle_read_memory(sock, data)], the handler of the [m addr,len]
    packet; [data] is the packet after its first character. *)
Definition handle_read_memory (data : string) : M Z :=
  match strchr data "," with
  | None => send_error 1
  | Some comma =>
      let addr := u32 (strtoul16 data) in
      let len := u32 (strtoul16 (string_tail comma)) in
      let len := if MAX_PACKET_SIZE / 2 <? len then MAX_PACKET_SIZE / 2 else len in
      buffer ← malloc len;
      '(result, buffer) ← cmd_0717_read_memory addr len buffer len;
      if negb (result =? 0) then send_error 5 else
      send_packet (bytes_to_hex buffer len)
  end.

(** ** The command inventory *)

(** The BDM commands of [openlink_protocol.c] that build a request in
    [g_cmd_buffer], as one data type.  [cmd_bdm_reinit_after_execution]
    builds four requests; it is the sequence [Op_enter_mode 0xF8],
    [Op_enter_mode 0xF0], [Op_enter_mode 0xF8], [Op_enable_memory_access 0]
    (see [reinit_commands]). *)
Inductive bdm_command : Type :=
| Op_write_memory_byte_addr (addr data : Z)
| Op_write_memory_word_addr (addr data : Z)
| Op_write_memory_short_addr (addr data : Z)
| Op_write_memory_long_addr (addr data : Z)
| Op_set_memory_window (window_addr : Z)
| Op_read_memory_long_addr (addr : Z)
| Op_0717_read_memory (addr length : Z)
| Op_bdm_resume
| Op_07_02_bdm_go
| Op_07_14_write_bdm_reg (reg value : Z)
| Op_07_14_write_debug_reg (drc value : Z)
| Op_bdm_freeze
| Op_enter_mode (mode : Z)
| Op_enable_memory_access (param : Z)
| Op_write_bdm_reg (reg data : Z)
| Op_07_11 (reg p1 p2 p3 p4 : Z)
| Op_07_16_write_pc (pc_value : Z)
| Op_bdm_halt
| Op_07_95
| Op_bdm_cmd_00_02
| Op_07_14 (reg p1 p2 p3 p4 addr : Z)
| Op_07_10 (reg : Z)
| Op_07_17
| Op_01_0b
| Op_07_a2 (param : Z)
| Op_04_40_58_04
| Op_04_7f_fe_02
| Op_04_40_00_02
| Op_07_13 (reg : Z)
| Op_07_12 (param : Z)
| Op_07_1e (p1 p2 p3 : Z)
| Op_071e_write_sram (addr data : Z)
| Op_07_11_read_bdm_reg (window reg : Z)
| Op_07_19 (addr data : Z)
| Op_read_memory_byte_addr (addr : Z)
| Op_read_memory_word_addr (addr : Z)
| Op_071b (addr length : Z)
| Op_read_memory_block (addr : Z)
| Op_07_17_setup_window (addr : Z)
| Op_07_1b (addr size : Z)
| Op_read_bdm_reg (reg : Z)
| Op_07_15 (reg : Z) (params : list Z) (param_count : Z).

(** The request a command builds over the buffer it finds. *)
Definition request (X : bdm_command) : list Z -> list Z :=
  match X with
  | Op_write_memory_byte_addr a d => cmd_write_memory_byte_addr_request a d
  | Op_write_memory_word_addr a d => cmd_write_memory_word_addr_request a d
  | Op_write_memory_short_addr a d => cmd_write_memory_short_addr_request a d
  | Op_write_memory_long_addr a d => cmd_write_memory_long_addr_request a d
  | Op_set_memory_window a => cmd_set_memory_window_request a
  | Op_read_memory_long_addr a => cmd_read_memory_long_addr_request a
  | Op_0717_read_memory a l => cmd_0717_read_memory_request a (u16 l)
  | Op_bdm_resume => cmd_bdm_resume_request
  | Op_07_02_bdm_go => cmd_07_02_bdm_go_request
  | Op_07_14_write_bdm_reg r v => cmd_07_14_write_bdm_reg_request r v
  | Op_07_14_write_debug_reg r v => cmd_07_14_write_debug_reg_request r v
  | Op_bdm_freeze => cmd_bdm_freeze_request
  | Op_enter_mode m => cmd_enter_mode_request m
  | Op_enable_memory_access p => cmd_enable_memory_access_request p
  | Op_write_bdm_reg r d => cmd_write_bdm_reg_request r d
  | Op_07_11 r p1 p2 p3 p4 => cmd_07_11_request r p1 p2 p3 p4
  | Op_07_16_write_pc v => cmd_07_16_write_pc_request v
  | Op_bdm_halt => cmd_bdm_halt_request
  | Op_07_95 => cmd_07_95_request
  | Op_bdm_cmd_00_02 => cmd_bdm_cmd_00_02_request
  | Op_07_14 r p1 p2 p3 p4 a => cmd_07_14_request r p1 p2 p3 p4 a
  | Op_07_10 r => cmd_07_10_request r
  | Op_07_17 => cmd_07_17_request
  | Op_01_0b => cmd_01_0b_request
  | Op_07_a2 p => cmd_07_a2_request p
  | Op_04_40_58_04 => cmd_04_40_58_04_request
  | Op_04_7f_fe_02 => cmd_04_7f_fe_02_request
  | Op_04_40_00_02 => cmd_04_40_00_02_request
  | Op_07_13 r => cmd_07_13_request r
  | Op_07_12 p => cmd_07_12_request p
  | Op_07_1e p1 p2 p3 => cmd_07_1e_request p1 p2 p3
  | Op_071e_write_sram a d => cmd_071e_write_sram_request a d
  | Op_07_11_read_bdm_reg wd r => cmd_07_11_read_bdm_reg_request wd r
  | Op_07_19 a d => cmd_07_19_request a d
  | Op_read_memory_byte_addr a => cmd_read_memory_byte_addr_request a
  | Op_read_memory_word_addr a => cmd_read_memory_word_addr_request a
  | Op_071b a l => cmd_071b_request a (u16 l)
  | Op_read_memory_block a => cmd_read_memory_block_request a
  | Op_07_17_setup_window a => cmd_07_17_setup_window_request a
  | Op_07_1b a sz => cmd_07_1b_request a sz
  | Op_read_bdm_reg r => cmd_read_bdm_reg_request r
  | Op_07_15 r ps n => cmd_07_15_request r ps n
  end.

Definition code_of {A} (m : M (Z * A)) : M Z := fun w =>
  (fst (fst (m w)), snd (m w)).

(** Running a command against the pod; out-parameters are dropped, only the
    return code is kept. *)
Definition issue (X : bdm_command) : M Z :=
  match X with
  | Op_write_memory_byte_addr a d => cmd_write_memory_byte_addr a d
  | Op_write_memory_word_addr a d => cmd_write_memory_word_addr a d
  | Op_write_memory_short_addr a d => cmd_write_memory_short_addr a d
  | Op_write_memory_long_addr a d => cmd_write_memory_long_addr a d
  | Op_set_memory_window a => cmd_set_memory_window a
  | Op_read_memory_long_addr a => code_of (cmd_read_memory_long_addr a 0)
  | Op_0717_read_memory a l =>
      code_of (cmd_0717_read_memory a l (replicate (Z.to_nat (u16 l)) 0) 65535)
  | Op_bdm_resume => cmd_bdm_resume
  | Op_07_02_bdm_go => cmd_07_02_bdm_go
  | Op_07_14_write_bdm_reg r v => cmd_07_14_write_bdm_reg r v
  | Op_07_14_write_debug_reg r v => cmd_07_14_write_debug_reg r v
  | Op_bdm_freeze => code_of (cmd_bdm_freeze 0)
  | Op_enter_mode m => cmd_enter_mode m
  | Op_enable_memory_access p => cmd_enable_memory_access p
  | Op_write_bdm_reg r d => cmd_write_bdm_reg r d
  | Op_07_11 r p1 p2 p3 p4 => cmd_07_11 r p1 p2 p3 p4
  | Op_07_16_write_pc v => cmd_07_16_write_pc v
  | Op_bdm_halt => cmd_bdm_halt
  | Op_07_95 => cmd_07_95
  | Op_bdm_cmd_00_02 => cmd_bdm_cmd_00_02
  | Op_07_14 r p1 p2 p3 p4 a => cmd_07_14 r p1 p2 p3 p4 a
  | Op_07_10 r => cmd_07_10 r
  | Op_07_17 => cmd_07_17
  | Op_01_0b => cmd_01_0b
  | Op_07_a2 p => cmd_07_a2 p
  | Op_04_40_58_04 => cmd_04_40_58_04
  | Op_04_7f_fe_02 => cmd_04_7f_fe_02
  | Op_04_40_00_02 => cmd_04_40_00_02
  | Op_07_13 r => code_of (cmd_07_13 r 0)
  | Op_07_12 p => cmd_07_12 p
  | Op_07_1e p1 p2 p3 => cmd_07_1e p1 p2 p3
  | Op_071e_write_sram a d => cmd_071e_write_sram a d
  | Op_07_11_read_bdm_reg wd r => code_of (cmd_07_11_read_bdm_reg wd r 0)
  | Op_07_19 a d => cmd_07_19 a d
  | Op_read_memory_byte_addr a => code_of (cmd_read_memory_byte_addr a 0)
  | Op_read_memory_word_addr a => code_of (cmd_read_memory_word_addr a 0)
  | Op_071b a l =>
      code_of (cmd_071b a l (replicate (Z.to_nat (u16 l)) 0) 65535)
  | Op_read_memory_block a =>
      code_of (cmd_read_memory_block a (Some (replicate 256 0)) 256)
  | Op_07_17_setup_window a => cmd_07_17_setup_window a
  | Op_07_1b a sz => cmd_07_1b a sz
  | Op_read_bdm_reg r => code_of (cmd_read_bdm_reg r 0)
  | Op_07_15 r ps n => cmd_07_15 r ps n
  end.


(** Where the response to a command goes.
    - [Copied_whole]: [send_aa_command] receives into a local 256-byte
      array and copies the whole array over the persistent buffer.
    - [Received_in_place]: the IN transfer stores straight into
      [g_cmd_buffer].
    - [Kept_local]: the response is received into a local array and stays
      there ([cmd_07_13], [cmd_07_11_read_bdm_reg]).
    - [Not_read]: no IN transfer is started ([cmd_bdm_resume],
      [cmd_07_17], [cmd_07_17_setup_window], [cmd_07_1b]). *)
Inductive response_path : Type :=
| Copied_whole | Received_in_place | Kept_local | Not_read.

Definition response_path_of (Y : bdm_command) : response_path :=
  match Y with
  | Op_bdm_resume | Op_07_17 | Op_07_17_setup_window _ | Op_07_1b _ _ => Not_read
  | Op_07_13 _ | Op_07_11_read_bdm_reg _ _ => Kept_local
  | Op_read_memory_long_addr _ | Op_0717_read_memory _ _ | Op_bdm_freeze
  | Op_read_memory_byte_addr _ | Op_read_memory_word_addr _ | Op_071b _ _
  | Op_read_memory_block _ | Op_read_bdm_reg _ => Received_in_place
  | _ => Copied_whole
  end.







(** ** Observations on a world *)

(** Will the next OUT transfer succeed ([r == 0])? *)
Definition next_out_ok (w : world) : bool :=
  match out_results w with [] => true | r :: _ => r =? 0 end.

(** Will the next IN transfer succeed ([r >= 0])? *)
Definition next_in_ok (w : world) : bool :=
  match in_results w with [] => false | (r, _) :: _ => negb (r <? 0) end.

(** Will the next IN transfer time out? *)
Definition next_in_timeout (w : world) : bool :=
  match in_results w with
  | [] => true
  | (r, _) :: _ => r =? LIBUSB_ERROR_TIMEOUT
  end.

(** The bytes the next IN transfer delivers into a 256-byte destination. *)
Definition next_in_data (w : world) : list Z :=
  match in_results w with
  | [] => []
  | (r, d) :: _ => if r <? 0 then [] else take 256 d
  end.

(** BDM GO as the specification words it: no IN transfer is started. *)
Definition bdm_go_without_response : Prop :=
  forall w, in_reads (snd (cmd_07_02_bdm_go w)) = in_reads w.

(** The part of the world that belongs to the GDB server alone: the socket
    log and the globals of [m68k-gdbserver.c]. *)
Definition gdb_state (w : world) : list string * Z * Z * Z * Z * Z :=
  (tx w, g_step_count w, g_target_halted w, g_cached_sp w, g_cached_pc w,
   g_registers_initialized w).

(** A computation that touches the USB side only. *)
Definition usb_only {A} (m : M A) : Prop :=
  forall w, gdb_state (snd (m w)) = gdb_state w.

(** The pod's answer to a flash read of [groups] words when the flash is
    erased: the five header bytes, then for every word four 0xFF data bytes
    followed by two padding bytes. *)
Definition erased_flash_response (magic0 magic1 : Z) (groups : nat) (pad0 pad1 : Z)
  : list Z :=
  [magic0; magic1; 0x00; 1 + 6 * Z.of_nat groups; 0xee]
  ++ concat (replicate groups [0xFF; 0xFF; 0xFF; 0xFF; pad0; pad1]).

(** The response magic is one of the two accepted forms. *)
Definition accepted_magic (magic0 magic1 : Z) : Prop :=
  (magic0 = 0x99 /\ magic1 = 0x66) \/ (magic0 = 0x88 /\ magic1 = 0xa5).

(** A halted target with erased flash: the pod answers the next read with
    four groups of 0xFF data. *)
Definition erased_flash_world : world :=
  World (replicate 256 0) [] [(0, erased_flash_response 0x99 0x66 4 0 0)]
        [] 0 (replicate 256 0) (replicate 64 0) [] 0 1 0 0 1.

(** ** RSP binary escaping *)

(** [rsp_unescape_binary(data, len)]: the in-place loop.  [read_pos] grows
    by at least one per round, so [len] rounds of fuel let the loop end by
    its own condition.  Result: the array afterwards and [write_pos]. *)
Fixpoint unescape_loop (fuel : nat) (data : list Z) (len read_pos write_pos : nat)
  : list Z * nat :=
  match fuel with
  | O => (data, write_pos)
  | S f =>
    if (read_pos <? len)%nat then
      if (byte_at data read_pos =? 0x7d) && (read_pos + 1 <? len)%nat
      then unescape_loop f
             (<[write_pos := u8 (Z.lxor (byte_at data (read_pos + 1)) 0x20)]> data)
             len (read_pos + 2) (S write_pos)
      else unescape_loop f (<[write_pos := byte_at data read_pos]> data)
             len (S read_pos) (S write_pos)
    else (data, write_pos)
  end.

Definition rsp_unescape_binary (data : list Z) (len : nat) : list Z * nat :=
  unescape_loop len data len 0 0.

(** The decoded bytes: the first [write_pos] cells of the array. *)
Definition rsp_unescaped (data : list Z) : list Z :=
  let (d, n) := rsp_unescape_binary data (length data) in take n d.

(** The reference RSP binary encoding, in the words of the specification
    (the server itself has no escaping routine): each byte of
    [{0x23, 0x24, 0x2A, 0x7D}] becomes 0x7D followed by the byte XOR 0x20. *)
Definition needs_escape (b : Z) : bool :=
  (b =? 0x23) || (b =? 0x24) || (b =? 0x2A) || (b =? 0x7D).

Fixpoint rsp_escape (b : list Z) : list Z :=
  match b with
  | [] => []
  | x :: rest =>
      if needs_escape x then 0x7D :: Z.lxor x 0x20 :: rsp_escape rest
      else x :: rsp_escape rest
  end.

(** The decoder as a function on lists, for the proofs. *)
Fixpoint unescape_list (l : list Z) : list Z :=
  match l with
  | [] => []
  | x :: rest =>
      match rest with
      | y :: rest' =>
          if x =? 0x7d then u8 (Z.lxor y 0x20) :: unescape_list rest'
          else x :: unescape_list rest
      | [] => [x]
      end
  end.

(** ** CRC for [qCRC] *)









Definition is_byte (b : Z) : Prop := 0 <= b < 256.





(** ** [m68k-gdbserver.c]: registers and single-stepping *)

Definition REG_D0 : Z := 0.
Definition REG_D7 : Z := 7.
Definition REG_A0 : Z := 8.
Definition REG_A7 : Z := 15.
Definition REG_SR : Z := 16.
Definition REG_PC : Z := 17.

Definition CSR_SSM : Z := Z.shiftl 1 4.
Definition CSR_READ : Z := 0x2D80.
Definition CSR_WRITE : Z := 0x2C80.

(** [init_register_cache()]: one read of the vector table, until a read
    has succeeded.  The local [buffer[8]] is uninitialised. *)
Definition init_register_cache : M unit :=
  init ← get g_registers_initialized;
  if negb (init =? 0) then mret tt else
  junk ← get stack_junk;
  '(r, buffer) ← cmd_0717_read_memory 0x00000000 8 (take 8 (fit256 junk)) 8;
  if r =? 0 then
    modify (set_register_cache
              (word_of_bytes (byte_at buffer 0) (byte_at buffer 1)
                             (byte_at buffer 2) (byte_at buffer 3))
              (word_of_bytes (byte_at buffer 4) (byte_at buffer 5)
                             (byte_at buffer 6) (byte_at buffer 7)))
  else mret tt.

(** [read_cpu_register(reg_num, &value)]: the return code (always 0) and
    [*value] afterwards. *)
Definition read_cpu_register (reg_num value : Z) : M (Z * Z) :=
  _ ← init_register_cache;
  if reg_num =? REG_PC then
    '(r, v) ← cmd_read_pc value;
    if negb (r =? 0) then cached ← get g_cached_pc; mret (0, cached)
    else mret (0, v)
  else if reg_num =? REG_SR then
    '(r, v) ← cmd_read_sr value;
    if negb (r =? 0) then mret (0, 0x2700) else mret (0, v)
  else if reg_num =? REG_A7 then
    '(r, v) ← cmd_07_13 0x218F value;
    if negb (r =? 0) || (v =? 0) then cached ← get g_cached_sp; mret (0, cached)
    else mret (0, v)
  else if (REG_D0 <=? reg_num) && (reg_num <=? REG_D7) then
    '(r, v) ← cmd_07_13 (u16 (0x2180 + reg_num)) value;
    if negb (r =? 0) then mret (0, 0) else mret (0, v)
  else if (REG_A0 <=? reg_num) && (reg_num <=? REG_A7) then
    '(r, v) ← cmd_07_13 (u16 (0x2188 + (reg_num - REG_A0))) value;
    if negb (r =? 0) then mret (0, 0) else mret (0, v)
  else mret (0, 0).

(** [write_cpu_register(reg_num, value)] *)
Definition write_cpu_register (reg_num value : Z) : M Z :=
  if reg_num =? REG_PC then cmd_write_pc value
  else if (REG_D0 <=? reg_num) && (reg_num <=? REG_D7) then
    cmd_07_14_write_bdm_reg (u16 (0x0180 + reg_num)) value
  else if (REG_A0 <=? reg_num) && (reg_num <=? REG_A7) then
    cmd_07_14_write_bdm_reg (u16 (0x0188 + (reg_num - REG_A0))) value
  else if reg_num =? REG_SR then cmd_07_14_write_bdm_reg 0x080E value
  else mret (-1).

Definition read_csr (value : Z) : M (Z * Z) := cmd_07_13 CSR_READ value.
Definition write_csr (value : Z) : M Z := cmd_07_14_write_bdm_reg CSR_WRITE value.

(** [reset_single_step_capability()] *)
Definition reset_single_step_capability : M unit :=
  '(_, saved_pc) ← read_cpu_register REG_PC 0;
  _ ← cmd_enter_mode 0xF8;
  _ ← cmd_enter_mode 0xF0;
  _ ← cmd_enter_mode 0xF8;
  _ ← write_cpu_register REG_PC saved_pc;
  modify (set_step_count 0).

(** The polling loop of [handle_step]:
    [for (i = 0; i < 100; i++) { cmd_bdm_freeze(..); if (is_frozen) break; }];
    the result is [halted]. *)
Fixpoint step_poll_halt (rounds : nat) : M Z :=
  match rounds with
  | O => mret 0
  | S n =>
      '(_, is_frozen) ← cmd_bdm_freeze 0;
      if negb (is_frozen =? 0) then mret 1 else step_poll_halt n
  end.

(** [handle_step], first part: the optional PC write (source lines
    1392-1396).  [data] is [None] for a null pointer. *)
Definition handle_step_set_pc (data : option string) : M Z :=
  match data with
  | Some (String c rest) =>
      write_cpu_register REG_PC (u32 (strtoul16 (String c rest)))
  | _ => mret 0
  end.

(** [handle_step], the two-step workaround (source lines 1398-1404). *)
Definition handle_step_workaround : M unit :=
  count ← get g_step_count;
  if 2 <=? count then reset_single_step_capability else mret tt.

(** [handle_step], third part: remember the PC and set SSM in the CSR
    (source lines 1406-1435).  Result: 0 and [pc_before] when the step can
    go on, -1 when the function returns early with [S05]. *)
Definition handle_step_arm : M (Z * Z) :=
  '(_, pc_before) ← read_cpu_register REG_PC 0;
  '(r, csr) ← read_csr 0;
  if negb (r =? 0) then mret (-1, pc_before) else
  let csr := Z.lor csr CSR_SSM in
  r ← write_csr csr;
  if negb (r =? 0) then mret (-1, pc_before) else
  mret (0, pc_before).

(** [handle_step], last part: GO, wait for the halt, clear SSM, compare
    the PC, count the step (source lines 1437-1493).  The local [csr] is
    dead when the second CSR read fails, so the read starts from 0 here. *)
Definition handle_step_run (pc_before : Z) : M Z :=
  _ ← cmd_07_02_bdm_go;
  halted ← step_poll_halt 100;
  _ ← (if halted =? 0 then cmd_bdm_halt else mret 0);
  '(r, csr) ← read_csr 0;
  _ ← (if r =? 0 then write_csr (Z.land csr (Z.lnot CSR_SSM)) else mret 0);
  '(_, pc_after) ← read_cpu_register REG_PC 0;
  _ ← (if pc_after =? pc_before
       then code_of (cmd_read_memory_long_addr pc_before 0) else mret 0);
  _ ← modify (fun w => set_step_count (g_step_count w + 1) w);
  _ ← modify (set_target_halted 1);
  send_packet "S05".

(** [handle_step(sock, data)] *)
Definition handle_step (data : option string) : M Z :=
  _ ← handle_step_set_pc data;
  _ ← handle_step_workaround;
  '(r, pc_before) ← handle_step_arm;
  if negb (r =? 0) then send_packet "S05" else handle_step_run pc_before.

(** ** Sample worlds *)

(** A pod that answers the first command with a full 256-byte response
    whose tail is 0x11. *)
Definition world_after_reset : world :=
  World (replicate 256 0) [] [(0, [0x99; 0x66; 0x00; 0x03; 0xee] ++ replicate 251 0x11);
                              (0, [0x99; 0x66; 0x00; 0x03; 0xee])]
        [] 0 (replicate 256 0xAB) [] [] 0 1 0 0 0.

(** A pod that answers a read of four bytes with [de ad be ef]. *)
Definition crc_world : world :=
  World (replicate 256 0) []
        [(0, [0x99; 0x66; 0x00; 0x07; 0xee; 0xde; 0xad; 0xbe; 0xef; 0x00; 0x00])]
        [] 0 (replicate 256 0) (replicate 64 0) [] 0 1 0 0 1.


(** ** Frame conditions for the step handler *)

(** A computation that leaves the step counter alone and only appends to
    the log of OUT requests. *)
Definition calm {A} (m : M A) : Prop :=
  forall w, g_step_count (snd (m w)) = g_step_count w
            /\ exists l, sent (snd (m w)) = sent w ++ l.

(** A target halted at [pc] whose pod acknowledges every command. *)
Definition stepping_world (count : Z) : world :=
  World (replicate 256 0) []
        (replicate 40 (0, [0x99; 0x66; 0x00; 0x07; 0xee; 0x00; 0x00; 0x04; 0x00]))
        [] 0 (replicate 256 0) (replicate 64 0) [] count 1 0x20008000 0x400 1.

(** A computation that adds [d] to the step counter and only appends to
    the log of OUT requests. *)
Definition counts {A} (d : Z) (m : M A) : Prop :=
  forall w, g_step_count (snd (m w)) = g_step_count w + d
            /\ exists l, sent (snd (m w)) = sent w ++ l.

(** A request is a BDM GO when its command bytes, at offsets 4 and 5, are
    [07 02]. *)
Definition bdm_go_request (req : list Z) : Prop :=
  req !! 4%nat = Some 0x07 /\ req !! 5%nat = Some 0x02.

(** A computation that only appends requests other than BDM GO to the log
    of OUT requests. *)
Definition go_free {A} (m : M A) : Prop :=
  forall w, exists l, sent (snd (m w)) = sent w ++ l
                      /\ Forall (fun req => ~ bdm_go_request req) l.

(** ** Flash programming on an idealised target

    For the [vFlash] flow the pod and the debug port are idealised: every
    BDM command succeeds and does what its name says, and the CFM flash
    module executes every command it is given.  What remains is the code of
    the repository: the [vFlash] handlers, the flash engine, the RPC to the
    flashloader, and the flashloader itself. *)

(** Target memory, byte addressed: flash from 0, SRAM from 0x20000000. *)
Definition memory : Type := Z -> Z.

Definition store8 (m : memory) (a v : Z) : memory :=
  fun x => if x =? a then v else m x.

(** A big-endian longword access. *)
Definition store32 (m : memory) (a v : Z) : memory :=
  store8 (store8 (store8 (store8 m a (byte_of v 24)) (a + 1) (byte_of v 16))
                 (a + 2) (byte_of v 8)) (a + 3) (byte_of v 0).

Definition load32 (m : memory) (a : Z) : Z :=
  word_of_bytes (m a) (m (a + 1)) (m (a + 2)) (m (a + 3)).

Definition FLASH_SIZE : Z := 0x40000.
Definition FLASH_SECTOR_SIZE : Z := 0x800.
Definition FLASH_NUM_SECTORS : Z := 128.
Definition FLASHLOADER_PARAM_OPERATION : Z := 0x20000000.
Definition FLASHLOADER_PARAM_FLASH_ADDR : Z := 0x20000004.
Definition FLASHLOADER_PARAM_LENGTH : Z := 0x20000008.
Definition FLASHLOADER_PARAM_RESULT : Z := 0x2000000C.
Definition FLASHLOADER_PARAM_STATUS : Z := 0x20000010.
Definition FLASHLOADER_DATA_BUFFER : Z := 0x20000100.
Definition FLASHLOADER_DATA_BUFFER_SIZE : Z := 0x400.
Definition FLASH_OP_INIT : Z := 0.
Definition FLASH_OP_MASS_ERASE : Z := 1.
Definition FLASH_OP_SECTOR_ERASE : Z := 2.
Definition FLASH_OP_PROGRAM : Z := 3.
Definition FLASH_OP_BLANK_CHECK : Z := 4.
Definition FLASH_OP_VERIFY : Z := 5.
Definition FLASH_RESULT_SUCCESS : Z := 0.
Definition RESULT_ERROR_NOT_BLANK : Z := 3.
Definition RESULT_ERROR_VERIFY : Z := 4.
Definition RESULT_ERROR_UNKNOWN_OP : Z := 0xFF.

(** [MCF_FLASH_SECTOR_SIZE] of [include/mcf5223/mcf5223_cfm.h]: the flash
    array is organised as 32 sectors of 8 KB, the unit of a page erase. *)
Definition MCF_FLASH_SECTOR_SIZE : Z := 0x2000.

(** *** [flashloader/flashloader.c] *)

(** The CFM commands, as the hardware executes them: a longword written to
    the flash window and launched with [CMD_PROGRAM] lands in the array; a
    page erase fills the 8 KB hardware sector of the address with 0xFF
    (the header of [flashloader.c]: "Sector Erase (erase 8KB sector at
    specified address)"); a mass erase fills the whole array; a blank check
    sets the [BLANK] flag when the whole array reads 0xFF. *)
Definition cfm_program (m : memory) (addr v : Z) : memory := store32 m addr v.

Definition cfm_page_erase (m : memory) (addr : Z) : memory :=
  let page := (addr / MCF_FLASH_SECTOR_SIZE) * MCF_FLASH_SECTOR_SIZE in
  fun x => if (page <=? x) && (x <? page + MCF_FLASH_SECTOR_SIZE) then 0xFF else m x.

Definition cfm_mass_erase (m : memory) : memory :=
  fun x => if (0 <=? x) && (x <? FLASH_SIZE) then 0xFF else m x.

Definition cfm_blank (m : memory) : bool :=
  forallb (fun x => m x =? 0xFF) (seqZ 0 FLASH_SIZE).

(** [flash_program(addr, length)]: [num_words = length / 4] longwords are
    copied from the data buffer. *)
Fixpoint flash_program_words (n : nat) (i addr : Z) (m : memory) : memory :=
  match n with
  | O => m
  | S n' =>
      flash_program_words n' (i + 1) addr
        (cfm_program m (addr + 4 * i) (load32 m (FLASHLOADER_DATA_BUFFER + 4 * i)))
  end.

Definition flash_program (addr length : Z) (m : memory) : memory * Z :=
  let num_words := length / 4 in
  (flash_program_words (Z.to_nat num_words) 0 addr m, FLASH_RESULT_SUCCESS).

Definition flash_sector_erase (addr : Z) (m : memory) : memory * Z :=
  (cfm_page_erase m addr, FLASH_RESULT_SUCCESS).

Definition flash_mass_erase (m : memory) : memory * Z :=
  (cfm_mass_erase m, FLASH_RESULT_SUCCESS).

(** [flash_blank_check(addr, length)]: the CFM blank-check command looks at
    the whole array, whatever [addr] and [length] are. *)
Definition flash_blank_check (addr length : Z) (m : memory) : memory * Z :=
  (m, if cfm_blank m then FLASH_RESULT_SUCCESS else RESULT_ERROR_NOT_BLANK).

(** [flash_verify(addr, length)]: [num_words = length / 4] longwords of the
    flash are compared with the data buffer, up to the first difference. *)
Fixpoint flash_verify_words (n : nat) (i addr : Z) (m : memory) : Z :=
  match n with
  | O => FLASH_RESULT_SUCCESS
  | S n' =>
      if negb (load32 m (addr + 4 * i) =? load32 m (FLASHLOADER_DATA_BUFFER + 4 * i))
      then RESULT_ERROR_VERIFY
      else flash_verify_words n' (i + 1) addr m
  end.

Definition flash_verify (addr length : Z) (m : memory) : memory * Z :=
  let num_words := length / 4 in
  (m, flash_verify_words (Z.to_nat num_words) 0 addr m).

(** [flashloader_entry()]: dispatch on [params->operation], store
    [params->result], halt. *)
Definition flashloader_entry (m : memory) : memory :=
  let operation := load32 m FLASHLOADER_PARAM_OPERATION in
  let flash_addr := load32 m FLASHLOADER_PARAM_FLASH_ADDR in
  let length := load32 m FLASHLOADER_PARAM_LENGTH in
  let '(m', result) :=
    if operation =? 0 then (m, FLASH_RESULT_SUCCESS)
    else if operation =? 1 then flash_mass_erase m
    else if operation =? 2 then flash_sector_erase flash_addr m
    else if operation =? 3 then flash_program flash_addr length m
    else if operation =? 4 then flash_blank_check flash_addr length m
    else if operation =? 5 then flash_verify flash_addr length m
    else (m, RESULT_ERROR_UNKNOWN_OP) in
  store32 m' FLASHLOADER_PARAM_RESULT result.

(** *** Host state *)

(** [flash_state] of [m68k-gdbserver.c]. *)
Record vflash_state := VFlash {
  fs_initialized : Z;
  fs_erased : Z;
  fs_erase_start : Z;
  fs_erase_end : Z;
  fs_write_buffer : option (list Z);
  fs_write_addr : Z;
  fs_write_len : Z;
  fs_write_capacity : Z
}.

(** [gpl_flash_state_t] with its [simple_flash_state_t]. *)
Record loader_state := Loader {
  gpl_initialized : Z;
  erased_sectors : list Z;
  ss_loaded : Z;
  ss_initialized : Z
}.

Record flash_world := FlashWorld {
  fw_mem : memory;
  fw_vflash : vflash_state;
  fw_loader : loader_state
}.

Definition F (A : Type) : Type := flash_world -> A * flash_world.

#[export] Instance F_ret : MRet F := fun A a w => (a, w).
#[export] Instance F_bind : MBind F :=
  fun A B f m w => let (a, w') := m w in f a w'.

Definition fget {A} (proj : flash_world -> A) : F A := fun w => (proj w, w).

Definition set_mem (f : memory -> memory) : F unit := fun w =>
  (tt, FlashWorld (f (fw_mem w)) (fw_vflash w) (fw_loader w)).

Definition set_vflash (f : vflash_state -> vflash_state) : F unit := fun w =>
  (tt, FlashWorld (fw_mem w) (f (fw_vflash w)) (fw_loader w)).

Definition set_loader (f : loader_state -> loader_state) : F unit := fun w =>
  (tt, FlashWorld (fw_mem w) (fw_vflash w) (f (fw_loader w))).

(** *** [elf_loader.c]: RPC to the flashloader *)

(** [cmd_07_19] on the idealised pod: the longword is in target memory. *)
Definition ideal_cmd_07_19 (addr data : Z) : F Z :=
  _ ← set_mem (fun m => store32 m addr (u32 data));
  mret 0.

(** [simple_flash_run_op(handle, state, operation, flash_addr, length,
    &result)]: return code and [*result].  The upload of the loader image,
    the PC/SR writes and the window set-up leave the modelled memory
    unchanged; GO runs [flashloader_entry] to its halt. *)
Definition simple_flash_run_op (operation flash_addr length : Z) : F (Z * Z) :=
  _ ← set_loader (fun l => Loader (gpl_initialized l) (erased_sectors l) 1
                                  (ss_initialized l));
  _ ← ideal_cmd_07_19 FLASHLOADER_PARAM_OPERATION operation;
  _ ← ideal_cmd_07_19 FLASHLOADER_PARAM_FLASH_ADDR flash_addr;
  _ ← ideal_cmd_07_19 FLASHLOADER_PARAM_LENGTH length;
  _ ← ideal_cmd_07_19 FLASHLOADER_PARAM_RESULT 0xFFFFFFFF;
  _ ← ideal_cmd_07_19 FLASHLOADER_PARAM_STATUS 0x00000000;
  _ ← set_mem flashloader_entry;
  m ← fget fw_mem;
  mret (0, load32 m FLASHLOADER_PARAM_RESULT).

(** The [if (!state->initialized)] block shared by
    [simple_flash_erase_sector] and [simple_flash_program]. *)
Definition simple_flash_ensure_init : F Z :=
  l ← fget fw_loader;
  if ss_initialized l =? 0 then
    '(r, result) ← simple_flash_run_op FLASH_OP_INIT 0 0;
    if negb (r =? 0) || negb (result =? FLASH_RESULT_SUCCESS) then mret (-1) else
    _ ← set_loader (fun l => Loader (gpl_initialized l) (erased_sectors l)
                                    (ss_loaded l) 1);
    mret 0
  else mret 0.

(** [simple_flash_erase_sector(handle, state, sector_addr)] *)
Definition simple_flash_erase_sector (sector_addr : Z) : F Z :=
  r ← simple_flash_ensure_init;
  if negb (r =? 0) then mret (-1) else
  '(r, result) ← simple_flash_run_op FLASH_OP_SECTOR_ERASE sector_addr 0;
  if negb (r =? 0) then mret (-1) else
  if negb (result =? FLASH_RESULT_SUCCESS) then mret (-1) else mret 0.

(** The longword [i] of [data], big-endian; a partial last word is padded
    with 0xFF. *)
Definition program_word (data : list Z) (length : Z) (i : Z) : Z :=
  let offset := i * 4 in
  if offset + 4 <=? length then
    word_of_bytes (byte_at data (Z.to_nat offset))
                  (byte_at data (Z.to_nat (offset + 1)))
                  (byte_at data (Z.to_nat (offset + 2)))
                  (byte_at data (Z.to_nat (offset + 3)))
  else
    word_of_bytes
      (if offset <? length then byte_at data (Z.to_nat offset) else 0xFF)
      (if offset + 1 <? length then byte_at data (Z.to_nat (offset + 1)) else 0xFF)
      (if offset + 2 <? length then byte_at data (Z.to_nat (offset + 2)) else 0xFF)
      (if offset + 3 <? length then byte_at data (Z.to_nat (offset + 3)) else 0xFF).

(** The upload loop of [simple_flash_program]. *)
Fixpoint upload_words (n : nat) (i : Z) (data : list Z) (length : Z) : F Z :=
  match n with
  | O => mret 0
  | S n' =>
      r ← ideal_cmd_07_19 (FLASHLOADER_DATA_BUFFER + i * 4)
                          (program_word data length i);
      if negb (r =? 0) then mret (-1) else upload_words n' (i + 1) data length
  end.

(** [simple_flash_program(handle, state, flash_addr, data, length)] *)
Definition simple_flash_program (flash_addr : Z) (data : list Z) (length : Z) : F Z :=
  if FLASHLOADER_DATA_BUFFER_SIZE <? length then mret (-1) else
  r ← simple_flash_ensure_init;
  if negb (r =? 0) then mret (-1) else
  l ← fget fw_loader;
  _ ← (if ss_loaded l =? 0
       then set_loader (fun l => Loader (gpl_initialized l) (erased_sectors l) 1
                                        (ss_initialized l))
       else mret tt);
  let num_words := (length + 3) / 4 in
  r ← upload_words (Z.to_nat num_words) 0 data length;
  if negb (r =? 0) then mret (-1) else
  '(r, result) ← simple_flash_run_op FLASH_OP_PROGRAM flash_addr length;
  if negb (r =? 0) then mret (-1) else
  if negb (result =? FLASH_RESULT_SUCCESS) then mret (-1) else mret 0.

(** *** [flash_gpl.c] *)

(** [gpl_flash_init]: the state is zeroed, the loader is found and loaded,
    the init operation is run. *)
Definition gpl_flash_init : F Z :=
  _ ← set_loader (fun _ => Loader 0 (replicate 128 0) 0 0);
  '(r, result) ← simple_flash_run_op FLASH_OP_INIT 0 0;
  if negb (r =? 0) || negb (result =? FLASH_RESULT_SUCCESS) then mret (-1) else
  _ ← set_loader (fun l => Loader 1 (erased_sectors l) (ss_loaded l)
                                  (ss_initialized l));
  mret 0.

(** [gpl_flash_cleanup] *)
Definition gpl_flash_cleanup : F unit :=
  set_loader (fun l => Loader 0 (erased_sectors l) (ss_loaded l) (ss_initialized l)).

(** [gpl_flash_erase_sector(state, sector_num)] *)
Definition gpl_flash_erase_sector (sector_num : Z) : F Z :=
  l ← fget fw_loader;
  if gpl_initialized l =? 0 then mret (-1) else
  if (sector_num <? 0) || (FLASH_NUM_SECTORS <=? sector_num) then mret (-1) else
  let sector_addr := u32 (sector_num * FLASH_SECTOR_SIZE) in
  r ← simple_flash_erase_sector sector_addr;
  if negb (r =? 0) then mret (-1) else
  _ ← set_loader (fun l => Loader (gpl_initialized l)
                                  (<[Z.to_nat sector_num := 1]> (erased_sectors l))
                                  (ss_loaded l) (ss_initialized l));
  mret 0.

(** The sector loop of [gpl_flash_erase_range]. *)
Fixpoint erase_sectors (n : nat) (s end_sector : Z) : F Z :=
  match n with
  | O => mret 0
  | S n' =>
    if s <? end_sector then
      l ← fget fw_loader;
      if negb (byte_at (erased_sectors l) (Z.to_nat s) =? 0)
      then erase_sectors n' (s + 1) end_sector
      else
        r ← gpl_flash_erase_sector s;
        if negb (r =? 0) then mret (-1) else erase_sectors n' (s + 1) end_sector
    else mret 0
  end.

(** [gpl_flash_erase_range(state, start_addr, length)] *)
Definition gpl_flash_erase_range (start_addr length : Z) : F Z :=
  l ← fget fw_loader;
  if gpl_initialized l =? 0 then mret (-1) else
  if FLASH_SIZE <? u32 (start_addr + length) then mret (-1) else
  let start_sector := start_addr / FLASH_SECTOR_SIZE in
  let end_sector := u32 (start_addr + length + FLASH_SECTOR_SIZE - 1)
                    / FLASH_SECTOR_SIZE in
  erase_sectors (Z.to_nat (end_sector - start_sector)) start_sector end_sector.

(** The chunk loop of [gpl_flash_program]: at most 1 KB per call of the
    loader.  [offset] grows in every round. *)
Fixpoint program_chunks (n : nat) (addr : Z) (data : list Z) (length offset : Z)
  : F Z :=
  match n with
  | O => mret 0
  | S n' =>
    if offset <? length then
      let chunk_size := if FLASHLOADER_DATA_BUFFER_SIZE <? length - offset
                        then FLASHLOADER_DATA_BUFFER_SIZE else length - offset in
      r ← simple_flash_program (u32 (addr + offset))
                               (drop (Z.to_nat offset) data) chunk_size;
      if negb (r =? 0) then mret (-1)
      else program_chunks n' addr data length (offset + chunk_size)
    else mret 0
  end.

(** [gpl_flash_program(state, addr, data, length)] *)
Definition gpl_flash_program (addr : Z) (data : list Z) (length : Z) : F Z :=
  l ← fget fw_loader;
  if gpl_initialized l =? 0 then mret (-1) else
  if length =? 0 then mret 0 else
  if FLASH_SIZE <? u32 (addr + length) then mret (-1) else
  program_chunks (Z.to_nat length) addr data length 0.

(** *** [m68k-gdbserver.c]: the [vFlash] packets *)

(** [flash_init_loader()] *)
Definition flash_init_loader : F Z :=
  s ← fget fw_vflash;
  if negb (fs_initialized s =? 0) then mret 0 else
  r ← gpl_flash_init;
  if negb (r =? 0) then mret (-1) else
  _ ← set_vflash (fun s => VFlash 1 (fs_erased s) (fs_erase_start s) (fs_erase_end s)
                                  (fs_write_buffer s) (fs_write_addr s)
                                  (fs_write_len s) (fs_write_capacity s));
  mret 0.

(** [flash_erase_region(addr, length)] *)
Definition flash_erase_region (addr length : Z) : F Z :=
  if FLASH_SIZE <? u32 (addr + length) then mret (-1) else
  r ← flash_init_loader;
  if negb (r =? 0) then mret (-1) else
  r ← gpl_flash_erase_range addr length;
  if negb (r =? 0) then mret (-1) else
  _ ← set_vflash (fun s =>
         let start := if (fs_erased s =? 0) || (addr <? fs_erase_start s)
                      then addr else fs_erase_start s in
         let stop := if (fs_erased s =? 0) || (fs_erase_end s <? u32 (addr + length))
                     then u32 (addr + length) else fs_erase_end s in
         VFlash (fs_initialized s) 1 start stop (fs_write_buffer s)
                (fs_write_addr s) (fs_write_len s) (fs_write_capacity s));
  mret 0.

(** [flash_program_region(addr, data, length)] *)
Definition flash_program_region (addr : Z) (data : list Z) (length : Z) : F Z :=
  if FLASH_SIZE <? u32 (addr + length) then mret (-1) else
  r ← flash_init_loader;
  if negb (r =? 0) then mret (-1) else
  r ← gpl_flash_program addr data length;
  if negb (r =? 0) then mret (-1) else mret 0.

(** [flash_reset_state()] *)
Definition flash_reset_state : F unit :=
  s ← fget fw_vflash;
  _ ← (if negb (fs_initialized s =? 0) then gpl_flash_cleanup else mret tt);
  set_vflash (fun _ => VFlash 0 0 0 0 None 0 0 0).

(** The [vFlashErase:addr,length] branch of [handle_v_command]; [params]
    is the packet after [vFlashErase:].  The result is the reply. *)
Definition handle_vFlashErase (params : string) : F string :=
  match strchr params "," with
  | None => mret "E01"
  | Some comma =>
      let addr := u32 (strtoul16 params) in
      let length := u32 (strtoul16 (string_tail comma)) in
      if (FLASH_SIZE <=? addr) || (FLASH_SIZE <? u32 (addr + length))
      then mret "E0e" else
      r ← flash_erase_region addr length;
      if negb (r =? 0) then mret "E10" else mret "OK"
  end.

(** [strchr] on the bytes of a packet: the index of the first [c] before
    any NUL. *)
Fixpoint strchr_bytes (s : list Z) (c : Z) (i : nat) : option nat :=
  match s with
  | [] => None
  | x :: rest =>
      if x =? c then Some i
      else if x =? 0 then None
      else strchr_bytes rest c (S i)
  end.

(** The bytes of a packet as a C string, up to the first NUL. *)
Fixpoint string_of_bytes (s : list Z) : string :=
  match s with
  | [] => EmptyString
  | x :: rest =>
      if x =? 0 then EmptyString
      else String (ascii_of_N (Z.to_N x)) (string_of_bytes rest)
  end.

(** The [vFlashWrite:addr:binary] branch of [handle_v_command]; [params] is
    the packet, as bytes, after [vFlashWrite:].  [size_t] is 64 bits wide,
    so the sums with [actual_len] do not wrap. *)
Definition handle_vFlashWrite (params : list Z) : F string :=
  match strchr_bytes params 58 0 with
  | None => mret "E01"
  | Some colon =>
      let addr := u32 (strtoul16 (string_of_bytes params)) in
      let bin_data := drop (S colon) params in
      let bin_len := List.length bin_data in
      if (bin_len =? 0)%nat then mret "OK" else
      let (unescaped, actual_len) := rsp_unescape_binary bin_data bin_len in
      if (FLASH_SIZE <=? addr) || (FLASH_SIZE <? addr + Z.of_nat actual_len)
      then mret "E0e" else
      _ ← set_vflash (fun s =>
             match fs_write_buffer s with
             | Some _ => s
             | None =>
                 VFlash (fs_initialized s) (fs_erased s) (fs_erase_start s)
                        (fs_erase_end s)
                        (Some (replicate (Z.to_nat FLASH_SIZE) 0xFF))
                        addr 0 FLASH_SIZE
             end);
      s ← fget fw_vflash;
      let offset := u32 (addr - fs_write_addr s) in
      if fs_write_capacity s <? offset + Z.of_nat actual_len then mret "E0e" else
      _ ← set_vflash (fun s =>
             VFlash (fs_initialized s) (fs_erased s) (fs_erase_start s)
                    (fs_erase_end s)
                    (option_map (fun b => copy_at b (Z.to_nat offset)
                                            (take actual_len unescaped))
                                (fs_write_buffer s))
                    (fs_write_addr s)
                    (if fs_write_len s <? offset + Z.of_nat actual_len
                     then u32 (offset + Z.of_nat actual_len) else fs_write_len s)
                    (fs_write_capacity s));
      mret "OK"
  end.

(** *** [openlink_protocol.c]: target initialisation on the idealised pod

    Every command is acknowledged.  The commands the source calls memory
    writes put their longword into target memory at the address they are
    given, and the memory read returns what the memory holds.  The modes
    of the pod, the debug registers and the CPU registers are outside the
    modelled state: the commands that set them change nothing here, and a
    register read delivers 0 (the values read only feed messages). *)
Definition ideal_cmd_enter_mode (mode : Z) : F Z := mret 0.
Definition ideal_cmd_07_a2 (param : Z) : F Z := mret 0.
Definition ideal_cmd_04_40_58_04 : F Z := mret 0.
Definition ideal_cmd_04_7f_fe_02 : F Z := mret 0.
Definition ideal_cmd_07_95 : F Z := mret 0.
Definition ideal_cmd_04_40_00_02 : F Z := mret 0.
Definition ideal_cmd_enable_memory_access (param : Z) : F Z := mret 0.
Definition ideal_cmd_07_12 (param : Z) : F Z := mret 0.
Definition ideal_cmd_07_13 (reg value : Z) : F (Z * Z) := mret (0, 0).
Definition ideal_cmd_07_14_write_bdm_reg (reg value : Z) : F Z := mret 0.
Definition ideal_cmd_write_bdm_reg (reg data : Z) : F Z := mret 0.
Definition ideal_cmd_07_11 (reg p1 p2 p3 p4 : Z) : F Z := mret 0.
Definition ideal_cmd_07_15 (reg : Z) (params : list Z) (param_count : Z) : F Z :=
  mret 0.

Definition ideal_cmd_write_memory_long_addr (addr data : Z) : F Z :=
  _ ← set_mem (fun m => store32 m addr (u32 data));
  mret 0.

Definition ideal_cmd_write_memory_short_addr (addr data : Z) : F Z :=
  _ ← set_mem (fun m => store32 m (u16 addr) (u32 data));
  mret 0.

Definition ideal_cmd_read_memory_long_addr (addr data : Z) : F (Z * Z) :=
  m ← fget fw_mem;
  mret (0, load32 m addr).

(** The chain [r = cmd_07_a2(..); r |= cmd_04_40_58_04(..); ..;
    r |= cmd_enable_memory_access(..)] of phases 2 and 6 of
    [target_init_full]. *)
Definition bdm_reinit_cycle : F Z :=
  r ← ideal_cmd_07_a2 0x01;
  r1 ← ideal_cmd_04_40_58_04;
  r2 ← ideal_cmd_04_7f_fe_02;
  r3 ← ideal_cmd_04_7f_fe_02;
  r4 ← ideal_cmd_07_95;
  r5 ← ideal_cmd_04_40_00_02;
  r6 ← ideal_cmd_enable_memory_access 0x00;
  r7 ← ideal_cmd_enable_memory_access 0x00;
  mret (Z.lor (Z.lor (Z.lor (Z.lor (Z.lor (Z.lor (Z.lor r r1) r2) r3) r4) r5) r6) r7).

(** Phase 8 of [target_init_full], the chain from [r = cmd_07_12(..)] to
    [r |= cmd_07_12(..)]. *)
Definition memory_window_setup : F Z :=
  let p := [0x40; 0x10; 0x00; 0x74; 0x00; 0x0f] in
  r ← ideal_cmd_07_12 0xFFFF;
  '(r1, _) ← ideal_cmd_07_13 0x2D80 0;
  r2 ← ideal_cmd_07_11 0x1940 0xfc 0x0a 0x00 0x0a;
  r3 ← ideal_cmd_07_11 0x1940 0x40 0x11 0x00 0x0a;
  r4 ← ideal_cmd_07_11 0x1900 0x40 0x10 0x00 0x74;
  r5 ← ideal_cmd_07_15 0x1800 p 6;
  r6 ← ideal_cmd_07_15 0x1800 p 6;
  r7 ← ideal_cmd_07_12 0xFFFF;
  mret (Z.lor (Z.lor (Z.lor (Z.lor (Z.lor (Z.lor (Z.lor r r1) r2) r3) r4) r5) r6) r7).

(** Phase 5 of [target_init_full] after the first pattern has been written
    and read back: the second pattern is tried only when the first one was
    read back as written. *)
Definition ram_test_second (test_addr test_pattern1 test_pattern2 read_value : Z)
  : F unit :=
  if negb (read_value =? test_pattern1) then mret tt else
  r ← ideal_cmd_write_memory_long_addr test_addr test_pattern2;
  if negb (r =? 0) then mret tt else
  _ ← ideal_cmd_read_memory_long_addr test_addr read_value;
  mret tt.

(** The flash size [target_init_full] derives from the two CCM registers
    read at 0x40110008 with return code [r]: 64 for the parts 0x48 and
    0x49, 256 otherwise and when the registers cannot be read. *)
Definition detected_flash_size_kb (r ccm_regs : Z) : Z :=
  let cir_value := if (r =? 0) && negb (ccm_regs =? 0)
                   then Z.land ccm_regs 0xFFFF else 0 in
  let pin := Z.land (Z.shiftr cir_value 6) 0x3FF in
  if (r =? 0) && negb (cir_value =? 0) && ((pin =? 0x48) || (pin =? 0x49))
  then 64 else 256.

(** [target_init_full(handle, &flash_size_kb)]: the return code and
    [*flash_size_kb] afterwards. *)
Definition target_init_full (flash_size_kb : Z) : F (Z * Z) :=
  let fail : F (Z * Z) := mret (-1, flash_size_kb) in
  (* Phase 1: BDM mode entry *)
  r ← ideal_cmd_enter_mode 0xFC; if negb (r =? 0) then fail else
  r ← ideal_cmd_07_a2 0x01; if negb (r =? 0) then fail else
  r ← ideal_cmd_04_40_58_04; if negb (r =? 0) then fail else
  r ← ideal_cmd_04_7f_fe_02; if negb (r =? 0) then fail else
  r ← ideal_cmd_04_7f_fe_02; if negb (r =? 0) then fail else
  r ← ideal_cmd_07_95; if negb (r =? 0) then fail else
  r ← ideal_cmd_04_40_00_02; if negb (r =? 0) then fail else
  r ← ideal_cmd_enable_memory_access 0x00; if negb (r =? 0) then fail else
  r ← ideal_cmd_enable_memory_access 0x00; if negb (r =? 0) then fail else
  (* Phase 2: re-initialisation cycle *)
  r ← bdm_reinit_cycle; if negb (r =? 0) then fail else
  (* Phase 3: mode configuration *)
  r ← ideal_cmd_enter_mode 0xF8; if negb (r =? 0) then fail else
  r ← ideal_cmd_enter_mode 0xF0; if negb (r =? 0) then fail else
  r ← ideal_cmd_enter_mode 0xF8; if negb (r =? 0) then fail else
  r ← ideal_cmd_07_12 0xFFFF; if negb (r =? 0) then fail else
  (* Phase 4: chip ID, BDM registers, system configuration *)
  '(r, chip_id) ← ideal_cmd_07_13 0x2D80 0; if negb (r =? 0) then fail else
  r ← ideal_cmd_07_14_write_bdm_reg 0x080E 0x00002700;
  if negb (r =? 0) then fail else
  r ← ideal_cmd_07_14_write_bdm_reg 0x0C05 0x20000221;
  if negb (r =? 0) then fail else
  r ← ideal_cmd_07_14_write_bdm_reg 0x080F 0x000023F2;
  if negb (r =? 0) then fail else
  _ ← ideal_cmd_07_13 0x2188 0;
  r ← ideal_cmd_write_bdm_reg 0x0C04 0x00000061; if negb (r =? 0) then fail else
  _ ← ideal_cmd_07_11 0x1940 0xFC 0x0A 0x00 0x0A;
  _ ← ideal_cmd_07_11 0x1940 0x40 0x11 0x00 0x0A;
  _ ← ideal_cmd_07_11 0x1900 0x40 0x10 0x00 0x74;
  _ ← ideal_cmd_07_15 0x1800 [0x40; 0x10; 0x00; 0x74; 0x00; 0x0F] 6;
  _ ← ideal_cmd_07_12 0xFFFF;
  (* Phase 5: RAM test *)
  let test_addr := 0x00002088 in
  let test_pattern1 := 0x12345678 in
  let test_pattern2 := 0x40000C08 in
  r ← ideal_cmd_write_memory_long_addr test_addr test_pattern1;
  if negb (r =? 0) then fail else
  '(r, read_value) ← ideal_cmd_read_memory_long_addr test_addr 0;
  if negb (r =? 0) then fail else
  _ ← ram_test_second test_addr test_pattern1 test_pattern2 read_value;
  (* Phase 6: final BDM resume *)
  r ← bdm_reinit_cycle; if negb (r =? 0) then fail else
  (* Phase 7: mode configuration before the flashloader *)
  r ← ideal_cmd_enter_mode 0xF8;
  r1 ← ideal_cmd_enter_mode 0xF0;
  r2 ← ideal_cmd_enter_mode 0xF8;
  if negb (Z.lor (Z.lor r r1) r2 =? 0) then fail else
  (* Phase 8: memory windows *)
  r ← memory_window_setup; if negb (r =? 0) then fail else
  _ ← ideal_cmd_write_memory_short_addr 0x2088 0x200000B8;
  _ ← ideal_cmd_07_13 0x2188 0;
  (* Chip identification *)
  '(r, ccm_regs) ← ideal_cmd_read_memory_long_addr 0x40110008 0;
  mret (0, detected_flash_size_kb r ccm_regs).

(** The [vFlashDone] branch of [handle_v_command]. *)
Definition handle_vFlashDone : F string :=
  s ← fget fw_vflash;
  r ← match fs_write_buffer s with
      | Some buffer =>
          if 0 <? fs_write_len s
          then flash_program_region (fs_write_addr s) buffer (fs_write_len s)
          else mret 0
      | None => mret 0
      end;
  if negb (r =? 0) then _ ← flash_reset_state; mret "E10" else
  _ ← flash_reset_state;
  let flash_size := 0 in
  _ ← target_init_full flash_size;
  mret "OK".

(** *** The image the specification describes *)

(** A successful [vFlashWrite]: its address and its unescaped payload. *)
Definition flash_write : Type := Z * list Z.

Definition writes_min_addr (ws : list flash_write) : Z :=
  foldr (fun w acc => Z.min (fst w) acc) FLASH_SIZE ws.

Definition writes_max_addr (ws : list flash_write) : Z :=
  foldr (fun w acc => Z.max (fst w + Z.of_nat (List.length (snd w))) acc) 0 ws.

(** [min_addr, max_addr) filled with 0xFF, every payload laid over it at
    its address, in order. *)
Definition vflash_image (ws : list flash_write) : list Z :=
  let lo := writes_min_addr ws in
  let hi := writes_max_addr ws in
  foldl (fun img w => copy_at img (Z.to_nat (fst w - lo)) (snd w))
        (replicate (Z.to_nat (hi - lo)) 0xFF) ws.

(** The [n] bytes of target memory from [a]. *)
Definition memory_bytes (m : memory) (a : Z) (n : nat) : list Z :=
  map (fun i => m (a + Z.of_nat i)) (seq 0 n).

(** A [vFlash] session start: nothing staged, loader not initialised. *)
Definition fresh_flash_world (m : memory) : flash_world :=
  FlashWorld m (VFlash 0 0 0 0 None 0 0 0) (Loader 0 (replicate 128 0) 0 0).

(** The packet bytes [addr:payload] of a [vFlashWrite]. *)
Definition vFlashWrite_params (addr_hex : string) (escaped : list Z) : list Z :=
  map char_code (list_ascii_of_string addr_hex) ++ [58] ++ escaped.

(** The session [vFlashErase:0,800], [vFlashWrite:0:<11 22 33 44 55>],
    [vFlashDone]: the three replies and the world afterwards. *)
Definition five_byte_session (m : memory) : (string * string * string) * flash_world :=
  let (r1, w1) := handle_vFlashErase "0,800" (fresh_flash_world m) in
  let (r2, w2) := handle_vFlashWrite
                    (vFlashWrite_params "0" (rsp_escape [0x11; 0x22; 0x33; 0x44; 0x55]))
                    w1 in
  let (r3, w3) := handle_vFlashDone w2 in
  ((r1, r2, r3), w3).

(** ** Reference descriptions used by the statements *)

(** The padding area of a 0x0719 request, written as a formula. *)
Definition pattern_02 (j : Z) : Z :=
  if ((j - 16) mod 6 =? 0) || ((j - 16) mod 6 =? 5) then 0x02 else 0x00.

(** What the freeze check reports for a response: halted (1) when the byte
    at offset 5 is 0x00 or 0x01, running (0) for every other byte and when
    the response has no such byte. *)
Definition frozen_of_response (data : list Z) : Z :=
  match data !! 5%nat with
  | Some status => if (status =? 0x00) || (status =? 0x01) then 1 else 0
  | None => 0
  end.


(** * Further code of the same files *)

(** ** [m68k-gdbserver.c]: hexadecimal payloads *)

(** [hex_to_bytes(hex, bytes, max_bytes)]: the array afterwards and the
    count returned.  Every round of the loop consumes two characters. *)
Fixpoint hex_to_bytes_from (hex : string) (bytes : list Z) (i : nat) (max_bytes : Z)
  : list Z * Z :=
  match hex with
  | String c0 (String c1 rest) =>
      if negb (char_code c0 =? 0) && negb (char_code c1 =? 0)
         && (Z.of_nat i <? max_bytes)
      then
        let hi := hex_to_nibble c0 in
        let lo := hex_to_nibble c1 in
        if (hi <? 0) || (lo <? 0) then (bytes, Z.of_nat i)
        else hex_to_bytes_from rest
               (<[i := u8 (Z.lor (Z.shiftl hi 4) lo)]> bytes) (S i) max_bytes
      else (bytes, Z.of_nat i)
  | _ => (bytes, Z.of_nat i)
  end.

Definition hex_to_bytes (hex : string) (bytes : list Z) (max_bytes : Z)
  : list Z * Z :=
  hex_to_bytes_from hex bytes 0 max_bytes.

(** ** [m68k-gdbserver.c]: the packet receive loop *)

(** [calc_checksum(data, len)] on the bytes of a packet ([data] may hold
    binary payload, so the length is given and not found by [strlen]). *)
Definition calc_checksum_bytes (data : list Z) : Z :=
  foldl (fun sum b => u8 (sum + u8 b)) 0 data.

(** The character a byte of the receive buffer is. *)
Definition ascii_of_byte (b : Z) : ascii := ascii_of_N (Z.to_N (u8 b)).

(** The bytes of a C string. *)
Definition bytes_of_string (s : string) : list Z :=
  map char_code (list_ascii_of_string s).

(** [memchr(s, c, n)] over the [n] bytes [s]: the offset of the first [c]. *)
Fixpoint memchr (s : list Z) (c : Z) : option nat :=
  match s with
  | [] => None
  | x :: rest => if x =? c then Some O else option_map S (memchr rest c)
  end.

(** [send(sock, s, strlen(s), 0)]: bytes written to the socket without
    framing (the acknowledgement characters). *)
Definition send_raw (s : string) : M unit := fun w =>
  (tt, World (g_cmd_buffer w) (out_results w) (in_results w) (sent w)
             (in_reads w) (stack_junk w) (heap_junk w)
             (tx w ++ [s]) (g_step_count w) (g_target_halted w)
             (g_cached_sp w) (g_cached_pc w) (g_registers_initialized w)).

Section PacketLoop.

(** [process_command(sock, cmd, cmd_len)], the dispatcher the loop hands
    every accepted packet to. *)
Variable process_command : list Z -> M Z.

(** The inner loop of [handle_client] over the [buf_pos] bytes received
    so far; [buffer[buf_pos]] is the NUL the function stores after every
    [recv].  [ptr] grows in every round.  Result: [ptr] when the loop
    ends. *)
Fixpoint scan_packets (fuel : nat) (buffer : list Z) (ptr : nat) : M nat :=
  match fuel with
  | O => mret ptr
  | S f =>
    if (ptr <? length buffer)%nat then
      let c := byte_at buffer ptr in
      if c =? 0x03 then
        _ ← modify (set_target_halted 1);
        _ ← send_packet "S02";
        scan_packets f buffer (S ptr)
      else if c =? 43 then scan_packets f buffer (S ptr)
      else if c =? 45 then scan_packets f buffer (S ptr)
      else if negb (c =? 36) then scan_packets f buffer (S ptr)
      else
        match memchr (drop (S ptr) buffer) 35 with
        | None => mret ptr
        | Some k =>
            let e := (S ptr + k)%nat in
            if (length buffer <? e + 2)%nat then mret ptr else
            let cmd := take k (drop (S ptr) buffer) in
            let terminated := buffer ++ [0] in
            let recv_cksum :=
              u8 (Z.lor (Z.shiftl (hex_to_nibble
                                     (ascii_of_byte (byte_at terminated (e + 1)))) 4)
                        (hex_to_nibble (ascii_of_byte (byte_at terminated (e + 2))))) in
            let calc_cksum := calc_checksum_bytes cmd in
            _ ← (if negb (recv_cksum =? calc_cksum) then send_raw "-"
                 else _ ← send_raw "+"; _ ← process_command cmd; mret tt);
            scan_packets f buffer (e + 3)
        end
    else mret ptr
  end.

(** One pass of [handle_client] over a receive buffer: the packets are
    processed, what is left is moved to the start.  Result: the buffer
    kept for the next [recv] and the new [buf_pos] (an [int]). *)
Definition handle_client_pass (buffer : list Z) : M (list Z * Z) :=
  ptr ← scan_packets (length buffer) buffer 0;
  let remaining := Z.of_nat (length buffer) - Z.of_nat ptr in
  mret (if 0 <? remaining then drop ptr buffer else [], remaining).

End PacketLoop.

(** ** [openlink_protocol.c]: the body of a memory-read response *)

(** The data byte [k] of a response to [cmd_0717_read_memory]: after the
    five header bytes the pod sends groups of six bytes, four of data and
    two of padding. *)
Definition deinterleaved (src : list Z) (k : nat) : Z :=
  byte_at src (5 + 6 * (k / 4) + k mod 4).

(** ** [m68k-gdbserver.c]: the register packets *)

Definition NUM_REGISTERS : Z := 18.

(** The loop of [handle_read_registers]: registers [i], [i + 1], ... as
    [%08x] each. *)
Fixpoint read_registers_from (n : nat) (i : Z) : M string :=
  match n with
  | O => mret EmptyString
  | S n' =>
      '(r, value) ← read_cpu_register i 0;
      let value := if negb (r =? 0) then 0xDEADBEEF else value in
      rest ← read_registers_from n' (i + 1);
      mret (hex8 value +:+ rest)
  end.

(** [handle_read_registers(sock)], the handler of the [g] packet. *)
Definition handle_read_registers : M Z :=
  response ← read_registers_from (Z.to_nat NUM_REGISTERS) 0;
  send_packet response.

(** The values the loop of [handle_read_registers] prints: register [i]
    read in the world [w], register [i + 1] read in the world that read
    leaves, and so on; 0xDEADBEEF stands for a register that cannot be
    read. *)
Fixpoint registers_read (n : nat) (i : Z) (w : world) : list Z :=
  match n with
  | O => []
  | S n' =>
      let '((r, value), w1) := read_cpu_register i 0 w in
      (if negb (r =? 0) then 0xDEADBEEF else value) :: registers_read n' (i + 1) w1
  end.

(** A digit of [%x]: [0-9] or [a-f]. *)
Definition is_hex_char (c : ascii) : bool :=
  let n := char_code c in
  ((48 <=? n) && (n <=? 57)) || ((97 <=? n) && (n <=? 102)).

(** A computation that leaves a component of the world as it found it. *)
Definition keeps {A B} (proj : world -> B) (m : M A) : Prop :=
  forall w, proj (snd (m w)) = proj w.

(** [data + n] for a pointer into a string that has [n] characters left. *)
Fixpoint string_drop (n : nat) (s : string) : string :=
  match n, s with
  | S n', String _ rest => string_drop n' rest
  | _, _ => s
  end.

(** The inner loop of [handle_write_registers]:
    [for (j = 0; j < 8 && data[j*2] && data[j*2+1]; j++)], which folds up
    to [rounds] pairs of characters into the 32-bit [value]. *)
Fixpoint register_value (rounds : nat) (data : string) (value : Z) : Z :=
  match rounds, data with
  | S k, String c0 (String c1 rest) =>
      if (char_code c0 =? 0) || (char_code c1 =? 0) then value else
      let hi := hex_to_nibble c0 in
      let lo := hex_to_nibble c1 in
      register_value k rest
        (if (0 <=? hi) && (0 <=? lo)
         then u32 (Z.lor (Z.shiftl value 8) (Z.lor (Z.shiftl hi 4) lo))
         else value)
  | _, _ => value
  end.

(** The outer loop of [handle_write_registers]:
    [for (i = 0; i < NUM_REGISTERS && data[0] && data[1]; i++)], with
    [data += 8] at the end of every round.  When fewer than eight
    characters are left, [data += 8] steps over the terminating NUL and
    the C loop goes on in what the buffer holds behind it; the model reads
    NUL there and ends the loop.  The two agree on every block whose
    length is a multiple of eight. *)
Fixpoint write_registers_from (n : nat) (i : Z) (data : string) : M unit :=
  match n with
  | O => mret tt
  | S n' =>
      match data with
      | String c0 (String c1 _) =>
          if (char_code c0 =? 0) || (char_code c1 =? 0) then mret tt else
          _ ← write_cpu_register i (register_value 8 data 0);
          write_registers_from n' (i + 1) (string_drop 8 data)
      | _ => mret tt
      end
  end.

(** [handle_write_registers(sock, data)], the handler of the [G] packet. *)
Definition handle_write_registers (data : string) : M Z :=
  _ ← write_registers_from (Z.to_nat NUM_REGISTERS) 0 data;
  send_ok.

(** The register block of a [g] reply and of a [G] packet: [%08x] of every
    register in order. *)
Fixpoint registers_hex (vs : list Z) : string :=
  match vs with
  | [] => EmptyString
  | v :: rest => hex8 v +:+ registers_hex rest
  end.

(** [write_cpu_register] for the registers [i], [i + 1], ... with the
    values given. *)
Fixpoint write_each (i : Z) (vs : list Z) : M unit :=
  match vs with
  | [] => mret tt
  | v :: rest => _ ← write_cpu_register i v; write_each (i + 1) rest
  end.

(** Every value replaced by the one after it; the last one stays. *)
Fixpoint successors (vs : list Z) : list Z :=
  match vs with
  | v :: rest =>
      match rest with
      | v' :: _ => v' :: successors rest
      | [] => [v]
      end
  | [] => []
  end.

(** ** [m68k-gdbserver.c]: the [M] packet *)

(** [s[k]] for [k] up to the length of [s], where the terminating NUL
    sits.  For a larger [k] the C code reads what the buffer holds behind
    the terminator, which it does in [handle_write_memory] when the length
    field asks for more bytes than there are digits; the model reads NUL
    there. *)
Definition char_at (s : string) (k : nat) : ascii :=
  default zero (String.get k s).

(** The inner loop of [handle_write_memory]: the longword built from the
    [bytes_to_write] bytes whose hexadecimal digits start at
    [hex_data[i * 2]]. *)
Definition write_memory_word (hex_data : string) (i : Z) (bytes_to_write : nat) : Z :=
  foldl (fun value j =>
           let hi := hex_to_nibble
                       (char_at hex_data (Z.to_nat ((i + Z.of_nat j) * 2))) in
           let lo := hex_to_nibble
                       (char_at hex_data (Z.to_nat ((i + Z.of_nat j) * 2 + 1))) in
           if (0 <=? hi) && (0 <=? lo)
           then u32 (Z.lor value (Z.shiftl (Z.lor (Z.shiftl hi 4) lo)
                                           (24 - Z.of_nat j * 8)))
           else value)
        0 (seq 0 bytes_to_write).

(** The outer loop of [handle_write_memory],
    [for (i = 0; i < len; i += 4)]: one [cmd_07_19] per round, the first
    failure ends it.  [i] grows by four in every round. *)
Fixpoint write_memory_loop (fuel : nat) (addr len i : Z) (hex_data : string) : M Z :=
  match fuel with
  | O => mret 0
  | S f =>
    if i <? len then
      let bytes_to_write := if 4 <=? len - i then 4 else len - i in
      let value := write_memory_word hex_data i (Z.to_nat bytes_to_write) in
      r ← cmd_07_19 (u32 (addr + i)) value;
      if negb (r =? 0) then mret (-1)
      else write_memory_loop f addr len (u32 (i + 4)) hex_data
    else mret 0
  end.

(** [handle_write_memory(sock, data)], the handler of the
    [M addr,len:hex] packet; [data] is the packet after its first
    character. *)
Definition handle_write_memory (data : string) : M Z :=
  match strchr data ",", strchr data ":" with
  | Some comma, Some colon =>
      let addr := u32 (strtoul16 data) in
      let len := u32 (strtoul16 (string_tail comma)) in
      let hex_data := string_tail colon in
      r ← write_memory_loop (Z.to_nat len) addr len 0 hex_data;
      if negb (r =? 0) then send_error 5 else send_ok
  | _, _ => send_error 1
  end.

(** The big-endian longword [k] of the bytes [bs], with zero bytes where
    [bs] has ended. *)
Definition longword_at (bs : list Z) (k : Z) : Z :=
  word_of_bytes (byte_at bs (Z.to_nat (4 * k))) (byte_at bs (Z.to_nat (4 * k + 1)))
                (byte_at bs (Z.to_nat (4 * k + 2))) (byte_at bs (Z.to_nat (4 * k + 3))).

(** [cmd_07_19] for the longwords [k], [k + 1], ... of [bs] at
    [addr + 4 * k], [addr + 4 * k + 4], ..., until one fails. *)
Fixpoint write_longwords_from (n : nat) (addr : Z) (bs : list Z) (k : Z) : M Z :=
  match n with
  | O => mret 0
  | S n' =>
      r ← cmd_07_19 (u32 (addr + 4 * k)) (longword_at bs k);
      if negb (r =? 0) then mret (-1)
      else write_longwords_from n' addr bs (k + 1)
  end.

(** ** [m68k-gdbserver.c]: hardware breakpoints and the watchpoint *)

Definition DEBUG_REG_TDR : Z := 0x07.
Definition DEBUG_REG_PBR0 : Z := 0x08.
Definition DEBUG_REG_PBR1 : Z := 0x18.
Definition DEBUG_REG_PBR2 : Z := 0x1A.
Definition DEBUG_REG_PBR3 : Z := 0x1B.
Definition ABLR_WRITE : Z := 0x2C8C.
Definition ABHR_WRITE : Z := 0x2C8D.

Definition TDR_TRC_HALT : Z := Z.shiftl 1 30.
Definition TDR_EBL1 : Z := Z.shiftl 1 13.
Definition TDR_EAR1 : Z := Z.shiftl 1 10.
Definition TDR_EPC1 : Z := Z.shiftl 1 9.
Definition TDR_EAL_MASK : Z := Z.shiftl 0x3 14.
Definition TDR_EAL_INSIDE : Z := Z.shiftl 0x1 14.
Definition TDR_DRW_READ : Z := Z.shiftl 1 21.
Definition TDR_DRW_WRITE : Z := Z.shiftl 1 20.
Definition TDR_DRW_RW : Z := Z.shiftl 3 20.

Definition MAX_HW_BREAKPOINTS : nat := 4.

Definition WP_TYPE_NONE : Z := 0.
Definition WP_TYPE_WRITE : Z := 2.
Definition WP_TYPE_READ : Z := 3.
Definition WP_TYPE_ACCESS : Z := 4.

(** The breakpoint globals: [hw_breakpoints], [hw_breakpoint_used], the
    shadow of the write-only TDR, and [watchpoints[0]]. *)
Record debug_state := Debug {
  hw_breakpoints : list Z;
  hw_breakpoint_used : list Z;
  tdr_shadow : Z;
  wp_addr : Z;
  wp_length : Z;
  wp_type : Z;
  wp_active : Z
}.

(** [static const uint16_t pbr_reg[4]] *)
Definition pbr_reg : list Z :=
  [DEBUG_REG_PBR0; DEBUG_REG_PBR1; DEBUG_REG_PBR2; DEBUG_REG_PBR3].

(** [write_pbr(index, addr)] *)
Definition write_pbr (index addr : Z) : M Z :=
  if (index <? 0) || (3 <? index) then mret (-1) else
  r ← cmd_07_14_write_debug_reg (byte_at pbr_reg (Z.to_nat index)) addr;
  if negb (r =? 0) then mret r else
  cmd_07_12 0xFFFF.

(** [write_tdr(value)] *)
Definition write_tdr (value : Z) : M Z :=
  r ← cmd_07_14_write_debug_reg DEBUG_REG_TDR value;
  if negb (r =? 0) then mret r else
  cmd_07_12 0xFFFF.

Definition write_ablr (addr : Z) : M Z := cmd_07_14_write_bdm_reg ABLR_WRITE addr.
Definition write_abhr (addr : Z) : M Z := cmd_07_14_write_bdm_reg ABHR_WRITE addr.

(** [for (i = 0; i < MAX_HW_BREAKPOINTS; i++) if (test(i)) { slot = i; break; }]
    with [slot] starting at -1. *)
Definition first_slot (test : nat -> bool) : Z :=
  match List.filter test (seq 0 MAX_HW_BREAKPOINTS) with
  | i :: _ => Z.of_nat i
  | [] => -1
  end.

(** [set_hw_breakpoint(addr)]: the return value and the globals
    afterwards. *)
Definition set_hw_breakpoint (addr : Z) (s : debug_state) : M (Z * debug_state) :=
  let slot := first_slot (fun i => byte_at (hw_breakpoint_used s) i =? 0) in
  if slot <? 0 then mret (-1, s) else
  r ← write_pbr slot addr;
  if negb (r =? 0) then mret (-1, s) else
  let tdr := u32 (Z.lor (tdr_shadow s)
                        (Z.lor (Z.lor TDR_TRC_HALT TDR_EBL1) TDR_EPC1)) in
  let tdr := u32 (Z.lor tdr (Z.shiftl 1 (24 + slot))) in
  let s := Debug (hw_breakpoints s) (hw_breakpoint_used s) tdr
                 (wp_addr s) (wp_length s) (wp_type s) (wp_active s) in
  r ← write_tdr tdr;
  if negb (r =? 0) then mret (-1, s) else
  mret (slot, Debug (<[Z.to_nat slot := addr]> (hw_breakpoints s))
                    (<[Z.to_nat slot := 1]> (hw_breakpoint_used s))
                    tdr (wp_addr s) (wp_length s) (wp_type s) (wp_active s)).

(** [clear_hw_breakpoint(addr)] *)
Definition clear_hw_breakpoint (addr : Z) (s : debug_state) : M (Z * debug_state) :=
  let slot := first_slot (fun i => negb (byte_at (hw_breakpoint_used s) i =? 0)
                                   && (byte_at (hw_breakpoints s) i =? addr)) in
  if slot <? 0 then mret (-1, s) else
  _ ← write_pbr slot 0;
  let tdr := u32 (Z.land (tdr_shadow s) (Z.lnot (Z.shiftl 1 (24 + slot)))) in
  let any_active :=
    existsb (fun i => negb (Z.of_nat i =? slot)
                      && negb (byte_at (hw_breakpoint_used s) i =? 0))
            (seq 0 MAX_HW_BREAKPOINTS) in
  let tdr := if negb any_active
             then u32 (Z.land tdr (Z.lnot (Z.lor TDR_EBL1 TDR_EPC1)))
             else tdr in
  _ ← write_tdr tdr;
  mret (0, Debug (<[Z.to_nat slot := 0]> (hw_breakpoints s))
                 (<[Z.to_nat slot := 0]> (hw_breakpoint_used s))
                 tdr (wp_addr s) (wp_length s) (wp_type s) (wp_active s)).

(** [set_watchpoint(addr, length, type)] *)
Definition set_watchpoint (addr length type : Z) (s : debug_state)
  : M (Z * debug_state) :=
  if negb (wp_active s =? 0) then mret (-1, s) else
  let addr_low := addr in
  let addr_high := u32 (addr + length - 1) in
  r ← write_ablr addr_low;
  if negb (r =? 0) then mret (-1, s) else
  r ← write_abhr addr_high;
  if negb (r =? 0) then mret (-1, s) else
  let tdr := u32 (Z.lor (tdr_shadow s) TDR_TRC_HALT) in
  let tdr := u32 (Z.lor tdr TDR_EBL1) in
  let tdr := u32 (Z.lor tdr TDR_EAR1) in
  let tdr := u32 (Z.lor tdr TDR_EAL_INSIDE) in
  let tdr := u32 (Z.land tdr (Z.lnot TDR_DRW_RW)) in
  let with_tdr t := Debug (hw_breakpoints s) (hw_breakpoint_used s) t
                          (wp_addr s) (wp_length s) (wp_type s) (wp_active s) in
  if negb ((type =? WP_TYPE_WRITE) || (type =? WP_TYPE_READ)
           || (type =? WP_TYPE_ACCESS))
  then mret (-1, with_tdr tdr) else
  let tdr := if type =? WP_TYPE_WRITE then u32 (Z.lor tdr TDR_DRW_WRITE)
             else if type =? WP_TYPE_READ then u32 (Z.lor tdr TDR_DRW_READ)
             else u32 (Z.lor tdr TDR_DRW_RW) in
  r ← write_tdr tdr;
  if negb (r =? 0) then mret (-1, with_tdr tdr) else
  mret (0, Debug (hw_breakpoints s) (hw_breakpoint_used s) tdr addr length type 1).

(** [clear_watchpoint(addr, length, type)] *)
Definition clear_watchpoint (addr length type : Z) (s : debug_state)
  : M (Z * debug_state) :=
  if wp_active s =? 0 then mret (-1, s) else
  if negb (wp_addr s =? addr) || negb (wp_length s =? length)
     || negb (wp_type s =? type)
  then mret (-1, s) else
  _ ← write_ablr 0;
  _ ← write_abhr 0;
  let tdr := u32 (Z.land (tdr_shadow s) (Z.lnot TDR_EAR1)) in
  let tdr := u32 (Z.land tdr (Z.lnot TDR_EAL_MASK)) in
  let tdr := u32 (Z.land tdr (Z.lnot TDR_DRW_RW)) in
  let any_bp_active :=
    existsb (fun i => negb (byte_at (hw_breakpoint_used s) i =? 0))
            (seq 0 MAX_HW_BREAKPOINTS) in
  let tdr := if negb any_bp_active
             then u32 (Z.land tdr (Z.lnot (Z.lor TDR_TRC_HALT TDR_EBL1)))
             else tdr in
  _ ← write_tdr tdr;
  mret (0, Debug (hw_breakpoints s) (hw_breakpoint_used s) tdr
                 0 0 WP_TYPE_NONE 0).

(** What the breakpoint functions keep true of the globals: both arrays
    have their four cells, and every slot in use has its enable bit
    (24 + slot) set in the TDR shadow together with TRC_HALT, EBL1 and
    EPC1. *)
Definition hw_breakpoints_armed (s : debug_state) : Prop :=
  length (hw_breakpoints s) = MAX_HW_BREAKPOINTS
  /\ length (hw_breakpoint_used s) = MAX_HW_BREAKPOINTS
  /\ forall i : nat, (i < MAX_HW_BREAKPOINTS)%nat ->
       byte_at (hw_breakpoint_used s) i <> 0 ->
       Z.testbit (tdr_shadow s) (24 + Z.of_nat i) = true
       /\ Z.testbit (tdr_shadow s) 30 = true
       /\ Z.testbit (tdr_shadow s) 13 = true
       /\ Z.testbit (tdr_shadow s) 9 = true.

(** One hardware breakpoint, at 0x400 in slot 0, and no watchpoint. *)
Definition one_breakpoint_state : debug_state :=
  Debug [0x400; 0; 0; 0] [1; 0; 0; 0]
        (Z.lor (Z.lor (Z.lor TDR_TRC_HALT TDR_EBL1) TDR_EPC1) (Z.shiftl 1 24))
        0 0 WP_TYPE_NONE 0.

(** The same with a write watchpoint on the four bytes at 0x20000000. *)
Definition breakpoint_and_watchpoint_state : debug_state :=
  Debug [0x400; 0; 0; 0] [1; 0; 0; 0]
        (Z.lor (Z.lor (Z.lor (Z.lor (Z.lor TDR_TRC_HALT TDR_EBL1) TDR_EPC1)
                             (Z.shiftl 1 24))
                      (Z.lor TDR_EAR1 TDR_EAL_INSIDE))
               TDR_DRW_WRITE)
        0x20000000 4 WP_TYPE_WRITE 1.

(** ** Flash loader: what an operation leaves alone *)

(** [m] leaves the part [proj] of the host and target state as it is. *)
Definition fkeeps {A B} (proj : flash_world -> B) (m : F A) : Prop :=
  forall w, proj (snd (m w)) = proj w.

(** The erase tracking table [state->erased_sectors]. *)
Definition tracker (w : flash_world) : list Z := erased_sectors (fw_loader w).

(** What the loader operations leave alone on the host: [flash_state] of
    the server and the fields [initialized] and [erased_sectors] of
    [gpl_flash_state_t]. *)
Definition session_fields (w : flash_world) : vflash_state * Z * list Z :=
  (fw_vflash w, gpl_initialized (fw_loader w), erased_sectors (fw_loader w)).

(** The sector of a flash address. *)
Definition sector_of (x : Z) : Z := x / FLASH_SECTOR_SIZE.

(** The 8 KB hardware sector of a flash address. *)
Definition hw_sector_of (x : Z) : Z := x / MCF_FLASH_SECTOR_SIZE.

(** Is [x] in a hardware sector that holds a sector [j] of
    [first, last) whose entry in the table [t] is 0?  Those are the
    hardware sectors a range erase clears. *)
Definition erased_by_range (t : list Z) (first last x : Z) : bool :=
  existsb (fun j => (byte_at t (Z.to_nat j) =? 0)
                    && (hw_sector_of (j * FLASH_SECTOR_SIZE) =? hw_sector_of x))
          (seqZ first (last - first)).

(** ** Software breakpoints and the [Z] and [z] packets *)

Definition MAX_SW_BREAKPOINTS : nat := 32.
Definition COLDFIRE_HALT_OPCODE : Z := 0x4AC8.

(** One entry of [sw_breakpoints]. *)
Record sw_breakpoint := SwBreakpoint {
  sw_addr : Z;
  sw_original_insn : Z;
  sw_active : Z
}.

(** [sw_breakpoints[i]]; the table has [MAX_SW_BREAKPOINTS] entries. *)
Definition sw_at (t : list sw_breakpoint) (i : nat) : sw_breakpoint :=
  default (SwBreakpoint 0 0 0) (t !! i).

(** [for (i = 0; i < MAX_SW_BREAKPOINTS; i++) if (test(i)) { slot = i; break; }]
    with [slot] starting at -1. *)
Definition first_sw_slot (test : sw_breakpoint -> bool) (t : list sw_breakpoint) : Z :=
  match List.filter (fun i => test (sw_at t i)) (seq 0 MAX_SW_BREAKPOINTS) with
  | i :: _ => Z.of_nat i
  | [] => -1
  end.

(** [set_sw_breakpoint(addr)]: the return value and the table afterwards.
    The locals [insn_bytes] and [next_bytes] are uninitialised. *)
Definition set_sw_breakpoint (addr : Z) (t : list sw_breakpoint)
  : M (Z * list sw_breakpoint) :=
  let slot := first_sw_slot (fun b => sw_active b =? 0) t in
  if slot <? 0 then mret (-1, t) else
  junk ← get stack_junk;
  '(r, insn_bytes) ← cmd_0717_read_memory addr 2 (take 2 (fit256 junk)) 2;
  if negb (r =? 0) then mret (-1, t) else
  let original := u16 (Z.lor (Z.shiftl (byte_at insn_bytes 0) 8)
                             (byte_at insn_bytes 1)) in
  '(r, next_bytes) ← cmd_0717_read_memory (u32 (addr + 2)) 2 (take 2 (fit256 junk)) 2;
  let next_bytes := if negb (r =? 0) then [0xFF; 0xFF] else next_bytes in
  let write_val := u32 (Z.lor (Z.lor (Z.shiftl COLDFIRE_HALT_OPCODE 16)
                                     (Z.shiftl (byte_at next_bytes 0) 8))
                              (byte_at next_bytes 1)) in
  r ← cmd_07_19 addr write_val;
  if negb (r =? 0) then mret (-1, t) else
  mret (0, <[Z.to_nat slot := SwBreakpoint addr original 1]> t).

(** [clear_sw_breakpoint(addr)] *)
Definition clear_sw_breakpoint (addr : Z) (t : list sw_breakpoint)
  : M (Z * list sw_breakpoint) :=
  let slot := first_sw_slot (fun b => negb (sw_active b =? 0) && (sw_addr b =? addr))
                            t in
  if slot <? 0 then mret (-1, t) else
  let b := sw_at t (Z.to_nat slot) in
  let original := sw_original_insn b in
  junk ← get stack_junk;
  '(r, next_bytes) ← cmd_0717_read_memory (u32 (addr + 2)) 2 (take 2 (fit256 junk)) 2;
  let next_bytes := if negb (r =? 0) then [0xFF; 0xFF] else next_bytes in
  let write_val := u32 (Z.lor (Z.lor (Z.shiftl original 16)
                                     (Z.shiftl (byte_at next_bytes 0) 8))
                              (byte_at next_bytes 1)) in
  r ← cmd_07_19 addr write_val;
  if negb (r =? 0) then mret (-1, t) else
  mret (0, <[Z.to_nat slot := SwBreakpoint (sw_addr b) (sw_original_insn b) 0]> t).

(** [int type = data[0] - '0']; [char] is signed. *)
Definition breakpoint_type (data : string) : Z :=
  match data with
  | String c _ => (if 128 <=? char_code c then char_code c - 256 else char_code c) - 48
  | EmptyString => -48
  end.

Fixpoint skip_hex_digits (s : string) : string :=
  match s with
  | String c rest => if hex_to_nibble c <? 0 then s else skip_hex_digits rest
  | EmptyString => s
  end.

(** [endptr] of [strtoul(s, &endptr, 16)]: the first character behind the
    digits, and [s] itself when there is no digit to convert. *)
Definition strtoul16_end (s : string) : string :=
  let body := match skip_spaces s with
              | String "-"%char rest => skip_0x rest
              | String "+"%char rest => skip_0x rest
              | rest => skip_0x rest
              end in
  match body with
  | String c _ => if hex_to_nibble c <? 0 then s else skip_hex_digits body
  | EmptyString => s
  end.

(** The [kind] of a [Z] or [z] packet: 4 unless a second comma follows the
    address. *)
Definition breakpoint_kind (addr_str : string) : Z :=
  match strtoul16_end addr_str with
  | String ","%char rest => u32 (strtoul16 rest)
  | _ => 4
  end.

(** The globals of the breakpoint functions. *)
Definition breakpoints : Type := debug_state * list sw_breakpoint.

(** [handle_set_breakpoint(sock, data)]: the return value and the globals
    afterwards. *)
Definition handle_set_breakpoint (data : string) (s : debug_state)
    (t : list sw_breakpoint) : M (Z * breakpoints) :=
  let type := breakpoint_type data in
  match strchr data "," with
  | None => r ← send_error 1; mret (r, (s, t))
  | Some comma =>
    let addr_str := string_tail comma in
    let addr := u32 (strtoul16 addr_str) in
    let kind := breakpoint_kind addr_str in
    if type =? 0 then
      '(r, s) ← set_hw_breakpoint addr s;
      if 0 <=? r then r ← send_ok; mret (r, (s, t)) else
      '(r, t) ← set_sw_breakpoint addr t;
      if r =? 0 then r ← send_ok; mret (r, (s, t)) else
      r ← send_error 0x0E; mret (r, (s, t))
    else if type =? 1 then
      '(r, s) ← set_hw_breakpoint addr s;
      if 0 <=? r then r ← send_ok; mret (r, (s, t)) else
      r ← send_error 0x0E; mret (r, (s, t))
    else if (type =? 2) || (type =? 3) || (type =? 4) then
      let wp := if type =? 2 then WP_TYPE_WRITE
                else if type =? 3 then WP_TYPE_READ else WP_TYPE_ACCESS in
      '(r, s) ← set_watchpoint addr kind wp s;
      if r =? 0 then r ← send_ok; mret (r, (s, t)) else
      r ← send_error 0x0E; mret (r, (s, t))
    else r ← send_error 1; mret (r, (s, t))
  end.

(** [handle_remove_breakpoint(sock, data)] *)
Definition handle_remove_breakpoint (data : string) (s : debug_state)
    (t : list sw_breakpoint) : M (Z * breakpoints) :=
  let type := breakpoint_type data in
  match strchr data "," with
  | None => r ← send_error 1; mret (r, (s, t))
  | Some comma =>
    let addr_str := string_tail comma in
    let addr := u32 (strtoul16 addr_str) in
    let kind := breakpoint_kind addr_str in
    if type =? 0 then
      '(r, s) ← clear_hw_breakpoint addr s;
      if r =? 0 then r ← send_ok; mret (r, (s, t)) else
      '(r, t) ← clear_sw_breakpoint addr t;
      if r =? 0 then r ← send_ok; mret (r, (s, t)) else
      r ← send_ok; mret (r, (s, t))
    else if type =? 1 then
      '(_, s) ← clear_hw_breakpoint addr s;
      r ← send_ok; mret (r, (s, t))
    else if (type =? 2) || (type =? 3) || (type =? 4) then
      let wp := if type =? 2 then WP_TYPE_WRITE
                else if type =? 3 then WP_TYPE_READ else WP_TYPE_ACCESS in
      '(_, s) ← clear_watchpoint addr kind wp s;
      r ← send_ok; mret (r, (s, t))
    else r ← send_error 1; mret (r, (s, t))
  end.

(** An empty software breakpoint table. *)
Definition no_sw_breakpoints : list sw_breakpoint :=
  replicate MAX_SW_BREAKPOINTS (SwBreakpoint 0 0 0).

(** ** Verification by the loader *)

(** The longword at byte [i] of a chunk as [gpl_flash_verify] builds it:
    [value |= data[offset + i + j] << (24 - j * 8)] for [j < 4] and
    [i + j < chunk_size], so a partial last word is padded with 0x00. *)
Definition verify_word (data : list Z) (offset chunk_size i : Z) : Z :=
  let b j := if i + j <? chunk_size
             then byte_at data (Z.to_nat (offset + i + j)) else 0 in
  word_of_bytes (b 0) (b 1) (b 2) (b 3).

(** The upload loop of [gpl_flash_verify],
    [for (i = 0; i < chunk_size; i += 4)]; the return value of [cmd_07_19]
    is not looked at. *)
Fixpoint upload_verify_words (n : nat) (i : Z) (data : list Z)
    (offset chunk_size : Z) : F unit :=
  match n with
  | O => mret tt
  | S n' =>
      if i <? chunk_size then
        _ ← ideal_cmd_07_19 (FLASHLOADER_DATA_BUFFER + i)
                            (verify_word data offset chunk_size i);
        upload_verify_words n' (i + 4) data offset chunk_size
      else mret tt
  end.

(** The chunk loop of [gpl_flash_verify]. *)
Fixpoint verify_chunks (n : nat) (addr : Z) (data : list Z) (length offset : Z)
  : F Z :=
  match n with
  | O => mret 0
  | S n' =>
    if offset <? length then
      let chunk_size := if FLASHLOADER_DATA_BUFFER_SIZE <? length - offset
                        then FLASHLOADER_DATA_BUFFER_SIZE else length - offset in
      _ ← upload_verify_words (Z.to_nat chunk_size) 0 data offset chunk_size;
      '(r, result) ← simple_flash_run_op FLASH_OP_VERIFY (u32 (addr + offset))
                                                chunk_size;
      if negb (r =? 0) then mret (-1) else
      if negb (result =? FLASH_RESULT_SUCCESS) then mret 1 else
      verify_chunks n' addr data length (offset + chunk_size)
    else mret 0
  end.

(** [gpl_flash_verify(state, addr, data, length)] *)
Definition gpl_flash_verify (addr : Z) (data : list Z) (length : Z) : F Z :=
  l ← fget fw_loader;
  if gpl_initialized l =? 0 then mret (-1) else
  if length =? 0 then mret 0 else
  verify_chunks (Z.to_nat length) addr data length 0.

(** [gpl_flash_program_binary(state, data, length, base_addr, verify)] *)
Definition gpl_flash_program_binary (data : list Z) (length base_addr verify : Z)
  : F Z :=
  l ← fget fw_loader;
  if gpl_initialized l =? 0 then mret (-1) else
  if length =? 0 then mret (-1) else
  r ← gpl_flash_erase_range base_addr length;
  if negb (r =? 0) then mret (-1) else
  r ← gpl_flash_program base_addr data length;
  if negb (r =? 0) then mret (-1) else
  if negb (verify =? 0) then
    r ← gpl_flash_verify base_addr data length;
    if negb (r =? 0) then mret (-1) else mret 0
  else mret 0.

(** ** The [p] packet *)

Definition LONG_MAX : Z := 9223372036854775807.
Definition LONG_MIN : Z := -9223372036854775808.

(** The C library's [strtol(s, NULL, 16)] on an LP64 host: as [strtoul],
    with the value clamped to [LONG_MIN, LONG_MAX]. *)
Definition strtol16 (s : string) : Z :=
  match skip_spaces s with
  | String "-"%char rest => Z.max LONG_MIN (- hex_digits_value 0 (skip_0x rest))
  | String "+"%char rest => Z.min LONG_MAX (hex_digits_value 0 (skip_0x rest))
  | rest => Z.min LONG_MAX (hex_digits_value 0 (skip_0x rest))
  end.

(** [(int)x] for a [long] [x]: the low 32 bits, signed. *)
Definition int_of_long (x : Z) : Z :=
  let y := x mod 2 ^ 32 in
  if 2 ^ 31 <=? y then y - 2 ^ 32 else y.

(** [handle_read_register(sock, data)], the handler of the [p] packet. *)
Definition handle_read_register (data : string) : M Z :=
  let reg_num := int_of_long (strtol16 data) in
  if NUM_REGISTERS <=? reg_num then
    if (18 <=? reg_num) && (reg_num <=? 25)
    then send_packet "000000000000000000000000"
    else if (26 <=? reg_num) && (reg_num <=? 28)
    then send_packet "00000000"
    else send_packet EmptyString
  else
    '(r, value) ← read_cpu_register reg_num 0;
    if negb (r =? 0) then send_error 1 else
    send_packet (hex8 value).
(** * Properties *)

(** ** Arrays and the monad *)

Lemma poke_length vs : forall i a, length (poke i vs a) = length a.
Proof.
  induction vs as [|v vs IH]; intros i a; simpl; [done|].
  by rewrite IH, length_insert.
Qed.

Lemma poke_lookup_ge vs : forall i a j,
  (i + length vs <= j)%nat -> poke i vs a !! j = a !! j.
Proof.
  induction vs as [|v vs IH]; intros i a j Hj; simpl in *; [done|].
  rewrite IH by lia. apply list_lookup_insert_ne. lia.
Qed.

Lemma poke_lookup_before vs : forall i a j,
  (j < i)%nat -> poke i vs a !! j = a !! j.
Proof.
  induction vs as [|v vs IH]; intros i a j Hj; simpl in *; [done|].
  rewrite IH by lia. apply list_lookup_insert_ne. lia.
Qed.

Lemma poke_lookup_lt vs : forall i a k,
  (i + length vs <= length a)%nat -> (k < length vs)%nat ->
  poke i vs a !! (i + k)%nat = vs !! k.
Proof.
  induction vs as [|v vs IH]; intros i a k Ha Hk; simpl in *; [lia|].
  destruct k as [|k].
  - rewrite Nat.add_0_r, poke_lookup_before by lia.
    apply list_lookup_insert_eq. lia.
  - replace (i + S k)%nat with (S i + k)%nat by lia.
    apply IH; [rewrite length_insert|]; lia.
Qed.

Lemma byte_at_poke_ge vs a j :
  (length vs <= j)%nat -> byte_at (poke 0 vs a) j = byte_at a j.
Proof. intros H. unfold byte_at. by rewrite poke_lookup_ge. Qed.

Lemma fit256_length l : length (fit256 l) = 256%nat.
Proof.
  unfold fit256. rewrite length_take, length_app, length_replicate. lia.
Qed.

Lemma recv_into_length dst data :
  (length data <= length dst)%nat -> length (recv_into dst data) = length dst.
Proof.
  intros H. unfold recv_into, memcpy.
  rewrite length_app, length_take, length_drop. lia.
Qed.

(** Unfolding of the monadic plumbing. *)
Ltac run :=
  unfold mbind, M_bind, mret, M_ret, get, modify, with_cmd_buffer,
         usb_out, usb_in, send_packet in *; simpl in *.

(** Every request handed to [send_aa_command] is logged, once. *)
Lemma send_aa_command_sent cmd w :
  sent (snd (send_aa_command cmd w)) = sent w ++ [cmd].
Proof.
  unfold send_aa_command. run.
  destruct (out_results w) as [|r o]; simpl.
  - destruct (in_results w) as [|[r d] i]; simpl; [done|].
    destruct (r <? 0) eqn:E; simpl; rewrite ?E; done.
  - destruct (r =? 0); simpl; [|done].
    destruct (in_results w) as [|[r' d] i]; simpl; [done|].
    destruct (r' <? 0) eqn:E; simpl; rewrite ?E; done.
Qed.

Lemma send_aa_command_no_response_sent cmd w :
  sent (snd (send_aa_command_no_response cmd w)) = sent w ++ [cmd].
Proof.
  unfold send_aa_command_no_response. run.
  destruct (out_results w) as [|r o]; simpl; [done|].
  destruct (r =? 0); done.
Qed.

(** ** The 0x0719 writer and its padding (C3) *)

Lemma cmd_07_19_request_padding addr data buf (j : nat) :
  (16 <= j < 256)%nat ->
  byte_at (cmd_07_19_request addr data buf) j = pattern_02 (Z.of_nat j).
Proof.
  intros Hj. unfold cmd_07_19_request.
  rewrite byte_at_poke_ge by (simpl; lia).
  set (padded := foldl _ _ _).
  assert (Hall : forallb (fun k => byte_at padded k =? pattern_02 (Z.of_nat k))
                         (seq 16 240) = true) by (vm_compute; reflexivity).
  rewrite forallb_forall in Hall.
  apply Z.eqb_eq, Hall, in_seq. lia.
Qed.

Lemma cmd_07_19_sent addr data w :
  sent (snd (cmd_07_19 addr data w))
  = sent w ++ [cmd_07_19_request addr data (g_cmd_buffer w)].
Proof. unfold cmd_07_19. run. by rewrite send_aa_command_sent. Qed.

(** C3.  Whatever the persistent buffer held and whatever the pod answers,
    the one request that [cmd_07_19] hands to the OUT endpoint has, at every
    index [j] of 16..255, the byte 0x02 when [(j - 16) mod 6] is 0 or 5 and
    0x00 otherwise: the repeating [02 00 00 00 00 02] pattern. *)
Theorem cmd_07_19_padding_pattern addr data w (j : Z) :
  16 <= j < 256 ->
  exists req,
    sent (snd (cmd_07_19 addr data w)) = sent w ++ [req]
    /\ length req = 256%nat
    /\ byte_at req (Z.to_nat j)
       = if ((j - 16) mod 6 =? 0) || ((j - 16) mod 6 =? 5) then 0x02 else 0x00.
Proof.
  intros Hj. exists (cmd_07_19_request addr data (g_cmd_buffer w)).
  split; [apply cmd_07_19_sent|]. split.
  - unfold cmd_07_19_request. rewrite poke_length. vm_compute. reflexivity.
  - rewrite cmd_07_19_request_padding by lia.
    unfold pattern_02. by rewrite Z2Nat.id by lia.
Qed.


Lemma cmd_07_19_padding_pattern_witness :
  exists req,
    sent (snd (cmd_07_19 0x20000100 0xCAFEBABE world_after_reset))
    = sent world_after_reset ++ [req]
    /\ length req = 256%nat
    /\ byte_at req (Z.to_nat 21)
       = if ((21 - 16) mod 6 =? 0) || ((21 - 16) mod 6 =? 5) then 0x02 else 0x00.
Proof.
  apply (cmd_07_19_padding_pattern 0x20000100 0xCAFEBABE world_after_reset 21).
  lia.
Defined.

(** ** The persistent-buffer discipline (C1) *)

Ltac split_cases :=
  repeat (simpl in *;
          match goal with
          | |- context [match ?x with _ => _ end] => destruct x eqn:?
          end);
  simpl in *.

Lemma read_more_packets_sent fuel : forall te tr pn w,
  sent (snd (read_more_packets fuel te tr pn w)) = sent w.
Proof.
  induction fuel as [|f IH]; intros te tr pn w; simpl; [done|].
  run. split_cases; rewrite ?IH; done.
Qed.

#[local] Arguments read_more_packets : simpl never.

Lemma read_more_packets_S f te tr pn :
  read_more_packets (S f) te tr pn
  = if (tr <? te) && (tr <? 256) && (pn <? 10)
    then
      if 256 - tr <=? 0 then mret (0, tr) else
      '(r, chunk) ← usb_in (Z.to_nat (256 - tr));
      _ ← modify (fun w => set_buffer
                 (recv_at (g_cmd_buffer w) (Z.to_nat tr) chunk) w);
      if r <? 0 then mret (-1, tr) else
      if Z.of_nat (length chunk) <? 256 - tr
      then mret (0, tr + Z.of_nat (length chunk))
      else read_more_packets f te (tr + Z.of_nat (length chunk)) (pn + 1)
    else mret (0, tr).
Proof. reflexivity. Qed.


Lemma issue_sent X w :
  sent (snd (issue X w)) = sent w ++ [request X (g_cmd_buffer w)].
Proof.
  destruct X; simpl;
    try (unfold cmd_write_memory_byte_addr, cmd_write_memory_word_addr,
           cmd_write_memory_short_addr, cmd_write_memory_long_addr,
           cmd_set_memory_window, cmd_bdm_resume, cmd_07_02_bdm_go,
           cmd_07_14_write_bdm_reg, cmd_07_14_write_debug_reg, cmd_enter_mode,
           cmd_enable_memory_access, cmd_write_bdm_reg, cmd_07_11,
           cmd_07_16_write_pc, cmd_bdm_halt, cmd_07_95, cmd_bdm_cmd_00_02,
           cmd_07_14, cmd_07_10, cmd_07_17, cmd_01_0b, cmd_07_a2,
           cmd_04_40_58_04, cmd_04_7f_fe_02, cmd_04_40_00_02, cmd_07_12,
           cmd_07_1e, cmd_071e_write_sram, cmd_07_19, cmd_07_15;
         run;
         first [ by rewrite send_aa_command_sent
               | by rewrite send_aa_command_no_response_sent ]).
  - unfold code_of, cmd_read_memory_long_addr. run. split_cases; done.
  - unfold code_of, cmd_0717_read_memory. run.
    assert ((65535 <? u16 length) = false) as ->.
    { apply Z.ltb_ge. unfold u16.
      pose proof (Z.mod_pos_bound length 65536). lia. }
    simpl. split_cases; try done;
      match goal with
      | H : read_more_packets _ _ _ _ _ = (_, _) |- _ =>
          apply (f_equal snd) in H; simpl in H;
          by rewrite <- H, read_more_packets_sent
      end.
  - unfold code_of, cmd_bdm_freeze. run. split_cases; done.
  - unfold code_of, cmd_07_13. run. split_cases; done.
  - unfold code_of, cmd_07_11_read_bdm_reg. run. split_cases; done.
  - unfold code_of, cmd_read_memory_byte_addr. run. split_cases; done.
  - unfold code_of, cmd_read_memory_word_addr. run. split_cases; done.
  - unfold code_of, cmd_071b. run.
    assert ((65535 <? u16 length) = false) as ->.
    { apply Z.ltb_ge. unfold u16.
      pose proof (Z.mod_pos_bound length 65536). lia. }
    simpl. split_cases; try done;
      match goal with
      | H : read_more_packets _ _ _ _ _ = (_, _) |- _ =>
          apply (f_equal snd) in H; simpl in H;
          by rewrite <- H, read_more_packets_sent
      end.
  - unfold code_of, cmd_read_memory_block. run. split_cases; done.
  - unfold cmd_07_17_setup_window. run. split_cases; done.
  - unfold cmd_07_1b. run. split_cases; done.
  - unfold code_of, cmd_read_bdm_reg. run. split_cases; done.
Qed.



Lemma pad_pairs_length from a b cmd : length (pad_pairs from a b cmd) = length cmd.
Proof.
  unfold pad_pairs. generalize (loop_indices 256 from 256 2). intros l.
  revert cmd. induction l as [|j l IH]; intros cmd; [reflexivity|].
  cbn [foldl]. rewrite IH.
  destruct (j + 1 <? 256)%nat; by rewrite ?length_insert.
Qed.

Ltac head_of t :=
  lazymatch t with
  | ?f _ => head_of f
  | _ => t
  end.

Lemma request_length X buf :
  length buf = 256%nat -> length (request X buf) = 256%nat.
Proof.
  intros H. destruct X; cbn [request];
    lazymatch goal with
    | |- length ?t = _ => let h := head_of t in unfold h
    end; cbv zeta;
    rewrite ?pad_pairs_length, ?poke_length; try assumption.
  generalize (loop_indices 256 16 256 6). intros l.
  assert (Hg : forall c, length c = 256%nat ->
             length (foldl (fun c i => <[(i + 5)%nat := 0x02]> (<[i := 0x02]> c)) c l)
             = 256%nat).
  { induction l as [|j l IH]; intros c Hc; [exact Hc|].
    cbn [foldl]. apply IH. by rewrite !length_insert. }
  apply Hg. by rewrite length_replicate.
Qed.

(** The buffer after a command that goes through [send_aa_command]. *)
Lemma via_send_aa_buffer f w :
  next_out_ok w = true -> next_in_ok w = true ->
  g_cmd_buffer (snd ((cmd ← with_cmd_buffer f; send_aa_command cmd) w))
  = memcpy (f (g_cmd_buffer w))
           (recv_into (fit256 (stack_junk w)) (next_in_data w)) 256.
Proof.
  unfold next_out_ok, next_in_ok, next_in_data, send_aa_command. run.
  intros Ho Hi.
  destruct (out_results w) as [|ro o], (in_results w) as [|[ri d] i];
    simpl in *; try discriminate.
  - destruct (ri <? 0) eqn:E; [discriminate|]. simpl. by rewrite ?E.
  - rewrite Ho. simpl. destruct (ri <? 0) eqn:E; [discriminate|]. simpl.
    by rewrite ?E.
Qed.


Lemma next_in_data_length w : (length (next_in_data w) <= 256)%nat.
Proof.
  unfold next_in_data. destruct (in_results w) as [|[r d] l]; simpl; [lia|].
  destruct (r <? 0); simpl; [lia|]. rewrite length_take. lia.
Qed.


Lemma issue_copied Y :
  response_path_of Y = Copied_whole ->
  issue Y = (cmd ← with_cmd_buffer (request Y); send_aa_command cmd).
Proof. destruct Y; intros H; try discriminate H; reflexivity. Qed.

(** A command that goes through [send_aa_command] leaves the 256 bytes of
    the local response array in the persistent buffer: the bytes received,
    then what the stack held. *)
Lemma buffer_after_copied Y w :
  response_path_of Y = Copied_whole ->
  next_out_ok w = true -> next_in_ok w = true ->
  length (g_cmd_buffer w) = 256%nat ->
  g_cmd_buffer (snd (issue Y w))
  = recv_into (fit256 (stack_junk w)) (next_in_data w).
Proof.
  intros Hp Ho Hi Hl. rewrite (issue_copied Y Hp), via_send_aa_buffer by assumption.
  unfold memcpy at 1.
  pose proof (next_in_data_length w).
  rewrite take_ge by (rewrite recv_into_length; rewrite fit256_length; lia).
  rewrite drop_ge by (rewrite request_length; [lia|assumption]).
  by rewrite app_nil_r.
Qed.







(** ** BDM GO (C7) *)

(** The buffer after a command that goes through [send_aa_command] and
    fails: the request. *)
Lemma via_send_aa_buffer_failed f w :
  next_out_ok w && next_in_ok w = false ->
  g_cmd_buffer (snd ((cmd ← with_cmd_buffer f; send_aa_command cmd) w))
  = f (g_cmd_buffer w).
Proof.
  unfold next_out_ok, next_in_ok, send_aa_command. run.
  destruct (out_results w) as [|ro o], (in_results w) as [|[ri d] i];
    simpl in *; try done.
  - destruct (ri <? 0) eqn:E; simpl; rewrite ?E; done.
  - destruct (ro =? 0); simpl; done.
  - destruct (ro =? 0); simpl; [|done].
    destruct (ri <? 0) eqn:E; simpl; rewrite ?E; done.
Qed.

(** C7, as the code has it.  [cmd_07_02_bdm_go] writes [aa 55 00 05 07 02
    fc 0c 00] over the start of the persistent buffer, leaves the rest of
    the buffer as it is, and hands the buffer to the OUT endpoint.  When
    that transfer succeeds it goes through [send_aa_command] and starts
    exactly one IN transfer, of up to 256 bytes; it returns 0 only if that
    read succeeds too (-1 otherwise).  After a successful read the
    persistent buffer holds the local response array: the bytes received,
    then what the stack held.  After a failure it holds the request. *)
Theorem cmd_07_02_bdm_go_reads_response (w : world) :
  length (g_cmd_buffer w) = 256%nat ->
  let r := fst (cmd_07_02_bdm_go w) in
  let w' := snd (cmd_07_02_bdm_go w) in
  exists req,
    sent w' = sent w ++ [req]
    /\ take 9 req = [0xaa; 0x55; 0x00; 0x05; 0x07; 0x02; 0xfc; 0x0c; 0x00]
    /\ drop 9 req = drop 9 (g_cmd_buffer w)
    /\ in_reads w' = (if next_out_ok w then S (in_reads w) else in_reads w)
    /\ r = (if next_out_ok w && next_in_ok w then 0 else -1)
    /\ g_cmd_buffer w'
       = (if next_out_ok w && next_in_ok w
          then recv_into (fit256 (stack_junk w)) (next_in_data w)
          else req).
Proof.
  intros Hlen r w'. exists (cmd_07_02_bdm_go_request (g_cmd_buffer w)).
  split; [apply (issue_sent Op_07_02_bdm_go)|].
  assert (Hrun : in_reads w' = (if next_out_ok w then S (in_reads w) else in_reads w)
                 /\ r = (if next_out_ok w && next_in_ok w then 0 else -1)).
  { subst r w'. unfold cmd_07_02_bdm_go, send_aa_command, next_out_ok, next_in_ok.
    run.
    destruct (out_results w) as [|ro o], (in_results w) as [|[ri d] i]; simpl;
      repeat (case_match; simpl in *; simplify_eq); done. }
  destruct Hrun as [Hreads Hr].
  split; [|split; [|split; [exact Hreads|split; [exact Hr|]]]].
  - destruct (g_cmd_buffer w) as [|b0 [|b1 [|b2 [|b3 [|b4 [|b5 [|b6 [|b7 [|b8 l]]]]]]]]];
      simpl in Hlen; try lia. reflexivity.
  - destruct (g_cmd_buffer w) as [|b0 [|b1 [|b2 [|b3 [|b4 [|b5 [|b6 [|b7 [|b8 l]]]]]]]]];
      simpl in Hlen; try lia. reflexivity.
  - subst w'. destruct (next_out_ok w && next_in_ok w) eqn:E.
    + apply andb_true_iff in E. destruct E as [Ho Hi].
      by apply (buffer_after_copied Op_07_02_bdm_go).
    + by apply via_send_aa_buffer_failed.
Qed.

Lemma cmd_07_02_bdm_go_reads_response_witness :
  let w := world_after_reset in
  exists req,
    sent (snd (cmd_07_02_bdm_go w)) = sent w ++ [req]
    /\ take 9 req = [0xaa; 0x55; 0x00; 0x05; 0x07; 0x02; 0xfc; 0x0c; 0x00]
    /\ drop 9 req = drop 9 (g_cmd_buffer w)
    /\ in_reads (snd (cmd_07_02_bdm_go w))
       = (if next_out_ok w then S (in_reads w) else in_reads w)
    /\ fst (cmd_07_02_bdm_go w) = (if next_out_ok w && next_in_ok w then 0 else -1)
    /\ g_cmd_buffer (snd (cmd_07_02_bdm_go w))
       = (if next_out_ok w && next_in_ok w
          then recv_into (fit256 (stack_junk w)) (next_in_data w)
          else req).
Proof.
  apply (cmd_07_02_bdm_go_reads_response world_after_reset). reflexivity.
Defined.

(** C7 as stated fails: once the OUT transfer has succeeded, BDM GO starts
    an IN transfer and waits for it. *)
Lemma bdm_go_without_response_fails : ~ bdm_go_without_response.
Proof.
  intros H. specialize (H world_after_reset). vm_compute in H. discriminate H.
Qed.

(** ** The freeze check (C5) *)

Lemma byte_at_recv_into dst data (i : nat) :
  (i < length data)%nat -> byte_at (recv_into dst data) i = byte_at data i.
Proof.
  intros Hi. unfold byte_at, recv_into, memcpy.
  rewrite lookup_app_l by (rewrite length_take; lia).
  by rewrite lookup_take_lt by lia.
Qed.

Lemma validate_response_recv_into dst data :
  validate_response (recv_into dst data) (Z.of_nat (length data)) 5
  = validate_response data (Z.of_nat (length data)) 5.
Proof.
  unfold validate_response.
  destruct (Z.of_nat (length data) <? 5) eqn:E; [done|].
  apply Z.ltb_ge in E.
  by rewrite !byte_at_recv_into by lia.
Qed.

(** C5.  [cmd_bdm_freeze] fails (-1) when a transfer fails other than by
    an IN timeout or when the response is malformed; an IN timeout returns
    success with "not frozen"; a well-formed response returns success and
    reports halted exactly when its status byte at offset 5 is 0x00 or
    0x01 (0x88 and every other value: running). *)
Theorem cmd_bdm_freeze_reports (w : world) (is_frozen : Z) :
  fst (cmd_bdm_freeze is_frozen w)
  = if negb (next_out_ok w) then (-1, is_frozen)
    else if next_in_timeout w then (0, 0)
    else if negb (next_in_ok w) then (-1, is_frozen)
    else if negb (fst (validate_response (next_in_data w)
                         (Z.of_nat (length (next_in_data w))) 5) =? 0)
         then (-1, is_frozen)
    else (0, frozen_of_response (next_in_data w)).
Proof.
  unfold cmd_bdm_freeze, next_out_ok, next_in_timeout, next_in_ok, next_in_data.
  run.
  destruct (out_results w) as [|ro o]; simpl;
    [|destruct (ro =? 0) eqn:Ero; simpl; [|done]];
    (destruct (in_results w) as [|[ri d] i]; simpl; [done|];
     destruct (ri <? 0) eqn:Eri; simpl; rewrite ?Eri; simpl;
     [ destruct (ri =? LIBUSB_ERROR_TIMEOUT) eqn:Et; done |];
     assert (Et : (ri =? LIBUSB_ERROR_TIMEOUT) = false)
       by (apply Z.eqb_neq; apply Z.ltb_ge in Eri; unfold LIBUSB_ERROR_TIMEOUT; lia);
     rewrite Et, validate_response_recv_into;
     destruct (negb _) eqn:Ev; [done|];
     unfold frozen_of_response;
     destruct (6 <=? Z.of_nat (length (take 256 d))) eqn:E6;
     [ apply Z.leb_le in E6; rewrite byte_at_recv_into by lia; unfold byte_at;
       destruct (take 256 d !! 5%nat) as [s|] eqn:Es;
       [ simpl; rewrite orb_comm; by destruct (_ || _)
       | apply lookup_ge_None in Es; lia ]
     | apply Z.leb_gt in E6;
       rewrite (proj2 (lookup_ge_None (take 256 d) 5)) by lia; done ]).
Qed.

(** ** Frame: the protocol layer leaves the server's state alone *)

Lemma usb_only_ret {A} (a : A) : usb_only (mret a).
Proof. done. Qed.

Lemma usb_only_bind {A B} (m : M A) (f : A -> M B) :
  usb_only m -> (forall a, usb_only (f a)) -> usb_only (m ≫= f).
Proof.
  intros Hm Hf w. unfold mbind, M_bind.
  specialize (Hm w). destruct (m w) as [a w1]. simpl in Hm.
  by rewrite Hf.
Qed.

Lemma usb_only_usb_out data : usb_only (usb_out data).
Proof. done. Qed.

Lemma usb_only_usb_in n : usb_only (usb_in n).
Proof. done. Qed.

Lemma usb_only_get {A} (proj : world -> A) : usb_only (get proj).
Proof. done. Qed.

Lemma usb_only_with_cmd_buffer f : usb_only (with_cmd_buffer f).
Proof. done. Qed.

Lemma usb_only_set_buffer (f : world -> list Z) :
  usb_only (modify (fun w => set_buffer (f w) w)).
Proof. done. Qed.

Lemma usb_only_set_buffer_const b : usb_only (modify (set_buffer b)).
Proof. done. Qed.

Lemma usb_only_malloc n : usb_only (malloc n).
Proof. done. Qed.

Lemma usb_only_code_of {A} (m : M (Z * A)) : usb_only m -> usb_only (code_of m).
Proof. intros H w. apply H. Qed.

Ltac frame :=
  repeat first
    [ assumption
    | apply usb_only_ret | apply usb_only_usb_out | apply usb_only_usb_in
    | apply usb_only_get | apply usb_only_with_cmd_buffer
    | apply usb_only_set_buffer | apply usb_only_set_buffer_const
    | apply usb_only_malloc
    | apply usb_only_bind; [|intros ?]
    | match goal with
      | |- usb_only (if ?b then _ else _) => destruct b
      | |- usb_only (match ?x with _ => _ end) => destruct x
      | |- usb_only (let _ := _ in _) => cbv zeta
      end ].

Lemma usb_only_send_aa_command cmd : usb_only (send_aa_command cmd).
Proof. unfold send_aa_command. frame. Qed.

Lemma usb_only_send_aa_command_no_response cmd :
  usb_only (send_aa_command_no_response cmd).
Proof. unfold send_aa_command_no_response. frame. Qed.

Lemma usb_only_read_more_packets fuel : forall te tr pn,
  usb_only (read_more_packets fuel te tr pn).
Proof.
  induction fuel as [|f IH]; intros te tr pn; [apply usb_only_ret|].
  rewrite read_more_packets_S. frame. apply IH.
Qed.

Lemma usb_only_cmd_0717_read_memory addr len buffer bs :
  usb_only (cmd_0717_read_memory addr len buffer bs).
Proof.
  unfold cmd_0717_read_memory.
  pose proof usb_only_read_more_packets as H.
  frame; apply H.
Qed.

Lemma usb_only_cmd_bdm_freeze f : usb_only (cmd_bdm_freeze f).
Proof. unfold cmd_bdm_freeze. frame. Qed.

Lemma usb_only_cmd_07_13 reg v : usb_only (cmd_07_13 reg v).
Proof. unfold cmd_07_13. frame. Qed.

Lemma usb_only_cmd_07_11_read_bdm_reg wd reg v :
  usb_only (cmd_07_11_read_bdm_reg wd reg v).
Proof. unfold cmd_07_11_read_bdm_reg. frame. Qed.

Lemma usb_only_cmd_read_memory_long_addr addr d :
  usb_only (cmd_read_memory_long_addr addr d).
Proof. unfold cmd_read_memory_long_addr. frame. Qed.

Lemma usb_only_via_send_aa f :
  usb_only (cmd ← with_cmd_buffer f; send_aa_command cmd).
Proof.
  apply usb_only_bind; [apply usb_only_with_cmd_buffer|].
  intros ?. apply usb_only_send_aa_command.
Qed.

Lemma usb_only_via_send_aa_no_response f :
  usb_only (cmd ← with_cmd_buffer f; send_aa_command_no_response cmd).
Proof.
  apply usb_only_bind; [apply usb_only_with_cmd_buffer|].
  intros ?. apply usb_only_send_aa_command_no_response.
Qed.

Lemma usb_only_cmd_071b addr len buffer bs :
  usb_only (cmd_071b addr len buffer bs).
Proof.
  unfold cmd_071b.
  pose proof usb_only_read_more_packets as H.
  frame; apply H.
Qed.

Lemma usb_only_issue X : usb_only (issue X).
Proof.
  destruct X; cbn [issue];
    lazymatch goal with
    | |- usb_only (code_of (cmd_read_memory_byte_addr _ _)) =>
        apply usb_only_code_of; unfold cmd_read_memory_byte_addr; frame
    | |- usb_only (code_of (cmd_read_memory_word_addr _ _)) =>
        apply usb_only_code_of; unfold cmd_read_memory_word_addr; frame
    | |- usb_only (code_of (cmd_071b _ _ _ _)) =>
        apply usb_only_code_of, usb_only_cmd_071b
    | |- usb_only (code_of (cmd_read_memory_block _ _ _)) =>
        apply usb_only_code_of; unfold cmd_read_memory_block; frame
    | |- usb_only (code_of (cmd_read_bdm_reg _ _)) =>
        apply usb_only_code_of; unfold cmd_read_bdm_reg; frame
    | |- usb_only (cmd_07_17_setup_window _) =>
        unfold cmd_07_17_setup_window; frame
    | |- usb_only (cmd_07_1b _ _) => unfold cmd_07_1b; frame
    | |- usb_only (code_of (cmd_read_memory_long_addr _ _)) =>
        apply usb_only_code_of, usb_only_cmd_read_memory_long_addr
    | |- usb_only (code_of (cmd_0717_read_memory _ _ _ _)) =>
        apply usb_only_code_of, usb_only_cmd_0717_read_memory
    | |- usb_only (code_of (cmd_bdm_freeze _)) =>
        apply usb_only_code_of, usb_only_cmd_bdm_freeze
    | |- usb_only (code_of (cmd_07_13 _ _)) =>
        apply usb_only_code_of, usb_only_cmd_07_13
    | |- usb_only (code_of (cmd_07_11_read_bdm_reg _ _ _)) =>
        apply usb_only_code_of, usb_only_cmd_07_11_read_bdm_reg
    | |- usb_only cmd_bdm_resume => exact (usb_only_via_send_aa_no_response _)
    | |- usb_only cmd_07_17 => exact (usb_only_via_send_aa_no_response _)
    | |- _ => exact (usb_only_via_send_aa _)
    end.
Qed.

(** ** Memory reads through [m addr,len] (C9, C10) *)

Lemma usb_in_length maxlen w :
  (length (snd (fst (usb_in maxlen w))) <= maxlen)%nat.
Proof.
  unfold usb_in. simpl.
  destruct (in_results w) as [|[r d] i]; simpl; [lia|].
  destruct (r <? 0); simpl; [lia|]. rewrite length_take. lia.
Qed.

(** The gathering loop never counts more than the 256 bytes of the buffer. *)
Lemma read_more_packets_bound fuel : forall te tr pn w,
  tr <= 256 -> snd (fst (read_more_packets fuel te tr pn w)) <= 256.
Proof.
  induction fuel as [|f IH]; intros te tr pn w Htr; [done|].
  rewrite read_more_packets_S.
  destruct ((tr <? te) && (tr <? 256) && (pn <? 10)); [|done].
  destruct (256 - tr <=? 0) eqn:Espace; [done|]. apply Z.leb_gt in Espace.
  unfold mbind, M_bind at 1.
  pose proof (usb_in_length (Z.to_nat (256 - tr)) w) as Hlen.
  destruct (usb_in (Z.to_nat (256 - tr)) w) as [[r chunk] w1]. simpl in Hlen.
  unfold mbind, M_bind, modify. 
  destruct (r <? 0); [done|].
  destruct (Z.of_nat (length chunk) <? 256 - tr); [simpl; lia|].
  apply IH. lia.
Qed.

(** A read of more than 251 bytes cannot pass the response validator: the
    reader never holds more than 256 bytes, header included. *)
Lemma cmd_0717_read_memory_too_long addr len buffer buffer_size w :
  251 < u16 len ->
  fst (fst (cmd_0717_read_memory addr len buffer buffer_size w)) = -1.
Proof.
  intros Hlen. unfold cmd_0717_read_memory.
  destruct (buffer_size <? u16 len); [done|].
  unfold mbind, M_bind at 1. unfold with_cmd_buffer.
  unfold mbind, M_bind at 1.
  destruct (usb_out _ _) as [r w1].
  destruct (negb (r =? 0)); [done|].
  unfold mbind, M_bind at 1.
  pose proof (usb_in_length 256 w1) as Hrx.
  destruct (usb_in 256 w1) as [[r1 rx] w2]. simpl in Hrx.
  unfold mbind, M_bind at 1. unfold modify.
  destruct (r1 <? 0); [done|].
  destruct (Z.of_nat (length rx) <? 4); [done|].
  unfold mbind, M_bind at 1. unfold get.
  unfold mbind, M_bind at 1.
  match goal with
  | |- context [read_more_packets 8 ?te ?tr ?pn ?w] =>
      pose proof (read_more_packets_bound 8 te tr pn w ltac:(lia)) as Hb;
      destruct (read_more_packets 8 te tr pn w) as [[r2 total] w3]
  end.
  simpl in Hb.
  destruct (r2 <? 0); [done|].
  unfold mbind, M_bind at 1.
  unfold validate_response.
  assert ((total <? 5 + u16 len) = true) as -> by (apply Z.ltb_lt; lia).
  done.
Qed.

(** C10.  An [m addr,len] packet whose length exceeds 2048 is clamped to
    2048 bytes, but the clamped read is handed to [cmd_0717_read_memory] in
    one piece, and that reader cannot validate more than 251 data bytes:
    whatever the pod answers, the reply is [E05], not 4096 hex characters. *)
Theorem handle_read_memory_clamped_read_fails (data comma : string) (w : world) :
  strchr data "," = Some comma ->
  MAX_PACKET_SIZE / 2 < u32 (strtoul16 (string_tail comma)) ->
  tx (snd (handle_read_memory data w)) = tx w ++ [rsp_frame "E05"].
Proof.
  intros Hc Hlen. unfold handle_read_memory. rewrite Hc.
  apply Z.ltb_lt in Hlen. rewrite Hlen.
  unfold mbind, M_bind at 1. unfold malloc at 1.
  unfold mbind, M_bind at 1.
  match goal with
  | |- context [cmd_0717_read_memory ?a ?l ?b ?s ?w0] =>
      pose proof (cmd_0717_read_memory_too_long a l b s w0) as Hfail;
      pose proof (usb_only_cmd_0717_read_memory a l b s w0) as Hframe;
      destruct (cmd_0717_read_memory a l b s w0) as [[r b'] w1]
  end.
  simpl in Hfail, Hframe.
  assert (Hr : r = -1) by (apply Hfail; reflexivity). subst r.
  simpl. unfold gdb_state in Hframe.
  assert (tx w1 = tx w) as -> by congruence.
  reflexivity.
Qed.

Lemma handle_read_memory_clamped_read_fails_witness :
  tx (snd (handle_read_memory "0,801" world_after_reset))
  = tx world_after_reset ++ [rsp_frame "E05"].
Proof.
  apply (handle_read_memory_clamped_read_fails "0,801" ",801" world_after_reset);
    [reflexivity | vm_compute; reflexivity].
Defined.

(** C9, as the code has it.  The length field of [m addr,len] is read by
    [strtoul(.., 16)], so [m 0,10] asks for 0x10 = 16 bytes.  With a pod
    whose OUT transfer succeeds and which answers with a well-formed
    response carrying 0xFF in every data byte, the reply is 32 characters
    [f]. *)
Theorem handle_read_memory_erased_flash (w : world) (m0 m1 p0 p1 : Z)
    (rest : list (Z * list Z)) :
  next_out_ok w = true ->
  in_results w = (0, erased_flash_response m0 m1 4 p0 p1) :: rest ->
  accepted_magic m0 m1 ->
  tx (snd (handle_read_memory " 0,10" w))
  = tx w ++ [rsp_frame "ffffffffffffffffffffffffffffffff"].
Proof.
  intros Hout Hin Hm.
  destruct w as [buf outs ins snt rd sj hj txs sc th sp pc ri].
  unfold next_out_ok in Hout. cbn [out_results in_results] in Hout, Hin.
  subst ins.
  destruct Hm as [[-> ->]|[-> ->]]; destruct outs as [|r o];
    try (apply Z.eqb_eq in Hout; subst r);
    vm_compute; reflexivity.
Qed.

Lemma handle_read_memory_erased_flash_witness :
  tx (snd (handle_read_memory " 0,10" erased_flash_world))
  = tx erased_flash_world ++ [rsp_frame "ffffffffffffffffffffffffffffffff"].
Proof.
  apply (handle_read_memory_erased_flash erased_flash_world 0x99 0x66 0 0 []);
    [reflexivity | reflexivity | left; split; reflexivity].
Defined.

(** C9 as stated fails: on erased flash the reply to [m 0,10] is not the
    20-character string. *)
Lemma handle_read_memory_not_20_chars :
  tx (snd (handle_read_memory " 0,10" erased_flash_world))
  <> tx erased_flash_world ++ [rsp_frame "ffffffffffffffffffff"].
Proof. vm_compute. discriminate. Qed.

(** ** RSP binary escaping (C8) *)

Lemma unescape_loop_spec fuel : forall data rp wp,
  (wp <= rp)%nat -> (rp <= length data)%nat -> (length data - rp <= fuel)%nat ->
  let (d, n) := unescape_loop fuel data (length data) rp wp in
  take n d = take wp data ++ unescape_list (drop rp data).
Proof.
  induction fuel as [|f IH]; intros data rp wp Hw Hr Hf.
  - simpl. rewrite drop_ge by lia. by rewrite app_nil_r.
  - simpl. destruct (rp <? length data)%nat eqn:Erp.
    2:{ apply Nat.ltb_ge in Erp. rewrite drop_ge by lia. by rewrite app_nil_r. }
    apply Nat.ltb_lt in Erp.
    destruct (lookup_lt_is_Some_2 data rp Erp) as [x Hx].
    rewrite (drop_S _ _ _ Hx).
    assert (Hbx : byte_at data rp = x) by (unfold byte_at; by rewrite Hx).
    rewrite !Hbx.
    destruct ((x =? 0x7d) && (rp + 1 <? length data)%nat) eqn:Eesc.
    + apply andb_true_iff in Eesc as [Ex Enext].
      apply Nat.ltb_lt in Enext.
      destruct (lookup_lt_is_Some_2 data (S rp) ltac:(lia)) as [y Hy].
      rewrite (drop_S _ _ _ Hy). cbn [unescape_list]. rewrite Ex.
      set (v := u8 (Z.lxor (byte_at data (rp + 1)) 32)).
      assert (Hv : v = u8 (Z.lxor y 32)).
      { subst v. unfold byte_at. replace (rp + 1)%nat with (S rp) by lia.
        by rewrite Hy. }
      specialize (IH (<[wp := v]> data) (rp + 2)%nat (S wp)).
      rewrite length_insert in IH.
      specialize (IH ltac:(lia) ltac:(lia) ltac:(lia)).
      destruct (unescape_loop f _ _ _ _) as [d n]. rewrite IH.
      rewrite drop_insert_lt by lia.
      replace (rp + 2)%nat with (S (S rp)) by lia.
      rewrite (take_S_r _ _ v) by (apply list_lookup_insert_eq; lia).
      rewrite take_insert_ge by lia. rewrite <- app_assoc. by rewrite Hv.
    + assert (Hsimple : unescape_list (x :: drop (S rp) data)
                        = x :: unescape_list (drop (S rp) data)).
      { cbn [unescape_list]. destruct (drop (S rp) data) as [|y t] eqn:Ed; [done|].
        destruct (x =? 0x7d) eqn:Ex; [|done].
        exfalso. simpl in Eesc.
        apply Nat.ltb_ge in Eesc.
        assert (length (drop (S rp) data) = 0%nat)
          by (rewrite length_drop; lia).
        rewrite Ed in H. simpl in H. lia. }
      rewrite Hsimple.
      specialize (IH (<[wp := x]> data) (S rp) (S wp)).
      rewrite length_insert in IH.
      specialize (IH ltac:(lia) ltac:(lia) ltac:(lia)).
      destruct (unescape_loop f _ _ _ _) as [d n]. rewrite IH.
      rewrite drop_insert_lt by lia.
      rewrite (take_S_r _ _ x) by (apply list_lookup_insert_eq; lia).
      rewrite take_insert_ge by lia. by rewrite <- app_assoc.
Qed.

Lemma rsp_unescaped_unescape_list data :
  rsp_unescaped data = unescape_list data.
Proof.
  unfold rsp_unescaped, rsp_unescape_binary.
  pose proof (unescape_loop_spec (length data) data 0 0
                ltac:(lia) ltac:(lia) ltac:(lia)) as H.
  destruct (unescape_loop _ _ _ _ _) as [d n]. by rewrite H.
Qed.

Lemma unescape_list_escape b : unescape_list (rsp_escape b) = b.
Proof.
  induction b as [|x rest IH]; [done|].
  cbn [rsp_escape]. destruct (needs_escape x) eqn:En.
  - cbn [unescape_list]. change (125 =? 125) with true. cbv iota.
    rewrite IH. f_equal.
    unfold needs_escape in En.
    repeat (apply orb_true_iff in En as [En|En]);
      apply Z.eqb_eq in En; subst x; reflexivity.
  - assert (Hx : (x =? 0x7d) = false).
    { unfold needs_escape in En. repeat (apply orb_false_iff in En as [En ?]).
      done. }
    cbn [unescape_list].
    destruct (rsp_escape rest) as [|y t] eqn:Ee.
    + by rewrite <- IH.
    + rewrite Hx. by rewrite <- IH.
Qed.

(** C8.  For every byte array [b], the in-place decoder
    [rsp_unescape_binary], run over the reference RSP escape of [b] (each
    byte of [{0x23, 0x24, 0x2A, 0x7D}] replaced by 0x7D and the byte XOR
    0x20), leaves exactly [b] in the first [write_pos] cells. *)
Theorem rsp_unescape_escape (b : list Z) :
  let e := rsp_escape b in
  let (d, n) := rsp_unescape_binary e (length e) in
  take n d = b.
Proof.
  pose proof (rsp_unescaped_unescape_list (rsp_escape b)) as H.
  unfold rsp_unescaped in H. cbv zeta.
  destruct (rsp_unescape_binary _ _) as [d n].
  by rewrite H, unescape_list_escape.
Qed.
(** ** The CRC of [qCRC] (C4) *)

Lemma u32_testbit x i : Z.testbit (u32 x) i = (i <? 32) && Z.testbit x i.
Proof.
  unfold u32. change 4294967296 with (2 ^ 32).
  apply Z.testbit_mod_pow2. lia.
Qed.

Lemma u32_small x : 0 <= x < 2 ^ 32 -> u32 x = x.
Proof. intros H. unfold u32. apply Z.mod_small. lia. Qed.

Lemma u32_range x : 0 <= u32 x < 2 ^ 32.
Proof. unfold u32. apply Z.mod_pos_bound. lia. Qed.


Lemma testbit_high_false y n : 0 <= y < 2 ^ n -> 0 <= n -> Z.testbit y n = false.
Proof.
  intros Hy Hn. destruct (Z.eq_dec y 0) as [->|Hne]; [apply Z.bits_0|].
  apply Z.bits_above_log2; [lia|]. apply Z.log2_lt_pow2; lia.
Qed.

Lemma testbit_high_false_ge y n i :
  0 <= y < 2 ^ n -> 0 <= n <= i -> Z.testbit y i = false.
Proof.
  intros Hy Hn. apply testbit_high_false; [|lia].
  split; [lia|]. apply Z.lt_le_trans with (2 ^ n); [lia|].
  apply Z.pow_le_mono_r; lia.
Qed.











(** ** Single-stepping and the two-step workaround (C6) *)

Create HintDb calm.

Lemma calm_ret {A} (a : A) : calm (mret a).
Proof. intros w. split; [done|]. exists []. by rewrite app_nil_r. Qed.

Lemma calm_bind {A B} (m : M A) (f : A -> M B) :
  calm m -> (forall a, calm (f a)) -> calm (m ≫= f).
Proof.
  intros Hm Hf w. unfold mbind, M_bind.
  destruct (Hm w) as [Hc [l Hl]]. destruct (m w) as [a w1]. simpl in *.
  destruct (Hf a w1) as [Hc' [l' Hl']].
  split; [congruence|]. exists (l ++ l'). rewrite Hl', Hl. by rewrite app_assoc.
Qed.

Lemma calm_quiet {A} (m : M A) :
  (forall w, g_step_count (snd (m w)) = g_step_count w) ->
  (forall w, sent (snd (m w)) = sent w) -> calm m.
Proof.
  intros Hc Hs w. split; [apply Hc|]. exists []. by rewrite Hs, app_nil_r.
Qed.

Lemma calm_usb_out data : calm (usb_out data).
Proof. intros w. split; [done|]. by exists [data]. Qed.

Lemma calm_usb_in n : calm (usb_in n).
Proof. by apply calm_quiet. Qed.

Lemma calm_get {A} (proj : world -> A) : calm (get proj).
Proof. by apply calm_quiet. Qed.

Lemma calm_with_cmd_buffer f : calm (with_cmd_buffer f).
Proof. by apply calm_quiet. Qed.

Lemma calm_set_buffer (f : world -> list Z) :
  calm (modify (fun w => set_buffer (f w) w)).
Proof. by apply calm_quiet. Qed.

Lemma calm_set_buffer_const b : calm (modify (set_buffer b)).
Proof. by apply calm_quiet. Qed.

Lemma calm_set_register_cache sp pc : calm (modify (set_register_cache sp pc)).
Proof. by apply calm_quiet. Qed.

Lemma calm_set_target_halted h : calm (modify (set_target_halted h)).
Proof. by apply calm_quiet. Qed.

Lemma calm_send_packet s : calm (send_packet s).
Proof. by apply calm_quiet. Qed.

Lemma calm_code_of {A} (m : M (Z * A)) : calm m -> calm (code_of m).
Proof. intros H w. apply H. Qed.
#[local] Hint Resolve calm_code_of : calm.

Ltac calm_step :=
  first
    [ assumption
    | solve [auto 3 with calm nocore]
    | simple apply calm_ret | simple apply calm_usb_out | simple apply calm_usb_in
    | simple apply calm_get | simple apply calm_with_cmd_buffer
    | simple apply calm_set_buffer | simple apply calm_set_buffer_const
    | simple apply calm_set_register_cache | simple apply calm_set_target_halted
    | simple apply calm_send_packet
    | simple apply calm_bind; [|intros ?]
    | match goal with
      | |- calm (if ?b then _ else _) => destruct b
      | |- calm (match ?x with _ => _ end) => destruct x
      | |- calm (let _ := _ in _) => cbv zeta
      end ].

Ltac calm_tac := repeat calm_step.

Lemma calm_send_aa_command cmd : calm (send_aa_command cmd).
Proof. unfold send_aa_command. calm_tac. Qed.
#[local] Hint Resolve calm_send_aa_command : calm.

Lemma calm_via_send_aa f : calm (cmd ← with_cmd_buffer f; send_aa_command cmd).
Proof.
  apply calm_bind; [apply calm_with_cmd_buffer|].
  intros ?. apply calm_send_aa_command.
Qed.
#[local] Hint Resolve calm_via_send_aa : calm.

Lemma calm_read_more_packets fuel : forall te tr pn,
  calm (read_more_packets fuel te tr pn).
Proof.
  induction fuel as [|f IH]; intros te tr pn; [apply calm_ret|].
  rewrite read_more_packets_S. calm_tac.
Qed.
#[local] Hint Resolve calm_read_more_packets : calm.

Lemma calm_cmd_0717_read_memory addr len buffer bs :
  calm (cmd_0717_read_memory addr len buffer bs).
Proof.
  unfold cmd_0717_read_memory. calm_tac.
Qed.
#[local] Hint Resolve calm_cmd_0717_read_memory : calm.

Lemma calm_cmd_bdm_freeze f : calm (cmd_bdm_freeze f).
Proof. unfold cmd_bdm_freeze. calm_tac. Qed.
#[local] Hint Resolve calm_cmd_bdm_freeze : calm.

Lemma calm_cmd_07_13 reg v : calm (cmd_07_13 reg v).
Proof. unfold cmd_07_13. calm_tac. Qed.
#[local] Hint Resolve calm_cmd_07_13 : calm.

Lemma calm_cmd_07_11_read_bdm_reg wd reg v : calm (cmd_07_11_read_bdm_reg wd reg v).
Proof. unfold cmd_07_11_read_bdm_reg. calm_tac. Qed.
#[local] Hint Resolve calm_cmd_07_11_read_bdm_reg : calm.

Lemma calm_cmd_read_memory_long_addr addr d : calm (cmd_read_memory_long_addr addr d).
Proof. unfold cmd_read_memory_long_addr. calm_tac. Qed.
#[local] Hint Resolve calm_cmd_read_memory_long_addr : calm.

Lemma calm_cmd_07_14_write_bdm_reg reg v : calm (cmd_07_14_write_bdm_reg reg v).
Proof. apply calm_via_send_aa. Qed.
#[local] Hint Resolve calm_cmd_07_14_write_bdm_reg : calm.

Lemma calm_cmd_enter_mode mode : calm (cmd_enter_mode mode).
Proof. apply calm_via_send_aa. Qed.
#[local] Hint Resolve calm_cmd_enter_mode : calm.

Lemma calm_cmd_07_12 p : calm (cmd_07_12 p).
Proof. apply calm_via_send_aa. Qed.
#[local] Hint Resolve calm_cmd_07_12 : calm.

Lemma calm_cmd_bdm_halt : calm cmd_bdm_halt.
Proof. apply calm_via_send_aa. Qed.
#[local] Hint Resolve calm_cmd_bdm_halt : calm.

Lemma calm_cmd_07_02_bdm_go : calm cmd_07_02_bdm_go.
Proof. apply calm_via_send_aa. Qed.
#[local] Hint Resolve calm_cmd_07_02_bdm_go : calm.

Lemma calm_cmd_write_pc v : calm (cmd_write_pc v).
Proof.
  unfold cmd_write_pc.
  apply calm_bind; [apply calm_cmd_07_14_write_bdm_reg|].
  intros r. destruct (negb (r =? 0)); [apply calm_ret | apply calm_cmd_07_12].
Qed.
#[local] Hint Resolve calm_cmd_write_pc : calm.

Lemma calm_init_register_cache : calm init_register_cache.
Proof.
  unfold init_register_cache. calm_tac.
Qed.
#[local] Hint Resolve calm_init_register_cache : calm.

Lemma calm_read_cpu_register reg v : calm (read_cpu_register reg v).
Proof.
  unfold read_cpu_register, cmd_read_pc, cmd_read_sr. calm_tac.
Qed.
#[local] Hint Resolve calm_read_cpu_register : calm.

Lemma calm_write_cpu_register reg v : calm (write_cpu_register reg v).
Proof.
  unfold write_cpu_register. calm_tac.
Qed.
#[local] Hint Resolve calm_write_cpu_register : calm.

Lemma calm_read_csr v : calm (read_csr v).
Proof. apply calm_cmd_07_13. Qed.
#[local] Hint Resolve calm_read_csr : calm.

Lemma calm_write_csr v : calm (write_csr v).
Proof. apply calm_cmd_07_14_write_bdm_reg. Qed.
#[local] Hint Resolve calm_write_csr : calm.

Lemma calm_step_poll_halt n : calm (step_poll_halt n).
Proof.
  induction n as [|n IH]; [apply calm_ret|].
  cbn [step_poll_halt].
  apply calm_bind; [apply calm_cmd_bdm_freeze|].
  intros [r f]. destruct (negb (f =? 0)); [apply calm_ret | apply IH].
Qed.
#[local] Hint Resolve calm_step_poll_halt : calm.

Lemma calm_handle_step_set_pc data : calm (handle_step_set_pc data).
Proof.
  unfold handle_step_set_pc.
  destruct data as [[|c rest]|]; try apply calm_ret.
  apply calm_write_cpu_register.
Qed.
#[local] Hint Resolve calm_handle_step_set_pc : calm.

Lemma calm_handle_step_arm : calm handle_step_arm.
Proof.
  unfold handle_step_arm. calm_tac.
Qed.
#[local] Hint Resolve calm_handle_step_arm : calm.

Lemma cmd_0717_read_memory_sent addr len buffer bs w :
  u16 len <= bs ->
  sent (snd (cmd_0717_read_memory addr len buffer bs w))
  = sent w ++ [cmd_0717_read_memory_request addr (u16 len) (g_cmd_buffer w)].
Proof.
  intros Hbs. unfold cmd_0717_read_memory. run.
  assert ((bs <? u16 len) = false) as -> by (apply Z.ltb_ge; lia).
  simpl. split_cases; try done;
    match goal with
    | H : read_more_packets _ _ _ _ _ = (_, _) |- _ =>
        apply (f_equal snd) in H; simpl in H;
        by rewrite <- H, read_more_packets_sent
    end.
Qed.

Lemma init_register_cache_sent w :
  sent (snd (init_register_cache w))
  = sent w ++ (if g_registers_initialized w =? 0
               then [cmd_0717_read_memory_request 0 8 (g_cmd_buffer w)] else []).
Proof.
  unfold init_register_cache. unfold mbind, M_bind at 1. unfold get at 1.
  destruct (g_registers_initialized w =? 0); cbn [negb].
  2:{ simpl. by rewrite app_nil_r. }
  unfold mbind, M_bind at 1. unfold get at 1.
  unfold mbind, M_bind at 1.
  pose proof (cmd_0717_read_memory_sent 0 8 (take 8 (fit256 (stack_junk w))) 8 w
                ltac:(vm_compute; discriminate)) as Hs.
  destruct (cmd_0717_read_memory _ _ _ _ w) as [[r b] w1]. simpl in Hs.
  destruct (r =? 0); simpl; exact Hs.
Qed.

Lemma cmd_07_11_read_bdm_reg_sent wd reg v w :
  sent (snd (cmd_07_11_read_bdm_reg wd reg v w))
  = sent w ++ [cmd_07_11_read_bdm_reg_request wd reg (g_cmd_buffer w)].
Proof. unfold cmd_07_11_read_bdm_reg. run. split_cases; done. Qed.

(** Reading the PC: at most the one-off vector-table read, then the
    [07 11] register read. *)
Lemma read_cpu_register_pc_sent w :
  exists b0,
    sent (snd (read_cpu_register REG_PC 0 w))
    = sent w
      ++ (if g_registers_initialized w =? 0
          then [cmd_0717_read_memory_request 0 8 (g_cmd_buffer w)] else [])
      ++ [cmd_07_11_read_bdm_reg_request 0x2980 0x080F b0].
Proof.
  unfold read_cpu_register. unfold mbind, M_bind at 1.
  pose proof (init_register_cache_sent w) as Hi.
  destruct (init_register_cache w) as [[] w1]. simpl in Hi.
  change (REG_PC =? REG_PC) with true. cbv iota.
  unfold cmd_read_pc. unfold mbind, M_bind at 1.
  pose proof (cmd_07_11_read_bdm_reg_sent 0x2980 0x080F 0 w1) as Hr.
  destruct (cmd_07_11_read_bdm_reg _ _ _ w1) as [[r v] w2]. simpl in Hr.
  exists (g_cmd_buffer w1).
  destruct (negb (r =? 0)); simpl; rewrite Hr, Hi; by rewrite app_assoc.
Qed.

Lemma cmd_write_pc_sent v w :
  exists post,
    sent (snd (cmd_write_pc v w))
    = sent w ++ [cmd_07_14_write_bdm_reg_request 0x080F v (g_cmd_buffer w)] ++ post.
Proof.
  unfold cmd_write_pc. unfold mbind, M_bind at 1.
  pose proof (issue_sent (Op_07_14_write_bdm_reg 0x080F v) w) as H14.
  cbn [issue request] in H14.
  destruct (cmd_07_14_write_bdm_reg 0x080F v w) as [r w1]. simpl in H14.
  destruct (negb (r =? 0)).
  - exists []. simpl. by rewrite H14.
  - destruct (calm_cmd_07_12 0xFFFF w1) as [_ [l Hl]].
    exists l. rewrite Hl, H14. by rewrite <- app_assoc.
Qed.

(** The workaround itself: PC read, F8, F0, F8, PC write with the value
    read, counter back to 0. *)
Lemma reset_single_step_capability_trace w :
  exists b0 b1 b2 b3 b4 post,
    sent (snd (reset_single_step_capability w))
    = sent w
      ++ (if g_registers_initialized w =? 0
          then [cmd_0717_read_memory_request 0 8 (g_cmd_buffer w)] else [])
      ++ [cmd_07_11_read_bdm_reg_request 0x2980 0x080F b0;
          cmd_enter_mode_request 0xF8 b1;
          cmd_enter_mode_request 0xF0 b2;
          cmd_enter_mode_request 0xF8 b3;
          cmd_07_14_write_bdm_reg_request 0x080F
            (snd (fst (read_cpu_register REG_PC 0 w))) b4]
      ++ post.
Proof.
  unfold reset_single_step_capability. unfold mbind, M_bind at 1.
  destruct (read_cpu_register_pc_sent w) as [b0 H0].
  destruct (read_cpu_register REG_PC 0 w) as [[r saved_pc] w1]. simpl in H0.
  cbn [fst snd].
  unfold mbind, M_bind at 1.
  pose proof (issue_sent (Op_enter_mode 0xF8) w1) as H1. cbn [issue request] in H1.
  destruct (cmd_enter_mode 0xF8 w1) as [r1 w2]. simpl in H1.
  unfold mbind, M_bind at 1.
  pose proof (issue_sent (Op_enter_mode 0xF0) w2) as H2. cbn [issue request] in H2.
  destruct (cmd_enter_mode 0xF0 w2) as [r2 w3]. simpl in H2.
  unfold mbind, M_bind at 1.
  pose proof (issue_sent (Op_enter_mode 0xF8) w3) as H3. cbn [issue request] in H3.
  destruct (cmd_enter_mode 0xF8 w3) as [r3 w4]. simpl in H3.
  unfold mbind, M_bind at 1.
  change (write_cpu_register REG_PC saved_pc) with (cmd_write_pc saved_pc).
  destruct (cmd_write_pc_sent saved_pc w4) as [post H4].
  destruct (cmd_write_pc saved_pc w4) as [r4 w5]. simpl in H4.
  exists b0, (g_cmd_buffer w1), (g_cmd_buffer w2), (g_cmd_buffer w3),
         (g_cmd_buffer w4), post.
  simpl.
  rewrite H4, H3, H2, H1, H0. rewrite <- !app_assoc. reflexivity.
Qed.

Lemma reset_single_step_capability_count w :
  g_step_count (snd (reset_single_step_capability w)) = 0.
Proof.
  unfold reset_single_step_capability, mbind, M_bind.
  repeat match goal with
         | |- context [let (_, _) := ?m in _] => destruct m
         end.
  reflexivity.
Qed.

Lemma calm_counts {A} (m : M A) : calm m -> counts 0 m.
Proof. intros H w. destruct (H w) as [Hc Hl]. split; [lia | done]. Qed.

Lemma calm_then {A B} (m : M A) (f : A -> M B) d :
  calm m -> (forall a, counts d (f a)) -> counts d (m ≫= f).
Proof.
  intros Hm Hf w. unfold mbind, M_bind.
  destruct (Hm w) as [Hc [l Hl]]. destruct (m w) as [a w1]. simpl in *.
  destruct (Hf a w1) as [Hc' [l' Hl']].
  split; [lia|]. exists (l ++ l'). rewrite Hl', Hl. by rewrite app_assoc.
Qed.

Lemma counts_increment {B} (f : unit -> M B) :
  (forall a, calm (f a)) ->
  counts 1 (modify (fun w => set_step_count (g_step_count w + 1) w) ≫= f).
Proof.
  intros Hf w. unfold mbind, M_bind, modify.
  destruct (Hf tt (set_step_count (g_step_count w + 1) w)) as [Hc [l Hl]].
  split; [by rewrite Hc|]. exists l. by rewrite Hl.
Qed.

(** After GO, the rest of the step adds one to the counter. *)
Lemma handle_step_run_counts pc_before : counts 1 (handle_step_run pc_before).
Proof.
  unfold handle_step_run.
  apply calm_then; [apply calm_cmd_07_02_bdm_go | intros _].
  apply calm_then; [apply calm_step_poll_halt | intros halted].
  apply calm_then; [calm_tac | intros _].
  apply calm_then; [apply calm_read_csr | intros [r csr]].
  apply calm_then; [calm_tac | intros _].
  apply calm_then; [apply calm_read_cpu_register | intros [r' pc_after]].
  apply calm_then; [calm_tac | intros _].
  apply counts_increment. intros _. calm_tac.
Qed.

(** GO is the first request of the last part. *)
Lemma handle_step_run_sent pc_before w :
  exists rest,
    sent (snd (handle_step_run pc_before w))
    = sent w ++ cmd_07_02_bdm_go_request (g_cmd_buffer w) :: rest.
Proof.
  unfold handle_step_run. unfold mbind, M_bind at 1.
  pose proof (issue_sent Op_07_02_bdm_go w) as Hgo. cbn [issue request] in Hgo.
  destruct (cmd_07_02_bdm_go w) as [r w1]. simpl in Hgo.
  match goal with
  | |- context [sent (snd (?k w1))] =>
      assert (Hk : counts 1 k)
  end.
  { apply calm_then; [apply calm_step_poll_halt | intros halted].
    apply calm_then; [calm_tac | intros _].
    apply calm_then; [apply calm_read_csr | intros [r0 csr]].
    apply calm_then; [calm_tac | intros _].
    apply calm_then; [apply calm_read_cpu_register | intros [r' pc_after]].
    apply calm_then; [calm_tac | intros _].
    apply counts_increment. intros _. calm_tac. }
  destruct (Hk w1) as [_ [l Hl]]. exists l.
  rewrite Hl, Hgo. by rewrite <- app_assoc.
Qed.

Lemma handle_step_workaround_count w :
  g_step_count (snd (handle_step_workaround w))
  = if 2 <=? g_step_count w then 0 else g_step_count w.
Proof.
  unfold handle_step_workaround. unfold mbind, M_bind, get.
  destruct (2 <=? g_step_count w); [|done].
  apply reset_single_step_capability_count.
Qed.

Lemma handle_step_unfold data w :
  handle_step data w
  = let w0 := snd (handle_step_set_pc data w) in
    let w1 := snd (handle_step_workaround w0) in
    let arm := handle_step_arm w1 in
    if negb (fst (fst arm) =? 0) then send_packet "S05" (snd arm)
    else handle_step_run (snd (fst arm)) (snd arm).
Proof.
  unfold handle_step, mbind, M_bind. cbv zeta.
  destruct (handle_step_set_pc data w) as [r0 w0]; cbn [fst snd].
  destruct (handle_step_workaround w0) as [[] w1]; cbn [fst snd].
  destruct (handle_step_arm w1) as [[r pc] w2]; cbn [fst snd].
  by destruct (negb (r =? 0)).
Qed.

(** *** No GO before the step is armed, none after the step's own *)

Lemma poke_lookup_Some vs : forall i a (k : nat) v,
  (k < length vs)%nat -> poke i vs a !! (i + k)%nat = Some v -> vs !! k = Some v.
Proof.
  induction vs as [|v0 vs IH]; intros i a k v Hk H; simpl in *; [lia|].
  destruct k as [|k].
  - rewrite Nat.add_0_r, poke_lookup_before in H by lia.
    apply list_lookup_insert_Some in H. destruct H as [(_ & <- & _)|[H _]]; [done|lia].
  - replace (i + S k)%nat with (S i + k)%nat in H by lia.
    apply (IH (S i) (<[i:=v0]> a) k v); [lia|exact H].
Qed.

Lemma pad_pairs_lookup_lt from a b cmd (j : nat) :
  (j < from)%nat -> pad_pairs from a b cmd !! j = cmd !! j.
Proof.
  intros Hj. unfold pad_pairs.
  assert (Hall : Forall (fun i => (from <= i)%nat) (loop_indices 256 from 256 2)).
  { generalize 256%nat at 1. intros fuel. revert from Hj.
    induction fuel as [|f IH]; intros from Hj; simpl; [constructor|].
    destruct (from <? 256)%nat; [|constructor].
    constructor; [lia|].
    assert (Hj' : (j < from + 2)%nat) by lia.
    eapply Forall_impl; [apply (IH (from + 2)%nat Hj')|]. simpl. intros; lia. }
  revert cmd. induction Hall as [|i l Hi _ IH]; intros cmd; [reflexivity|].
  cbn [foldl]. rewrite IH.
  destruct (i + 1 <? 256)%nat; rewrite ?list_lookup_insert_ne by lia; reflexivity.
Qed.

(** A request built over a header whose command bytes are not [07 02] is
    no BDM GO, whatever the buffer held. *)
Lemma not_go_poke hdr a :
  (5 < length hdr)%nat -> hdr !! 5%nat <> Some 0x02 \/ hdr !! 4%nat <> Some 0x07 ->
  ~ bdm_go_request (poke 0 hdr a).
Proof.
  intros Hl Hh [H4 H5].
  apply (poke_lookup_Some hdr 0 a 4) in H4; [|lia].
  apply (poke_lookup_Some hdr 0 a 5) in H5; [|lia].
  destruct Hh; congruence.
Qed.

Lemma not_go_request X b : X <> Op_07_02_bdm_go -> ~ bdm_go_request (request X b).
Proof.
  intros HX.
  destruct X;
    lazymatch type of HX with
    | Op_07_02_bdm_go <> Op_07_02_bdm_go => by destruct HX
    | _ => idtac
    end; cbn [request];
    lazymatch goal with
    | |- ~ bdm_go_request ?t => let h := head_of t in unfold h
    end; cbv zeta;
    lazymatch goal with
    | |- ~ bdm_go_request (poke 0 _ _) =>
        apply not_go_poke; [simpl; lia|left; discriminate]
    | _ =>
        intros [H4 H5];
        rewrite ?pad_pairs_lookup_lt in H5 by lia;
        rewrite ?poke_lookup_before in H5 by lia;
        apply (poke_lookup_Some _ 0 _ 5) in H5; [discriminate H5|simpl; lia]
    end.
Qed.

Lemma go_free_ret {A} (a : A) : go_free (mret a).
Proof. intros w. exists []. split; [by rewrite app_nil_r|constructor]. Qed.

Lemma go_free_bind {A B} (m : M A) (f : A -> M B) :
  go_free m -> (forall a, go_free (f a)) -> go_free (m ≫= f).
Proof.
  intros Hm Hf w. unfold mbind, M_bind.
  destruct (Hm w) as (l & Hl & Fl). destruct (m w) as [a w1]. simpl in *.
  destruct (Hf a w1) as (l' & Hl' & Fl').
  exists (l ++ l'). split; [rewrite Hl', Hl; by rewrite app_assoc|].
  by apply Forall_app.
Qed.

Lemma go_free_quiet {A} (m : M A) :
  (forall w, sent (snd (m w)) = sent w) -> go_free m.
Proof. intros Hs w. exists []. split; [by rewrite Hs, app_nil_r|constructor]. Qed.

Lemma go_free_one {A} (m : M A) (req : world -> list Z) :
  (forall w, sent (snd (m w)) = sent w ++ [req w]) ->
  (forall w, ~ bdm_go_request (req w)) -> go_free m.
Proof.
  intros Hs Hr w. exists [req w]. split; [apply Hs|].
  constructor; [apply Hr|constructor].
Qed.

Lemma go_free_issue X : X <> Op_07_02_bdm_go -> go_free (issue X).
Proof.
  intros HX. apply (go_free_one _ (fun w => request X (g_cmd_buffer w))).
  - apply issue_sent.
  - intros w. by apply not_go_request.
Qed.

Lemma go_free_code_of {A} (m : M (Z * A)) : go_free m -> go_free (code_of m).
Proof. intros H w. apply H. Qed.

Create HintDb gofree.

Lemma go_free_cmd_07_13 reg v : go_free (cmd_07_13 reg v).
Proof.
  apply (go_free_one _ (fun w => cmd_07_13_request reg (g_cmd_buffer w))).
  - intros w. unfold cmd_07_13. run. split_cases; done.
  - intros w. apply (not_go_request (Op_07_13 reg)). discriminate.
Qed.
#[local] Hint Resolve go_free_cmd_07_13 : gofree.

Lemma go_free_cmd_07_11_read_bdm_reg wd reg v : go_free (cmd_07_11_read_bdm_reg wd reg v).
Proof.
  apply (go_free_one _ (fun w => cmd_07_11_read_bdm_reg_request wd reg (g_cmd_buffer w))).
  - intros w. apply cmd_07_11_read_bdm_reg_sent.
  - intros w. apply (not_go_request (Op_07_11_read_bdm_reg wd reg)). discriminate.
Qed.
#[local] Hint Resolve go_free_cmd_07_11_read_bdm_reg : gofree.

Lemma go_free_cmd_bdm_freeze f : go_free (cmd_bdm_freeze f).
Proof.
  apply (go_free_one _ (fun w => cmd_bdm_freeze_request (g_cmd_buffer w))).
  - intros w. unfold cmd_bdm_freeze. run. split_cases; done.
  - intros w. apply (not_go_request Op_bdm_freeze). discriminate.
Qed.
#[local] Hint Resolve go_free_cmd_bdm_freeze : gofree.

Lemma go_free_cmd_read_memory_long_addr addr d :
  go_free (cmd_read_memory_long_addr addr d).
Proof.
  apply (go_free_one _ (fun w => cmd_read_memory_long_addr_request addr (g_cmd_buffer w))).
  - intros w. unfold cmd_read_memory_long_addr. run. split_cases; done.
  - intros w. apply (not_go_request (Op_read_memory_long_addr addr)). discriminate.
Qed.
#[local] Hint Resolve go_free_cmd_read_memory_long_addr : gofree.

Lemma go_free_cmd_0717_read_memory addr len buffer bs :
  go_free (cmd_0717_read_memory addr len buffer bs).
Proof.
  destruct (bs <? u16 len) eqn:E.
  - apply go_free_quiet. intros w. unfold cmd_0717_read_memory. cbv zeta.
    by rewrite E.
  - apply (go_free_one _ (fun w => cmd_0717_read_memory_request addr (u16 len)
                                     (g_cmd_buffer w))).
    + intros w. apply cmd_0717_read_memory_sent. by apply Z.ltb_ge.
    + intros w. apply (not_go_request (Op_0717_read_memory addr len)). discriminate.
Qed.
#[local] Hint Resolve go_free_cmd_0717_read_memory : gofree.

Lemma go_free_cmd_07_14_write_bdm_reg reg v : go_free (cmd_07_14_write_bdm_reg reg v).
Proof. apply (go_free_issue (Op_07_14_write_bdm_reg reg v)). discriminate. Qed.
#[local] Hint Resolve go_free_cmd_07_14_write_bdm_reg : gofree.

Lemma go_free_cmd_07_12 p : go_free (cmd_07_12 p).
Proof. apply (go_free_issue (Op_07_12 p)). discriminate. Qed.
#[local] Hint Resolve go_free_cmd_07_12 : gofree.

Lemma go_free_cmd_enter_mode mode : go_free (cmd_enter_mode mode).
Proof. apply (go_free_issue (Op_enter_mode mode)). discriminate. Qed.
#[local] Hint Resolve go_free_cmd_enter_mode : gofree.

Lemma go_free_cmd_bdm_halt : go_free cmd_bdm_halt.
Proof. apply (go_free_issue Op_bdm_halt). discriminate. Qed.
#[local] Hint Resolve go_free_cmd_bdm_halt : gofree.

Lemma go_free_get {A} (proj : world -> A) : go_free (get proj).
Proof. by apply go_free_quiet. Qed.

Lemma go_free_modify (f : world -> world) :
  (forall w, sent (f w) = sent w) -> go_free (modify f).
Proof. intros H. by apply go_free_quiet. Qed.

Lemma go_free_send_packet s : go_free (send_packet s).
Proof. by apply go_free_quiet. Qed.

Ltac go_free_step :=
  first
    [ assumption
    | solve [auto 3 with gofree nocore]
    | simple apply go_free_ret
    | simple apply go_free_get
    | simple apply go_free_send_packet
    | simple apply go_free_modify; solve [intros ?; reflexivity]
    | simple apply go_free_code_of
    | simple apply go_free_bind; [|intros ?]
    | match goal with
      | |- go_free (if ?b then _ else _) => destruct b
      | |- go_free (match ?x with _ => _ end) => destruct x
      | |- go_free (let _ := _ in _) => cbv zeta
      end ].

Ltac go_free_tac := repeat go_free_step.

Lemma go_free_init_register_cache : go_free init_register_cache.
Proof. unfold init_register_cache. go_free_tac. Qed.
#[local] Hint Resolve go_free_init_register_cache : gofree.

Lemma go_free_read_cpu_register reg v : go_free (read_cpu_register reg v).
Proof. unfold read_cpu_register, cmd_read_pc, cmd_read_sr. go_free_tac. Qed.
#[local] Hint Resolve go_free_read_cpu_register : gofree.

Lemma go_free_cmd_write_pc v : go_free (cmd_write_pc v).
Proof. unfold cmd_write_pc. go_free_tac. Qed.
#[local] Hint Resolve go_free_cmd_write_pc : gofree.

Lemma go_free_write_cpu_register reg v : go_free (write_cpu_register reg v).
Proof. unfold write_cpu_register. go_free_tac. Qed.
#[local] Hint Resolve go_free_write_cpu_register : gofree.

Lemma go_free_handle_step_set_pc data : go_free (handle_step_set_pc data).
Proof.
  unfold handle_step_set_pc. destruct data as [[|c rest]|]; go_free_tac.
Qed.
#[local] Hint Resolve go_free_handle_step_set_pc : gofree.

Lemma go_free_handle_step_workaround : go_free handle_step_workaround.
Proof.
  unfold handle_step_workaround, reset_single_step_capability. go_free_tac.
Qed.
#[local] Hint Resolve go_free_handle_step_workaround : gofree.

Lemma go_free_handle_step_arm : go_free handle_step_arm.
Proof. unfold handle_step_arm, read_csr, write_csr. go_free_tac. Qed.
#[local] Hint Resolve go_free_handle_step_arm : gofree.

Lemma go_free_step_poll_halt n : go_free (step_poll_halt n).
Proof.
  induction n as [|n IH]; [apply go_free_ret|].
  cbn [step_poll_halt]. go_free_tac.
Qed.
#[local] Hint Resolve go_free_step_poll_halt : gofree.

(** After GO, the rest of the step issues no further GO. *)
Lemma handle_step_run_trace pc_before w :
  exists rest,
    sent (snd (handle_step_run pc_before w))
    = sent w ++ cmd_07_02_bdm_go_request (g_cmd_buffer w) :: rest
    /\ Forall (fun req => ~ bdm_go_request req) rest.
Proof.
  unfold handle_step_run. unfold mbind, M_bind at 1.
  pose proof (issue_sent Op_07_02_bdm_go w) as Hgo. cbn [issue request] in Hgo.
  destruct (cmd_07_02_bdm_go w) as [r w1]. simpl in Hgo.
  match goal with
  | |- context [sent (snd (?k w1))] => assert (Hk : go_free k)
  end.
  { unfold read_csr, write_csr. go_free_tac. }
  destruct (Hk w1) as (l & Hl & Fl). exists l.
  split; [|exact Fl]. rewrite Hl, Hgo. by rewrite <- app_assoc.
Qed.

(** When the step is armed, the last request before GO is the CSR write
    that sets SSM. *)
Lemma handle_step_arm_armed w :
  fst (fst (handle_step_arm w)) = 0 ->
  exists csr b pre,
    sent (snd (handle_step_arm w))
    = pre ++ [cmd_07_14_write_bdm_reg_request CSR_WRITE (Z.lor csr CSR_SSM) b].
Proof.
  remember (handle_step_arm w) as res eqn:E. revert E.
  unfold handle_step_arm. unfold mbind at 1, M_bind at 1.
  destruct (read_cpu_register REG_PC 0 w) as [[r0 pc] w1].
  unfold mbind at 1, M_bind at 1.
  destruct (read_csr 0 w1) as [[r csr] w2].
  destruct (negb (r =? 0)); [by intros ->|]. cbv zeta.
  unfold mbind at 1, M_bind at 1. unfold write_csr.
  pose proof (issue_sent (Op_07_14_write_bdm_reg CSR_WRITE (Z.lor csr CSR_SSM)) w2)
    as Hw. cbn [issue request] in Hw.
  destruct (cmd_07_14_write_bdm_reg CSR_WRITE (Z.lor csr CSR_SSM) w2) as [r' w3].
  cbn [snd] in Hw.
  destruct (negb (r' =? 0)); [by intros ->|]. intros -> _. cbn [snd].
  exists csr, (g_cmd_buffer w2), (sent w2). exact Hw.
Qed.

(** C6.  Let the step counter be 0, 1 or 2 when a step request arrives, and
    let [c] be 0 if it is 2 and the counter itself otherwise.  Then [c] is
    0 or 1, and [handle_step] behaves as follows.
    - Up to the point where the step is armed (state [w2]) it sends no
      GO, and the counter is [c] there.  If the counter was 2, the requests
      sent so far contain the workaround: after the optional PC write of
      the packet (state [w0]) and the one-off read of the vector table, the
      PC is read, modes F8, F0, F8 are entered, and the PC that was read is
      written back.
    - If arming succeeds, the last request before GO is the CSR write with
      SSM set; then the handler sends GO, exactly once, and it returns with
      the counter at [c + 1].  So GO with SSM set is issued with a counter
      of at most 1.
    - If arming fails (the CSR cannot be read or written), the handler
      sends nothing more, no GO at all, and the counter stays [c].
    - In every case the counter is 0, 1 or 2 on return. *)
Theorem handle_step_counter_discipline (data : option string) (w : world) :
  0 <= g_step_count w <= 2 ->
  let w' := snd (handle_step data w) in
  let w0 := snd (handle_step_set_pc data w) in
  let w1 := snd (handle_step_workaround w0) in
  let armed := handle_step_arm w1 in
  let w2 := snd armed in
  let c := if 2 <=? g_step_count w then 0 else g_step_count w in
  0 <= c <= 1
  /\ 0 <= g_step_count w' <= 2
  /\ g_step_count w2 = c
  /\ (exists pre,
        sent w2 = sent w ++ pre /\ Forall (fun req => ~ bdm_go_request req) pre)
  /\ (g_step_count w = 2 ->
        exists b0 b1 b2 b3 b4 post,
          sent w2
          = sent w0
            ++ (if g_registers_initialized w0 =? 0
                then [cmd_0717_read_memory_request 0 8 (g_cmd_buffer w0)] else [])
            ++ [cmd_07_11_read_bdm_reg_request 0x2980 0x080F b0;
                cmd_enter_mode_request 0xF8 b1;
                cmd_enter_mode_request 0xF0 b2;
                cmd_enter_mode_request 0xF8 b3;
                cmd_07_14_write_bdm_reg_request 0x080F
                  (snd (fst (read_cpu_register REG_PC 0 w0))) b4]
            ++ post)
  /\ (if fst (fst armed) =? 0
      then (exists csr b pre,
              sent w2
              = pre ++ [cmd_07_14_write_bdm_reg_request CSR_WRITE
                          (Z.lor csr CSR_SSM) b])
           /\ (exists rest,
                 sent w' = sent w2 ++ cmd_07_02_bdm_go_request (g_cmd_buffer w2) :: rest
                 /\ Forall (fun req => ~ bdm_go_request req) rest)
           /\ g_step_count w' = c + 1
      else sent w' = sent w2 /\ g_step_count w' = c).
Proof.
  intros Hc w' w0 w1 armed w2 c.
  assert (H0 : g_step_count w0 = g_step_count w)
    by apply (calm_handle_step_set_pc data w).
  assert (H1 : g_step_count w1 = c).
  { subst w1 c. by rewrite handle_step_workaround_count, H0. }
  assert (H2 : g_step_count w2 = c).
  { rewrite <- H1. apply (calm_handle_step_arm w1). }
  assert (Hcb : 0 <= c <= 1).
  { subst c. destruct (Z.leb_spec 2 (g_step_count w)); lia. }
  assert (Hw' : handle_step data w
                = if negb (fst (fst armed) =? 0) then send_packet "S05" w2
                  else handle_step_run (snd (fst armed)) w2).
  { rewrite handle_step_unfold. reflexivity. }
  assert (Hlast :
    if fst (fst armed) =? 0
    then (exists csr b pre,
            sent w2
            = pre ++ [cmd_07_14_write_bdm_reg_request CSR_WRITE
                        (Z.lor csr CSR_SSM) b])
         /\ (exists rest,
               sent w' = sent w2 ++ cmd_07_02_bdm_go_request (g_cmd_buffer w2) :: rest
               /\ Forall (fun req => ~ bdm_go_request req) rest)
         /\ g_step_count w' = c + 1
    else sent w' = sent w2 /\ g_step_count w' = c).
  { subst w'. rewrite Hw'.
    destruct (fst (fst armed) =? 0) eqn:Ea; cbn [negb].
    - split; [apply handle_step_arm_armed; by apply Z.eqb_eq|].
      split; [apply handle_step_run_trace|].
      destruct (handle_step_run_counts (snd (fst armed)) w2) as [Hn _]. lia.
    - split; [reflexivity|exact H2]. }
  split; [exact Hcb|]. split.
  { destruct (fst (fst armed) =? 0); [destruct Hlast as (_ & _ & ->)
                                      |destruct Hlast as [_ ->]]; lia. }
  split; [exact H2|]. split.
  { assert (Hg : go_free (_ ← handle_step_set_pc data;
                          _ ← handle_step_workaround; handle_step_arm))
      by go_free_tac.
    destruct (Hg w) as (pre & Hpre & Fpre). exists pre. split; [|exact Fpre].
    rewrite <- Hpre. subst w2 armed w1 w0. unfold mbind, M_bind.
    destruct (handle_step_set_pc data w) as [r0 wa]. cbn [snd].
    destruct (handle_step_workaround wa) as [[] wb]. reflexivity. }
  split; [|exact Hlast].
  intros Htwo.
  destruct (calm_handle_step_arm w1) as [_ [l Hl]]. fold armed in Hl. fold w2 in Hl.
  assert (Hwork : w1 = snd (reset_single_step_capability w0)).
  { subst w1. unfold handle_step_workaround, mbind, M_bind, get.
    rewrite H0, Htwo. reflexivity. }
  destruct (reset_single_step_capability_trace w0)
    as (b0 & b1 & b2 & b3 & b4 & post & Ht).
  rewrite <- Hwork in Ht.
  exists b0, b1, b2, b3, b4, (post ++ l).
  rewrite Hl, Ht. by rewrite <- !app_assoc.
Qed.

Lemma handle_step_counter_discipline_witness :
  let w := stepping_world 2 in
  let w' := snd (handle_step None w) in
  let w0 := snd (handle_step_set_pc None w) in
  let w1 := snd (handle_step_workaround w0) in
  let armed := handle_step_arm w1 in
  let w2 := snd armed in
  let c := if 2 <=? g_step_count w then 0 else g_step_count w in
  0 <= c <= 1
  /\ 0 <= g_step_count w' <= 2
  /\ g_step_count w2 = c
  /\ (exists pre,
        sent w2 = sent w ++ pre /\ Forall (fun req => ~ bdm_go_request req) pre)
  /\ (g_step_count w = 2 ->
        exists b0 b1 b2 b3 b4 post,
          sent w2
          = sent w0
            ++ (if g_registers_initialized w0 =? 0
                then [cmd_0717_read_memory_request 0 8 (g_cmd_buffer w0)] else [])
            ++ [cmd_07_11_read_bdm_reg_request 0x2980 0x080F b0;
                cmd_enter_mode_request 0xF8 b1;
                cmd_enter_mode_request 0xF0 b2;
                cmd_enter_mode_request 0xF8 b3;
                cmd_07_14_write_bdm_reg_request 0x080F
                  (snd (fst (read_cpu_register REG_PC 0 w0))) b4]
            ++ post)
  /\ (exists csr b pre,
        sent w2
        = pre ++ [cmd_07_14_write_bdm_reg_request CSR_WRITE (Z.lor csr CSR_SSM) b])
  /\ (exists rest,
        sent w' = sent w2 ++ cmd_07_02_bdm_go_request (g_cmd_buffer w2) :: rest
        /\ Forall (fun req => ~ bdm_go_request req) rest)
  /\ g_step_count w' = c + 1.
Proof.
  assert (Harmed : (fst (fst (handle_step_arm
            (snd (handle_step_workaround
               (snd (handle_step_set_pc None (stepping_world 2))))))) =? 0) = true)
    by (vm_compute; reflexivity).
  pose proof (handle_step_counter_discipline None (stepping_world 2)
                ltac:(simpl; lia)) as H.
  cbv zeta in H. rewrite Harmed in H. exact H.
Defined.

(** ** The [vFlash] flow (C2) *)

(** C2 at a failing input.  The session [vFlashErase:0,800],
    [vFlashWrite:0:<11 22 33 44 55>], [vFlashDone] succeeds packet by
    packet, and the image of the specification is [11 22 33 44 55]; but the
    host passes the byte count 5 to a loader that programs [5 / 4 = 1]
    longwords, so the fifth byte stays erased, whatever the flash held
    before. *)
Theorem vflash_partial_word_not_programmed (m : memory) :
  fst (five_byte_session m) = ("OK", "OK", "OK")
  /\ vflash_image [(0, [0x11; 0x22; 0x33; 0x44; 0x55])]
     = [0x11; 0x22; 0x33; 0x44; 0x55]
  /\ memory_bytes (fw_mem (snd (five_byte_session m))) 0 5
     = [0x11; 0x22; 0x33; 0x44; 0xFF].
Proof. repeat split; vm_compute; reflexivity. Qed.

(** * Further properties of the code *)

(** ** Hexadecimal payloads *)

Lemma hex_to_nibble_hex_digit n :
  0 <= n < 16 -> hex_to_nibble (hex_digit n) = n.
Proof.
  intros H.
  assert (Hc : forallb (fun k => hex_to_nibble (hex_digit (Z.of_nat k)) =? Z.of_nat k)
                       (seq 0 16) = true) by (vm_compute; reflexivity).
  rewrite forallb_forall in Hc.
  specialize (Hc (Z.to_nat n)).
  rewrite Z2Nat.id in Hc by lia.
  apply Z.eqb_eq, Hc, in_seq. lia.
Qed.

Lemma hex_digit_not_nul n : 0 <= n < 16 -> (char_code (hex_digit n) =? 0) = false.
Proof.
  intros H.
  assert (Hc : forallb (fun k => negb (char_code (hex_digit (Z.of_nat k)) =? 0))
                       (seq 0 16) = true) by (vm_compute; reflexivity).
  rewrite forallb_forall in Hc.
  specialize (Hc (Z.to_nat n)).
  rewrite Z2Nat.id in Hc by lia.
  apply negb_true_iff, Hc, in_seq. lia.
Qed.

Lemma nibbles_of_byte b :
  is_byte b ->
  0 <= Z.land (Z.shiftr b 4) 15 < 16 /\ 0 <= Z.land b 15 < 16
  /\ u8 (Z.lor (Z.shiftl (Z.land (Z.shiftr b 4) 15) 4) (Z.land b 15)) = b.
Proof.
  intros H.
  assert (Hc : forallb (fun k => let b := Z.of_nat k in
                 (0 <=? Z.land (Z.shiftr b 4) 15) && (Z.land (Z.shiftr b 4) 15 <? 16)
                 && (0 <=? Z.land b 15) && (Z.land b 15 <? 16)
                 && (u8 (Z.lor (Z.shiftl (Z.land (Z.shiftr b 4) 15) 4) (Z.land b 15)) =? b))
                       (seq 0 256) = true) by (vm_compute; reflexivity).
  rewrite forallb_forall in Hc.
  specialize (Hc (Z.to_nat b)).
  rewrite Z2Nat.id in Hc by (unfold is_byte in H; lia).
  cbv zeta in Hc.
  assert (Hin : In (Z.to_nat b) (seq 0 256)) by (apply in_seq; unfold is_byte in H; lia).
  specialize (Hc Hin).
  repeat (apply andb_prop in Hc; destruct Hc as [Hc ?]).
  repeat split; try (apply Z.leb_le; assumption); try (apply Z.ltb_lt; assumption).
  by apply Z.eqb_eq.
Qed.

Lemma hex2_app b rest :
  hex2 b +:+ rest
  = String (hex_digit (Z.land (Z.shiftr b 4) 15))
           (String (hex_digit (Z.land b 15)) rest).
Proof. reflexivity. Qed.

Lemma hex_to_bytes_from_bytes_to_hex bs : forall buf (i : nat) max_bytes,
  Forall is_byte bs -> Z.of_nat (i + length bs) <= max_bytes ->
  (i + length bs <= length buf)%nat ->
  hex_to_bytes_from (bytes_to_hex_list bs) buf i max_bytes
  = (take i buf ++ bs ++ drop (i + length bs) buf, Z.of_nat (i + length bs)).
Proof.
  induction bs as [|b bs IH]; intros buf i max_bytes Hb Hmax Hlen.
  - simpl. rewrite Nat.add_0_r, take_drop. reflexivity.
  - inversion Hb as [|? ? Hb0 Hbs]; subst.
    destruct (nibbles_of_byte b Hb0) as (Hhi & Hlo & Hjoin).
    cbn [bytes_to_hex_list]. rewrite hex2_app.
    cbn [hex_to_bytes_from].
    rewrite !hex_digit_not_nul by assumption.
    rewrite !hex_to_nibble_hex_digit by assumption.
    simpl length in *.
    replace (Z.of_nat i <? max_bytes) with true by (symmetry; apply Z.ltb_lt; lia).
    cbn [negb andb].
    replace (Z.land (Z.shiftr b 4) 15 <? 0) with false by (symmetry; apply Z.ltb_ge; lia).
    replace (Z.land b 15 <? 0) with false by (symmetry; apply Z.ltb_ge; lia).
    cbn [orb]. rewrite Hjoin.
    rewrite IH; [|assumption|lia|rewrite length_insert; lia].
    f_equal; [|f_equal; lia].
    rewrite take_S_r with (x := b) by (apply list_lookup_insert_eq; lia).
    rewrite take_insert_ge by lia.
    rewrite <- app_assoc. simpl.
    rewrite drop_insert_lt by lia.
    replace (i + S (length bs))%nat with (S (i + length bs)) by lia.
    reflexivity.
Qed.

(** X1.  Decoding what [bytes_to_hex] wrote gives the bytes back:
    [hex_to_bytes] stores them over the start of its array, leaves the rest
    of the array as it was, and returns their number. *)
Theorem hex_to_bytes_bytes_to_hex (bs buf : list Z) (max_bytes : Z) :
  Forall is_byte bs -> Z.of_nat (length bs) <= max_bytes ->
  (length bs <= length buf)%nat ->
  hex_to_bytes (bytes_to_hex bs (Z.of_nat (length bs))) buf max_bytes
  = (bs ++ drop (length bs) buf, Z.of_nat (length bs)).
Proof.
  intros Hb Hmax Hlen. unfold hex_to_bytes, bytes_to_hex.
  rewrite Nat2Z.id, firstn_all.
  rewrite hex_to_bytes_from_bytes_to_hex by (simpl; assumption).
  reflexivity.
Qed.

Lemma hex_to_bytes_bytes_to_hex_witness :
  hex_to_bytes (bytes_to_hex [0xde; 0xad; 0x00] (Z.of_nat (length [0xde; 0xad; 0x00])))
               [1; 2; 3; 4] 8
  = ([0xde; 0xad; 0x00] ++ drop (length [0xde; 0xad; 0x00]) [1; 2; 3; 4],
     Z.of_nat (length [0xde; 0xad; 0x00])).
Proof.
  apply (hex_to_bytes_bytes_to_hex [0xde; 0xad; 0x00] [1; 2; 3; 4] 8).
  - repeat constructor; unfold is_byte; lia.
  - simpl; lia.
  - simpl; lia.
Defined.

Lemma hex_to_bytes_from_bounds (k : nat) : forall hex buf (i : nat) max_bytes,
  (String.length hex <= k)%nat ->
  let (b, n) := hex_to_bytes_from hex buf i max_bytes in
  Z.of_nat i <= n /\ n <= Z.max (Z.of_nat i) max_bytes
  /\ 2 * (n - Z.of_nat i) <= Z.of_nat (String.length hex)
  /\ length b = length buf
  /\ drop (Z.to_nat n) b = drop (Z.to_nat n) buf.
Proof.
  induction k as [|k IH]; intros hex buf i max_bytes Hk.
  - destruct hex as [|c0 hex]; [|simpl in Hk; lia].
    simpl. rewrite Nat2Z.id. repeat split; lia.
  - destruct hex as [|c0 [|c1 rest]];
      try (simpl; rewrite Nat2Z.id; repeat split; lia).
    cbn [hex_to_bytes_from].
    destruct (negb (char_code c0 =? 0) && negb (char_code c1 =? 0)
              && (Z.of_nat i <? max_bytes)) eqn:Hc;
      [|simpl; rewrite Nat2Z.id; repeat split; lia].
    apply andb_prop in Hc as [_ Hlt]. apply Z.ltb_lt in Hlt.
    cbv zeta.
    destruct ((hex_to_nibble c0 <? 0) || (hex_to_nibble c1 <? 0));
      [simpl; rewrite Nat2Z.id; repeat split; lia|].
    specialize (IH rest (<[i := u8 (Z.lor (Z.shiftl (hex_to_nibble c0) 4)
                                          (hex_to_nibble c1))]> buf)
                   (S i) max_bytes).
    destruct (hex_to_bytes_from rest _ (S i) max_bytes) as [b n].
    simpl in Hk. destruct IH as (H1 & H2 & H3 & H4 & H5); [lia|].
    rewrite length_insert in H4.
    simpl String.length.
    repeat split; try lia.
    rewrite H5. apply drop_insert_lt. lia.
Qed.

(** X2.  [hex_to_bytes] never stores more than [max_bytes] bytes nor more
    than the string has pairs of characters; the array keeps its length and
    every cell from the returned count on is left as it was. *)
Theorem hex_to_bytes_bounds (hex : string) (buf : list Z) (max_bytes : Z) :
  let (b, n) := hex_to_bytes hex buf max_bytes in
  0 <= n /\ n <= Z.max 0 max_bytes
  /\ 2 * n <= Z.of_nat (String.length hex)
  /\ length b = length buf
  /\ drop (Z.to_nat n) b = drop (Z.to_nat n) buf.
Proof.
  unfold hex_to_bytes.
  pose proof (hex_to_bytes_from_bounds (String.length hex) hex buf 0 max_bytes
                                       (Nat.le_refl _)) as H.
  destruct (hex_to_bytes_from hex buf 0 max_bytes) as [b n].
  destruct H as (H1 & H2 & H3 & H4 & H5).
  repeat split; try assumption; lia.
Qed.

(** ** RSP binary payloads *)

Lemma unescape_loop_bounds fuel : forall data len rp wp,
  (wp <= rp)%nat -> (rp <= len)%nat -> (len - rp <= fuel)%nat ->
  let (d, n) := unescape_loop fuel data len rp wp in
  (wp <= n)%nat /\ (n - wp <= len - rp)%nat /\ (len - rp <= 2 * (n - wp))%nat
  /\ length d = length data /\ drop len d = drop len data.
Proof.
  induction fuel as [|fuel IH]; intros data len rp wp Hw Hr Hf.
  - simpl. repeat split; lia.
  - cbn [unescape_loop].
    destruct (rp <? len)%nat eqn:Hlt; [|apply Nat.ltb_ge in Hlt; repeat split; lia].
    apply Nat.ltb_lt in Hlt.
    destruct ((byte_at data rp =? 0x7d) && (rp + 1 <? len)%nat) eqn:He.
    + apply andb_prop in He as [_ He]. apply Nat.ltb_lt in He.
      specialize (IH (<[wp := u8 (Z.lxor (byte_at data (rp + 1)) 0x20)]> data)
                     len (rp + 2)%nat (S wp)).
      destruct (unescape_loop fuel _ len (rp + 2) (S wp)) as [d n].
      destruct IH as (H1 & H2 & H3 & H4 & H5); try lia.
      rewrite length_insert in H4.
      repeat split; try lia.
      rewrite H5. apply drop_insert_lt. lia.
    + specialize (IH (<[wp := byte_at data rp]> data) len (S rp) (S wp)).
      destruct (unescape_loop fuel _ len (S rp) (S wp)) as [d n].
      destruct IH as (H1 & H2 & H3 & H4 & H5); try lia.
      rewrite length_insert in H4.
      repeat split; try lia.
      rewrite H5. apply drop_insert_lt. lia.
Qed.

(** X3.  The in-place decoder never writes ahead of what it has read: the
    array keeps its length, the cells from [len] on are left as they were,
    and the length returned lies between half of [len] and [len]. *)
Theorem rsp_unescape_binary_bounds (data : list Z) (len : nat) :
  (len <= length data)%nat ->
  let (d, n) := rsp_unescape_binary data len in
  (n <= len)%nat /\ (len <= 2 * n)%nat
  /\ length d = length data /\ drop len d = drop len data.
Proof.
  intros _. unfold rsp_unescape_binary.
  pose proof (unescape_loop_bounds len data len 0 0) as H.
  destruct (unescape_loop len data len 0 0) as [d n].
  destruct H as (H1 & H2 & H3 & H4 & H5); try lia.
  repeat split; try assumption; lia.
Qed.

Lemma rsp_unescape_binary_bounds_witness :
  let (d, n) := rsp_unescape_binary [0x7d; 0x03; 0x41; 0x7d; 0x5d; 0x99] 5 in
  (n <= 5)%nat /\ (5 <= 2 * n)%nat
  /\ length d = length [0x7d; 0x03; 0x41; 0x7d; 0x5d; 0x99]
  /\ drop 5 d = drop 5 [0x7d; 0x03; 0x41; 0x7d; 0x5d; 0x99].
Proof.
  apply (rsp_unescape_binary_bounds [0x7d; 0x03; 0x41; 0x7d; 0x5d; 0x99] 5).
  simpl; lia.
Defined.

(** ** The packet receive loop *)

Lemma char_code_range c : 0 <= char_code c < 256.
Proof.
  unfold char_code.
  pose proof (N_ascii_bounded c) as H. lia.
Qed.

Lemma ascii_of_byte_char_code c : ascii_of_byte (char_code c) = c.
Proof.
  unfold ascii_of_byte, u8. rewrite Z.mod_small by apply char_code_range.
  unfold char_code. rewrite N2Z.id. apply ascii_N_embedding.
Qed.

Lemma calc_checksum_from_bytes s : forall sum,
  calc_checksum_from sum s
  = foldl (fun sum b => u8 (sum + u8 b)) sum (bytes_of_string s).
Proof.
  induction s as [|c s IH]; intros sum; [reflexivity|].
  cbn [calc_checksum_from bytes_of_string list_ascii_of_string map foldl].
  rewrite IH. unfold bytes_of_string.
  rewrite (Z.mod_small (char_code c) 256 (char_code_range c) : u8 (char_code c) = char_code c).
  reflexivity.
Qed.

Lemma calc_checksum_bytes_of_string s :
  calc_checksum_bytes (bytes_of_string s) = calc_checksum s.
Proof. unfold calc_checksum. by rewrite calc_checksum_from_bytes. Qed.

Lemma calc_checksum_from_range s : forall sum,
  0 <= sum < 256 -> 0 <= calc_checksum_from sum s < 256.
Proof.
  induction s as [|c s IH]; intros sum H; [assumption|].
  simpl. apply IH. unfold u8. apply Z.mod_pos_bound. lia.
Qed.

Lemma calc_checksum_range s : is_byte (calc_checksum s).
Proof. apply calc_checksum_from_range. lia. Qed.

Lemma memchr_app_first s c rest :
  Forall (fun x => x <> c) s -> memchr (s ++ c :: rest) c = Some (length s).
Proof.
  induction s as [|x s IH]; intros H; simpl.
  - by rewrite Z.eqb_refl.
  - inversion H as [|? ? Hx Hs]; subst.
    destruct (x =? c) eqn:E; [apply Z.eqb_eq in E; contradiction|].
    by rewrite IH.
Qed.

Lemma string_take_all s n :
  (String.length s <= n)%nat -> string_take n s = s.
Proof.
  revert n. induction s as [|c s IH]; intros n H; destruct n; simpl in *;
    try reflexivity; try lia.
  f_equal. apply IH. lia.
Qed.

Lemma string_length_app (s t : string) :
  String.length (s +:+ t) = (String.length s + String.length t)%nat.
Proof. induction s; simpl; [reflexivity|by f_equal]. Qed.

Lemma bytes_of_string_app (s t : string) :
  bytes_of_string (s +:+ t) = bytes_of_string s ++ bytes_of_string t.
Proof.
  unfold bytes_of_string. induction s as [|c s IH]; simpl; [reflexivity|].
  by rewrite IH.
Qed.

Lemma bytes_of_string_length s : length (bytes_of_string s) = String.length s.
Proof.
  unfold bytes_of_string. rewrite length_map.
  induction s; simpl; [reflexivity|by f_equal].
Qed.

Lemma rsp_frame_bytes data :
  (String.length data + 4 <= 4095)%nat ->
  bytes_of_string (rsp_frame data)
  = 36 :: bytes_of_string data
       ++ [35; char_code (hex_digit (Z.land (Z.shiftr (calc_checksum data) 4) 15));
               char_code (hex_digit (Z.land (calc_checksum data) 15))].
Proof.
  intros H. unfold rsp_frame.
  rewrite string_take_all.
  - change ("$" +:+ data +:+ "#" +:+ hex2 (calc_checksum data))
      with (String "$" (data +:+ String "#" (hex2 (calc_checksum data)))).
    unfold bytes_of_string at 1. cbn [list_ascii_of_string map].
    f_equal.
    change (map char_code (list_ascii_of_string ?s)) with (bytes_of_string s).
    by rewrite bytes_of_string_app.
  - change ("$" +:+ data +:+ "#" +:+ hex2 (calc_checksum data))
      with (String "$" (data +:+ String "#" (hex2 (calc_checksum data)))).
    cbn [String.length]. rewrite string_length_app. simpl.
    change (Z.to_nat (MAX_PACKET_SIZE - 1)) with 4095%nat. lia.
Qed.

Lemma scan_packets_end P fuel buffer ptr w :
  (length buffer <= ptr)%nat -> scan_packets P fuel buffer ptr w = (ptr, w).
Proof.
  intros H. destruct fuel; [reflexivity|]. cbn [scan_packets].
  replace (ptr <? length buffer)%nat with false; [reflexivity|].
  symmetry. apply Nat.ltb_ge. lia.
Qed.

Lemma byte_at_app_r (a b : list Z) (k : nat) :
  byte_at (a ++ b) (length a + k) = byte_at b k.
Proof.
  unfold byte_at. rewrite lookup_app_r by lia.
  by replace (length a + k - length a)%nat with k by lia.
Qed.

Lemma byte_at_frame_tail payload l (k : nat) :
  byte_at ((36 :: payload ++ l) ++ [0]) (1 + length payload + k)
  = byte_at (l ++ [0]) k.
Proof.
  change (byte_at ((36 :: payload ++ l) ++ [0]) (1 + length payload + k))
    with (byte_at ((payload ++ l) ++ [0]) (length payload + k)).
  rewrite <- app_assoc. apply byte_at_app_r.
Qed.

(** One packet alone in the receive buffer, with both checksum characters
    present. *)
Lemma scan_packets_one P payload c1 c2 fuel w :
  Forall (fun b => b <> 35) payload ->
  let buffer := 36 :: payload ++ [35; c1; c2] in
  let recv_cksum := u8 (Z.lor (Z.shiftl (hex_to_nibble (ascii_of_byte c1)) 4)
                              (hex_to_nibble (ascii_of_byte c2))) in
  scan_packets P (S fuel) buffer 0 w
  = (length buffer,
     if negb (recv_cksum =? calc_checksum_bytes payload)
     then snd (send_raw "-" w)
     else snd (P payload (snd (send_raw "+" w)))).
Proof.
  intros Hp buffer recv_cksum.
  assert (Hlen : length buffer = (length payload + 4)%nat)
    by (unfold buffer; simpl; rewrite length_app; simpl; lia).
  cbn [scan_packets]. rewrite Hlen.
  replace (0 <? length payload + 4)%nat with true
    by (symmetry; apply Nat.ltb_lt; lia).
  change (byte_at buffer 0) with 36. cbn [Z.eqb Pos.eqb negb].
  change (drop 1 buffer) with (payload ++ [35; c1; c2]).
  rewrite memchr_app_first by assumption.
  cbv zeta.
  replace (length payload + 4 <? 1 + length payload + 2)%nat with false
    by (symmetry; apply Nat.ltb_ge; lia).
  rewrite take_app_length.
  assert (H1 : byte_at (buffer ++ [0]) (1 + length payload + 1) = c1)
    by (unfold buffer; apply (byte_at_frame_tail payload [35; c1; c2] 1)).
  assert (H2 : byte_at (buffer ++ [0]) (1 + length payload + 2) = c2)
    by (unfold buffer; apply (byte_at_frame_tail payload [35; c1; c2] 2)).
  rewrite H1, H2. fold recv_cksum.
  unfold mbind, M_bind, mret, M_ret.
  destruct (negb (recv_cksum =? calc_checksum_bytes payload)).
  - destruct (send_raw "-" w) as [[] w1] eqn:E1.
    rewrite scan_packets_end by lia.
    f_equal. lia.
  - destruct (send_raw "+" w) as [[] w1] eqn:E1.
    cbn [snd]. destruct (P payload w1) as [r w2].
    rewrite scan_packets_end by lia.
    cbn [snd]. f_equal. lia.
Qed.

(** X4.  What [send_packet] frames, the receive loop accepts: a frame of a
    payload without [#] that fits the packet buffer is acknowledged with
    [+], the payload reaches [process_command] byte for byte, and nothing
    is left in the receive buffer. *)
Theorem handle_client_accepts_frame (process_command : list Z -> M Z)
    (data : string) (w : world) :
  (String.length data + 4 <= 4095)%nat ->
  Forall (fun b => b <> 35) (bytes_of_string data) ->
  handle_client_pass process_command (bytes_of_string (rsp_frame data)) w
  = (([], 0),
     snd (process_command (bytes_of_string data) (snd (send_raw "+" w)))).
Proof.
  intros Hlen Hp. unfold handle_client_pass.
  rewrite rsp_frame_bytes by assumption.
  set (h1 := char_code (hex_digit (Z.land (Z.shiftr (calc_checksum data) 4) 15))).
  set (h2 := char_code (hex_digit (Z.land (calc_checksum data) 15))).
  unfold mbind, M_bind, mret, M_ret.
  cbn [length].
  rewrite (scan_packets_one process_command (bytes_of_string data) h1 h2) by assumption.
  destruct (nibbles_of_byte _ (calc_checksum_range data)) as (Hhi & Hlo & Hjoin).
  unfold h1, h2. rewrite !ascii_of_byte_char_code.
  rewrite !hex_to_nibble_hex_digit by assumption.
  rewrite Hjoin, calc_checksum_bytes_of_string, Z.eqb_refl.
  cbn [negb]. cbn [length].
  rewrite Z.sub_diag. reflexivity.
Qed.

Lemma handle_client_accepts_frame_witness :
  handle_client_pass (fun _ => send_packet "OK") (bytes_of_string (rsp_frame "g"))
                     world_after_reset
  = (([], 0),
     snd (send_packet "OK" (snd (send_raw "+" world_after_reset)))).
Proof.
  apply (handle_client_accepts_frame (fun _ => send_packet "OK") "g" world_after_reset).
  - simpl; lia.
  - repeat constructor; vm_compute; discriminate.
Defined.

(** X5.  The loop does not wait for the second checksum character.  When
    the buffer ends after the first one, the packet is judged at once with
    the NUL terminator in the place of the missing character: it is
    rejected with [-] unless its checksum is 0xFF, and [buf_pos] is left
    at -1. *)
Theorem handle_client_incomplete_checksum (process_command : list Z -> M Z)
    (payload : list Z) (c1 : Z) (w : world) :
  Forall (fun b => b <> 35) payload ->
  handle_client_pass process_command (36 :: payload ++ [35; c1]) w
  = (([], -1),
     if calc_checksum_bytes payload =? 255
     then snd (process_command payload (snd (send_raw "+" w)))
     else snd (send_raw "-" w)).
Proof.
  intros Hp. unfold handle_client_pass.
  set (buffer := 36 :: payload ++ [35; c1]).
  assert (Hlen : length buffer = (length payload + 3)%nat)
    by (unfold buffer; simpl; rewrite length_app; simpl; lia).
  rewrite Hlen. replace (length payload + 3)%nat with (S (length payload + 2)) by lia.
  unfold mbind at 1, M_bind at 1.
  cbn [scan_packets]. rewrite Hlen.
  replace (0 <? length payload + 3)%nat with true
    by (symmetry; apply Nat.ltb_lt; lia).
  change (byte_at buffer 0) with 36. cbn [Z.eqb Pos.eqb negb].
  change (drop 1 buffer) with (payload ++ [35; c1]).
  rewrite memchr_app_first by assumption.
  cbv zeta.
  replace (length payload + 3 <? 1 + length payload + 2)%nat with false
    by (symmetry; apply Nat.ltb_ge; lia).
  rewrite take_app_length.
  assert (H2 : byte_at (buffer ++ [0]) (1 + length payload + 2) = 0)
    by (unfold buffer; apply (byte_at_frame_tail payload [35; c1] 2)).
  rewrite H2.
  change (hex_to_nibble (ascii_of_byte 0)) with (-1).
  rewrite Z.lor_m1_r. change (u8 (-1)) with 255.
  rewrite (Z.eqb_sym 255).
  unfold mbind, M_bind, mret, M_ret.
  destruct (calc_checksum_bytes payload =? 255); cbn [negb].
  - destruct (send_raw "+" w) as [[] w1] eqn:E1.
    cbn [snd]. destruct (process_command payload w1) as [r w2].
    rewrite scan_packets_end by lia.
    cbn [snd].
    replace (Z.of_nat (S (length payload + 2)) - Z.of_nat (1 + length payload + 3))
      with (-1) by lia.
    reflexivity.
  - destruct (send_raw "-" w) as [[] w1] eqn:E1.
    rewrite scan_packets_end by lia.
    cbn [snd].
    replace (Z.of_nat (S (length payload + 2)) - Z.of_nat (1 + length payload + 3))
      with (-1) by lia.
    reflexivity.
Qed.

Lemma handle_client_incomplete_checksum_witness :
  handle_client_pass (fun _ => send_packet "OK") (36 :: [103] ++ [35; 54]) world_after_reset
  = (([], -1),
     if calc_checksum_bytes [103] =? 255
     then snd (send_packet "OK" (snd (send_raw "+" world_after_reset)))
     else snd (send_raw "-" world_after_reset)).
Proof.
  apply (handle_client_incomplete_checksum (fun _ => send_packet "OK") [103] 54
                                           world_after_reset).
  repeat constructor; lia.
Defined.

(** ** Memory reads *)

Lemma take_drop_bytes (src : list Z) (o c : nat) :
  (o + c <= length src)%nat ->
  take c (drop o src) = map (fun j => byte_at src (o + j)) (seq 0 c).
Proof.
  induction c as [|c IH]; intros H; [reflexivity|].
  rewrite seq_S, map_app. simpl.
  assert (Hx : is_Some (src !! (o + c)%nat)) by (apply lookup_lt_is_Some; lia).
  destruct Hx as [x Hx].
  rewrite (take_S_r _ _ x) by (rewrite lookup_drop; exact Hx).
  rewrite IH by lia. do 2 f_equal. unfold byte_at. by rewrite Hx.
Qed.

Lemma deinterleaved_group (src : list Z) (g c : nat) :
  (c <= 4)%nat -> (5 + 6 * g + c <= length src)%nat ->
  take c (drop (5 + 6 * g) src) = map (deinterleaved src) (seq (4 * g) c).
Proof.
  intros Hc H. rewrite take_drop_bytes by lia.
  apply list_eq. intros i.
  rewrite !list_lookup_fmap.
  destruct (decide (i < c)%nat) as [Hi|Hi].
  - rewrite !lookup_seq_lt by lia.
    change (Some (byte_at src (5 + 6 * g + (0 + i)))
            = Some (deinterleaved src (4 * g + i))).
    f_equal. unfold deinterleaved. rewrite Nat.add_0_l.
    replace ((4 * g + i) / 4)%nat with g
      by (apply (Nat.div_unique _ 4 g i); lia).
    replace ((4 * g + i) mod 4)%nat with i
      by (apply (Nat.mod_unique _ 4 g i); lia).
    reflexivity.
  - rewrite !lookup_seq_ge by lia. reflexivity.
Qed.

Lemma extract_groups_done fuel src total buffer so d_o :
  extract_groups fuel src total buffer so d_o 0 = buffer.
Proof. destruct fuel; reflexivity. Qed.

Lemma copy_at_length (buffer src : list Z) (off : nat) :
  (off + length src <= length buffer)%nat ->
  length (copy_at buffer off src) = length buffer.
Proof.
  intros H. unfold copy_at.
  rewrite !length_app, length_take, length_drop. lia.
Qed.

Lemma copy_at_take (buffer src : list Z) (off : nat) :
  (off <= length buffer)%nat ->
  take (off + length src) (copy_at buffer off src) = take off buffer ++ src.
Proof.
  intros H. unfold copy_at. rewrite app_assoc.
  apply take_app_length'. rewrite length_app, length_take. lia.
Qed.

Lemma copy_at_drop (buffer src : list Z) (off n : nat) :
  (off <= length buffer)%nat -> (off + length src <= n)%nat ->
  drop n (copy_at buffer off src) = drop n buffer.
Proof.
  intros H Hn. unfold copy_at. rewrite app_assoc.
  rewrite drop_app_ge by (rewrite length_app, length_take; lia).
  rewrite length_app, length_take, drop_drop. f_equal. lia.
Qed.

Lemma extract_groups_spec (src : list Z) (total : Z) (n : nat) fuel :
  forall (buffer : list Z) (g : nat),
  (4 * g <= n)%nat -> (n - 4 * g <= fuel)%nat -> (n <= length buffer)%nat ->
  6 * ((Z.of_nat n + 3) / 4) + 3 <= total -> total <= Z.of_nat (length src) ->
  extract_groups fuel src total buffer (5 + 6 * g) (4 * g) (Z.of_nat (n - 4 * g))
  = take (4 * g) buffer ++ map (deinterleaved src) (seq (4 * g) (n - 4 * g))
    ++ drop n buffer.
Proof.
  induction fuel as [|fuel IH]; intros buffer g Hg Hf Hn Ht Hs.
  - assert (n = 4 * g)%nat as -> by lia.
    rewrite Nat.sub_diag. cbn [extract_groups seq map app].
    by rewrite take_drop.
  - destruct (decide (n = 4 * g)%nat) as [->|Hne].
    { rewrite Nat.sub_diag. rewrite extract_groups_done.
      cbn [seq map app]. by rewrite take_drop. }
    cbn [extract_groups].
    assert (Hdiv : Z.of_nat g + 1 <= (Z.of_nat n + 3) / 4)
      by (apply Z.div_le_lower_bound; lia).
    replace (0 <? Z.of_nat (n - 4 * g)) with true by (symmetry; apply Z.ltb_lt; lia).
    replace (Z.of_nat (5 + 6 * g) + 4 <=? total) with true
      by (symmetry; apply Z.leb_le; lia).
    cbn [andb].
    destruct (4 <=? Z.of_nat (n - 4 * g)) eqn:H4.
    + apply Z.leb_le in H4.
      change (Z.to_nat 4) with 4%nat.
      replace (5 + 6 * g + 6)%nat with (5 + 6 * S g)%nat by lia.
      replace (Z.of_nat (n - 4 * g) - 4) with (Z.of_nat (n - 4 * S g)) by lia.
      rewrite deinterleaved_group by lia.
      set (c4 := map (deinterleaved src) (seq (4 * g) 4)).
      assert (Hc4 : length c4 = 4%nat) by (unfold c4; by rewrite length_map, length_seq).
      replace (4 * g + 4)%nat with (4 * S g)%nat by lia.
      rewrite IH; try lia; [|rewrite copy_at_length; lia].
      replace (4 * S g)%nat with (4 * g + length c4)%nat at 1 by lia.
      rewrite copy_at_take by lia.
      rewrite copy_at_drop by lia.
      replace (n - 4 * g)%nat with (4 + (n - 4 * S g))%nat by lia.
      rewrite seq_app, map_app. fold c4.
      replace (4 * g + 4)%nat with (4 * S g)%nat by lia.
      by rewrite <- !app_assoc.
    + apply Z.leb_gt in H4.
      rewrite Z.sub_diag, extract_groups_done.
      rewrite Nat2Z.id.
      rewrite deinterleaved_group by lia.
      unfold copy_at. rewrite length_map, length_seq.
      do 3 f_equal. lia.
Qed.

Lemma validate_response_recv_into_min dst data m :
  validate_response (recv_into dst data) (Z.of_nat (length data)) m
  = validate_response data (Z.of_nat (length data)) m.
Proof.
  unfold validate_response.
  destruct (Z.of_nat (length data) <? m); [done|].
  destruct (5 <=? Z.of_nat (length data)) eqn:E.
  - apply Z.leb_le in E. by rewrite !byte_at_recv_into by lia.
  - cbv zeta. cbn [andb]. rewrite !andb_false_r. reflexivity.
Qed.

Lemma usb_out_ok data w :
  next_out_ok w = true -> fst (usb_out data w) = 0.
Proof.
  unfold next_out_ok, usb_out. simpl.
  destruct (out_results w); [done|]. intros H. by apply Z.eqb_eq in H.
Qed.

Lemma usb_in_delivers maxlen w r d rest :
  in_results w = (r, d) :: rest -> 0 <= r ->
  fst (usb_in maxlen w) = (r, take maxlen d).
Proof.
  intros H Hr. unfold usb_in. simpl. rewrite H.
  by replace (r <? 0) with false by (symmetry; apply Z.ltb_ge; lia).
Qed.

Lemma recv_into_prefix dst data :
  (length data <= length dst)%nat ->
  recv_into dst data = data ++ drop (length data) dst.
Proof. intros H. unfold recv_into, memcpy. by rewrite firstn_all. Qed.

Lemma deinterleaved_recv_into dst data (k : nat) :
  (5 + 6 * (k / 4) + k mod 4 < length data)%nat ->
  deinterleaved (recv_into dst data) k = deinterleaved data k.
Proof. intros H. unfold deinterleaved. by apply byte_at_recv_into. Qed.

(** X6.  A well-formed answer to [cmd_0717_read_memory] is de-interleaved
    into the caller's buffer: with an accepted header, a length field that
    announces no more than was received, and every group of the request
    present with its four data bytes, the call returns 0, the first
    [length] bytes of the buffer are the data bytes of the groups in order,
    and the rest of the buffer is left as it was. *)
Theorem cmd_0717_read_memory_deinterleaves (addr len : Z) (buffer : list Z)
    (w : world) (r m0 m1 l2 l3 : Z) (payload : list Z)
    (rest : list (Z * list Z)) :
  let n := Z.to_nat (u16 len) in
  let response := [m0; m1; l2; l3; 0xee] ++ payload in
  length (g_cmd_buffer w) = 256%nat ->
  next_out_ok w = true ->
  in_results w = (r, response) :: rest -> 0 <= r ->
  accepted_magic m0 m1 ->
  (length payload <= 251)%nat ->
  4 + u16 (Z.lor (Z.shiftl l2 8) l3) <= Z.of_nat (length response) ->
  6 * ((u16 len + 3) / 4) + 3 <= Z.of_nat (length response) ->
  (n <= length buffer)%nat ->
  fst (cmd_0717_read_memory addr len buffer (Z.of_nat (length buffer)) w)
  = (0, map (deinterleaved response) (seq 0 n) ++ drop n buffer).
Proof.
  intros n response Hbuf Hout Hin Hr Hm Hp Hdecl Hgroups Hn.
  assert (Hu : 0 <= u16 len < 65536) by (unfold u16; apply Z.mod_pos_bound; lia).
  assert (Hnz : Z.of_nat n = u16 len) by (unfold n; lia).
  assert (Hrl : length response = (5 + length payload)%nat) by reflexivity.
  unfold cmd_0717_read_memory.
  replace (Z.of_nat (length buffer) <? u16 len) with false
    by (symmetry; apply Z.ltb_ge; lia).
  unfold mbind at 1, M_bind at 1. unfold with_cmd_buffer.
  set (cmd := cmd_0717_read_memory_request addr (u16 len) (g_cmd_buffer w)).
  assert (Hcmd : length cmd = 256%nat)
    by (unfold cmd, cmd_0717_read_memory_request; cbv zeta; by rewrite poke_length).
  set (w0 := set_buffer cmd w).
  unfold mbind at 1, M_bind at 1.
  pose proof (usb_out_ok cmd w0 Hout) as Ho.
  assert (Hin1 : in_results (snd (usb_out cmd w0)) = (r, response) :: rest) by exact Hin.
  assert (Hb1 : g_cmd_buffer (snd (usb_out cmd w0)) = cmd) by reflexivity.
  destruct (usb_out cmd w0) as [ro w1]. cbn [fst snd] in Ho, Hin1, Hb1. subst ro.
  cbn [Z.eqb negb].
  unfold mbind at 1, M_bind at 1.
  pose proof (usb_in_delivers 256 w1 r response rest Hin1 Hr) as Hi.
  assert (Hb2 : g_cmd_buffer (snd (usb_in 256 w1)) = cmd) by exact Hb1.
  destruct (usb_in 256 w1) as [[ri rx] w2]. cbn [fst snd] in Hi, Hb2.
  rewrite take_ge in Hi by (rewrite Hrl; lia).
  injection Hi as -> ->.
  unfold mbind at 1, M_bind at 1. unfold modify.
  replace (r <? 0) with false by (symmetry; apply Z.ltb_ge; lia).
  replace (Z.of_nat (length response) <? 4) with false
    by (symmetry; apply Z.ltb_ge; lia).
  unfold mbind at 1, M_bind at 1. unfold get at 1.
  cbn [g_cmd_buffer set_buffer]. rewrite Hb2.
  set (buf := recv_into cmd response).
  assert (H2 : byte_at buf 2 = l2) by (unfold buf; rewrite byte_at_recv_into by (rewrite Hrl; lia); reflexivity).
  assert (H3 : byte_at buf 3 = l3) by (unfold buf; rewrite byte_at_recv_into by (rewrite Hrl; lia); reflexivity).
  rewrite H2, H3.
  unfold mbind at 1, M_bind at 1.
  rewrite read_more_packets_S.
  replace (Z.of_nat (length response) <? 4 + u16 (Z.lor (Z.shiftl l2 8) l3))
    with false by (symmetry; apply Z.ltb_ge; lia).
  cbn [andb]. unfold mret at 1, M_ret at 1.
  cbn [Z.ltb Z.compare].
  unfold mbind at 1, M_bind at 1. unfold get at 1.
  cbn [g_cmd_buffer set_buffer]. fold buf.
  unfold buf at 1. rewrite validate_response_recv_into_min.
  assert (Hv : fst (validate_response response (Z.of_nat (length response))
                                      (5 + u16 len)) = 0).
  { unfold validate_response.
    pose proof (Z.mul_succ_div_gt (u16 len + 3) 4 ltac:(lia)) as Hd.
    replace (Z.of_nat (length response) <? 5 + u16 len) with false
      by (symmetry; apply Z.ltb_ge; lia).
    replace (5 <=? Z.of_nat (length response)) with true
      by (symmetry; apply Z.leb_le; rewrite Hrl; lia).
    unfold response, byte_at. cbn [app lookup list_lookup default].
    destruct Hm as [[-> ->]|[-> ->]]; reflexivity. }
  rewrite Hv. cbn [Z.eqb negb]. unfold mret, M_ret. cbn [fst].
  f_equal.
  pose proof (extract_groups_spec buf (Z.of_nat (length response)) n n buffer 0) as He.
  rewrite Nat.mul_0_r, Nat.sub_0_r, Nat.add_0_r in He.
  rewrite Hnz in He. rewrite <- Hnz at 1. rewrite Nat2Z.id.
  rewrite He; try lia.
  - rewrite take_0. cbn [app]. f_equal.
    apply map_ext_in. intros k Hk. apply in_seq in Hk.
    unfold buf. apply deinterleaved_recv_into.
    pose proof (Nat.div_mod_eq k 4) as Hk4.
    pose proof (Nat.mod_upper_bound k 4 ltac:(lia)) as Hk5.
    assert (Hb : (Z.of_nat (k / 4) + 1 <= (u16 len + 3) / 4))
      by (apply Z.div_le_lower_bound; lia).
    lia.
  - unfold buf. rewrite recv_into_length by (rewrite Hrl, Hcmd; lia).
    rewrite Hcmd, Hrl. lia.
Qed.

Lemma cmd_0717_read_memory_deinterleaves_witness :
  fst (cmd_0717_read_memory 0 4 [0; 0; 0; 0] (Z.of_nat (length [0; 0; 0; 0])) crc_world)
  = (0, map (deinterleaved ([0x99; 0x66; 0x00; 0x07; 0xee]
                            ++ [0xde; 0xad; 0xbe; 0xef; 0x00; 0x00]))
            (seq 0 (Z.to_nat (u16 4)))
        ++ drop (Z.to_nat (u16 4)) [0; 0; 0; 0]).
Proof.
  apply (cmd_0717_read_memory_deinterleaves 0 4 [0; 0; 0; 0] crc_world
           0 0x99 0x66 0x00 0x07 [0xde; 0xad; 0xbe; 0xef; 0x00; 0x00] []).
  - reflexivity.
  - reflexivity.
  - reflexivity.
  - lia.
  - left. split; reflexivity.
  - simpl; lia.
  - vm_compute. discriminate.
  - vm_compute. discriminate.
  - vm_compute. lia.
Defined.

(** X7.  [cmd_0717_read_memory] writes the caller's buffer only when it
    succeeds: after every failing call the buffer is as it was, with none
    of the response copied into it. *)
Theorem cmd_0717_read_memory_failure_keeps_buffer (addr len : Z)
    (buffer : list Z) (buffer_size : Z) (w : world) :
  fst (fst (cmd_0717_read_memory addr len buffer buffer_size w)) <> 0 ->
  snd (fst (cmd_0717_read_memory addr len buffer buffer_size w)) = buffer.
Proof.
  remember (cmd_0717_read_memory addr len buffer buffer_size w) as res eqn:E.
  revert E. unfold cmd_0717_read_memory. cbv zeta.
  destruct (buffer_size <? u16 len); [by intros ->|].
  unfold mbind at 1, M_bind at 1. unfold with_cmd_buffer.
  unfold mbind at 1, M_bind at 1.
  destruct (usb_out _ _) as [r w1].
  destruct (negb (r =? 0)); [by intros ->|].
  unfold mbind at 1, M_bind at 1.
  destruct (usb_in 256 w1) as [[r1 rx] w2].
  unfold mbind at 1, M_bind at 1. unfold modify.
  destruct (r1 <? 0); [by intros ->|].
  destruct (Z.of_nat (length rx) <? 4); [by intros ->|].
  unfold mbind at 1, M_bind at 1. unfold get at 1.
  unfold mbind at 1, M_bind at 1.
  destruct (read_more_packets 8 _ _ _ _) as [[r2 total] w3].
  destruct (r2 <? 0); [by intros ->|].
  unfold mbind at 1, M_bind at 1. unfold get.
  destruct (negb (fst (validate_response _ total (5 + u16 len)) =? 0));
    [by intros ->|].
  intros ->. cbn [fst snd mret M_ret]. intros H. by destruct H.
Qed.

Lemma cmd_0717_read_memory_failure_keeps_buffer_witness :
  snd (fst (cmd_0717_read_memory 0 2049 [1; 2; 3] 4096 world_after_reset)) = [1; 2; 3].
Proof.
  apply (cmd_0717_read_memory_failure_keeps_buffer 0 2049 [1; 2; 3] 4096 world_after_reset).
  vm_compute. discriminate.
Defined.

(** ** The register packets *)

Lemma keeps_ret {A B} (proj : world -> B) (a : A) : keeps proj (mret a).
Proof. by intros w. Qed.

Lemma keeps_bind {A B C} (proj : world -> C) (m : M A) (f : A -> M B) :
  keeps proj m -> (forall a, keeps proj (f a)) -> keeps proj (m ≫= f).
Proof.
  intros Hm Hf w. unfold mbind, M_bind.
  specialize (Hm w). destruct (m w) as [a w1]. simpl in Hm.
  by rewrite Hf.
Qed.

Lemma keeps_tx_usb_only {A} (m : M A) : usb_only m -> keeps tx m.
Proof.
  intros H w. specialize (H w). unfold gdb_state in H. congruence.
Qed.

Lemma keeps_tx_init_register_cache : keeps tx init_register_cache.
Proof.
  unfold init_register_cache.
  apply keeps_bind; [by intros w|intros init].
  destruct (negb (init =? 0)); [apply keeps_ret|].
  apply keeps_bind; [by intros w|intros junk].
  apply keeps_bind; [apply keeps_tx_usb_only, usb_only_cmd_0717_read_memory|].
  intros [r buffer]. destruct (r =? 0); [by intros w|apply keeps_ret].
Qed.

Lemma keeps_tx_read_cpu_register reg v : keeps tx (read_cpu_register reg v).
Proof.
  unfold read_cpu_register, cmd_read_pc, cmd_read_sr.
  apply keeps_bind; [apply keeps_tx_init_register_cache|intros _].
  repeat match goal with
  | |- keeps _ (if ?b then _ else _) => destruct b
  | |- keeps _ (_ ≫= _) => apply keeps_bind
  | |- keeps _ (mret _) => apply keeps_ret
  | |- keeps _ (get _) => by intros w
  | |- keeps _ (cmd_07_11_read_bdm_reg _ _ _) =>
      apply keeps_tx_usb_only, usb_only_cmd_07_11_read_bdm_reg
  | |- keeps _ (cmd_07_13 _ _) => apply keeps_tx_usb_only, usb_only_cmd_07_13
  | |- forall _, _ => intros ?
  | |- keeps _ (let '(_, _) := ?x in _) => destruct x
  end.
Qed.

Lemma hex8_length v : String.length (hex8 v) = 8%nat.
Proof. reflexivity. Qed.

Lemma hex_digit_is_hex_char n : 0 <= n < 16 -> is_hex_char (hex_digit n) = true.
Proof.
  intros H.
  assert (Hc : forallb (fun k => is_hex_char (hex_digit (Z.of_nat k))) (seq 0 16) = true)
    by (vm_compute; reflexivity).
  rewrite forallb_forall in Hc.
  specialize (Hc (Z.to_nat n)). rewrite Z2Nat.id in Hc by lia.
  apply Hc, in_seq. lia.
Qed.

Lemma hex2_chars b rest :
  Forall (fun c => is_hex_char c = true) (list_ascii_of_string rest) ->
  Forall (fun c => is_hex_char c = true) (list_ascii_of_string (hex2 b +:+ rest)).
Proof.
  intros H. unfold hex2. cbn [String.app list_ascii_of_string].
  assert (Hn : forall x, 0 <= Z.land x 15 < 16).
  { intros x. change 15 with (Z.ones 4). rewrite Z.land_ones by lia.
    apply Z.mod_pos_bound. lia. }
  repeat constructor; try apply hex_digit_is_hex_char, Hn. exact H.
Qed.

Lemma hex8_chars v rest :
  Forall (fun c => is_hex_char c = true) (list_ascii_of_string rest) ->
  Forall (fun c => is_hex_char c = true) (list_ascii_of_string (hex8 v +:+ rest)).
Proof.
  intros H.
  change (hex8 v +:+ rest)
    with (hex2 (byte_of v 24) +:+ (hex2 (byte_of v 16) +:+ (hex2 (byte_of v 8)
            +:+ (hex2 (byte_of v 0) +:+ rest)))).
  by repeat apply hex2_chars.
Qed.

Lemma registers_hex_chars vs :
  Forall (fun c => is_hex_char c = true) (list_ascii_of_string (registers_hex vs)).
Proof.
  induction vs as [|v vs IH]; [constructor|].
  cbn [registers_hex]. by apply hex8_chars.
Qed.

Lemma registers_hex_length vs :
  String.length (registers_hex vs) = (8 * length vs)%nat.
Proof.
  induction vs as [|v vs IH]; [reflexivity|].
  cbn [registers_hex length]. rewrite string_length_app, hex8_length, IH. lia.
Qed.

Lemma registers_read_length n : forall i w, length (registers_read n i w) = n.
Proof.
  induction n as [|n IH]; intros i w; [reflexivity|].
  cbn [registers_read]. destruct (read_cpu_register i 0 w) as [[r value] w1].
  cbn [length]. by rewrite IH.
Qed.

Lemma read_registers_from_spec n : forall i w,
  fst (read_registers_from n i w) = registers_hex (registers_read n i w)
  /\ tx (snd (read_registers_from n i w)) = tx w.
Proof.
  induction n as [|n IH]; intros i w; [by split|].
  cbn [read_registers_from registers_read]. unfold mbind, M_bind.
  pose proof (keeps_tx_read_cpu_register i 0 w) as Hk.
  destruct (read_cpu_register i 0 w) as [[r value] w1]. cbn [snd] in Hk.
  destruct (IH (i + 1) w1) as (Hv & Ht).
  destruct (read_registers_from n (i + 1) w1) as [rest w2].
  cbn [fst snd mret M_ret] in *.
  split; [cbn [registers_hex]; by rewrite Hv|congruence].
Qed.

(** X8.  The [g] packet is always answered in full: whatever the pod does,
    the reply is one frame that holds, for the 18 registers in order, the
    eight hexadecimal digits of [%08x] of the value read: 144 characters,
    each of them one of [0-9a-f], never an error. *)
Theorem handle_read_registers_full_reply (w : world) :
  let vs := registers_read 18 0 w in
  length vs = 18%nat
  /\ tx (snd (handle_read_registers w)) = tx w ++ [rsp_frame (registers_hex vs)]
  /\ String.length (registers_hex vs) = 144%nat
  /\ Forall (fun c => is_hex_char c = true)
            (list_ascii_of_string (registers_hex vs)).
Proof.
  cbv zeta. unfold handle_read_registers, mbind, M_bind.
  destruct (read_registers_from_spec (Z.to_nat NUM_REGISTERS) 0 w) as (Hv & Ht).
  change (Z.to_nat NUM_REGISTERS) with 18%nat in *.
  destruct (read_registers_from 18 0 w) as [response w1].
  cbn [fst snd] in *. subst response.
  split; [apply registers_read_length|].
  split; [unfold send_packet; cbn [snd tx]; by rewrite Ht|].
  split; [by rewrite registers_hex_length, registers_read_length
         |apply registers_hex_chars].
Qed.

Lemma nibbles_join b :
  is_byte b ->
  Z.lor (Z.shiftl (Z.land (Z.shiftr b 4) 15) 4) (Z.land b 15) = b.
Proof.
  intros H.
  assert (Hc : forallb (fun k => let b := Z.of_nat k in
                 Z.lor (Z.shiftl (Z.land (Z.shiftr b 4) 15) 4) (Z.land b 15) =? b)
                       (seq 0 256) = true) by (vm_compute; reflexivity).
  rewrite forallb_forall in Hc.
  specialize (Hc (Z.to_nat b)).
  rewrite Z2Nat.id in Hc by (unfold is_byte in H; lia).
  apply Z.eqb_eq, Hc, in_seq. unfold is_byte in H. lia.
Qed.

Lemma register_value_byte (k : nat) (b : Z) (rest : string) (value : Z) :
  is_byte b ->
  register_value (S k) (hex2 b +:+ rest) value
  = register_value k rest (u32 (Z.lor (Z.shiftl value 8) b)).
Proof.
  intros Hb. destruct (nibbles_of_byte b Hb) as (Hhi & Hlo & _).
  rewrite hex2_app. cbn [register_value].
  rewrite !hex_digit_not_nul by assumption. cbn [orb].
  cbv zeta. rewrite !hex_to_nibble_hex_digit by assumption.
  replace (0 <=? Z.land (Z.shiftr b 4) 15) with true by (symmetry; apply Z.leb_le; lia).
  replace (0 <=? Z.land b 15) with true by (symmetry; apply Z.leb_le; lia).
  cbn [andb]. by rewrite nibbles_join.
Qed.

Lemma byte_of_is_byte v k : is_byte (byte_of v k).
Proof.
  unfold is_byte, byte_of. change 255 with (Z.ones 8).
  rewrite Z.land_ones by lia. apply Z.mod_pos_bound. lia.
Qed.

Lemma byte_of_testbit v k i :
  0 <= k -> 0 <= i ->
  Z.testbit (byte_of v k) i = (i <? 8) && Z.testbit v (i + k).
Proof.
  intros Hk Hi. unfold byte_of. change 255 with (Z.ones 8).
  rewrite Z.land_spec, Z.shiftr_spec by lia.
  destruct (i <? 8) eqn:E.
  - apply Z.ltb_lt in E. rewrite Z.ones_spec_low by lia. by rewrite andb_true_r.
  - apply Z.ltb_ge in E. rewrite Z.ones_spec_high by lia. by rewrite andb_false_r.
Qed.

(** Four bytes shifted into a 32-bit register replace what it held. *)
Lemma shift_in_be32 value v :
  0 <= v < 2 ^ 32 ->
  u32 (Z.lor (Z.shiftl
    (u32 (Z.lor (Z.shiftl
      (u32 (Z.lor (Z.shiftl
        (u32 (Z.lor (Z.shiftl value 8) (byte_of v 24))) 8) (byte_of v 16))) 8)
      (byte_of v 8))) 8) (byte_of v 0))
  = v.
Proof.
  intros Hv. apply Z.bits_inj'. intros n Hn.
  rewrite !u32_testbit.
  destruct (n <? 32) eqn:E32; cbn [andb].
  2:{ apply Z.ltb_ge in E32. symmetry.
      apply (testbit_high_false_ge v 32 n); lia. }
  apply Z.ltb_lt in E32.
  rewrite Z.lor_spec, Z.shiftl_spec, byte_of_testbit by lia.
  destruct (n <? 8) eqn:E8.
  { apply Z.ltb_lt in E8. rewrite Z.testbit_neg_r by lia.
    cbn [orb andb]. f_equal. lia. }
  apply Z.ltb_ge in E8. cbn [andb]. rewrite orb_false_r.
  rewrite u32_testbit.
  replace (n - 8 <? 32) with true by (symmetry; apply Z.ltb_lt; lia). cbn [andb].
  rewrite Z.lor_spec, Z.shiftl_spec, byte_of_testbit by lia.
  destruct (n - 8 <? 8) eqn:E16.
  { apply Z.ltb_lt in E16. rewrite Z.testbit_neg_r by lia.
    cbn [orb andb]. f_equal. lia. }
  apply Z.ltb_ge in E16. cbn [andb]. rewrite orb_false_r.
  rewrite u32_testbit.
  replace (n - 8 - 8 <? 32) with true by (symmetry; apply Z.ltb_lt; lia). cbn [andb].
  rewrite Z.lor_spec, Z.shiftl_spec, byte_of_testbit by lia.
  destruct (n - 8 - 8 <? 8) eqn:E24.
  { apply Z.ltb_lt in E24. rewrite Z.testbit_neg_r by lia.
    cbn [orb andb]. f_equal. lia. }
  apply Z.ltb_ge in E24. cbn [andb]. rewrite orb_false_r.
  rewrite u32_testbit.
  replace (n - 8 - 8 - 8 <? 32) with true by (symmetry; apply Z.ltb_lt; lia). cbn [andb].
  rewrite Z.lor_spec, Z.shiftl_spec, byte_of_testbit by lia.
  replace (n - 8 - 8 - 8 <? 8) with true by (symmetry; apply Z.ltb_lt; lia).
  rewrite Z.testbit_neg_r by lia.
  cbn [orb andb]. f_equal. lia.
Qed.

Lemma hex8_app v rest :
  hex8 v +:+ rest
  = hex2 (byte_of v 24) +:+ (hex2 (byte_of v 16) +:+ (hex2 (byte_of v 8)
      +:+ (hex2 (byte_of v 0) +:+ rest))).
Proof. reflexivity. Qed.

Lemma register_value_hex8 (k : nat) (v : Z) (rest : string) (value : Z) :
  0 <= v < 2 ^ 32 ->
  register_value (S (S (S (S k)))) (hex8 v +:+ rest) value
  = register_value k rest v.
Proof.
  intros Hv. rewrite hex8_app.
  rewrite !register_value_byte by apply byte_of_is_byte.
  by rewrite shift_in_be32.
Qed.

Lemma write_registers_from_end n i : write_registers_from n i EmptyString = mret tt.
Proof. by destruct n. Qed.

Lemma write_registers_from_hex8 n i v rest :
  0 <= v < 2 ^ 32 ->
  write_registers_from (S n) i (hex8 v +:+ rest)
  = (_ ← write_cpu_register i (register_value 8 (hex8 v +:+ rest) 0);
     write_registers_from n (i + 1) rest).
Proof.
  intros Hv.
  destruct (nibbles_of_byte _ (byte_of_is_byte v 24)) as (Hhi & Hlo & _).
  rewrite hex8_app, hex2_app. cbn [write_registers_from].
  rewrite !hex_digit_not_nul by assumption. reflexivity.
Qed.

Lemma write_registers_from_hex vs : forall n i,
  Forall (fun v => 0 <= v < 2 ^ 32) vs -> (length vs <= n)%nat ->
  write_registers_from n i (registers_hex vs) = write_each i (successors vs).
Proof.
  induction vs as [|v vs IH]; intros n i Hvs Hn.
  - apply write_registers_from_end.
  - inversion Hvs as [|? ? Hv Hvs']; subst.
    destruct n as [|n]; [simpl in Hn; lia|].
    destruct vs as [|v' vs].
    + cbn [registers_hex]. rewrite write_registers_from_hex8 by assumption.
      cbn [successors write_each].
      rewrite (register_value_hex8 4 v EmptyString 0) by assumption.
      cbn [register_value]. by rewrite write_registers_from_end.
    + inversion Hvs' as [|? ? Hv' _]; subst.
      change (registers_hex (v :: v' :: vs))
        with (hex8 v +:+ registers_hex (v' :: vs)).
      rewrite write_registers_from_hex8 by assumption.
      rewrite (register_value_hex8 4 v _ 0) by assumption.
      change (register_value 4 (registers_hex (v' :: vs)) v)
        with (register_value 4 (hex8 v' +:+ registers_hex vs) v).
      rewrite (register_value_hex8 0 v' _ v) by assumption.
      cbn [register_value successors write_each].
      rewrite (IH n (i + 1)) by (simpl in *; (assumption || lia)).
      reflexivity.
Qed.

(** X9.  The [G] packet writes the registers one place off.  The inner
    loop of [handle_write_registers] reads sixteen characters for every
    register and keeps the last four bytes, while the packet advances by
    eight characters: given the block of all 18 registers, every register
    but the last is written with the value of the register after it, the
    last one (the PC) with its own, and the reply is [OK]. *)
Theorem handle_write_registers_off_by_one (vs : list Z) (w : world) :
  Forall (fun v => 0 <= v < 2 ^ 32) vs -> length vs = 18%nat ->
  handle_write_registers (registers_hex vs) w
  = (_ ← write_each 0 (successors vs); send_ok) w.
Proof.
  intros Hvs Hlen. unfold handle_write_registers.
  rewrite write_registers_from_hex; [reflexivity|assumption|].
  rewrite Hlen. vm_compute. lia.
Qed.

Lemma handle_write_registers_off_by_one_witness :
  handle_write_registers
    (registers_hex [1; 2; 3; 4; 5; 6; 7; 8; 9; 10; 11; 12; 13; 14; 15; 16; 0x2700; 0x400])
    world_after_reset
  = (_ ← write_each 0
           (successors [1; 2; 3; 4; 5; 6; 7; 8; 9; 10; 11; 12; 13; 14; 15; 16;
                        0x2700; 0x400]);
     send_ok) world_after_reset.
Proof.
  apply (handle_write_registers_off_by_one
           [1; 2; 3; 4; 5; 6; 7; 8; 9; 10; 11; 12; 13; 14; 15; 16; 0x2700; 0x400]
           world_after_reset).
  - repeat constructor; lia.
  - reflexivity.
Defined.

(** ** The [M] packet *)

Lemma char_at_bytes_to_hex bs : forall (m : nat),
  Forall is_byte bs -> (m < length bs)%nat ->
  hex_to_nibble (char_at (bytes_to_hex_list bs) (2 * m))
  = Z.land (Z.shiftr (byte_at bs m) 4) 15
  /\ hex_to_nibble (char_at (bytes_to_hex_list bs) (2 * m + 1))
     = Z.land (byte_at bs m) 15.
Proof.
  induction bs as [|b bs IH]; intros m Hb Hm; [simpl in Hm; lia|].
  inversion Hb as [|? ? Hb0 Hbs]; subst.
  destruct (nibbles_of_byte b Hb0) as (Hhi & Hlo & _).
  cbn [bytes_to_hex_list]. rewrite hex2_app.
  destruct m as [|m].
  - unfold char_at. cbn [Nat.mul Nat.add String.get default byte_at lookup list_lookup].
    unfold id. by rewrite !hex_to_nibble_hex_digit.
  - replace (2 * S m)%nat with (S (S (2 * m))) by lia.
    replace (S (S (2 * m)) + 1)%nat with (S (S (2 * m + 1))) by lia.
    unfold char_at. cbn [String.get].
    apply (IH m); [assumption|simpl in Hm; lia].
Qed.

Lemma u32_lor x y : u32 (Z.lor x y) = Z.lor (u32 x) (u32 y).
Proof.
  apply Z.bits_inj'. intros n Hn.
  rewrite Z.lor_spec, !u32_testbit, Z.lor_spec.
  by destruct (n <? 32).
Qed.

Lemma u32_u32 x : u32 (u32 x) = u32 x.
Proof. unfold u32. apply Z.mod_mod. lia. Qed.

Lemma byte_at_is_byte bs (m : nat) : Forall is_byte bs -> is_byte (byte_at bs m).
Proof.
  intros H. unfold byte_at. destruct (bs !! m) as [x|] eqn:E; simpl.
  - eapply Forall_lookup_1; eassumption.
  - unfold is_byte. lia.
Qed.

Lemma byte_at_past bs (m : nat) : (length bs <= m)%nat -> byte_at bs m = 0.
Proof. intros H. unfold byte_at. by rewrite lookup_ge_None_2. Qed.

Lemma write_memory_step bs (m : nat) (i : Z) (j : nat) (value : Z) :
  Forall is_byte bs -> (m < length bs)%nat -> i + Z.of_nat j = Z.of_nat m ->
  (let hi := hex_to_nibble
               (char_at (bytes_to_hex_list bs) (Z.to_nat ((i + Z.of_nat j) * 2))) in
   let lo := hex_to_nibble
               (char_at (bytes_to_hex_list bs) (Z.to_nat ((i + Z.of_nat j) * 2 + 1))) in
   if (0 <=? hi) && (0 <=? lo)
   then u32 (Z.lor value (Z.shiftl (Z.lor (Z.shiftl hi 4) lo) (24 - Z.of_nat j * 8)))
   else value)
  = u32 (Z.lor value (Z.shiftl (byte_at bs m) (24 - Z.of_nat j * 8))).
Proof.
  intros Hb Hm Hij. rewrite Hij.
  replace (Z.to_nat (Z.of_nat m * 2)) with (2 * m)%nat by lia.
  replace (Z.to_nat (Z.of_nat m * 2 + 1)) with (2 * m + 1)%nat by lia.
  destruct (char_at_bytes_to_hex bs m Hb Hm) as [-> ->].
  destruct (nibbles_of_byte _ (byte_at_is_byte bs m Hb)) as (Hhi & Hlo & _).
  cbv zeta.
  replace (0 <=? Z.land (Z.shiftr (byte_at bs m) 4) 15) with true
    by (symmetry; apply Z.leb_le; lia).
  replace (0 <=? Z.land (byte_at bs m) 15) with true
    by (symmetry; apply Z.leb_le; lia).
  cbn [andb]. by rewrite nibbles_join by (by apply byte_at_is_byte).
Qed.

Lemma write_memory_word_spec bs (k btw : nat) :
  Forall is_byte bs -> (4 * k < length bs)%nat ->
  btw = Nat.min 4 (length bs - 4 * k) ->
  write_memory_word (bytes_to_hex_list bs) (Z.of_nat (4 * k)) btw
  = longword_at bs (Z.of_nat k).
Proof.
  intros Hb Hk Hbtw. unfold write_memory_word, longword_at, word_of_bytes.
  replace (Z.to_nat (4 * Z.of_nat k)) with (4 * k)%nat by lia.
  replace (Z.to_nat (4 * Z.of_nat k + 1)) with (4 * k + 1)%nat by lia.
  replace (Z.to_nat (4 * Z.of_nat k + 2)) with (4 * k + 2)%nat by lia.
  replace (Z.to_nat (4 * Z.of_nat k + 3)) with (4 * k + 3)%nat by lia.
  destruct btw as [|[|[|[|[|btw]]]]]; try lia; cbn [seq foldl].
  - rewrite (write_memory_step bs (4 * k) (Z.of_nat (4 * k)) 0) by (assumption || lia).
    rewrite (byte_at_past bs (4 * k + 1)), (byte_at_past bs (4 * k + 2)),
            (byte_at_past bs (4 * k + 3)) by lia.
    rewrite !Z.shiftl_0_l, !Z.lor_0_r, Z.lor_0_l. reflexivity.
  - rewrite (write_memory_step bs (4 * k) (Z.of_nat (4 * k)) 0) by (assumption || lia).
    rewrite (write_memory_step bs (4 * k + 1) (Z.of_nat (4 * k)) 1) by (assumption || lia).
    rewrite (byte_at_past bs (4 * k + 2)), (byte_at_past bs (4 * k + 3)) by lia.
    rewrite !Z.shiftl_0_l, !Z.lor_0_r, Z.lor_0_l.
    rewrite !u32_lor, !u32_u32. reflexivity.
  - rewrite (write_memory_step bs (4 * k) (Z.of_nat (4 * k)) 0) by (assumption || lia).
    rewrite (write_memory_step bs (4 * k + 1) (Z.of_nat (4 * k)) 1) by (assumption || lia).
    rewrite (write_memory_step bs (4 * k + 2) (Z.of_nat (4 * k)) 2) by (assumption || lia).
    rewrite (byte_at_past bs (4 * k + 3)) by lia.
    rewrite !Z.lor_0_r, Z.lor_0_l.
    rewrite !u32_lor, !u32_u32. reflexivity.
  - rewrite (write_memory_step bs (4 * k) (Z.of_nat (4 * k)) 0) by (assumption || lia).
    rewrite (write_memory_step bs (4 * k + 1) (Z.of_nat (4 * k)) 1) by (assumption || lia).
    rewrite (write_memory_step bs (4 * k + 2) (Z.of_nat (4 * k)) 2) by (assumption || lia).
    rewrite (write_memory_step bs (4 * k + 3) (Z.of_nat (4 * k)) 3) by (assumption || lia).
    rewrite Z.lor_0_l.
    rewrite !u32_lor, !u32_u32. reflexivity.
Qed.

Lemma write_memory_loop_spec bs addr fuel : forall (k : nat),
  Forall is_byte bs -> (length bs <= 4096)%nat ->
  ((length bs + 3) / 4 - k <= fuel)%nat ->
  write_memory_loop fuel addr (Z.of_nat (length bs)) (Z.of_nat (4 * k))
                    (bytes_to_hex_list bs)
  = write_longwords_from ((length bs + 3) / 4 - k) addr bs (Z.of_nat k).
Proof.
  pose proof (Nat.div_mod_eq (length bs + 3) 4) as Hdm.
  pose proof (Nat.mod_upper_bound (length bs + 3) 4 ltac:(lia)) as Hmod.
  induction fuel as [|fuel IH]; intros k Hb Hlen Hf.
  - replace ((length bs + 3) / 4 - k)%nat with 0%nat by lia. reflexivity.
  - cbn [write_memory_loop].
    destruct (Z.of_nat (4 * k) <? Z.of_nat (length bs)) eqn:E.
    + apply Z.ltb_lt in E.
      replace ((length bs + 3) / 4 - k)%nat
        with (S ((length bs + 3) / 4 - S k)) by lia.
      cbn [write_longwords_from]. cbv zeta.
      assert (Hbtw : Z.to_nat (if 4 <=? Z.of_nat (length bs) - Z.of_nat (4 * k)
                               then 4 else Z.of_nat (length bs) - Z.of_nat (4 * k))
                     = Nat.min 4 (length bs - 4 * k)).
      { destruct (4 <=? Z.of_nat (length bs) - Z.of_nat (4 * k)) eqn:E4;
          [apply Z.leb_le in E4|apply Z.leb_gt in E4]; lia. }
      rewrite (write_memory_word_spec bs k _ Hb ltac:(lia) Hbtw).
      replace (addr + Z.of_nat (4 * k)) with (addr + 4 * Z.of_nat k) by lia.
      replace (u32 (Z.of_nat (4 * k) + 4)) with (Z.of_nat (4 * S k))
        by (rewrite u32_small; lia).
      rewrite (IH (S k)) by (assumption || lia).
      replace (Z.of_nat k + 1) with (Z.of_nat (S k)) by lia.
      reflexivity.
    + apply Z.ltb_ge in E.
      replace ((length bs + 3) / 4 - k)%nat with 0%nat by lia. reflexivity.
Qed.

(** X10.  An [M addr,len:hex] packet is carried out as whole longwords:
    the payload is decoded two hexadecimal digits to the byte and written
    with one [cmd_07_19] for every four bytes, at [addr], [addr + 4], ...;
    when [len] is no multiple of four the last longword is written in full,
    with zero in the bytes the packet did not mention.  The reply is [OK],
    or [E05] at the first write that fails. *)
Theorem handle_write_memory_longwords (data comma colon : string)
    (bs : list Z) (w : world) :
  strchr data "," = Some comma -> strchr data ":" = Some colon ->
  u32 (strtoul16 (string_tail comma)) = Z.of_nat (length bs) ->
  string_tail colon = bytes_to_hex_list bs ->
  Forall is_byte bs -> (length bs <= 4096)%nat ->
  handle_write_memory data w
  = (r ← write_longwords_from ((length bs + 3) / 4) (u32 (strtoul16 data)) bs 0;
     if negb (r =? 0) then send_error 5 else send_ok) w.
Proof.
  intros Hcomma Hcolon Hlen Hhex Hb Hsz.
  unfold handle_write_memory. rewrite Hcomma, Hcolon. cbv zeta.
  rewrite Hlen, Hhex, Nat2Z.id.
  pose proof (write_memory_loop_spec bs (u32 (strtoul16 data)) (length bs) 0 Hb Hsz)
    as H.
  rewrite Nat.sub_0_r in H. change (Z.of_nat (4 * 0)) with 0 in H.
  change (Z.of_nat 0) with 0 in H.
  rewrite H; [reflexivity|].
  pose proof (Nat.div_mod_eq (length bs + 3) 4).
  pose proof (Nat.mod_upper_bound (length bs + 3) 4 ltac:(lia)). lia.
Qed.

Lemma handle_write_memory_longwords_witness :
  handle_write_memory "20000100,5:1122334455" world_after_reset
  = (r ← write_longwords_from ((length [0x11; 0x22; 0x33; 0x44; 0x55] + 3) / 4)
                              (u32 (strtoul16 "20000100,5:1122334455"))
                              [0x11; 0x22; 0x33; 0x44; 0x55] 0;
     if negb (r =? 0) then send_error 5 else send_ok) world_after_reset.
Proof.
  apply (handle_write_memory_longwords "20000100,5:1122334455" ",5:1122334455"
           ":1122334455" [0x11; 0x22; 0x33; 0x44; 0x55] world_after_reset).
  - reflexivity.
  - reflexivity.
  - reflexivity.
  - reflexivity.
  - repeat constructor; unfold is_byte; lia.
  - simpl; lia.
Defined.

(** ** Hardware breakpoints and the watchpoint *)

Lemma testbit_bit k j :
  0 <= k -> 0 <= j -> Z.testbit (Z.shiftl 1 k) j = (j =? k).
Proof.
  intros Hk Hj. rewrite Z.shiftl_1_l, Z.pow2_bits_eqb by lia.
  apply Z.eqb_sym.
Qed.

Lemma testbit_two_bits k j :
  0 <= k -> 0 <= j -> Z.testbit (Z.shiftl 3 k) j = (j =? k) || (j =? k + 1).
Proof.
  intros Hk Hj. rewrite Z.shiftl_spec by lia.
  destruct (j =? k) eqn:E0; [apply Z.eqb_eq in E0; subst; by rewrite Z.sub_diag|].
  destruct (j =? k + 1) eqn:E1;
    [apply Z.eqb_eq in E1; subst; by replace (k + 1 - k) with 1 by lia|].
  apply Z.eqb_neq in E0, E1. cbn [orb].
  destruct (Z.lt_ge_cases (j - k) 0) as [Hn|Hp]; [by apply Z.testbit_neg_r|].
  apply (testbit_high_false_ge 3 2); lia.
Qed.

Lemma testbit_lor_keeps t c j :
  0 <= j < 32 -> Z.testbit t j = true -> Z.testbit (u32 (Z.lor t c)) j = true.
Proof.
  intros Hj Ht. rewrite u32_testbit, Z.lor_spec, Ht.
  by replace (j <? 32) with true by (symmetry; apply Z.ltb_lt; lia).
Qed.

Lemma testbit_lor_sets t c j :
  0 <= j < 32 -> Z.testbit c j = true -> Z.testbit (u32 (Z.lor t c)) j = true.
Proof.
  intros Hj Hc. rewrite u32_testbit, Z.lor_spec, Hc, orb_true_r.
  by replace (j <? 32) with true by (symmetry; apply Z.ltb_lt; lia).
Qed.

Lemma testbit_mask_keeps t c j :
  0 <= j < 32 -> Z.testbit c j = false -> Z.testbit t j = true ->
  Z.testbit (u32 (Z.land t (Z.lnot c))) j = true.
Proof.
  intros Hj Hc Ht. rewrite u32_testbit, Z.land_spec, Z.lnot_spec, Ht, Hc by lia.
  by replace (j <? 32) with true by (symmetry; apply Z.ltb_lt; lia).
Qed.

Lemma testbit_mask_clears t c j :
  0 <= j -> Z.testbit c j = true ->
  Z.testbit (u32 (Z.land t (Z.lnot c))) j = false.
Proof.
  intros Hj Hc. rewrite u32_testbit, Z.land_spec, Z.lnot_spec, Hc by lia.
  cbn [negb]. by rewrite andb_false_r, andb_false_r.
Qed.

(** What the slot search returns. *)
Lemma first_slot_spec (test : nat -> bool) :
  (first_slot test = -1 /\ forall i : nat, (i < 4)%nat -> test i = false)
  \/ (exists i : nat, (i < 4)%nat /\ first_slot test = Z.of_nat i
                      /\ test i = true
                      /\ forall j : nat, (j < i)%nat -> test j = false).
Proof.
  unfold first_slot, MAX_HW_BREAKPOINTS. cbn [seq List.filter].
  destruct (test 0%nat) eqn:E0.
  { right. exists 0%nat. repeat split; try lia; try assumption. }
  destruct (test 1%nat) eqn:E1.
  { right. exists 1%nat. repeat split; try lia; try assumption.
    intros j Hj. by replace j with 0%nat by lia. }
  destruct (test 2%nat) eqn:E2.
  { right. exists 2%nat. repeat split; try lia; try assumption.
    intros j Hj. destruct j as [|[|j]]; (assumption || lia). }
  destruct (test 3%nat) eqn:E3.
  { right. exists 3%nat. repeat split; try lia; try assumption.
    intros j Hj. destruct j as [|[|[|j]]]; (assumption || lia). }
  left. split; [reflexivity|].
  intros i Hi. destruct i as [|[|[|[|i]]]]; (assumption || lia).
Qed.

Lemma byte_at_insert_eq (l : list Z) (i : nat) v :
  (i < length l)%nat -> byte_at (<[i := v]> l) i = v.
Proof. intros H. unfold byte_at. by rewrite list_lookup_insert_eq. Qed.

Lemma byte_at_insert_ne (l : list Z) (i j : nat) v :
  i <> j -> byte_at (<[i := v]> l) j = byte_at l j.
Proof. intros H. unfold byte_at. by rewrite list_lookup_insert_ne. Qed.

(** [Z.testbit mask j = false] for a TDR mask and a bit it does not hold. *)
Ltac mask_off :=
  unfold TDR_TRC_HALT, TDR_EBL1, TDR_EAR1, TDR_EPC1, TDR_EAL_MASK,
         TDR_EAL_INSIDE, TDR_DRW_READ, TDR_DRW_WRITE, TDR_DRW_RW;
  rewrite ?Z.lor_spec;
  rewrite ?testbit_bit, ?testbit_two_bits by lia;
  repeat match goal with
         | |- context [?a =? ?b] =>
             replace (a =? b) with false by (symmetry; apply Z.eqb_neq; lia)
         end;
  reflexivity.

(** A bit that is set stays set through the ORs and the masks that do not
    hold it. *)
Ltac bit_kept :=
  repeat first
    [ assumption
    | apply testbit_lor_keeps; [lia|]
    | apply testbit_mask_keeps; [lia|mask_off|] ].

Lemma set_hw_breakpoint_armed addr s w :
  hw_breakpoints_armed s ->
  hw_breakpoints_armed (snd (fst (set_hw_breakpoint addr s w))).
Proof.
  intros Hs0. pose proof Hs0 as (Hl1 & Hl2 & Harm). unfold set_hw_breakpoint.
  destruct (first_slot_spec (fun i => byte_at (hw_breakpoint_used s) i =? 0))
    as [[Hs _]|(i & Hi & Hs & _ & _)]; rewrite Hs.
  { exact Hs0. }
  replace (Z.of_nat i <? 0) with false by (symmetry; apply Z.ltb_ge; lia).
  unfold mbind at 1, M_bind at 1.
  destruct (write_pbr (Z.of_nat i) addr w) as [r w1].
  destruct (negb (r =? 0)); [exact Hs0|].
  cbv zeta. unfold mbind, M_bind.
  destruct (write_tdr _ w1) as [r2 w2].
  destruct (negb (r2 =? 0)); cbn [fst snd mret M_ret].
  - split; [exact Hl1|]. split; [exact Hl2|].
    intros j Hj Hu. cbn [tdr_shadow hw_breakpoint_used] in *.
    destruct (Harm j Hj Hu) as (A & B & C & D).
    unfold MAX_HW_BREAKPOINTS in *.
    repeat split; bit_kept.
  - unfold hw_breakpoints_armed.
    cbn [tdr_shadow hw_breakpoint_used hw_breakpoints].
    rewrite !length_insert, Nat2Z.id.
    split; [exact Hl1|]. split; [exact Hl2|].
    intros j Hj Hu. unfold MAX_HW_BREAKPOINTS in *.
    destruct (decide (i = j)) as [->|Hne].
    + repeat split.
      * apply testbit_lor_sets; [lia|].
        rewrite testbit_bit by lia. apply Z.eqb_refl.
      * apply testbit_lor_keeps; [lia|]. by apply testbit_lor_sets.
      * apply testbit_lor_keeps; [lia|]. by apply testbit_lor_sets.
      * apply testbit_lor_keeps; [lia|]. by apply testbit_lor_sets.
    + rewrite byte_at_insert_ne in Hu by assumption.
      destruct (Harm j Hj Hu) as (A & B & C & D).
      repeat split; bit_kept.
Qed.

Lemma clear_hw_breakpoint_armed addr s w :
  hw_breakpoints_armed s ->
  hw_breakpoints_armed (snd (fst (clear_hw_breakpoint addr s w))).
Proof.
  intros Hs0. pose proof Hs0 as (Hl1 & Hl2 & Harm). unfold clear_hw_breakpoint.
  destruct (first_slot_spec
              (fun i => negb (byte_at (hw_breakpoint_used s) i =? 0)
                        && (byte_at (hw_breakpoints s) i =? addr)))
    as [[Hs _]|(i & Hi & Hs & _ & _)]; rewrite Hs.
  { exact Hs0. }
  replace (Z.of_nat i <? 0) with false by (symmetry; apply Z.ltb_ge; lia).
  unfold mbind, M_bind.
  destruct (write_pbr (Z.of_nat i) 0 w) as [r w1].
  cbv zeta.
  destruct (write_tdr _ w1) as [r2 w2]. cbn [fst snd mret M_ret].
  unfold hw_breakpoints_armed.
  cbn [tdr_shadow hw_breakpoint_used hw_breakpoints].
  rewrite !length_insert, Nat2Z.id.
  split; [exact Hl1|]. split; [exact Hl2|].
  intros j Hj Hu. unfold MAX_HW_BREAKPOINTS in *.
  destruct (decide (i = j)) as [->|Hne];
    [rewrite byte_at_insert_eq in Hu by lia; by destruct Hu|].
  rewrite byte_at_insert_ne in Hu by assumption.
  destruct (Harm j Hj Hu) as (A & B & C & D).
  assert (Hany : existsb (fun k => negb (Z.of_nat k =? Z.of_nat i)
                                   && negb (byte_at (hw_breakpoint_used s) k =? 0))
                         (seq 0 4) = true).
  { apply existsb_exists. exists j. split; [apply in_seq; lia|].
    apply andb_true_intro. split; apply negb_true_iff, Z.eqb_neq; [lia|assumption]. }
  rewrite Hany. cbn [negb].
  repeat split; apply testbit_mask_keeps; try lia; try assumption;
    rewrite testbit_bit by lia; apply Z.eqb_neq; lia.
Qed.

Lemma armed_with_tdr s t' a l ty ac :
  hw_breakpoints_armed s ->
  (forall j, 0 <= j < 32 -> j <> 10 /\ j <> 14 /\ j <> 15 /\ j <> 20 /\ j <> 21 ->
             Z.testbit (tdr_shadow s) j = true -> Z.testbit t' j = true) ->
  hw_breakpoints_armed (Debug (hw_breakpoints s) (hw_breakpoint_used s) t' a l ty ac).
Proof.
  intros (Hl1 & Hl2 & Harm) Ht. split; [exact Hl1|]. split; [exact Hl2|].
  intros j Hj Hu. cbn [tdr_shadow hw_breakpoint_used] in *.
  destruct (Harm j Hj Hu) as (A & B & C & D).
  unfold MAX_HW_BREAKPOINTS in *.
  repeat split; apply Ht; (lia || assumption).
Qed.

Lemma set_watchpoint_armed addr len type s w :
  hw_breakpoints_armed s ->
  hw_breakpoints_armed (snd (fst (set_watchpoint addr len type s w))).
Proof.
  intros Hs0. unfold set_watchpoint.
  destruct (negb (wp_active s =? 0)); [exact Hs0|].
  cbv zeta. unfold mbind at 1, M_bind at 1.
  destruct (write_ablr addr w) as [r w1].
  destruct (negb (r =? 0)); [exact Hs0|].
  unfold mbind at 1, M_bind at 1.
  destruct (write_abhr _ w1) as [r1 w2].
  destruct (negb (r1 =? 0)); [exact Hs0|].
  destruct (negb ((type =? WP_TYPE_WRITE) || (type =? WP_TYPE_READ)
                  || (type =? WP_TYPE_ACCESS))).
  { apply (armed_with_tdr s); [exact Hs0|]. intros j Hj Hn Ht. bit_kept. }
  unfold mbind, M_bind.
  destruct (write_tdr _ w2) as [r2 w3].
  destruct (negb (r2 =? 0)); cbn [fst snd mret M_ret];
    (apply (armed_with_tdr s); [exact Hs0|]; intros j Hj Hn Ht;
     destruct (type =? WP_TYPE_WRITE); [|destruct (type =? WP_TYPE_READ)];
     bit_kept).
Qed.

Lemma clear_watchpoint_armed addr len type s w :
  hw_breakpoints_armed s ->
  hw_breakpoints_armed (snd (fst (clear_watchpoint addr len type s w))).
Proof.
  intros Hs0. pose proof Hs0 as (Hl1 & Hl2 & Harm). unfold clear_watchpoint.
  destruct (wp_active s =? 0); [exact Hs0|].
  destruct (negb (wp_addr s =? addr) || negb (wp_length s =? len)
            || negb (wp_type s =? type)); [exact Hs0|].
  unfold mbind, M_bind.
  destruct (write_ablr 0 w) as [r w1].
  destruct (write_abhr 0 w1) as [r1 w2].
  cbv zeta.
  destruct (write_tdr _ w2) as [r2 w3]. cbn [fst snd mret M_ret].
  split; [exact Hl1|]. split; [exact Hl2|].
  intros j Hj Hu. cbn [tdr_shadow hw_breakpoint_used] in *.
  destruct (Harm j Hj Hu) as (A & B & C & D).
  unfold MAX_HW_BREAKPOINTS in *.
  assert (Hany : existsb (fun k => negb (byte_at (hw_breakpoint_used s) k =? 0))
                         (seq 0 4) = true).
  { apply existsb_exists. exists j. split; [apply in_seq; lia|].
    by apply negb_true_iff, Z.eqb_neq. }
  rewrite Hany. cbn [negb].
  repeat split; bit_kept.
Qed.

(** X11.  Whatever the pod answers, the four breakpoint functions keep the
    breakpoint table and the TDR shadow in step: after any of them every
    hardware breakpoint slot in use still has its enable bit, TRC_HALT,
    EBL1 and EPC1 set in the value the server will next write to the TDR. *)
Theorem hw_breakpoints_stay_armed (addr len type : Z) (s : debug_state) (w : world) :
  hw_breakpoints_armed s ->
  hw_breakpoints_armed (snd (fst (set_hw_breakpoint addr s w)))
  /\ hw_breakpoints_armed (snd (fst (clear_hw_breakpoint addr s w)))
  /\ hw_breakpoints_armed (snd (fst (set_watchpoint addr len type s w)))
  /\ hw_breakpoints_armed (snd (fst (clear_watchpoint addr len type s w))).
Proof.
  intros H. split; [|split; [|split]].
  - by apply set_hw_breakpoint_armed.
  - by apply clear_hw_breakpoint_armed.
  - by apply set_watchpoint_armed.
  - by apply clear_watchpoint_armed.
Qed.

Lemma hw_breakpoints_stay_armed_witness :
  hw_breakpoints_armed
    (snd (fst (set_hw_breakpoint 0x500 one_breakpoint_state world_after_reset)))
  /\ hw_breakpoints_armed
       (snd (fst (clear_hw_breakpoint 0x500 one_breakpoint_state world_after_reset)))
  /\ hw_breakpoints_armed
       (snd (fst (set_watchpoint 0x500 4 WP_TYPE_WRITE one_breakpoint_state
                                 world_after_reset)))
  /\ hw_breakpoints_armed
       (snd (fst (clear_watchpoint 0x500 4 WP_TYPE_WRITE one_breakpoint_state
                                   world_after_reset))).
Proof.
  apply (hw_breakpoints_stay_armed 0x500 4 WP_TYPE_WRITE one_breakpoint_state
                                   world_after_reset).
  split; [reflexivity|]. split; [reflexivity|].
  intros i Hi Hu. destruct i as [|i]; [repeat split; reflexivity|].
  exfalso. apply Hu. destruct i as [|[|[|i]]]; reflexivity.
Defined.

Lemma first_slot_unique (test : nat -> bool) (i : nat) :
  (i < 4)%nat -> test i = true ->
  (forall j : nat, (j < 4)%nat -> j <> i -> test j = false) ->
  first_slot test = Z.of_nat i.
Proof.
  intros Hi Ht Hother.
  destruct (first_slot_spec test) as [[_ Hnone]|(k & Hk & Hs & Htk & _)].
  - rewrite Hnone in Ht by assumption. discriminate.
  - destruct (decide (k = i)) as [->|Hne]; [assumption|].
    rewrite Hother in Htk by assumption. discriminate.
Qed.

(** X12.  [clear_hw_breakpoint] does not look at the watchpoint.  Clearing
    the only hardware breakpoint succeeds and switches EBL1 and EPC1 off in
    the TDR shadow, whether or not a watchpoint is active; the watchpoint
    record is left as it was. *)
Theorem clear_last_hw_breakpoint_drops_level1 (addr : Z) (s : debug_state)
    (w : world) (i : nat) :
  (i < MAX_HW_BREAKPOINTS)%nat ->
  byte_at (hw_breakpoint_used s) i <> 0 ->
  byte_at (hw_breakpoints s) i = addr ->
  (forall j : nat, (j < MAX_HW_BREAKPOINTS)%nat -> j <> i ->
                   byte_at (hw_breakpoint_used s) j = 0) ->
  let r := fst (fst (clear_hw_breakpoint addr s w)) in
  let s' := snd (fst (clear_hw_breakpoint addr s w)) in
  r = 0
  /\ Z.testbit (tdr_shadow s') 13 = false
  /\ Z.testbit (tdr_shadow s') 9 = false
  /\ (wp_addr s', wp_length s', wp_type s', wp_active s')
     = (wp_addr s, wp_length s, wp_type s, wp_active s).
Proof.
  unfold MAX_HW_BREAKPOINTS. intros Hi Hu Ha Hother. cbv zeta.
  unfold clear_hw_breakpoint.
  rewrite (first_slot_unique _ i Hi).
  2:{ apply andb_true_intro. split; [by apply negb_true_iff, Z.eqb_neq|].
      by apply Z.eqb_eq. }
  2:{ intros j Hj Hne. rewrite (Hother j Hj Hne). reflexivity. }
  replace (Z.of_nat i <? 0) with false by (symmetry; apply Z.ltb_ge; lia).
  unfold mbind, M_bind.
  destruct (write_pbr (Z.of_nat i) 0 w) as [r w1].
  cbv zeta.
  assert (Hany : existsb (fun k => negb (Z.of_nat k =? Z.of_nat i)
                                   && negb (byte_at (hw_breakpoint_used s) k =? 0))
                         (seq 0 MAX_HW_BREAKPOINTS) = false).
  { apply not_true_is_false. intros He. apply existsb_exists in He.
    destruct He as (k & Hk & Hb). apply in_seq in Hk.
    apply andb_prop in Hb as [Hb1 Hb2].
    apply negb_true_iff, Z.eqb_neq in Hb1, Hb2.
    apply Hb2, Hother; unfold MAX_HW_BREAKPOINTS in *; lia. }
  rewrite Hany. cbn [negb].
  destruct (write_tdr _ w1) as [r2 w2]. cbn [fst snd mret M_ret tdr_shadow
    wp_addr wp_length wp_type wp_active].
  repeat split; apply testbit_mask_clears; try lia; reflexivity.
Qed.

Lemma clear_last_hw_breakpoint_drops_level1_witness :
  let r := fst (fst (clear_hw_breakpoint 0x400 breakpoint_and_watchpoint_state
                                         world_after_reset)) in
  let s' := snd (fst (clear_hw_breakpoint 0x400 breakpoint_and_watchpoint_state
                                          world_after_reset)) in
  r = 0
  /\ Z.testbit (tdr_shadow s') 13 = false
  /\ Z.testbit (tdr_shadow s') 9 = false
  /\ (wp_addr s', wp_length s', wp_type s', wp_active s')
     = (wp_addr breakpoint_and_watchpoint_state,
        wp_length breakpoint_and_watchpoint_state,
        wp_type breakpoint_and_watchpoint_state,
        wp_active breakpoint_and_watchpoint_state).
Proof.
  apply (clear_last_hw_breakpoint_drops_level1 0x400 breakpoint_and_watchpoint_state
                                               world_after_reset 0).
  - unfold MAX_HW_BREAKPOINTS; lia.
  - vm_compute. discriminate.
  - reflexivity.
  - intros j Hj Hne. unfold MAX_HW_BREAKPOINTS in Hj.
    destruct j as [|[|[|[|j]]]]; try reflexivity; lia.
Defined.

(** X13.  [set_hw_breakpoint] takes the lowest free slot.  A call either
    fails and leaves both tables as they were, or returns the index of the
    first slot that was free, records the address there and marks it used,
    leaving the other slots alone; with all four slots in use it fails
    before any USB transfer. *)
Theorem set_hw_breakpoint_lowest_free_slot (addr : Z) (s : debug_state) (w : world) :
  length (hw_breakpoints s) = MAX_HW_BREAKPOINTS ->
  length (hw_breakpoint_used s) = MAX_HW_BREAKPOINTS ->
  let r := fst (fst (set_hw_breakpoint addr s w)) in
  let s' := snd (fst (set_hw_breakpoint addr s w)) in
  ((r = -1 /\ hw_breakpoints s' = hw_breakpoints s
    /\ hw_breakpoint_used s' = hw_breakpoint_used s)
   \/ (exists i : nat,
         (i < MAX_HW_BREAKPOINTS)%nat /\ r = Z.of_nat i
         /\ byte_at (hw_breakpoint_used s) i = 0
         /\ (forall j : nat, (j < i)%nat -> byte_at (hw_breakpoint_used s) j <> 0)
         /\ hw_breakpoints s' = <[i := addr]> (hw_breakpoints s)
         /\ hw_breakpoint_used s' = <[i := 1]> (hw_breakpoint_used s)))
  /\ ((forall i : nat, (i < MAX_HW_BREAKPOINTS)%nat ->
                       byte_at (hw_breakpoint_used s) i <> 0) ->
      set_hw_breakpoint addr s w = ((-1, s), w)).
Proof.
  intros Hl1 Hl2. cbv zeta.
  remember (set_hw_breakpoint addr s w) as res eqn:E. revert E.
  unfold set_hw_breakpoint, MAX_HW_BREAKPOINTS in *.
  destruct (first_slot_spec (fun i => byte_at (hw_breakpoint_used s) i =? 0))
    as [[Hs Hnone]|(i & Hi & Hs & Hti & Hbefore)]; rewrite Hs.
  { intros ->. split; [left; repeat split|]. reflexivity. }
  replace (Z.of_nat i <? 0) with false by (symmetry; apply Z.ltb_ge; lia).
  apply Z.eqb_eq in Hti.
  intros E. split.
  2:{ intros Hall. by destruct (Hall i Hi). }
  revert E.
  unfold mbind at 1, M_bind at 1.
  destruct (write_pbr (Z.of_nat i) addr w) as [r w1].
  destruct (negb (r =? 0)); [intros ->; left; repeat split|].
  cbv zeta. unfold mbind, M_bind.
  destruct (write_tdr _ w1) as [r2 w2].
  destruct (negb (r2 =? 0)); intros ->;
    cbn [fst snd mret M_ret hw_breakpoints hw_breakpoint_used];
    [left; repeat split|].
  right. exists i. rewrite Nat2Z.id. repeat split; try assumption.
  intros j Hj. specialize (Hbefore j Hj). by apply Z.eqb_neq.
Qed.

Lemma set_hw_breakpoint_lowest_free_slot_witness :
  let r := fst (fst (set_hw_breakpoint 0x500 one_breakpoint_state world_after_reset)) in
  let s' := snd (fst (set_hw_breakpoint 0x500 one_breakpoint_state world_after_reset)) in
  ((r = -1 /\ hw_breakpoints s' = hw_breakpoints one_breakpoint_state
    /\ hw_breakpoint_used s' = hw_breakpoint_used one_breakpoint_state)
   \/ (exists i : nat,
         (i < MAX_HW_BREAKPOINTS)%nat /\ r = Z.of_nat i
         /\ byte_at (hw_breakpoint_used one_breakpoint_state) i = 0
         /\ (forall j : nat, (j < i)%nat ->
                             byte_at (hw_breakpoint_used one_breakpoint_state) j <> 0)
         /\ hw_breakpoints s' = <[i := 0x500]> (hw_breakpoints one_breakpoint_state)
         /\ hw_breakpoint_used s'
            = <[i := 1]> (hw_breakpoint_used one_breakpoint_state)))
  /\ ((forall i : nat, (i < MAX_HW_BREAKPOINTS)%nat ->
                       byte_at (hw_breakpoint_used one_breakpoint_state) i <> 0) ->
      set_hw_breakpoint 0x500 one_breakpoint_state world_after_reset
      = ((-1, one_breakpoint_state), world_after_reset)).
Proof.
  apply (set_hw_breakpoint_lowest_free_slot 0x500 one_breakpoint_state
                                            world_after_reset); reflexivity.
Defined.

(** ** Flash programming on the idealised target *)

Lemma store32_other (m : memory) a v x :
  x < a \/ a + 4 <= x -> store32 m a v x = m x.
Proof.
  intros H. unfold store32, store8.
  repeat match goal with
         | |- context [x =? ?b] =>
             replace (x =? b) with false by (symmetry; apply Z.eqb_neq; lia)
         end.
  reflexivity.
Qed.

Lemma store32_byte (m : memory) a v (j : Z) :
  0 <= j < 4 -> store32 m a v (a + j) = byte_of v (24 - 8 * j).
Proof.
  intros H. unfold store32, store8.
  assert (Hj : j = 0 \/ j = 1 \/ j = 2 \/ j = 3) by lia.
  destruct Hj as [Hj|[Hj|[Hj|Hj]]]; subst j.
  - rewrite Z.add_0_r.
    repeat match goal with
           | |- context [a =? a + ?k] =>
               replace (a =? a + k) with false by (symmetry; apply Z.eqb_neq; lia)
           end.
    by rewrite Z.eqb_refl.
  - repeat match goal with
           | |- context [a + 1 =? a + ?k] =>
               lazymatch k with
               | 1 => fail
               | _ => replace (a + 1 =? a + k) with false
                        by (symmetry; apply Z.eqb_neq; lia)
               end
           end.
    by rewrite Z.eqb_refl.
  - replace (a + 2 =? a + 3) with false by (symmetry; apply Z.eqb_neq; lia).
    by rewrite Z.eqb_refl.
  - by rewrite Z.eqb_refl.
Qed.

Lemma word_of_bytes_testbit b0 b1 b2 b3 n :
  is_byte b0 -> is_byte b1 -> is_byte b2 -> is_byte b3 -> 0 <= n ->
  Z.testbit (word_of_bytes b0 b1 b2 b3) n
  = if n <? 8 then Z.testbit b3 n
    else if n <? 16 then Z.testbit b2 (n - 8)
    else if n <? 24 then Z.testbit b1 (n - 16)
    else Z.testbit b0 (n - 24).
Proof.
  unfold is_byte. intros H0 H1 H2 H3 Hn. unfold word_of_bytes.
  rewrite u32_testbit, !Z.lor_spec, !Z.shiftl_spec by lia.
  destruct (n <? 8) eqn:E8.
  { apply Z.ltb_lt in E8.
    rewrite !(Z.testbit_neg_r _ (n - _)) by lia.
    replace (n <? 32) with true by (symmetry; apply Z.ltb_lt; lia).
    reflexivity. }
  apply Z.ltb_ge in E8.
  rewrite (testbit_high_false_ge b3 8 n) by lia. rewrite orb_false_r.
  destruct (n <? 16) eqn:E16.
  { apply Z.ltb_lt in E16.
    rewrite !(Z.testbit_neg_r _ (n - 16)), !(Z.testbit_neg_r _ (n - 24)) by lia.
    replace (n <? 32) with true by (symmetry; apply Z.ltb_lt; lia).
    reflexivity. }
  apply Z.ltb_ge in E16.
  rewrite (testbit_high_false_ge b2 8 (n - 8)) by lia. rewrite orb_false_r.
  destruct (n <? 24) eqn:E24.
  { apply Z.ltb_lt in E24.
    rewrite !(Z.testbit_neg_r _ (n - 24)) by lia.
    replace (n <? 32) with true by (symmetry; apply Z.ltb_lt; lia).
    reflexivity. }
  apply Z.ltb_ge in E24.
  rewrite (testbit_high_false_ge b1 8 (n - 16)) by lia. rewrite orb_false_r.
  destruct (n <? 32) eqn:E32; [reflexivity|].
  apply Z.ltb_ge in E32. symmetry. apply (testbit_high_false_ge b0 8); lia.
Qed.

Lemma byte_of_word_of_bytes b0 b1 b2 b3 :
  is_byte b0 -> is_byte b1 -> is_byte b2 -> is_byte b3 ->
  byte_of (word_of_bytes b0 b1 b2 b3) 24 = b0
  /\ byte_of (word_of_bytes b0 b1 b2 b3) 16 = b1
  /\ byte_of (word_of_bytes b0 b1 b2 b3) 8 = b2
  /\ byte_of (word_of_bytes b0 b1 b2 b3) 0 = b3.
Proof.
  intros H0 H1 H2 H3.
  repeat split; apply Z.bits_inj'; intros n Hn;
    rewrite byte_of_testbit, word_of_bytes_testbit by (assumption || lia);
    (destruct (n <? 8) eqn:E8;
     [apply Z.ltb_lt in E8|
      apply Z.ltb_ge in E8; symmetry;
      match goal with |- Z.testbit ?b _ = _ =>
        apply (testbit_high_false_ge b 8); unfold is_byte in *; lia end]);
    cbn [andb];
    repeat match goal with
           | |- context [?a <? ?b] =>
               first [ replace (a <? b) with true by (symmetry; apply Z.ltb_lt; lia)
                     | replace (a <? b) with false by (symmetry; apply Z.ltb_ge; lia) ]
           end;
    f_equal; lia.
Qed.

Lemma word_of_bytes_u32 b0 b1 b2 b3 :
  u32 (word_of_bytes b0 b1 b2 b3) = word_of_bytes b0 b1 b2 b3.
Proof. unfold word_of_bytes. apply u32_u32. Qed.

Lemma byte_of_u32 v k : 0 <= k <= 24 -> byte_of (u32 v) k = byte_of v k.
Proof.
  intros Hk. apply Z.bits_inj'. intros n Hn.
  rewrite !byte_of_testbit, u32_testbit by lia.
  destruct (n <? 8) eqn:E; [|reflexivity]. apply Z.ltb_lt in E.
  by replace (n + k <? 32) with true by (symmetry; apply Z.ltb_lt; lia).
Qed.

Lemma word_of_bytes_be32 v :
  word_of_bytes (byte_of v 24) (byte_of v 16) (byte_of v 8) (byte_of v 0) = u32 v.
Proof.
  apply Z.bits_inj'. intros n Hn.
  rewrite word_of_bytes_testbit by (apply byte_of_is_byte || lia).
  rewrite u32_testbit.
  destruct (n <? 8) eqn:E8.
  { apply Z.ltb_lt in E8. rewrite byte_of_testbit by lia. rewrite Z.add_0_r.
    replace (n <? 8) with true by (symmetry; apply Z.ltb_lt; lia).
    by replace (n <? 32) with true by (symmetry; apply Z.ltb_lt; lia). }
  apply Z.ltb_ge in E8.
  destruct (n <? 16) eqn:E16.
  { apply Z.ltb_lt in E16. rewrite byte_of_testbit by lia.
    replace (n - 8 <? 8) with true by (symmetry; apply Z.ltb_lt; lia).
    replace (n <? 32) with true by (symmetry; apply Z.ltb_lt; lia).
    cbn [andb]. f_equal. lia. }
  apply Z.ltb_ge in E16.
  destruct (n <? 24) eqn:E24.
  { apply Z.ltb_lt in E24. rewrite byte_of_testbit by lia.
    replace (n - 16 <? 8) with true by (symmetry; apply Z.ltb_lt; lia).
    replace (n <? 32) with true by (symmetry; apply Z.ltb_lt; lia).
    cbn [andb]. f_equal. lia. }
  apply Z.ltb_ge in E24. rewrite byte_of_testbit by lia.
  destruct (n <? 32) eqn:E32.
  { apply Z.ltb_lt in E32.
    replace (n - 24 <? 8) with true by (symmetry; apply Z.ltb_lt; lia).
    cbn [andb]. f_equal. lia. }
  apply Z.ltb_ge in E32.
  by replace (n - 24 <? 8) with false by (symmetry; apply Z.ltb_ge; lia).
Qed.

Lemma load32_store32 (m : memory) a v : load32 (store32 m a v) a = u32 v.
Proof.
  unfold load32.
  rewrite <- (Z.add_0_r a) at 2.
  rewrite !store32_byte by lia.
  apply word_of_bytes_be32.
Qed.

Lemma load32_store32_other (m : memory) a v b :
  b + 4 <= a \/ a + 4 <= b -> load32 (store32 m a v) b = load32 m b.
Proof. intros H. unfold load32. by rewrite !store32_other by lia. Qed.

(** The parameter block as [simple_flash_run_op] leaves it. *)
Lemma params_read (m : memory) op faddr len :
  let m5 := store32 (store32 (store32 (store32 (store32 m
              FLASHLOADER_PARAM_OPERATION (u32 op))
              FLASHLOADER_PARAM_FLASH_ADDR (u32 faddr))
              FLASHLOADER_PARAM_LENGTH (u32 len))
              FLASHLOADER_PARAM_RESULT (u32 0xFFFFFFFF))
              FLASHLOADER_PARAM_STATUS (u32 0) in
  load32 m5 FLASHLOADER_PARAM_OPERATION = u32 op
  /\ load32 m5 FLASHLOADER_PARAM_FLASH_ADDR = u32 faddr
  /\ load32 m5 FLASHLOADER_PARAM_LENGTH = u32 len
  /\ forall x, x < FLASHLOADER_PARAM_OPERATION \/ FLASHLOADER_PARAM_STATUS + 4 <= x ->
               m5 x = m x.
Proof.
  cbv zeta. unfold FLASHLOADER_PARAM_OPERATION, FLASHLOADER_PARAM_FLASH_ADDR,
    FLASHLOADER_PARAM_LENGTH, FLASHLOADER_PARAM_RESULT, FLASHLOADER_PARAM_STATUS.
  repeat split.
  - rewrite !load32_store32_other by lia. by rewrite load32_store32, u32_u32.
  - rewrite !load32_store32_other by lia. by rewrite load32_store32, u32_u32.
  - rewrite !load32_store32_other by lia. by rewrite load32_store32, u32_u32.
  - intros x Hx. by rewrite !store32_other by lia.
Qed.

Lemma simple_flash_run_op_unfold op faddr len fw :
  simple_flash_run_op op faddr len fw
  = let m5 := store32 (store32 (store32 (store32 (store32 (fw_mem fw)
                FLASHLOADER_PARAM_OPERATION (u32 op))
                FLASHLOADER_PARAM_FLASH_ADDR (u32 faddr))
                FLASHLOADER_PARAM_LENGTH (u32 len))
                FLASHLOADER_PARAM_RESULT (u32 0xFFFFFFFF))
                FLASHLOADER_PARAM_STATUS (u32 0) in
    ((0, load32 (flashloader_entry m5) FLASHLOADER_PARAM_RESULT),
     FlashWorld (flashloader_entry m5) (fw_vflash fw)
                (Loader (gpl_initialized (fw_loader fw))
                        (erased_sectors (fw_loader fw)) 1
                        (ss_initialized (fw_loader fw)))).
Proof. reflexivity. Qed.

Ltac fold_shift :=
  match goal with
  | |- context [24 - 8 * ?c] =>
      let v := eval compute in (24 - 8 * c) in change (24 - 8 * c) with v
  end.

Lemma flash_program_words_spec n : forall (i : Z) addr (m : memory),
  0 <= i -> 0 <= addr ->
  addr + 4 * (i + Z.of_nat n) <= FLASH_SIZE ->
  (forall y, FLASHLOADER_DATA_BUFFER + 4 * i <= y
             < FLASHLOADER_DATA_BUFFER + 4 * (i + Z.of_nat n) -> is_byte (m y)) ->
  forall x,
    flash_program_words n i addr m x
    = if (addr + 4 * i <=? x) && (x <? addr + 4 * (i + Z.of_nat n))
      then m (FLASHLOADER_DATA_BUFFER + (x - addr))
      else m x.
Proof.
  unfold FLASH_SIZE, FLASHLOADER_DATA_BUFFER.
  induction n as [|n IH]; intros i addr m Hi Ha Hfit Hbytes x.
  - cbn [flash_program_words].
    replace ((addr + 4 * i <=? x) && (x <? addr + 4 * (i + Z.of_nat 0))) with false;
      [reflexivity|].
    symmetry. apply andb_false_iff.
    destruct (Z.le_gt_cases (addr + 4 * i) x);
      [right; apply Z.ltb_ge|left; apply Z.leb_gt]; lia.
  - cbn [flash_program_words]. unfold cfm_program, FLASHLOADER_DATA_BUFFER.
    set (m1 := store32 m (addr + 4 * i) (load32 m (536871168 + 4 * i))).
    assert (Hbuf : forall y, 536871168 <= y -> m1 y = m y)
      by (intros y Hy; unfold m1; apply store32_other; lia).
    rewrite IH; try lia;
      [|intros y Hy; rewrite Hbuf by lia; apply Hbytes; lia].
    destruct ((addr + 4 * (i + 1) <=? x) && (x <? addr + 4 * (i + 1 + Z.of_nat n)))
      eqn:E.
    + apply andb_prop in E as [E1 E2]. apply Z.leb_le in E1. apply Z.ltb_lt in E2.
      replace (addr + 4 * i <=? x) with true by (symmetry; apply Z.leb_le; lia).
      replace (x <? addr + 4 * (i + Z.of_nat (S n))) with true
        by (symmetry; apply Z.ltb_lt; lia).
      cbn [andb]. apply Hbuf. lia.
    + destruct ((addr + 4 * i <=? x) && (x <? addr + 4 * (i + Z.of_nat (S n))))
        eqn:E'.
      * apply andb_prop in E' as [E1 E2]. apply Z.leb_le in E1. apply Z.ltb_lt in E2.
        assert (Hx : addr + 4 * i <= x < addr + 4 * i + 4).
        { apply andb_false_iff in E as [E|E];
            [apply Z.leb_gt in E|apply Z.ltb_ge in E]; lia. }
        unfold m1.
        replace x with (addr + 4 * i + (x - (addr + 4 * i))) at 1 by lia.
        rewrite store32_byte by lia.
        unfold load32.
        destruct (byte_of_word_of_bytes
                    (m (536871168 + 4 * i)) (m (536871168 + 4 * i + 1))
                    (m (536871168 + 4 * i + 2)) (m (536871168 + 4 * i + 3)))
          as (B0 & B1 & B2 & B3); try (apply Hbytes; lia).
        assert (Hj : x - (addr + 4 * i) = 0 \/ x - (addr + 4 * i) = 1
                     \/ x - (addr + 4 * i) = 2 \/ x - (addr + 4 * i) = 3) by lia.
        destruct Hj as [Hj|[Hj|[Hj|Hj]]]; rewrite Hj; fold_shift;
          [rewrite B0|rewrite B1|rewrite B2|rewrite B3]; f_equal; lia.
      * unfold m1. apply store32_other.
        apply andb_false_iff in E' as [E'|E'];
          [apply Z.leb_gt in E'|apply Z.ltb_ge in E']; lia.
Qed.

(** The byte [k] of a chunk as it is uploaded: the data, then 0xFF. *)
Lemma program_word_bytes data len i :
  Forall is_byte data -> 0 <= i ->
  let pad k := if k <? len then byte_at data (Z.to_nat k) else 0xFF in
  program_word data len i
  = word_of_bytes (pad (4 * i)) (pad (4 * i + 1)) (pad (4 * i + 2)) (pad (4 * i + 3)).
Proof.
  intros Hb Hi pad. unfold program_word, pad.
  replace (i * 4) with (4 * i) by lia.
  destruct (4 * i + 4 <=? len) eqn:E; [|reflexivity].
  apply Z.leb_le in E.
  repeat match goal with
         | |- context [?a <? len] =>
             replace (a <? len) with true by (symmetry; apply Z.ltb_lt; lia)
         end.
  reflexivity.
Qed.

Lemma upload_words_S n i data len fw :
  upload_words (S n) i data len fw
  = upload_words n (i + 1) data len
      (FlashWorld (store32 (fw_mem fw) (FLASHLOADER_DATA_BUFFER + i * 4)
                           (u32 (program_word data len i)))
                  (fw_vflash fw) (fw_loader fw)).
Proof. reflexivity. Qed.

Lemma upload_words_spec data len n : forall (i : Z) fw,
  Forall is_byte data -> 0 <= i ->
  let pad k := if k <? len then byte_at data (Z.to_nat k) else 0xFF in
  fst (upload_words n i data len fw) = 0
  /\ fw_vflash (snd (upload_words n i data len fw)) = fw_vflash fw
  /\ fw_loader (snd (upload_words n i data len fw)) = fw_loader fw
  /\ forall x,
       fw_mem (snd (upload_words n i data len fw)) x
       = if (FLASHLOADER_DATA_BUFFER + 4 * i <=? x)
            && (x <? FLASHLOADER_DATA_BUFFER + 4 * (i + Z.of_nat n))
         then pad (x - FLASHLOADER_DATA_BUFFER)
         else fw_mem fw x.
Proof.
  unfold FLASHLOADER_DATA_BUFFER.
  cbv zeta.
  induction n as [|n IH]; intros i fw Hb Hi.
  - cbn [upload_words].
    split; [reflexivity|]. split; [reflexivity|]. split; [reflexivity|].
    intros x. cbn [snd mret F_ret].
    replace ((536871168 + 4 * i <=? x) && (x <? 536871168 + 4 * (i + Z.of_nat 0)))
      with false; [reflexivity|].
    symmetry. apply andb_false_iff.
    destruct (Z.le_gt_cases (536871168 + 4 * i) x);
      [right; apply Z.ltb_ge|left; apply Z.leb_gt]; lia.
  - rewrite upload_words_S.
    set (fw1 := FlashWorld _ _ _).
    destruct (IH (i + 1) fw1 Hb ltac:(lia)) as (H1 & H2 & H3 & H4).
    split; [exact H1|]. split; [exact H2|]. split; [exact H3|].
    intros x. rewrite H4. unfold fw1. cbn [fw_mem].
    unfold FLASHLOADER_DATA_BUFFER.
    destruct ((536871168 + 4 * (i + 1) <=? x)
              && (x <? 536871168 + 4 * (i + 1 + Z.of_nat n))) eqn:E.
    + apply andb_prop in E as [E1 E2]. apply Z.leb_le in E1. apply Z.ltb_lt in E2.
      replace (536871168 + 4 * i <=? x) with true by (symmetry; apply Z.leb_le; lia).
      replace (x <? 536871168 + 4 * (i + Z.of_nat (S n))) with true
        by (symmetry; apply Z.ltb_lt; lia).
      reflexivity.
    + destruct ((536871168 + 4 * i <=? x)
                && (x <? 536871168 + 4 * (i + Z.of_nat (S n)))) eqn:E'.
      * apply andb_prop in E' as [E1 E2]. apply Z.leb_le in E1. apply Z.ltb_lt in E2.
        assert (Hx : 536871168 + 4 * i <= x < 536871168 + 4 * i + 4).
        { apply andb_false_iff in E as [E|E];
            [apply Z.leb_gt in E|apply Z.ltb_ge in E]; lia. }
        replace (536871168 + i * 4) with (536871168 + 4 * i) by lia.
        replace x with (536871168 + 4 * i + (x - (536871168 + 4 * i))) at 1 by lia.
        rewrite store32_byte by lia.
        rewrite byte_of_u32 by lia.
        rewrite program_word_bytes by assumption. cbv zeta.
        assert (Hpad : forall k, is_byte (if k <? len then byte_at data (Z.to_nat k)
                                          else 0xFF)).
        { intros k. destruct (k <? len); [by apply byte_at_is_byte|].
          unfold is_byte. lia. }
        destruct (byte_of_word_of_bytes _ _ _ _ (Hpad (4 * i)) (Hpad (4 * i + 1))
                    (Hpad (4 * i + 2)) (Hpad (4 * i + 3))) as (B0 & B1 & B2 & B3).
        assert (Hj : x - (536871168 + 4 * i) = 0 \/ x - (536871168 + 4 * i) = 1
                     \/ x - (536871168 + 4 * i) = 2
                     \/ x - (536871168 + 4 * i) = 3) by lia.
        destruct Hj as [Hj|[Hj|[Hj|Hj]]]; rewrite Hj; fold_shift;
          [rewrite B0|rewrite B1|rewrite B2|rewrite B3];
          (replace (x - 536871168) with (4 * i + (x - (536871168 + 4 * i))) by lia);
          rewrite Hj; rewrite ?Z.add_0_r; reflexivity.
      * replace (536871168 + i * 4) with (536871168 + 4 * i) by lia.
        apply store32_other.
        apply andb_false_iff in E' as [E'|E'];
          [apply Z.leb_gt in E'|apply Z.ltb_ge in E']; lia.
Qed.

Lemma flashloader_entry_program (m : memory) faddr len :
  0 <= faddr < 2 ^ 32 -> 0 <= len < 2 ^ 32 ->
  let m5 := store32 (store32 (store32 (store32 (store32 m
              FLASHLOADER_PARAM_OPERATION (u32 FLASH_OP_PROGRAM))
              FLASHLOADER_PARAM_FLASH_ADDR (u32 faddr))
              FLASHLOADER_PARAM_LENGTH (u32 len))
              FLASHLOADER_PARAM_RESULT (u32 0xFFFFFFFF))
              FLASHLOADER_PARAM_STATUS (u32 0) in
  flashloader_entry m5
  = store32 (flash_program_words (Z.to_nat (len / 4)) 0 faddr m5)
            FLASHLOADER_PARAM_RESULT FLASH_RESULT_SUCCESS.
Proof.
  intros Hf Hl m5. unfold flashloader_entry.
  destruct (params_read m FLASH_OP_PROGRAM faddr len) as (H1 & H2 & H3 & _).
  fold m5 in H1, H2, H3. rewrite H1, H2, H3.
  rewrite (u32_small faddr), (u32_small len) by assumption.
  reflexivity.
Qed.

Lemma flashloader_entry_init (m : memory) faddr len :
  let m5 := store32 (store32 (store32 (store32 (store32 m
              FLASHLOADER_PARAM_OPERATION (u32 FLASH_OP_INIT))
              FLASHLOADER_PARAM_FLASH_ADDR (u32 faddr))
              FLASHLOADER_PARAM_LENGTH (u32 len))
              FLASHLOADER_PARAM_RESULT (u32 0xFFFFFFFF))
              FLASHLOADER_PARAM_STATUS (u32 0) in
  flashloader_entry m5 = store32 m5 FLASHLOADER_PARAM_RESULT FLASH_RESULT_SUCCESS.
Proof.
  intros m5. unfold flashloader_entry.
  destruct (params_read m FLASH_OP_INIT faddr len) as (H1 & _).
  fold m5 in H1. rewrite H1. reflexivity.
Qed.

(** Addresses outside the parameter block of the loader. *)
Lemma outside_params x :
  0 <= x < FLASH_SIZE \/ FLASHLOADER_DATA_BUFFER <= x ->
  x < FLASHLOADER_PARAM_OPERATION \/ FLASHLOADER_PARAM_STATUS + 4 <= x.
Proof.
  unfold FLASH_SIZE, FLASHLOADER_DATA_BUFFER, FLASHLOADER_PARAM_OPERATION,
    FLASHLOADER_PARAM_STATUS. lia.
Qed.

Lemma simple_flash_ensure_init_spec fw :
  fst (simple_flash_ensure_init fw) = 0
  /\ fw_vflash (snd (simple_flash_ensure_init fw)) = fw_vflash fw
  /\ gpl_initialized (fw_loader (snd (simple_flash_ensure_init fw)))
     = gpl_initialized (fw_loader fw)
  /\ erased_sectors (fw_loader (snd (simple_flash_ensure_init fw)))
     = erased_sectors (fw_loader fw)
  /\ forall x, 0 <= x < FLASH_SIZE \/ FLASHLOADER_DATA_BUFFER <= x ->
               fw_mem (snd (simple_flash_ensure_init fw)) x = fw_mem fw x.
Proof.
  unfold simple_flash_ensure_init, mbind, F_bind, fget.
  destruct (ss_initialized (fw_loader fw) =? 0); [|by repeat split].
  rewrite simple_flash_run_op_unfold. cbv zeta.
  rewrite flashloader_entry_init, load32_store32.
  change (u32 FLASH_RESULT_SUCCESS =? FLASH_RESULT_SUCCESS) with true.
  cbn [negb orb Z.eqb fst snd set_loader mret F_ret fw_mem fw_vflash fw_loader
       gpl_initialized erased_sectors].
  repeat split. intros x Hx.
  rewrite store32_other
    by (unfold FLASH_SIZE, FLASHLOADER_DATA_BUFFER, FLASHLOADER_PARAM_RESULT in *; lia).
  destruct (params_read (fw_mem fw) FLASH_OP_INIT 0 0) as (_ & _ & _ & H).
  apply H, outside_params, Hx.
Qed.

Lemma simple_flash_program_spec faddr data len fw :
  Forall is_byte data -> 0 <= len <= FLASHLOADER_DATA_BUFFER_SIZE -> 0 <= faddr ->
  faddr + len <= FLASH_SIZE ->
  fst (simple_flash_program faddr data len fw) = 0
  /\ fw_vflash (snd (simple_flash_program faddr data len fw)) = fw_vflash fw
  /\ gpl_initialized (fw_loader (snd (simple_flash_program faddr data len fw)))
     = gpl_initialized (fw_loader fw)
  /\ forall x, 0 <= x < FLASH_SIZE ->
       fw_mem (snd (simple_flash_program faddr data len fw)) x
       = if (faddr <=? x) && (x <? faddr + 4 * (len / 4))
         then byte_at data (Z.to_nat (x - faddr)) else fw_mem fw x.
Proof.
  intros Hb Hlen Hf Hfit.
  remember (simple_flash_program faddr data len fw) as res eqn:E. revert E.
  unfold simple_flash_program.
  replace (FLASHLOADER_DATA_BUFFER_SIZE <? len) with false
    by (symmetry; apply Z.ltb_ge; lia).
  unfold mbind at 1, F_bind at 1.
  destruct (simple_flash_ensure_init_spec fw) as (E1 & E2 & E3 & _ & E5).
  destruct (simple_flash_ensure_init fw) as [r fa]. cbn [fst snd] in E1, E2, E3, E5.
  subst r. cbn [Z.eqb negb].
  unfold mbind at 1, F_bind at 1. unfold fget at 1.
  unfold mbind at 1, F_bind at 1.
  set (step := (if ss_loaded (fw_loader fa) =? 0
                then set_loader (fun l => Loader (gpl_initialized l) (erased_sectors l)
                                                 1 (ss_initialized l))
                else mret ()) fa).
  assert (Hstep : fw_mem (snd step) = fw_mem fa /\ fw_vflash (snd step) = fw_vflash fa
                  /\ gpl_initialized (fw_loader (snd step))
                     = gpl_initialized (fw_loader fa))
    by (unfold step; destruct (ss_loaded (fw_loader fa) =? 0); by repeat split).
  destruct step as [[] fb]. cbn [snd] in Hstep. destruct Hstep as (S1 & S2 & S3).
  cbv zeta. unfold mbind at 1, F_bind at 1.
  destruct (upload_words_spec data len (Z.to_nat ((len + 3) / 4)) 0 fb Hb ltac:(lia))
    as (U1 & U2 & U3 & U4).
  destruct (upload_words (Z.to_nat ((len + 3) / 4)) 0 data len fb) as [r fc].
  cbn [fst snd] in U1, U2, U3, U4. subst r. cbn [Z.eqb negb].
  unfold mbind at 1, F_bind at 1.
  rewrite simple_flash_run_op_unfold. cbv zeta.
  assert (Hfa : 0 <= faddr < 2 ^ 32) by (unfold FLASH_SIZE in Hfit; lia).
  assert (Hl : 0 <= len < 2 ^ 32) by (unfold FLASHLOADER_DATA_BUFFER_SIZE in Hlen; lia).
  rewrite (flashloader_entry_program (fw_mem fc) faddr len Hfa Hl).
  rewrite load32_store32.
  change (u32 FLASH_RESULT_SUCCESS =? FLASH_RESULT_SUCCESS) with true.
  cbn [negb Z.eqb]. unfold mret, F_ret. intros ->.
  cbn [fst snd fw_mem fw_vflash fw_loader gpl_initialized].
  split; [reflexivity|]. split; [congruence|]. split; [congruence|].
  intros x Hx.
  pose proof (Z.mul_div_le len 4 ltac:(lia)) as Hd1.
  pose proof (Z.mul_succ_div_gt (len + 3) 4 ltac:(lia)) as Hd2.
  pose proof (Z.div_pos len 4 ltac:(lia) ltac:(lia)) as Hd3.
  pose proof (Z.div_pos (len + 3) 4 ltac:(lia) ltac:(lia)) as Hd4.
  assert (Hd5 : len / 4 <= (len + 3) / 4) by (apply Z.div_le_mono; lia).
  destruct (params_read (fw_mem fc) FLASH_OP_PROGRAM faddr len) as (_ & _ & _ & Hout).
  rewrite store32_other
    by (unfold FLASH_SIZE, FLASHLOADER_PARAM_RESULT in *; lia).
  rewrite flash_program_words_spec; try lia.
  - rewrite Z2Nat.id by lia. rewrite Z.mul_0_r, Z.add_0_r, Z.add_0_l.
    destruct ((faddr <=? x) && (x <? faddr + 4 * (len / 4))) eqn:Ex.
    + apply andb_prop in Ex as [X1 X2]. apply Z.leb_le in X1. apply Z.ltb_lt in X2.
      rewrite Hout by (apply outside_params; right; lia).
      rewrite U4.
      replace ((FLASHLOADER_DATA_BUFFER + 4 * 0 <=? FLASHLOADER_DATA_BUFFER + (x - faddr))
               && (FLASHLOADER_DATA_BUFFER + (x - faddr)
                   <? FLASHLOADER_DATA_BUFFER
                      + 4 * (0 + Z.of_nat (Z.to_nat ((len + 3) / 4)))))
        with true
        by (symmetry; apply andb_true_intro; split;
            [apply Z.leb_le|apply Z.ltb_lt]; lia).
      replace (FLASHLOADER_DATA_BUFFER + (x - faddr) - FLASHLOADER_DATA_BUFFER)
        with (x - faddr) by lia.
      by replace (x - faddr <? len) with true by (symmetry; apply Z.ltb_lt; lia).
    + rewrite Hout by (apply outside_params; left; lia).
      rewrite U4.
      replace ((FLASHLOADER_DATA_BUFFER + 4 * 0 <=? x)
               && (x <? FLASHLOADER_DATA_BUFFER
                        + 4 * (0 + Z.of_nat (Z.to_nat ((len + 3) / 4)))))
        with false
        by (symmetry; apply andb_false_iff; left; apply Z.leb_gt;
            unfold FLASHLOADER_DATA_BUFFER, FLASH_SIZE in *; lia).
      rewrite S1. apply E5. left. lia.
  - intros y Hy. rewrite Z2Nat.id in Hy by lia.
    rewrite Hout by (apply outside_params; right; lia).
    rewrite U4.
    replace ((FLASHLOADER_DATA_BUFFER + 4 * 0 <=? y)
             && (y <? FLASHLOADER_DATA_BUFFER
                      + 4 * (0 + Z.of_nat (Z.to_nat ((len + 3) / 4)))))
      with true
      by (symmetry; apply andb_true_intro; split;
          [apply Z.leb_le|apply Z.ltb_lt]; lia).
    destruct (y - FLASHLOADER_DATA_BUFFER <? len); [by apply byte_at_is_byte|].
    unfold is_byte. lia.
Qed.

Lemma byte_at_drop (l : list Z) (n i : nat) :
  byte_at (drop n l) i = byte_at l (n + i).
Proof. unfold byte_at. by rewrite lookup_drop. Qed.

Lemma program_chunks_done fuel addr data length offset fw :
  length <= offset -> program_chunks fuel addr data length offset fw = (0, fw).
Proof.
  intros H. destruct fuel; [reflexivity|]. cbn [program_chunks].
  by replace (offset <? length) with false by (symmetry; apply Z.ltb_ge; lia).
Qed.

Lemma program_chunks_spec fuel : forall (k : Z) fw addr data length,
  Forall is_byte data -> 0 <= addr -> addr + length <= FLASH_SIZE ->
  0 <= k -> FLASHLOADER_DATA_BUFFER_SIZE * k <= length ->
  (Z.to_nat (length - FLASHLOADER_DATA_BUFFER_SIZE * k) <= fuel)%nat ->
  let offset := FLASHLOADER_DATA_BUFFER_SIZE * k in
  let res := program_chunks fuel addr data length offset fw in
  fst res = 0
  /\ fw_vflash (snd res) = fw_vflash fw
  /\ gpl_initialized (fw_loader (snd res)) = gpl_initialized (fw_loader fw)
  /\ forall x, 0 <= x < FLASH_SIZE ->
       fw_mem (snd res) x
       = if (addr + offset <=? x) && (x <? addr + 4 * (length / 4))
         then byte_at data (Z.to_nat (x - addr)) else fw_mem fw x.
Proof.
  unfold FLASHLOADER_DATA_BUFFER_SIZE.
  induction fuel as [|fuel IH]; intros k fw addr data length Hb Ha Hfit Hk Hoff Hfuel;
    cbv zeta.
  - cbn [program_chunks]. unfold mret, F_ret. cbn [fst snd].
    repeat split. intros x Hx.
    pose proof (Z.mul_div_le length 4 ltac:(lia)).
    replace ((addr + 1024 * k <=? x) && (x <? addr + 4 * (length / 4))) with false;
      [reflexivity|].
    symmetry. apply andb_false_iff.
    destruct (Z.le_gt_cases (addr + 1024 * k) x);
      [right; apply Z.ltb_ge|left; apply Z.leb_gt]; lia.
  - destruct (Z.le_gt_cases length (1024 * k)) as [Hge|Hlt].
    { rewrite program_chunks_done by lia. cbn [fst snd].
      repeat split. intros x Hx.
      pose proof (Z.mul_div_le length 4 ltac:(lia)).
      replace ((addr + 1024 * k <=? x) && (x <? addr + 4 * (length / 4))) with false;
        [reflexivity|].
      symmetry. apply andb_false_iff.
      destruct (Z.le_gt_cases (addr + 1024 * k) x);
        [right; apply Z.ltb_ge|left; apply Z.leb_gt]; lia. }
    cbn [program_chunks].
    replace (1024 * k <? length) with true by (symmetry; apply Z.ltb_lt; lia).
    cbv zeta. unfold FLASHLOADER_DATA_BUFFER_SIZE.
    set (chunk := if 1024 <? length - 1024 * k then 1024 else length - 1024 * k).
    assert (Hchunk : 0 < chunk <= 1024 /\ 1024 * k + chunk <= length).
    { unfold chunk. destruct (1024 <? length - 1024 * k) eqn:E;
        [apply Z.ltb_lt in E|apply Z.ltb_ge in E]; lia. }
    unfold mbind, F_bind.
    rewrite (u32_small (addr + 1024 * k)) by (unfold FLASH_SIZE in Hfit; lia).
    destruct (simple_flash_program_spec (addr + 1024 * k)
                (drop (Z.to_nat (1024 * k)) data) chunk fw)
      as (P1 & P2 & P3 & P4);
      [by apply Forall_drop|unfold FLASHLOADER_DATA_BUFFER_SIZE; lia|lia|lia|].
    destruct (simple_flash_program (addr + 1024 * k) _ chunk fw) as [r fb].
    cbn [fst snd] in P1, P2, P3, P4. subst r. cbn [Z.eqb negb].
    assert (Hquot : 4 * ((length - 1024 * k) / 4) = 4 * (length / 4) - 1024 * k).
    { replace (length - 1024 * k) with (length + (- (256 * k)) * 4) by lia.
      rewrite Z.div_add by lia. lia. }
    pose proof (Z.mul_div_le length 4 ltac:(lia)) as Hd.
    destruct (1024 <? length - 1024 * k) eqn:E.
    + apply Z.ltb_lt in E. unfold chunk in *. clear chunk.
      replace (1024 * k + 1024) with (1024 * (k + 1)) by lia.
      specialize (IH (k + 1) fb addr data length Hb Ha Hfit ltac:(lia) ltac:(lia)
                     ltac:(lia)).
      cbv zeta in IH. destruct IH as (I1 & I2 & I3 & I4).
      split; [exact I1|]. split; [congruence|]. split; [congruence|].
      intros x Hx. rewrite I4 by assumption.
      assert (Hin : 1024 * (k + 1) <= 4 * (length / 4)).
      { assert (256 * (k + 1) <= length / 4)
          by (apply Z.div_le_lower_bound; lia). lia. }
      destruct ((addr + 1024 * (k + 1) <=? x) && (x <? addr + 4 * (length / 4)))
        eqn:Ex.
      * apply andb_prop in Ex as [X1 X2]. apply Z.leb_le in X1. apply Z.ltb_lt in X2.
        replace (addr + 1024 * k <=? x) with true by (symmetry; apply Z.leb_le; lia).
        replace (x <? addr + 4 * (length / 4)) with true
          by (symmetry; apply Z.ltb_lt; lia).
        reflexivity.
      * rewrite P4 by assumption.
        change (1024 / 4) with 256.
        destruct ((addr + 1024 * k <=? x) && (x <? addr + 1024 * k + 4 * 256)) eqn:Ey.
        -- apply andb_prop in Ey as [Y1 Y2]. apply Z.leb_le in Y1. apply Z.ltb_lt in Y2.
           replace (addr + 1024 * k <=? x) with true by (symmetry; apply Z.leb_le; lia).
           replace (x <? addr + 4 * (length / 4)) with true
             by (symmetry; apply Z.ltb_lt; lia).
           cbn [andb]. rewrite byte_at_drop. f_equal. lia.
        -- replace ((addr + 1024 * k <=? x) && (x <? addr + 4 * (length / 4)))
             with false; [reflexivity|].
           symmetry. apply andb_false_iff.
           apply andb_false_iff in Ex as [Ex|Ex];
             [apply Z.leb_gt in Ex|apply Z.ltb_ge in Ex];
             apply andb_false_iff in Ey as [Ey|Ey];
             try apply Z.leb_gt in Ey; try apply Z.ltb_ge in Ey;
             first [left; apply Z.leb_gt; lia|right; apply Z.ltb_ge; lia].
    + apply Z.ltb_ge in E. unfold chunk in *. clear chunk.
      rewrite program_chunks_done by lia. cbn [fst snd].
      split; [reflexivity|]. split; [exact P2|]. split; [exact P3|].
      intros x Hx. rewrite P4 by assumption. rewrite Hquot.
      replace (addr + 1024 * k + (4 * (length / 4) - 1024 * k))
        with (addr + 4 * (length / 4)) by lia.
      destruct ((addr + 1024 * k <=? x) && (x <? addr + 4 * (length / 4))) eqn:Ex;
        [|reflexivity].
      apply andb_prop in Ex as [X1 X2]. apply Z.leb_le in X1. apply Z.ltb_lt in X2.
      rewrite byte_at_drop. f_equal. lia.
Qed.

Lemma gpl_flash_program_spec (addr len : Z) (data : list Z) (fw : flash_world) :
  gpl_initialized (fw_loader fw) <> 0 ->
  Forall is_byte data -> 0 <= addr -> 0 <= len ->
  addr + len <= FLASH_SIZE ->
  fst (gpl_flash_program addr data len fw) = 0
  /\ forall x, 0 <= x < FLASH_SIZE ->
       fw_mem (snd (gpl_flash_program addr data len fw)) x
       = if (addr <=? x) && (x <? addr + 4 * (len / 4))
         then byte_at data (Z.to_nat (x - addr)) else fw_mem fw x.
Proof.
  intros Hinit Hb Ha Hl Hfit. unfold gpl_flash_program, mbind, F_bind, fget.
  replace (gpl_initialized (fw_loader fw) =? 0) with false
    by (symmetry; by apply Z.eqb_neq).
  destruct (len =? 0) eqn:E0.
  { apply Z.eqb_eq in E0. subst len. split; [reflexivity|].
    intros x Hx. cbn [snd mret F_ret]. change (0 / 4) with 0.
    replace ((addr <=? x) && (x <? addr + 4 * 0)) with false; [reflexivity|].
    symmetry. apply andb_false_iff.
    destruct (Z.le_gt_cases addr x);
      [right; apply Z.ltb_ge|left; apply Z.leb_gt]; lia. }
  replace (FLASH_SIZE <? u32 (addr + len)) with false
    by (symmetry; apply Z.ltb_ge; rewrite u32_small;
        unfold FLASH_SIZE in *; lia).
  destruct (program_chunks_spec (Z.to_nat len) 0 fw addr data len)
    as (P1 & _ & _ & P4); try assumption; try lia.
  rewrite Z.mul_0_r in P1, P4. split; [exact P1|].
  intros x Hx. rewrite P4 by assumption. by rewrite Z.add_0_r.
Qed.

(** X14.  [gpl_flash_program] programs whole longwords.  On a target that
    carries out every command, programming [length] bytes into an erased
    range at a longword address succeeds, and afterwards the flash holds
    the data in [addr, addr + 4 * (length / 4)) and is unchanged everywhere
    else: a length that is a multiple of four is programmed in full, the
    [length mod 4] bytes of a partial last longword are not programmed. *)
Theorem gpl_flash_program_whole_longwords (addr length : Z) (data : list Z)
    (fw : flash_world) :
  gpl_initialized (fw_loader fw) <> 0 ->
  Forall is_byte data -> 0 <= addr -> addr mod 4 = 0 -> 0 <= length ->
  addr + length <= FLASH_SIZE ->
  (forall x, addr <= x < addr + length -> fw_mem fw x = 0xFF) ->
  fst (gpl_flash_program addr data length fw) = 0
  /\ forall x, 0 <= x < FLASH_SIZE ->
       fw_mem (snd (gpl_flash_program addr data length fw)) x
       = if (addr <=? x) && (x <? addr + 4 * (length / 4))
         then byte_at data (Z.to_nat (x - addr)) else fw_mem fw x.
Proof.
  intros Hinit Hb Ha _ Hl Hfit _.
  exact (gpl_flash_program_spec addr length data fw Hinit Hb Ha Hl Hfit).
Qed.

Lemma gpl_flash_program_whole_longwords_witness :
  let fw := FlashWorld (fun _ => 0xFF) (VFlash 0 0 0 0 None 0 0 0)
                       (Loader 1 (replicate 128 0) 0 0) in
  fst (gpl_flash_program 0x800 [1; 2; 3; 4; 5; 6] 6 fw) = 0
  /\ forall x, 0 <= x < FLASH_SIZE ->
       fw_mem (snd (gpl_flash_program 0x800 [1; 2; 3; 4; 5; 6] 6 fw)) x
       = if (0x800 <=? x) && (x <? 0x800 + 4 * (6 / 4))
         then byte_at [1; 2; 3; 4; 5; 6] (Z.to_nat (x - 0x800)) else fw_mem fw x.
Proof.
  apply (gpl_flash_program_whole_longwords 0x800 6 [1; 2; 3; 4; 5; 6]
           (FlashWorld (fun _ => 0xFF) (VFlash 0 0 0 0 None 0 0 0)
                       (Loader 1 (replicate 128 0) 0 0))).
  - simpl; lia.
  - repeat constructor; unfold is_byte; lia.
  - lia.
  - reflexivity.
  - lia.
  - unfold FLASH_SIZE; lia.
  - reflexivity.
Defined.

(** ** Sector erase and the erase tracking table *)

Lemma fkeeps_ret {A B} (proj : flash_world -> B) (a : A) : fkeeps proj (mret a).
Proof. by intros w. Qed.

Lemma fkeeps_bind {A B C} (proj : flash_world -> C) (m : F A) (f : A -> F B) :
  fkeeps proj m -> (forall a, fkeeps proj (f a)) -> fkeeps proj (m ≫= f).
Proof.
  intros Hm Hf w. unfold mbind, F_bind.
  specialize (Hm w). destruct (m w) as [a w1]. cbn [snd] in Hm.
  by rewrite Hf.
Qed.

Lemma fkeeps_session_run_op op faddr len :
  fkeeps session_fields (simple_flash_run_op op faddr len).
Proof. intros w. by rewrite simple_flash_run_op_unfold. Qed.

Lemma fkeeps_session_ensure_init : fkeeps session_fields simple_flash_ensure_init.
Proof.
  unfold simple_flash_ensure_init.
  apply fkeeps_bind; [by intros w|intros l].
  destruct (ss_initialized l =? 0); [|apply fkeeps_ret].
  apply fkeeps_bind; [apply fkeeps_session_run_op|intros [r result]].
  destruct (negb (r =? 0) || negb (result =? FLASH_RESULT_SUCCESS));
    [apply fkeeps_ret|].
  apply fkeeps_bind; [by intros w|intros _; apply fkeeps_ret].
Qed.

Lemma fkeeps_session_upload_words data len n : forall i,
  fkeeps session_fields (upload_words n i data len).
Proof.
  induction n as [|n IH]; intros i; [apply fkeeps_ret|].
  cbn [upload_words].
  apply fkeeps_bind; [by intros w|intros r].
  destruct (negb (r =? 0)); [apply fkeeps_ret|apply IH].
Qed.

Lemma fkeeps_session_simple_flash_program faddr data len :
  fkeeps session_fields (simple_flash_program faddr data len).
Proof.
  unfold simple_flash_program.
  destruct (FLASHLOADER_DATA_BUFFER_SIZE <? len); [apply fkeeps_ret|].
  apply fkeeps_bind; [apply fkeeps_session_ensure_init|intros r].
  destruct (negb (r =? 0)); [apply fkeeps_ret|].
  apply fkeeps_bind; [by intros w|intros l].
  apply fkeeps_bind; [destruct (ss_loaded l =? 0); by intros w|intros _].
  cbv zeta.
  apply fkeeps_bind; [apply fkeeps_session_upload_words|intros r'].
  destruct (negb (r' =? 0)); [apply fkeeps_ret|].
  apply fkeeps_bind; [apply fkeeps_session_run_op|intros [r2 result]].
  destruct (negb (r2 =? 0)); [apply fkeeps_ret|].
  destruct (negb (result =? FLASH_RESULT_SUCCESS)); apply fkeeps_ret.
Qed.

Lemma fkeeps_session_program_chunks addr data length n : forall offset,
  fkeeps session_fields (program_chunks n addr data length offset).
Proof.
  induction n as [|n IH]; intros offset; [apply fkeeps_ret|].
  cbn [program_chunks].
  destruct (offset <? length); [|apply fkeeps_ret].
  cbv zeta.
  apply fkeeps_bind; [apply fkeeps_session_simple_flash_program|intros r].
  destruct (negb (r =? 0)); [apply fkeeps_ret|apply IH].
Qed.

Lemma fkeeps_session_gpl_flash_program addr data length :
  fkeeps session_fields (gpl_flash_program addr data length).
Proof.
  unfold gpl_flash_program.
  apply fkeeps_bind; [by intros w|intros l].
  destruct (gpl_initialized l =? 0); [apply fkeeps_ret|].
  destruct (length =? 0); [apply fkeeps_ret|].
  destruct (FLASH_SIZE <? u32 (addr + length)); [apply fkeeps_ret|].
  apply fkeeps_session_program_chunks.
Qed.

Lemma flashloader_entry_sector_erase (m : memory) faddr len :
  0 <= faddr < 2 ^ 32 ->
  let m5 := store32 (store32 (store32 (store32 (store32 m
              FLASHLOADER_PARAM_OPERATION (u32 FLASH_OP_SECTOR_ERASE))
              FLASHLOADER_PARAM_FLASH_ADDR (u32 faddr))
              FLASHLOADER_PARAM_LENGTH (u32 len))
              FLASHLOADER_PARAM_RESULT (u32 0xFFFFFFFF))
              FLASHLOADER_PARAM_STATUS (u32 0) in
  flashloader_entry m5
  = store32 (cfm_page_erase m5 faddr) FLASHLOADER_PARAM_RESULT FLASH_RESULT_SUCCESS.
Proof.
  intros Hf m5. unfold flashloader_entry.
  destruct (params_read m FLASH_OP_SECTOR_ERASE faddr len) as (H1 & H2 & _).
  fold m5 in H1, H2. rewrite H1, H2.
  rewrite (u32_small faddr) by assumption.
  reflexivity.
Qed.

Lemma sector_of_bounds x s :
  sector_of x = s <-> FLASH_SECTOR_SIZE * s <= x < FLASH_SECTOR_SIZE * (s + 1).
Proof.
  unfold sector_of, FLASH_SECTOR_SIZE. split.
  - intros <-. pose proof (Z.mul_div_le x 2048 ltac:(lia)).
    pose proof (Z.mul_succ_div_gt x 2048 ltac:(lia)). lia.
  - intros H. symmetry. apply (Z.div_unique x 2048 s (x - 2048 * s)); lia.
Qed.

Lemma hw_sector_of_bounds x h :
  hw_sector_of x = h
  <-> MCF_FLASH_SECTOR_SIZE * h <= x < MCF_FLASH_SECTOR_SIZE * (h + 1).
Proof.
  unfold hw_sector_of, MCF_FLASH_SECTOR_SIZE. split.
  - intros <-. pose proof (Z.mul_div_le x 8192 ltac:(lia)).
    pose proof (Z.mul_succ_div_gt x 8192 ltac:(lia)). lia.
  - intros H. symmetry. apply (Z.div_unique x 8192 h (x - 8192 * h)); lia.
Qed.

(** A page erase clears the hardware sector of its address. *)
Lemma cfm_page_erase_hw (m : memory) addr x :
  cfm_page_erase m addr x
  = if hw_sector_of addr =? hw_sector_of x then 0xFF else m x.
Proof.
  unfold cfm_page_erase. cbv zeta. fold (hw_sector_of addr).
  destruct (hw_sector_of addr =? hw_sector_of x) eqn:Ex.
  - apply Z.eqb_eq in Ex. symmetry in Ex. apply hw_sector_of_bounds in Ex.
    replace (hw_sector_of addr * MCF_FLASH_SECTOR_SIZE <=? x) with true
      by (symmetry; apply Z.leb_le; lia).
    by replace (x <? hw_sector_of addr * MCF_FLASH_SECTOR_SIZE + MCF_FLASH_SECTOR_SIZE)
      with true by (symmetry; apply Z.ltb_lt; lia).
  - apply Z.eqb_neq in Ex.
    replace ((hw_sector_of addr * MCF_FLASH_SECTOR_SIZE <=? x)
             && (x <? hw_sector_of addr * MCF_FLASH_SECTOR_SIZE
                      + MCF_FLASH_SECTOR_SIZE)) with false; [reflexivity|].
    symmetry. apply andb_false_iff.
    destruct (Z.le_gt_cases (hw_sector_of addr * MCF_FLASH_SECTOR_SIZE) x) as [Hle|Hgt];
      [right; apply Z.ltb_ge|left; apply Z.leb_gt; lia].
    destruct (Z.le_gt_cases (hw_sector_of addr * MCF_FLASH_SECTOR_SIZE
                             + MCF_FLASH_SECTOR_SIZE) x); [assumption|].
    exfalso. apply Ex. symmetry. apply hw_sector_of_bounds. lia.
Qed.

Lemma simple_flash_erase_sector_spec s fw :
  0 <= s < FLASH_NUM_SECTORS ->
  let res := simple_flash_erase_sector (s * FLASH_SECTOR_SIZE) fw in
  fst res = 0
  /\ fw_vflash (snd res) = fw_vflash fw
  /\ gpl_initialized (fw_loader (snd res)) = gpl_initialized (fw_loader fw)
  /\ tracker (snd res) = tracker fw
  /\ forall x, 0 <= x < FLASH_SIZE ->
       fw_mem (snd res) x
       = if hw_sector_of (s * FLASH_SECTOR_SIZE) =? hw_sector_of x
         then 0xFF else fw_mem fw x.
Proof.
  intros Hs. cbv zeta.
  remember (simple_flash_erase_sector (s * FLASH_SECTOR_SIZE) fw) as res eqn:E.
  revert E. unfold simple_flash_erase_sector.
  unfold mbind at 1, F_bind at 1.
  destruct (simple_flash_ensure_init_spec fw) as (E1 & E2 & E3 & E4 & E5).
  destruct (simple_flash_ensure_init fw) as [r fa]. cbn [fst snd] in E1, E2, E3, E4, E5.
  subst r. cbn [Z.eqb negb].
  unfold mbind at 1, F_bind at 1.
  rewrite simple_flash_run_op_unfold. cbv zeta.
  assert (Hfa : 0 <= s * FLASH_SECTOR_SIZE < 2 ^ 32)
    by (unfold FLASH_NUM_SECTORS, FLASH_SECTOR_SIZE in *; lia).
  rewrite (flashloader_entry_sector_erase (fw_mem fa) _ 0 Hfa).
  rewrite load32_store32.
  change (u32 FLASH_RESULT_SUCCESS =? FLASH_RESULT_SUCCESS) with true.
  cbn [negb Z.eqb]. unfold mret, F_ret. intros ->.
  unfold tracker. cbn [fst snd fw_mem fw_vflash fw_loader gpl_initialized erased_sectors].
  split; [reflexivity|]. split; [exact E2|]. split; [exact E3|]. split; [exact E4|].
  intros x Hx.
  rewrite store32_other
    by (unfold FLASH_SIZE, FLASHLOADER_PARAM_RESULT in *; lia).
  rewrite cfm_page_erase_hw.
  destruct (hw_sector_of (s * FLASH_SECTOR_SIZE) =? hw_sector_of x); [reflexivity|].
  destruct (params_read (fw_mem fa) FLASH_OP_SECTOR_ERASE (s * FLASH_SECTOR_SIZE) 0)
    as (_ & _ & _ & Hout).
  rewrite Hout by (apply outside_params; left; lia).
  apply E5. left. lia.
Qed.

Lemma gpl_flash_erase_sector_spec s fw :
  gpl_initialized (fw_loader fw) <> 0 -> 0 <= s < FLASH_NUM_SECTORS ->
  let res := gpl_flash_erase_sector s fw in
  fst res = 0
  /\ fw_vflash (snd res) = fw_vflash fw
  /\ gpl_initialized (fw_loader (snd res)) = gpl_initialized (fw_loader fw)
  /\ tracker (snd res) = <[Z.to_nat s := 1]> (tracker fw)
  /\ forall x, 0 <= x < FLASH_SIZE ->
       fw_mem (snd res) x
       = if hw_sector_of (s * FLASH_SECTOR_SIZE) =? hw_sector_of x
         then 0xFF else fw_mem fw x.
Proof.
  intros Hinit Hs. cbv zeta.
  remember (gpl_flash_erase_sector s fw) as res eqn:E. revert E.
  unfold gpl_flash_erase_sector. unfold mbind at 1, F_bind at 1, fget at 1.
  replace (gpl_initialized (fw_loader fw) =? 0) with false
    by (symmetry; by apply Z.eqb_neq).
  replace ((s <? 0) || (FLASH_NUM_SECTORS <=? s)) with false
    by (symmetry; apply orb_false_iff; split;
        [apply Z.ltb_ge|apply Z.leb_gt]; lia).
  cbv zeta.
  rewrite u32_small by (unfold FLASH_NUM_SECTORS, FLASH_SECTOR_SIZE in *; lia).
  unfold mbind at 1, F_bind at 1.
  destruct (simple_flash_erase_sector_spec s fw Hs) as (P1 & P2 & P3 & P4 & P5).
  destruct (simple_flash_erase_sector (s * FLASH_SECTOR_SIZE) fw) as [r fa].
  cbn [fst snd] in P1, P2, P3, P4, P5. subst r. cbn [Z.eqb negb].
  unfold mbind, F_bind, set_loader, mret, F_ret. intros ->.
  unfold tracker in *.
  cbn [fst snd fw_mem fw_vflash fw_loader gpl_initialized erased_sectors].
  split; [reflexivity|]. split; [exact P2|]. split; [exact P3|].
  split; [by rewrite P4|exact P5].
Qed.

Ltac zbool :=
  repeat match goal with
         | H : Z.leb _ _ = true |- _ => apply Z.leb_le in H
         | H : Z.leb _ _ = false |- _ => apply Z.leb_gt in H
         | H : Z.ltb _ _ = true |- _ => apply Z.ltb_lt in H
         | H : Z.ltb _ _ = false |- _ => apply Z.ltb_ge in H
         | H : Z.eqb _ _ = true |- _ => apply Z.eqb_eq in H
         | H : Z.eqb _ _ = false |- _ => apply Z.eqb_neq in H
         end.

Ltac split_cmp :=
  repeat match goal with
         | |- context [Z.leb ?a ?b] => destruct (Z.leb a b) eqn:?
         | |- context [Z.ltb ?a ?b] => destruct (Z.ltb a b) eqn:?
         | |- context [Z.eqb ?a ?b] => destruct (Z.eqb a b) eqn:?
         end;
  zbool; cbn [andb orb negb].

Lemma erase_sectors_S n s e fw :
  erase_sectors (S n) s e fw
  = if s <? e then
      if negb (byte_at (tracker fw) (Z.to_nat s) =? 0)
      then erase_sectors n (s + 1) e fw
      else if negb (fst (gpl_flash_erase_sector s fw) =? 0)
           then (-1, snd (gpl_flash_erase_sector s fw))
           else erase_sectors n (s + 1) e (snd (gpl_flash_erase_sector s fw))
    else (0, fw).
Proof.
  cbn [erase_sectors]. destruct (s <? e); [|reflexivity].
  unfold mbind, F_bind, fget, tracker.
  destruct (negb (byte_at (erased_sectors (fw_loader fw)) (Z.to_nat s) =? 0));
    [reflexivity|].
  destruct (gpl_flash_erase_sector s fw) as [r fa]. cbn [fst snd].
  by destruct (negb (r =? 0)).
Qed.

Lemma erased_by_range_nil t s e x : e <= s -> erased_by_range t s e x = false.
Proof.
  intros H. unfold erased_by_range.
  by rewrite (seqZ_nil s (e - s)) by lia.
Qed.

Lemma erased_by_range_cons t s e x :
  s < e ->
  erased_by_range t s e x
  = ((byte_at t (Z.to_nat s) =? 0)
     && (hw_sector_of (s * FLASH_SECTOR_SIZE) =? hw_sector_of x))
    || erased_by_range t (s + 1) e x.
Proof.
  intros H. unfold erased_by_range.
  rewrite (seqZ_cons s (e - s)) by lia. cbn [existsb].
  by replace (Z.pred (e - s)) with (e - (s + 1)) by lia.
Qed.

Lemma existsb_ext_in {A} (f g : A -> bool) l :
  (forall a, a ∈ l -> f a = g a) -> existsb f l = existsb g l.
Proof.
  induction l as [|a l IH]; intros H; [reflexivity|].
  cbn [existsb]. rewrite (H a) by left. rewrite IH; [reflexivity|].
  intros b Hb. apply H. by right.
Qed.

(** Marking sector [s] does not change what a range from [s + 1] erases. *)
Lemma erased_by_range_insert t s s' e x :
  0 <= s < s' ->
  erased_by_range (<[Z.to_nat s := 1]> t) s' e x = erased_by_range t s' e x.
Proof.
  intros Hs. unfold erased_by_range. apply existsb_ext_in.
  intros j Hj. apply elem_of_seqZ in Hj.
  by rewrite byte_at_insert_ne by lia.
Qed.

(** A byte of an unmarked sector of the range is in an erased hardware
    sector. *)
Lemma erased_by_range_own t s e x :
  s <= sector_of x < e -> byte_at t (Z.to_nat (sector_of x)) = 0 ->
  erased_by_range t s e x = true.
Proof.
  intros Hx Ht. unfold erased_by_range. apply existsb_exists.
  exists (sector_of x). split.
  - apply list_elem_of_In, elem_of_seqZ. lia.
  - rewrite Ht. cbn [Z.eqb andb]. apply Z.eqb_eq.
    unfold hw_sector_of, sector_of, FLASH_SECTOR_SIZE, MCF_FLASH_SECTOR_SIZE.
    change 8192 with (2048 * 4).
    rewrite <- !Z.div_div by lia.
    by rewrite Z.div_mul by lia.
Qed.

Lemma erase_sectors_spec n : forall s e fw,
  gpl_initialized (fw_loader fw) <> 0 -> 0 <= s -> e <= FLASH_NUM_SECTORS ->
  (Z.to_nat (e - s) <= n)%nat -> length (tracker fw) = 128%nat ->
  let res := erase_sectors n s e fw in
  fst res = 0
  /\ fw_vflash (snd res) = fw_vflash fw
  /\ gpl_initialized (fw_loader (snd res)) = gpl_initialized (fw_loader fw)
  /\ length (tracker (snd res)) = 128%nat
  /\ (forall j, 0 <= j ->
        byte_at (tracker (snd res)) (Z.to_nat j)
        = if (s <=? j) && (j <? e) && (byte_at (tracker fw) (Z.to_nat j) =? 0)
          then 1 else byte_at (tracker fw) (Z.to_nat j))
  /\ forall x, 0 <= x < FLASH_SIZE ->
       fw_mem (snd res) x
       = if erased_by_range (tracker fw) s e x then 0xFF else fw_mem fw x.
Proof.
  induction n as [|n IH]; intros s e fw Hinit Hs He Hn Hlen; cbv zeta.
  - cbn [erase_sectors]. unfold mret, F_ret. cbn [fst snd].
    split; [reflexivity|]. split; [reflexivity|]. split; [reflexivity|].
    split; [exact Hlen|].
    split; [intros j Hj|intros x Hx].
    + split_cmp; first [reflexivity|lia].
    + by rewrite erased_by_range_nil by lia.
  - rewrite erase_sectors_S.
    destruct (s <? e) eqn:Ese.
    2:{ cbn [fst snd].
        split; [reflexivity|]. split; [reflexivity|]. split; [reflexivity|].
        split; [exact Hlen|]. zbool.
        split; [intros j Hj|intros x Hx].
        - split_cmp; first [reflexivity|lia].
        - by rewrite erased_by_range_nil by lia. }
    zbool.
    destruct (byte_at (tracker fw) (Z.to_nat s) =? 0) eqn:Em; cbn [negb].
    + destruct (gpl_flash_erase_sector_spec s fw Hinit ltac:(lia))
        as (P1 & P2 & P3 & P4 & P5).
      destruct (gpl_flash_erase_sector s fw) as [r fa].
      cbn [fst snd] in *. subst r. change (negb (0 =? 0)) with false. cbv iota.
      assert (Hlen' : length (tracker fa) = 128%nat)
        by (rewrite P4; by rewrite length_insert).
      assert (Hinit' : gpl_initialized (fw_loader fa) <> 0) by (by rewrite P3).
      destruct (IH (s + 1) e fa Hinit' ltac:(lia) He ltac:(lia) Hlen')
        as (I1 & I2 & I3 & I4 & I5 & I6).
      split; [exact I1|]. split; [by rewrite I2|]. split; [by rewrite I3|].
      split; [exact I4|].
      unfold FLASH_NUM_SECTORS in *.
      split.
      * intros j Hj. rewrite I5 by assumption. rewrite P4.
        destruct (Z.eq_dec j s) as [->|Hne].
        -- rewrite byte_at_insert_eq by lia. rewrite Em.
           split_cmp; first [reflexivity|lia].
        -- rewrite byte_at_insert_ne by lia.
           split_cmp; first [reflexivity|lia].
      * intros x Hx. rewrite I6, P5 by assumption. rewrite P4.
        rewrite erased_by_range_insert by lia.
        rewrite (erased_by_range_cons (tracker fw) s e) by lia.
        rewrite Em. cbn [andb].
        destruct (erased_by_range (tracker fw) (s + 1) e x);
          [by rewrite orb_true_r|].
        by rewrite orb_false_r.
    + destruct (IH (s + 1) e fw Hinit ltac:(lia) He ltac:(lia) Hlen)
        as (I1 & I2 & I3 & I4 & I5 & I6).
      split; [exact I1|]. split; [exact I2|]. split; [exact I3|].
      split; [exact I4|].
      split.
      * intros j Hj. rewrite I5 by assumption. zbool.
        destruct (Z.eq_dec j s) as [->|Hne];
          split_cmp; first [reflexivity|lia].
      * intros x Hx. rewrite I6 by assumption.
        rewrite (erased_by_range_cons (tracker fw) s e) by lia.
        by rewrite Em.
Qed.

Lemma gpl_flash_erase_range_spec start len fw :
  gpl_initialized (fw_loader fw) <> 0 -> length (tracker fw) = 128%nat ->
  0 <= start -> 0 <= len -> start + len <= FLASH_SIZE ->
  let res := gpl_flash_erase_range start len fw in
  let first := sector_of start in
  let last := sector_of (start + len + FLASH_SECTOR_SIZE - 1) in
  fst res = 0
  /\ gpl_initialized (fw_loader (snd res)) = gpl_initialized (fw_loader fw)
  /\ length (tracker (snd res)) = 128%nat
  /\ (forall j, 0 <= j ->
        byte_at (tracker (snd res)) (Z.to_nat j)
        = if (first <=? j) && (j <? last) && (byte_at (tracker fw) (Z.to_nat j) =? 0)
          then 1 else byte_at (tracker fw) (Z.to_nat j))
  /\ forall x, 0 <= x < FLASH_SIZE ->
       fw_mem (snd res) x
       = if erased_by_range (tracker fw) first last x then 0xFF else fw_mem fw x.
Proof.
  intros Hinit Hlen Hs Hl Hfit. cbv zeta.
  unfold gpl_flash_erase_range, mbind, F_bind, fget.
  replace (gpl_initialized (fw_loader fw) =? 0) with false
    by (symmetry; by apply Z.eqb_neq).
  replace (FLASH_SIZE <? u32 (start + len)) with false
    by (symmetry; apply Z.ltb_ge; rewrite u32_small; unfold FLASH_SIZE in *; lia).
  cbv zeta.
  rewrite (u32_small (start + len + FLASH_SECTOR_SIZE - 1))
    by (unfold FLASH_SIZE, FLASH_SECTOR_SIZE in *; lia).
  fold (sector_of start). fold (sector_of (start + len + FLASH_SECTOR_SIZE - 1)).
  assert (H0 : 0 <= sector_of start)
    by (apply Z.div_pos; unfold FLASH_SECTOR_SIZE; lia).
  assert (H1 : sector_of (start + len + FLASH_SECTOR_SIZE - 1) <= FLASH_NUM_SECTORS).
  { unfold sector_of, FLASH_NUM_SECTORS, FLASH_SECTOR_SIZE, FLASH_SIZE in *.
    apply Z.lt_succ_r, Z.div_lt_upper_bound; lia. }
  destruct (erase_sectors_spec
              (Z.to_nat (sector_of (start + len + FLASH_SECTOR_SIZE - 1)
                         - sector_of start))
              (sector_of start) (sector_of (start + len + FLASH_SECTOR_SIZE - 1))
              fw Hinit H0 H1 ltac:(lia) Hlen)
    as (I1 & _ & I3 & I4 & I5 & I6).
  repeat split; assumption.
Qed.

Lemma erase_sectors_marked n : forall s e fw,
  0 <= s ->
  (forall j, s <= j < e -> byte_at (tracker fw) (Z.to_nat j) <> 0) ->
  erase_sectors n s e fw = (0, fw).
Proof.
  induction n as [|n IH]; intros s e fw Hs Hm; [reflexivity|].
  rewrite erase_sectors_S.
  destruct (s <? e) eqn:E; [|reflexivity]. zbool.
  replace (byte_at (tracker fw) (Z.to_nat s) =? 0) with false
    by (symmetry; apply Z.eqb_neq, Hm; lia).
  cbn [negb]. apply IH; [lia|]. intros j Hj. apply Hm. lia.
Qed.

(** A byte whose hardware sector lies below or above those of the range
    is not touched by the range erase. *)
Lemma erased_by_range_outside t s e x :
  0 <= s -> 0 <= x ->
  hw_sector_of x < hw_sector_of (s * FLASH_SECTOR_SIZE)
  \/ hw_sector_of ((e - 1) * FLASH_SECTOR_SIZE) < hw_sector_of x ->
  erased_by_range t s e x = false.
Proof.
  intros Hs Hx Hout. unfold erased_by_range.
  destruct (existsb _ _) eqn:E; [|reflexivity]. exfalso.
  apply existsb_exists in E. destruct E as (j & Hj & Hb).
  apply list_elem_of_In, elem_of_seqZ in Hj.
  apply andb_true_iff in Hb. destruct Hb as [_ Hb]. apply Z.eqb_eq in Hb.
  unfold hw_sector_of, FLASH_SECTOR_SIZE, MCF_FLASH_SECTOR_SIZE in *.
  assert (s * 2048 / 8192 <= j * 2048 / 8192) by (apply Z.div_le_mono; lia).
  assert (j * 2048 / 8192 <= (e - 1) * 2048 / 8192) by (apply Z.div_le_mono; lia).
  lia.
Qed.

(** X15.  [gpl_flash_erase_range] walks the 2 KB sectors of the range and
    skips the ones its table marks as erased; every erase it issues clears
    the 8 KB hardware sector around the 2 KB sector.  On a target that
    carries out every command the call succeeds.  With [first] the sector
    of [start_addr] and [last] the sector of
    [start_addr + length + FLASH_SECTOR_SIZE - 1]:
    - a flash byte reads 0xFF afterwards exactly when its hardware sector
      holds a sector of [first, last) that was not marked, and is as before
      otherwise (so bytes outside the range, and marked sectors, are
      erased too when they share a hardware sector with such a sector);
    - in particular every byte of an unmarked sector of the range reads
      0xFF, and every byte whose hardware sector is below that of [first]
      or above that of [last - 1] is unchanged;
    - all sectors of the range are marked.
    With [length = 0] and an unaligned [start_addr] the sector of
    [start_addr] is erased. *)
Theorem gpl_flash_erase_range_whole_sectors (start len : Z) (fw : flash_world) :
  gpl_initialized (fw_loader fw) <> 0 -> length (tracker fw) = 128%nat ->
  0 <= start -> 0 <= len -> start + len <= FLASH_SIZE ->
  let res := gpl_flash_erase_range start len fw in
  let first := sector_of start in
  let last := sector_of (start + len + FLASH_SECTOR_SIZE - 1) in
  fst res = 0
  /\ (forall x, 0 <= x < FLASH_SIZE ->
        fw_mem (snd res) x
        = if erased_by_range (tracker fw) first last x then 0xFF else fw_mem fw x)
  /\ (forall x, 0 <= x < FLASH_SIZE -> first <= sector_of x < last ->
        byte_at (tracker fw) (Z.to_nat (sector_of x)) = 0 ->
        fw_mem (snd res) x = 0xFF)
  /\ (forall x, 0 <= x < FLASH_SIZE ->
        hw_sector_of x < hw_sector_of (first * FLASH_SECTOR_SIZE)
        \/ hw_sector_of ((last - 1) * FLASH_SECTOR_SIZE) < hw_sector_of x ->
        fw_mem (snd res) x = fw_mem fw x)
  /\ forall j, first <= j < last -> byte_at (tracker (snd res)) (Z.to_nat j) <> 0.
Proof.
  intros Hinit Hlen Hs Hl Hfit. cbv zeta.
  destruct (gpl_flash_erase_range_spec start len fw Hinit Hlen Hs Hl Hfit)
    as (R1 & _ & _ & R4 & R5).
  assert (H0 : 0 <= sector_of start)
    by (apply Z.div_pos; unfold FLASH_SECTOR_SIZE; lia).
  split; [exact R1|]. split; [exact R5|].
  split; [|split].
  - intros x Hx Hsec Hm. rewrite R5 by assumption.
    by rewrite erased_by_range_own.
  - intros x Hx Hout. rewrite R5 by assumption.
    by rewrite erased_by_range_outside by lia.
  - intros j Hj.
    rewrite R4 by lia.
    replace (sector_of start <=? j) with true by (symmetry; apply Z.leb_le; lia).
    replace (j <? sector_of (start + len + FLASH_SECTOR_SIZE - 1)) with true
      by (symmetry; apply Z.ltb_lt; lia).
    cbn [andb].
    destruct (byte_at (tracker fw) (Z.to_nat j) =? 0) eqn:E; [lia|].
    by apply Z.eqb_neq.
Qed.

Lemma gpl_flash_erase_range_whole_sectors_witness :
  let fw := FlashWorld (fun _ => 0) (VFlash 0 0 0 0 None 0 0 0)
                       (Loader 1 (replicate 128 0) 0 0) in
  let res := gpl_flash_erase_range 0x801 0 fw in
  let first := sector_of 0x801 in
  let last := sector_of (0x801 + 0 + FLASH_SECTOR_SIZE - 1) in
  fst res = 0
  /\ (forall x, 0 <= x < FLASH_SIZE ->
        fw_mem (snd res) x
        = if erased_by_range (tracker fw) first last x then 0xFF else fw_mem fw x)
  /\ (forall x, 0 <= x < FLASH_SIZE -> first <= sector_of x < last ->
        byte_at (tracker fw) (Z.to_nat (sector_of x)) = 0 ->
        fw_mem (snd res) x = 0xFF)
  /\ (forall x, 0 <= x < FLASH_SIZE ->
        hw_sector_of x < hw_sector_of (first * FLASH_SECTOR_SIZE)
        \/ hw_sector_of ((last - 1) * FLASH_SECTOR_SIZE) < hw_sector_of x ->
        fw_mem (snd res) x = fw_mem fw x)
  /\ forall j, first <= j < last -> byte_at (tracker (snd res)) (Z.to_nat j) <> 0.
Proof.
  apply (gpl_flash_erase_range_whole_sectors 0x801 0
           (FlashWorld (fun _ => 0) (VFlash 0 0 0 0 None 0 0 0)
                       (Loader 1 (replicate 128 0) 0 0))).
  - simpl; lia.
  - reflexivity.
  - lia.
  - lia.
  - unfold FLASH_SIZE; lia.
Defined.

(** X16.  The erase table is not reset by programming.  After
    [gpl_flash_erase_range] of a range and [gpl_flash_program] into it, a
    second [gpl_flash_erase_range] of the same range reports success and
    changes nothing: no sector is erased, the flash stays as the
    programming left it. *)
Theorem gpl_flash_erase_after_program_skipped (addr len : Z) (data : list Z)
    (fw : flash_world) :
  gpl_initialized (fw_loader fw) <> 0 -> length (tracker fw) = 128%nat ->
  0 <= addr -> 0 <= len -> addr + len <= FLASH_SIZE ->
  let fw1 := snd (gpl_flash_erase_range addr len fw) in
  let fw2 := snd (gpl_flash_program addr data len fw1) in
  gpl_flash_erase_range addr len fw2 = (0, fw2).
Proof.
  intros Hinit Hlen Hs Hl Hfit. cbv zeta.
  destruct (gpl_flash_erase_range_spec addr len fw Hinit Hlen Hs Hl Hfit)
    as (_ & R2 & _ & R4 & _).
  set (fw1 := snd (gpl_flash_erase_range addr len fw)) in *.
  pose proof (fkeeps_session_gpl_flash_program addr data len fw1) as Hk.
  set (fw2 := snd (gpl_flash_program addr data len fw1)) in *.
  unfold session_fields in Hk. injection Hk as _ Hk1 Hk2.
  unfold gpl_flash_erase_range, mbind, F_bind, fget.
  replace (gpl_initialized (fw_loader fw2) =? 0) with false
    by (symmetry; apply Z.eqb_neq; congruence).
  replace (FLASH_SIZE <? u32 (addr + len)) with false
    by (symmetry; apply Z.ltb_ge; rewrite u32_small; unfold FLASH_SIZE in *; lia).
  cbv zeta.
  rewrite (u32_small (addr + len + FLASH_SECTOR_SIZE - 1))
    by (unfold FLASH_SIZE, FLASH_SECTOR_SIZE in *; lia).
  fold (sector_of addr). fold (sector_of (addr + len + FLASH_SECTOR_SIZE - 1)).
  assert (H0 : 0 <= sector_of addr)
    by (apply Z.div_pos; unfold FLASH_SECTOR_SIZE; lia).
  apply erase_sectors_marked; [exact H0|].
  intros j Hj. unfold tracker in *. rewrite Hk2, R4 by lia.
  replace (sector_of addr <=? j) with true by (symmetry; apply Z.leb_le; lia).
  replace (j <? sector_of (addr + len + FLASH_SECTOR_SIZE - 1)) with true
    by (symmetry; apply Z.ltb_lt; lia).
  cbn [andb].
  destruct (byte_at (erased_sectors (fw_loader fw)) (Z.to_nat j) =? 0) eqn:E;
    [lia|]. by apply Z.eqb_neq.
Qed.

Lemma gpl_flash_erase_after_program_skipped_witness :
  let fw := FlashWorld (fun _ => 0) (VFlash 0 0 0 0 None 0 0 0)
                       (Loader 1 (replicate 128 0) 0 0) in
  let fw1 := snd (gpl_flash_erase_range 0x800 4 fw) in
  let fw2 := snd (gpl_flash_program 0x800 [0x11; 0x22; 0x33; 0x44] 4 fw1) in
  gpl_flash_erase_range 0x800 4 fw2 = (0, fw2).
Proof.
  apply (gpl_flash_erase_after_program_skipped 0x800 4 [0x11; 0x22; 0x33; 0x44]
           (FlashWorld (fun _ => 0) (VFlash 0 0 0 0 None 0 0 0)
                       (Loader 1 (replicate 128 0) 0 0))).
  - simpl; lia.
  - reflexivity.
  - lia.
  - lia.
  - unfold FLASH_SIZE; lia.
Defined.

(** ** The [vFlash] packets *)











(** X19.  [vFlashWrite] below the first write of a session is refused.
    The staging buffer starts at the address of the first [vFlashWrite];
    the offset of a later write is computed in 32 bits, so a non-empty
    write at a lower address gets an offset beyond the buffer and is
    answered [E0e], with nothing staged and nothing else changed. *)
Theorem handle_vFlashWrite_below_first_refused (params : list Z) (colon : nat)
    (b : list Z) (fw : flash_world) :
  strchr_bytes params 58 0 = Some colon ->
  (0 < length (drop (S colon) params))%nat ->
  fs_write_buffer (fw_vflash fw) = Some b ->
  fs_write_capacity (fw_vflash fw) = FLASH_SIZE ->
  0 <= fs_write_addr (fw_vflash fw) < FLASH_SIZE ->
  u32 (strtoul16 (string_of_bytes params)) < fs_write_addr (fw_vflash fw) ->
  fst (handle_vFlashWrite params fw) = "E0e"
  /\ fw_vflash (snd (handle_vFlashWrite params fw)) = fw_vflash fw
  /\ fw_mem (snd (handle_vFlashWrite params fw)) = fw_mem fw
  /\ fw_loader (snd (handle_vFlashWrite params fw)) = fw_loader fw.
Proof.
  intros Hcolon Hlen Hbuf Hcap Hwa Hlow.
  remember (handle_vFlashWrite params fw) as res eqn:Eres. revert Eres.
  unfold handle_vFlashWrite. rewrite Hcolon. cbv zeta.
  replace (length (drop (S colon) params) =? 0)%nat with false
    by (symmetry; apply Nat.eqb_neq; lia).
  destruct (rsp_unescape_binary (drop (S colon) params)
                                (length (drop (S colon) params)))
    as [unescaped actual_len].
  set (addr := u32 (strtoul16 (string_of_bytes params))) in *.
  pose proof (u32_range (strtoul16 (string_of_bytes params))) as Haddr.
  fold addr in Haddr.
  destruct ((FLASH_SIZE <=? addr) || (FLASH_SIZE <? addr + Z.of_nat actual_len)).
  { unfold mret, F_ret. intros ->. by repeat split. }
  unfold mbind, F_bind, set_vflash, fget.
  cbn [fst snd fw_vflash]. rewrite Hbuf. cbn [fw_vflash].
  rewrite Hcap.
  assert (Hoff : u32 (addr - fs_write_addr (fw_vflash fw))
                 = addr - fs_write_addr (fw_vflash fw) + 2 ^ 32).
  { unfold u32. symmetry. apply Z.mod_unique with (q := -1);
      [left; unfold FLASH_SIZE in *; lia|lia]. }
  rewrite Hoff.
  replace (FLASH_SIZE <? addr - fs_write_addr (fw_vflash fw) + 2 ^ 32
                         + Z.of_nat actual_len) with true
    by (symmetry; apply Z.ltb_lt; unfold FLASH_SIZE in *; lia).
  unfold mret, F_ret. intros ->. by repeat split.
Qed.

Lemma handle_vFlashWrite_below_first_refused_witness :
  let fw := FlashWorld (fun _ => 0xFF)
                       (VFlash 1 1 0 0x800 (Some (replicate (Z.to_nat FLASH_SIZE) 0xFF))
                               0x100 4 FLASH_SIZE)
                       (Loader 1 (replicate 128 0) 1 1) in
  let params := vFlashWrite_params "0" [0x11; 0x22] in
  fst (handle_vFlashWrite params fw) = "E0e"
  /\ fw_vflash (snd (handle_vFlashWrite params fw)) = fw_vflash fw
  /\ fw_mem (snd (handle_vFlashWrite params fw)) = fw_mem fw
  /\ fw_loader (snd (handle_vFlashWrite params fw)) = fw_loader fw.
Proof.
  apply (handle_vFlashWrite_below_first_refused
           (vFlashWrite_params "0" [0x11; 0x22]) 1
           (replicate (Z.to_nat FLASH_SIZE) 0xFF)
           (FlashWorld (fun _ => 0xFF)
                       (VFlash 1 1 0 0x800 (Some (replicate (Z.to_nat FLASH_SIZE) 0xFF))
                               0x100 4 FLASH_SIZE)
                       (Loader 1 (replicate 128 0) 1 1))).
  - reflexivity.
  - simpl; lia.
  - reflexivity.
  - reflexivity.
  - unfold FLASH_SIZE; simpl; lia.
  - vm_compute; reflexivity.
Defined.

(** ** Breakpoint packets *)

Lemma usb_only_write_pbr index addr : usb_only (write_pbr index addr).
Proof.
  unfold write_pbr, cmd_07_14_write_debug_reg, cmd_07_12.
  pose proof usb_only_via_send_aa as H. frame; apply H.
Qed.

Lemma usb_only_write_tdr value : usb_only (write_tdr value).
Proof.
  unfold write_tdr, cmd_07_14_write_debug_reg, cmd_07_12.
  pose proof usb_only_via_send_aa as H. frame; apply H.
Qed.

Lemma usb_only_write_ablr addr : usb_only (write_ablr addr).
Proof. apply usb_only_via_send_aa. Qed.

Lemma usb_only_write_abhr addr : usb_only (write_abhr addr).
Proof. apply usb_only_via_send_aa. Qed.

Lemma usb_only_cmd_07_19 addr data : usb_only (cmd_07_19 addr data).
Proof. apply usb_only_via_send_aa. Qed.

Lemma usb_only_set_hw_breakpoint addr s : usb_only (set_hw_breakpoint addr s).
Proof.
  unfold set_hw_breakpoint.
  pose proof usb_only_write_pbr as H1. pose proof usb_only_write_tdr as H2.
  frame; first [apply H1|apply H2].
Qed.

Lemma usb_only_clear_hw_breakpoint addr s : usb_only (clear_hw_breakpoint addr s).
Proof.
  unfold clear_hw_breakpoint.
  pose proof usb_only_write_pbr as H1. pose proof usb_only_write_tdr as H2.
  frame; first [apply H1|apply H2].
Qed.

Lemma usb_only_set_watchpoint addr len type s :
  usb_only (set_watchpoint addr len type s).
Proof.
  unfold set_watchpoint.
  pose proof usb_only_write_ablr as H1. pose proof usb_only_write_abhr as H2.
  pose proof usb_only_write_tdr as H3.
  frame; first [apply H1|apply H2|apply H3].
Qed.

Lemma usb_only_clear_watchpoint addr len type s :
  usb_only (clear_watchpoint addr len type s).
Proof.
  unfold clear_watchpoint.
  pose proof usb_only_write_ablr as H1. pose proof usb_only_write_abhr as H2.
  pose proof usb_only_write_tdr as H3.
  frame; first [apply H1|apply H2|apply H3].
Qed.

Ltac frame_bp :=
  repeat first
    [ apply usb_only_cmd_0717_read_memory | apply usb_only_cmd_07_19
    | apply usb_only_ret | apply usb_only_get
    | apply usb_only_bind; [|intros ?]
    | match goal with
      | |- usb_only (if ?b then _ else _) => destruct b
      | |- usb_only (match ?x with _ => _ end) => destruct x
      | |- usb_only (let _ := _ in _) => cbv zeta
      end ].

Lemma usb_only_set_sw_breakpoint addr t : usb_only (set_sw_breakpoint addr t).
Proof. unfold set_sw_breakpoint. frame_bp. Qed.

Lemma usb_only_clear_sw_breakpoint addr t : usb_only (clear_sw_breakpoint addr t).
Proof. unfold clear_sw_breakpoint. frame_bp. Qed.

Lemma send_ok_reply {A} (a : A) w :
  (r ← send_ok; mret (r, a)) w
  = ((0, a), snd (send_ok w)) /\ tx (snd (send_ok w)) = tx w ++ [rsp_frame "OK"].
Proof. by split. Qed.

(** X20.  A [z] packet is always answered [OK].  For every breakpoint type
    0 to 4 and every packet with a comma, [handle_remove_breakpoint] sends
    exactly one reply, [OK], whatever the pod answers: also when there is
    no such breakpoint or watchpoint, and when the write that restores the
    original instruction of a software breakpoint fails. *)
Theorem handle_remove_breakpoint_always_ok (data comma : string) (s : debug_state)
    (t : list sw_breakpoint) (w : world) :
  strchr data "," = Some comma ->
  0 <= breakpoint_type data <= 4 ->
  fst (fst (handle_remove_breakpoint data s t w)) = 0
  /\ tx (snd (handle_remove_breakpoint data s t w)) = tx w ++ [rsp_frame "OK"].
Proof.
  intros Hcomma Htype.
  remember (handle_remove_breakpoint data s t w) as res eqn:Eres. revert Eres.
  unfold handle_remove_breakpoint. rewrite Hcomma. cbv zeta.
  set (addr := u32 (strtoul16 (string_tail comma))).
  set (kind := breakpoint_kind (string_tail comma)).
  destruct (breakpoint_type data =? 0) eqn:E0.
  { unfold mbind at 1, M_bind at 1.
    pose proof (keeps_tx_usb_only _ (usb_only_clear_hw_breakpoint addr s) w) as K1.
    destruct (clear_hw_breakpoint addr s w) as [[r s1] w1]. cbn [snd] in K1.
    destruct (r =? 0).
    { destruct (send_ok_reply (s1, t) w1) as [-> Htx]. intros ->.
      cbn [fst snd]. by rewrite Htx, K1. }
    unfold mbind at 1, M_bind at 1.
    pose proof (keeps_tx_usb_only _ (usb_only_clear_sw_breakpoint addr t) w1) as K2.
    destruct (clear_sw_breakpoint addr t w1) as [[r2 t2] w2]. cbn [snd] in K2.
    destruct (r2 =? 0);
      destruct (send_ok_reply (s1, t2) w2) as [-> Htx]; intros ->;
      cbn [fst snd]; by rewrite Htx, K2, K1. }
  destruct (breakpoint_type data =? 1) eqn:E1.
  { unfold mbind at 1, M_bind at 1.
    pose proof (keeps_tx_usb_only _ (usb_only_clear_hw_breakpoint addr s) w) as K1.
    destruct (clear_hw_breakpoint addr s w) as [[r s1] w1]. cbn [snd] in K1.
    destruct (send_ok_reply (s1, t) w1) as [-> Htx]. intros ->.
    cbn [fst snd]. by rewrite Htx, K1. }
  replace ((breakpoint_type data =? 2) || (breakpoint_type data =? 3)
           || (breakpoint_type data =? 4)) with true.
  2:{ zbool. symmetry. rewrite !orb_true_iff, !Z.eqb_eq. lia. }
  unfold mbind at 1, M_bind at 1.
  set (wp := if breakpoint_type data =? 2 then WP_TYPE_WRITE
             else if breakpoint_type data =? 3 then WP_TYPE_READ
                  else WP_TYPE_ACCESS).
  pose proof (keeps_tx_usb_only _ (usb_only_clear_watchpoint addr kind wp s) w) as K1.
  destruct (clear_watchpoint addr kind wp s w) as [[r s1] w1]. cbn [snd] in K1.
  destruct (send_ok_reply (s1, t) w1) as [-> Htx]. intros ->.
  cbn [fst snd]. by rewrite Htx, K1.
Qed.

Lemma handle_remove_breakpoint_always_ok_witness :
  fst (fst (handle_remove_breakpoint "0,500,2" one_breakpoint_state no_sw_breakpoints
                                     world_after_reset)) = 0
  /\ tx (snd (handle_remove_breakpoint "0,500,2" one_breakpoint_state
                                       no_sw_breakpoints world_after_reset))
     = tx world_after_reset ++ [rsp_frame "OK"].
Proof.
  apply (handle_remove_breakpoint_always_ok "0,500,2" ",500,2" one_breakpoint_state
           no_sw_breakpoints world_after_reset).
  - reflexivity.
  - vm_compute. split; discriminate.
Defined.

(** ** Verification by the loader *)

Lemma store32_in (m : memory) a v x :
  a <= x < a + 4 -> store32 m a v x = byte_of v (24 - 8 * (x - a)).
Proof.
  intros H. replace x with (a + (x - a)) at 1 by lia.
  apply store32_byte. lia.
Qed.

Lemma upload_verify_words_S n i data offset chunk fw :
  upload_verify_words (S n) i data offset chunk fw
  = if i <? chunk
    then upload_verify_words n (i + 4) data offset chunk
           (FlashWorld (store32 (fw_mem fw) (FLASHLOADER_DATA_BUFFER + i)
                                (u32 (verify_word data offset chunk i)))
                       (fw_vflash fw) (fw_loader fw))
    else (tt, fw).
Proof. cbn [upload_verify_words]. by destruct (i <? chunk). Qed.

Lemma upload_verify_words_spec data offset chunk n : forall (q : Z) fw,
  Forall is_byte data -> 0 <= q -> 0 <= offset ->
  (Z.to_nat (chunk - 4 * q) <= n)%nat ->
  let res := upload_verify_words n (4 * q) data offset chunk fw in
  let pad k := if k <? chunk then byte_at data (Z.to_nat (offset + k)) else 0 in
  fw_vflash (snd res) = fw_vflash fw
  /\ fw_loader (snd res) = fw_loader fw
  /\ forall x,
       fw_mem (snd res) x
       = if (FLASHLOADER_DATA_BUFFER + 4 * q <=? x)
            && (x <? FLASHLOADER_DATA_BUFFER + 4 * ((chunk + 3) / 4))
         then pad (x - FLASHLOADER_DATA_BUFFER)
         else fw_mem fw x.
Proof.
  unfold FLASHLOADER_DATA_BUFFER. cbv zeta.
  pose proof (Z.mul_div_le (chunk + 3) 4 ltac:(lia)) as Hd1.
  pose proof (Z.mul_succ_div_gt (chunk + 3) 4 ltac:(lia)) as Hd2.
  set (d := (chunk + 3) / 4) in *.
  induction n as [|n IH]; intros q fw Hb Hq Ho Hn.
  - cbn [upload_verify_words]. unfold mret, F_ret. cbn [snd].
    split; [reflexivity|]. split; [reflexivity|].
    intros x. split_cmp; first [reflexivity|lia].
  - rewrite upload_verify_words_S.
    destruct (4 * q <? chunk) eqn:E; zbool.
    2:{ cbn [snd]. split; [reflexivity|]. split; [reflexivity|].
        intros x. split_cmp; first [reflexivity|lia]. }
    set (fw1 := FlashWorld _ _ _).
    replace (4 * q + 4) with (4 * (q + 1)) by lia.
    destruct (IH (q + 1) fw1 Hb ltac:(lia) Ho ltac:(lia)) as (H1 & H2 & H3).
    split; [exact H1|]. split; [exact H2|].
    intros x. rewrite H3. unfold fw1. cbn [fw_mem]. unfold FLASHLOADER_DATA_BUFFER.
    destruct (Z.le_gt_cases (536871168 + 4 * q) x) as [Hlo|Hlo];
      [destruct (Z.le_gt_cases (536871168 + 4 * q + 4) x) as [Hhi|Hhi]|].
    + rewrite store32_other by lia. split_cmp; first [reflexivity|lia].
    + rewrite store32_in by lia. rewrite byte_of_u32 by lia.
      unfold verify_word.
      assert (Hpad : forall j, is_byte (if 4 * q + j <? chunk
                                        then byte_at data (Z.to_nat (offset + 4 * q + j))
                                        else 0)).
      { intros j. destruct (4 * q + j <? chunk); [by apply byte_at_is_byte|].
        unfold is_byte. lia. }
      destruct (byte_of_word_of_bytes _ _ _ _ (Hpad 0) (Hpad 1) (Hpad 2) (Hpad 3))
        as (B0 & B1 & B2 & B3).
      replace (536871168 + 4 * (q + 1) <=? x) with false
        by (symmetry; apply Z.leb_gt; lia).
      replace (536871168 + 4 * q <=? x) with true by (symmetry; apply Z.leb_le; lia).
      replace (x <? 536871168 + 4 * d) with true by (symmetry; apply Z.ltb_lt; lia).
      cbn [andb].
      assert (Hj : x - (536871168 + 4 * q) = 0 \/ x - (536871168 + 4 * q) = 1
                   \/ x - (536871168 + 4 * q) = 2
                   \/ x - (536871168 + 4 * q) = 3) by lia.
      destruct Hj as [Hj|[Hj|[Hj|Hj]]]; rewrite Hj; fold_shift;
        [rewrite B0|rewrite B1|rewrite B2|rewrite B3];
        (replace (x - 536871168) with (4 * q + (x - (536871168 + 4 * q))) by lia);
        rewrite Hj; rewrite ?Z.add_assoc; reflexivity.
    + rewrite store32_other by lia. split_cmp; first [reflexivity|lia].
Qed.

Lemma flash_verify_words_spec n : forall (i addr : Z) (m : memory),
  (flash_verify_words n i addr m = FLASH_RESULT_SUCCESS
   /\ forall j, i <= j < i + Z.of_nat n ->
        load32 m (addr + 4 * j) = load32 m (FLASHLOADER_DATA_BUFFER + 4 * j))
  \/ (flash_verify_words n i addr m = RESULT_ERROR_VERIFY
      /\ exists j, i <= j < i + Z.of_nat n
           /\ load32 m (addr + 4 * j) <> load32 m (FLASHLOADER_DATA_BUFFER + 4 * j)).
Proof.
  induction n as [|n IH]; intros i addr m.
  - left. split; [reflexivity|]. intros j Hj. lia.
  - cbn [flash_verify_words].
    destruct (load32 m (addr + 4 * i) =? load32 m (FLASHLOADER_DATA_BUFFER + 4 * i))
      eqn:E; cbn [negb]; zbool.
    + destruct (IH (i + 1) addr m) as [[H1 H2]|[H1 (j & Hj & H2)]].
      * left. split; [exact H1|]. intros j Hj.
        destruct (Z.eq_dec j i) as [->|Hne]; [exact E|apply H2; lia].
      * right. split; [exact H1|]. exists j. split; [lia|exact H2].
    + right. split; [reflexivity|]. exists i. split; [lia|exact E].
Qed.

Lemma load32_eq_bytes (m : memory) a b :
  (forall j, 0 <= j < 4 -> is_byte (m (a + j))) ->
  (forall j, 0 <= j < 4 -> is_byte (m (b + j))) ->
  load32 m a = load32 m b ->
  forall j, 0 <= j < 4 -> m (a + j) = m (b + j).
Proof.
  intros Ha Hb Heq j Hj. unfold load32 in Heq.
  pose proof (Ha 0 ltac:(lia)) as A0. rewrite Z.add_0_r in A0.
  pose proof (Hb 0 ltac:(lia)) as B0. rewrite Z.add_0_r in B0.
  destruct (byte_of_word_of_bytes _ _ _ _ A0 (Ha 1 ltac:(lia)) (Ha 2 ltac:(lia))
              (Ha 3 ltac:(lia))) as (P0 & P1 & P2 & P3).
  destruct (byte_of_word_of_bytes _ _ _ _ B0 (Hb 1 ltac:(lia)) (Hb 2 ltac:(lia))
              (Hb 3 ltac:(lia))) as (Q0 & Q1 & Q2 & Q3).
  rewrite Heq in P0, P1, P2, P3.
  assert (Hcase : j = 0 \/ j = 1 \/ j = 2 \/ j = 3) by lia.
  destruct Hcase as [Hc|[Hc|[Hc|Hc]]]; subst j; rewrite ?Z.add_0_r; congruence.
Qed.

Lemma flashloader_entry_verify_run (m : memory) faddr len :
  0 <= faddr < 2 ^ 32 -> 0 <= len < 2 ^ 32 ->
  let m5 := store32 (store32 (store32 (store32 (store32 m
              FLASHLOADER_PARAM_OPERATION (u32 FLASH_OP_VERIFY))
              FLASHLOADER_PARAM_FLASH_ADDR (u32 faddr))
              FLASHLOADER_PARAM_LENGTH (u32 len))
              FLASHLOADER_PARAM_RESULT (u32 0xFFFFFFFF))
              FLASHLOADER_PARAM_STATUS (u32 0) in
  flashloader_entry m5
  = store32 m5 FLASHLOADER_PARAM_RESULT
            (flash_verify_words (Z.to_nat (len / 4)) 0 faddr m5).
Proof.
  intros Hf Hl m5. unfold flashloader_entry.
  destruct (params_read m FLASH_OP_VERIFY faddr len) as (H1 & H2 & H3 & _).
  fold m5 in H1, H2, H3. rewrite H1, H2, H3.
  rewrite (u32_small faddr), (u32_small len) by assumption.
  reflexivity.
Qed.

Lemma flash_verify_words_result n i addr m :
  flash_verify_words n i addr m = FLASH_RESULT_SUCCESS
  \/ flash_verify_words n i addr m = RESULT_ERROR_VERIFY.
Proof. destruct (flash_verify_words_spec n i addr m) as [[H _]|[H _]]; auto. Qed.

Lemma load32_neq_byte (m : memory) a b :
  load32 m a <> load32 m b -> exists r, 0 <= r < 4 /\ m (a + r) <> m (b + r).
Proof.
  intros Hne.
  destruct (Z.eq_dec (m (a + 0)) (m (b + 0))) as [E0|N0]; [|exists 0; split; [lia|done]].
  destruct (Z.eq_dec (m (a + 1)) (m (b + 1))) as [E1|N1]; [|exists 1; split; [lia|done]].
  destruct (Z.eq_dec (m (a + 2)) (m (b + 2))) as [E2|N2]; [|exists 2; split; [lia|done]].
  destruct (Z.eq_dec (m (a + 3)) (m (b + 3))) as [E3|N3]; [|exists 3; split; [lia|done]].
  exfalso. apply Hne. unfold load32. rewrite !Z.add_0_r in E0. congruence.
Qed.

Lemma verify_chunk_spec data offset chunk faddr fw :
  Forall is_byte data ->
  (forall x, 0 <= x < FLASH_SIZE -> is_byte (fw_mem fw x)) ->
  0 <= offset -> 0 <= chunk <= FLASHLOADER_DATA_BUFFER_SIZE ->
  0 <= faddr -> faddr + chunk <= FLASH_SIZE ->
  let fa := snd (upload_verify_words (Z.to_nat chunk) 0 data offset chunk fw) in
  let res := simple_flash_run_op FLASH_OP_VERIFY faddr chunk fa in
  fst (fst res) = 0
  /\ session_fields (snd res) = session_fields fw
  /\ (forall x, 0 <= x < FLASH_SIZE -> fw_mem (snd res) x = fw_mem fw x)
  /\ ((snd (fst res) = FLASH_RESULT_SUCCESS
       /\ forall k, 0 <= k < 4 * (chunk / 4) ->
            fw_mem fw (faddr + k) = byte_at data (Z.to_nat (offset + k)))
      \/ (snd (fst res) = RESULT_ERROR_VERIFY
          /\ exists k, 0 <= k < 4 * (chunk / 4)
               /\ fw_mem fw (faddr + k) <> byte_at data (Z.to_nat (offset + k)))).
Proof.
  intros Hb Hflash Ho Hchunk Hf Hfit. cbv zeta.
  destruct (upload_verify_words_spec data offset chunk (Z.to_nat chunk) 0 fw Hb
              ltac:(lia) Ho ltac:(lia)) as (U1 & U2 & U3).
  change (4 * 0) with 0 in U1, U2, U3.
  destruct (upload_verify_words (Z.to_nat chunk) 0 data offset chunk fw) as [[] fa].
  cbn [snd] in U1, U2, U3 |- *.
  rewrite simple_flash_run_op_unfold. cbv zeta.
  assert (Hfa : 0 <= faddr < 2 ^ 32) by (unfold FLASH_SIZE in Hfit; lia).
  assert (Hl : 0 <= chunk < 2 ^ 32)
    by (unfold FLASHLOADER_DATA_BUFFER_SIZE in Hchunk; lia).
  rewrite (flashloader_entry_verify_run (fw_mem fa) faddr chunk Hfa Hl).
  destruct (params_read (fw_mem fa) FLASH_OP_VERIFY faddr chunk) as (_ & _ & _ & Hout).
  set (m5 := store32 _ FLASHLOADER_PARAM_STATUS (u32 0)) in *.
  rewrite load32_store32. cbn [fst snd fw_mem fw_vflash fw_loader].
  pose proof (Z.mul_div_le chunk 4 ltac:(lia)) as Hd1.
  pose proof (Z.mul_succ_div_gt chunk 4 ltac:(lia)) as Hd2.
  pose proof (Z.mul_div_le (chunk + 3) 4 ltac:(lia)) as Hd3.
  pose proof (Z.mul_succ_div_gt (chunk + 3) 4 ltac:(lia)) as Hd4.
  assert (Hflash5 : forall x, 0 <= x < FLASH_SIZE -> m5 x = fw_mem fw x).
  { intros x Hx. rewrite Hout by (apply outside_params; by left). rewrite U3.
    replace (FLASHLOADER_DATA_BUFFER + 0 <=? x) with false; [reflexivity|].
    symmetry. apply Z.leb_gt. unfold FLASHLOADER_DATA_BUFFER, FLASH_SIZE in *. lia. }
  assert (Hbuf5 : forall k, 0 <= k < 4 * (chunk / 4) ->
                    m5 (FLASHLOADER_DATA_BUFFER + k)
                    = byte_at data (Z.to_nat (offset + k))).
  { intros k Hk.
    rewrite Hout by (apply outside_params; right; lia). rewrite U3.
    replace (FLASHLOADER_DATA_BUFFER + 0 <=? FLASHLOADER_DATA_BUFFER + k) with true
      by (symmetry; apply Z.leb_le; lia).
    replace (FLASHLOADER_DATA_BUFFER + k
             <? FLASHLOADER_DATA_BUFFER + 4 * ((chunk + 3) / 4)) with true
      by (symmetry; apply Z.ltb_lt; lia).
    cbn [andb].
    replace (FLASHLOADER_DATA_BUFFER + k - FLASHLOADER_DATA_BUFFER) with k by lia.
    by replace (k <? chunk) with true by (symmetry; apply Z.ltb_lt; lia). }
  split; [reflexivity|].
  split; [unfold session_fields; cbn [fw_vflash fw_loader gpl_initialized erased_sectors];
          by rewrite U1, U2|].
  split.
  { intros x Hx.
    rewrite store32_other by (unfold FLASH_SIZE, FLASHLOADER_PARAM_RESULT in *; lia).
    by apply Hflash5. }
  destruct (flash_verify_words_spec (Z.to_nat (chunk / 4)) 0 faddr m5)
    as [[R1 R2]|[R1 (j & Hj & R2)]]; rewrite R1.
  - left. split; [reflexivity|]. intros k Hk.
    pose proof (Z.mul_div_le k 4 ltac:(lia)) as Hk1.
    pose proof (Z.mul_succ_div_gt k 4 ltac:(lia)) as Hk2.
    assert (Hq : 0 <= k / 4 < chunk / 4) by lia.
    rewrite <- Hflash5 by lia. rewrite <- Hbuf5 by lia.
    replace (faddr + k) with (faddr + 4 * (k / 4) + (k - 4 * (k / 4))) by lia.
    replace (FLASHLOADER_DATA_BUFFER + k)
      with (FLASHLOADER_DATA_BUFFER + 4 * (k / 4) + (k - 4 * (k / 4))) by lia.
    apply load32_eq_bytes; try lia.
    + intros r Hr. rewrite Hflash5 by lia. apply Hflash. lia.
    + intros r Hr.
      replace (FLASHLOADER_DATA_BUFFER + 4 * (k / 4) + r)
        with (FLASHLOADER_DATA_BUFFER + (4 * (k / 4) + r)) by lia.
      rewrite Hbuf5 by lia. by apply byte_at_is_byte.
    + apply R2. lia.
  - right. split; [reflexivity|].
    destruct (load32_neq_byte _ _ _ R2) as (r & Hr & Hne).
    exists (4 * j + r). split; [lia|].
    rewrite <- Hflash5 by lia. rewrite <- Hbuf5 by lia.
    by rewrite !Z.add_assoc.
Qed.

Lemma verify_chunks_S n addr data length offset fw :
  verify_chunks (S n) addr data length offset fw
  = if offset <? length then
      let chunk := if FLASHLOADER_DATA_BUFFER_SIZE <? length - offset
                   then FLASHLOADER_DATA_BUFFER_SIZE else length - offset in
      let fa := snd (upload_verify_words (Z.to_nat chunk) 0 data offset chunk fw) in
      let res := simple_flash_run_op FLASH_OP_VERIFY (u32 (addr + offset))
                                            chunk fa in
      if negb (fst (fst res) =? 0) then (-1, snd res)
      else if negb (snd (fst res) =? FLASH_RESULT_SUCCESS) then (1, snd res)
           else verify_chunks n addr data length (offset + chunk) (snd res)
    else (0, fw).
Proof.
  cbn [verify_chunks]. destruct (offset <? length); [|reflexivity].
  cbv zeta. unfold mbind, F_bind.
  destruct (upload_verify_words _ 0 data offset _ fw) as [[] fa]. cbn [snd].
  destruct (simple_flash_run_op FLASH_OP_VERIFY (u32 (addr + offset)) _ fa)
    as [[r result] fb].
  cbn [fst snd]. destruct (negb (r =? 0)); [reflexivity|].
  by destruct (negb (result =? FLASH_RESULT_SUCCESS)).
Qed.

Lemma verify_chunks_spec fuel : forall (k : Z) fw addr data length,
  Forall is_byte data ->
  (forall x, 0 <= x < FLASH_SIZE -> is_byte (fw_mem fw x)) ->
  0 <= addr -> addr + length <= FLASH_SIZE ->
  0 <= k -> FLASHLOADER_DATA_BUFFER_SIZE * k <= length ->
  (Z.to_nat (length - FLASHLOADER_DATA_BUFFER_SIZE * k) <= fuel)%nat ->
  let offset := FLASHLOADER_DATA_BUFFER_SIZE * k in
  let res := verify_chunks fuel addr data length offset fw in
  session_fields (snd res) = session_fields fw
  /\ (forall x, 0 <= x < FLASH_SIZE -> fw_mem (snd res) x = fw_mem fw x)
  /\ ((fst res = 0
       /\ forall j, offset <= j < 4 * (length / 4) ->
            fw_mem fw (addr + j) = byte_at data (Z.to_nat j))
      \/ (fst res = 1
          /\ exists j, offset <= j < 4 * (length / 4)
               /\ fw_mem fw (addr + j) <> byte_at data (Z.to_nat j))).
Proof.
  unfold FLASHLOADER_DATA_BUFFER_SIZE.
  induction fuel as [|fuel IH];
    intros k fw addr data length Hb Hflash Ha Hfit Hk Hoff Hfuel; cbv zeta.
  - pose proof (Z.mul_div_le length 4 ltac:(lia)).
    cbn [verify_chunks]. unfold mret, F_ret. cbn [fst snd].
    split; [reflexivity|]. split; [reflexivity|].
    left. split; [reflexivity|]. intros j Hj. lia.
  - pose proof (Z.mul_div_le length 4 ltac:(lia)) as Hd.
    rewrite verify_chunks_S.
    destruct (1024 * k <? length) eqn:Elt; zbool.
    2:{ cbn [fst snd]. split; [reflexivity|]. split; [reflexivity|].
        left. split; [reflexivity|]. intros j Hj. lia. }
    cbv zeta. unfold FLASHLOADER_DATA_BUFFER_SIZE.
    set (chunk := if 1024 <? length - 1024 * k then 1024 else length - 1024 * k).
    assert (Hchunk : 0 < chunk <= 1024 /\ 1024 * k + chunk <= length).
    { unfold chunk. destruct (1024 <? length - 1024 * k) eqn:E; zbool; lia. }
    rewrite (u32_small (addr + 1024 * k)) by (unfold FLASH_SIZE in Hfit; lia).
    destruct (verify_chunk_spec data (1024 * k) chunk (addr + 1024 * k) fw Hb Hflash)
      as (C1 & C2 & C3 & C4);
      [lia|unfold FLASHLOADER_DATA_BUFFER_SIZE; lia|lia|lia|].
    cbv zeta in C1, C2, C3, C4.
    set (res := simple_flash_run_op FLASH_OP_VERIFY (addr + 1024 * k) chunk _)
      in *.
    rewrite C1. cbn [Z.eqb negb].
    assert (Hquot : 4 * ((length - 1024 * k) / 4) = 4 * (length / 4) - 1024 * k).
    { replace (length - 1024 * k) with (length + (- (256 * k)) * 4) by lia.
      rewrite Z.div_add by lia. lia. }
    destruct C4 as [[R1 R2]|[R1 (j & Hj & R2)]]; rewrite R1.
    2:{ change (negb (RESULT_ERROR_VERIFY =? FLASH_RESULT_SUCCESS)) with true.
        cbn [fst snd]. split; [exact C2|]. split; [exact C3|].
        right. split; [reflexivity|]. exists (1024 * k + j).
        assert (4 * (chunk / 4) <= 4 * (length / 4) - 1024 * k).
        { unfold chunk in *. destruct (1024 <? length - 1024 * k) eqn:E; zbool.
          - change (1024 / 4) with 256.
            assert (256 * (k + 1) <= length / 4)
              by (apply Z.div_le_lower_bound; lia). lia.
          - lia. }
        split; [lia|]. by rewrite Z.add_assoc. }
    change (negb (FLASH_RESULT_SUCCESS =? FLASH_RESULT_SUCCESS)) with false.
    cbv iota.
    assert (Hflash' : forall x, 0 <= x < FLASH_SIZE -> is_byte (fw_mem (snd res) x))
      by (intros x Hx; rewrite C3 by assumption; by apply Hflash).
    destruct (1024 <? length - 1024 * k) eqn:E; zbool.
    + unfold chunk in *.
      replace (1024 * k + 1024) with (1024 * (k + 1)) by lia.
      destruct (IH (k + 1) (snd res) addr data length Hb Hflash' Ha Hfit
                   ltac:(lia) ltac:(lia) ltac:(lia)) as (I1 & I2 & I3).
      cbv zeta in I1, I2, I3.
      split; [by rewrite I1|].
      split; [intros x Hx; rewrite I2 by assumption; by apply C3|].
      change (1024 / 4) with 256 in R2.
      destruct I3 as [[S1 S2]|[S1 (j & Hj & S2)]].
      * left. split; [exact S1|]. intros j Hj.
        destruct (Z.lt_ge_cases j (1024 * (k + 1))) as [Hlo|Hhi].
        -- replace (addr + j) with (addr + 1024 * k + (j - 1024 * k)) by lia.
           rewrite R2 by lia. f_equal. lia.
        -- rewrite <- C3 by lia. apply S2. lia.
      * right. split; [exact S1|]. exists j. split; [lia|].
        rewrite <- C3 by lia. exact S2.
    + unfold chunk in *.
      replace (1024 * k + (length - 1024 * k)) with length by lia.
      assert (Hdone : forall n w, verify_chunks n addr data length length w = (0, w)).
      { intros n w. destruct n; [reflexivity|]. rewrite verify_chunks_S.
        by rewrite Z.ltb_irrefl. }
      rewrite Hdone. cbn [fst snd].
      split; [exact C2|]. split; [exact C3|].
      left. split; [reflexivity|]. intros j Hj.
      replace (addr + j) with (addr + 1024 * k + (j - 1024 * k)) by lia.
      rewrite R2 by lia. f_equal. lia.
Qed.

Lemma gpl_flash_verify_spec (addr len : Z) (data : list Z) (fw : flash_world) :
  gpl_initialized (fw_loader fw) <> 0 ->
  Forall is_byte data ->
  (forall x, 0 <= x < FLASH_SIZE -> is_byte (fw_mem fw x)) ->
  0 <= addr -> 0 <= len -> addr + len <= FLASH_SIZE ->
  let res := gpl_flash_verify addr data len fw in
  (forall x, 0 <= x < FLASH_SIZE -> fw_mem (snd res) x = fw_mem fw x)
  /\ ((fst res = 0
       /\ forall j, 0 <= j < 4 * (len / 4) ->
            fw_mem fw (addr + j) = byte_at data (Z.to_nat j))
      \/ (fst res = 1
          /\ exists j, 0 <= j < 4 * (len / 4)
               /\ fw_mem fw (addr + j) <> byte_at data (Z.to_nat j))).
Proof.
  intros Hinit Hb Hflash Ha Hl Hfit. cbv zeta.
  unfold gpl_flash_verify, mbind, F_bind, fget.
  replace (gpl_initialized (fw_loader fw) =? 0) with false
    by (symmetry; by apply Z.eqb_neq).
  destruct (len =? 0) eqn:E0; zbool.
  { subst len. unfold mret, F_ret. cbn [fst snd]. split; [reflexivity|].
    left. split; [reflexivity|]. change (0 / 4) with 0. intros j Hj. lia. }
  destruct (verify_chunks_spec (Z.to_nat len) 0 fw addr data len Hb Hflash Ha Hfit)
    as (_ & V2 & V3); try lia.
  cbv zeta in V2, V3. rewrite Z.mul_0_r in V2, V3.
  split; [exact V2|exact V3].
Qed.

(** X21.  [gpl_flash_verify] compares whole longwords only.  On a target
    that carries out every command the call leaves the flash as it is and
    returns 0 when the flash agrees with the data on
    [addr, addr + 4 * (length / 4)), and 1 when it differs there: the last
    [length mod 4] bytes are never compared. *)
Theorem gpl_flash_verify_whole_longwords (addr length : Z) (data : list Z)
    (fw : flash_world) :
  gpl_initialized (fw_loader fw) <> 0 ->
  Forall is_byte data ->
  (forall x, 0 <= x < FLASH_SIZE -> is_byte (fw_mem fw x)) ->
  0 <= addr -> 0 <= length -> addr + length <= FLASH_SIZE ->
  let res := gpl_flash_verify addr data length fw in
  (forall x, 0 <= x < FLASH_SIZE -> fw_mem (snd res) x = fw_mem fw x)
  /\ ((fst res = 0
       /\ forall j, 0 <= j < 4 * (length / 4) ->
            fw_mem fw (addr + j) = byte_at data (Z.to_nat j))
      \/ (fst res = 1
          /\ exists j, 0 <= j < 4 * (length / 4)
               /\ fw_mem fw (addr + j) <> byte_at data (Z.to_nat j))).
Proof.
  intros Hinit Hb Hflash Ha Hl Hfit.
  exact (gpl_flash_verify_spec addr length data fw Hinit Hb Hflash Ha Hl Hfit).
Qed.

Lemma gpl_flash_verify_whole_longwords_witness :
  let fw := FlashWorld (fun _ => 0xFF) (VFlash 0 0 0 0 None 0 0 0)
                       (Loader 1 (replicate 128 0) 0 0) in
  let data := [0xFF; 0xFF; 0xFF; 0xFF; 0x55] in
  let res := gpl_flash_verify 0x800 data 5 fw in
  (forall x, 0 <= x < FLASH_SIZE -> fw_mem (snd res) x = fw_mem fw x)
  /\ ((fst res = 0
       /\ forall j, 0 <= j < 4 * (5 / 4) ->
            fw_mem fw (0x800 + j) = byte_at data (Z.to_nat j))
      \/ (fst res = 1
          /\ exists j, 0 <= j < 4 * (5 / 4)
               /\ fw_mem fw (0x800 + j) <> byte_at data (Z.to_nat j))).
Proof.
  apply (gpl_flash_verify_whole_longwords 0x800 5 [0xFF; 0xFF; 0xFF; 0xFF; 0x55]
           (FlashWorld (fun _ => 0xFF) (VFlash 0 0 0 0 None 0 0 0)
                       (Loader 1 (replicate 128 0) 0 0))).
  - simpl; lia.
  - repeat constructor; unfold is_byte; lia.
  - intros x Hx. unfold is_byte. simpl. lia.
  - lia.
  - lia.
  - unfold FLASH_SIZE; lia.
Defined.

Lemma sector_of_in_range base len k :
  0 <= base -> 0 <= k < len ->
  sector_of base <= sector_of (base + k)
  < sector_of (base + len + FLASH_SECTOR_SIZE - 1).
Proof.
  intros Hb Hk. unfold sector_of, FLASH_SECTOR_SIZE. split.
  - apply Z.div_le_mono; lia.
  - apply Z.lt_le_trans with ((base + len - 1) / 2048 + 1); [|].
    + assert ((base + k) / 2048 <= (base + len - 1) / 2048)
        by (apply Z.div_le_mono; lia). lia.
    + replace (base + len + 2048 - 1) with (base + len - 1 + 1 * 2048) by lia.
      rewrite Z.div_add by lia. lia.
Qed.

(** X22.  [gpl_flash_program_binary] with verification passes on an image
    it has not programmed in full.  With the loader initialised and no
    sector of the range marked as erased, on a target that carries out
    every command, erase, program and verify all succeed and the call
    returns 0; the flash then holds the image on
    [base_addr, base_addr + 4 * (length / 4)) and 0xFF in the last
    [length mod 4] bytes of the range. *)
Theorem gpl_flash_program_binary_verified_tail (data : list Z) (length base_addr : Z)
    (fw : flash_world) :
  gpl_initialized (fw_loader fw) <> 0 ->
  List.length (tracker fw) = 128%nat ->
  (forall j, sector_of base_addr <= j
             < sector_of (base_addr + length + FLASH_SECTOR_SIZE - 1) ->
             byte_at (tracker fw) (Z.to_nat j) = 0) ->
  Forall is_byte data ->
  (forall x, 0 <= x < FLASH_SIZE -> is_byte (fw_mem fw x)) ->
  0 <= base_addr -> 0 < length -> base_addr + length <= FLASH_SIZE ->
  let res := gpl_flash_program_binary data length base_addr 1 fw in
  fst res = 0
  /\ forall k, 0 <= k < length ->
       fw_mem (snd res) (base_addr + k)
       = if k <? 4 * (length / 4) then byte_at data (Z.to_nat k) else 0xFF.
Proof.
  intros Hinit Hlen Hfresh Hb Hflash Ha Hl Hfit. cbv zeta.
  remember (gpl_flash_program_binary data length base_addr 1 fw) as res eqn:Eres.
  revert Eres. unfold gpl_flash_program_binary.
  unfold mbind at 1, F_bind at 1, fget at 1.
  replace (gpl_initialized (fw_loader fw) =? 0) with false
    by (symmetry; by apply Z.eqb_neq).
  replace (length =? 0) with false by (symmetry; apply Z.eqb_neq; lia).
  unfold mbind at 1, F_bind at 1.
  destruct (gpl_flash_erase_range_spec base_addr length fw Hinit Hlen Ha
              ltac:(lia) Hfit) as (E1 & E2 & _ & _ & E5).
  cbv zeta in E1, E2, E5.
  destruct (gpl_flash_erase_range base_addr length fw) as [r fw1].
  cbn [fst snd] in E1, E2, E5. subst r. cbn [Z.eqb negb].
  assert (Hinit1 : gpl_initialized (fw_loader fw1) <> 0) by (by rewrite E2).
  unfold mbind at 1, F_bind at 1.
  destruct (gpl_flash_program_spec base_addr length data fw1 Hinit1 Hb Ha
              ltac:(lia) Hfit) as (P1 & P2).
  pose proof (fkeeps_session_gpl_flash_program base_addr data length fw1) as Hk.
  unfold session_fields in Hk. injection Hk as _ Hk _.
  destruct (gpl_flash_program base_addr data length fw1) as [r fw2].
  cbn [fst snd] in P1, P2, Hk. subst r. cbn [Z.eqb negb].
  assert (Hinit2 : gpl_initialized (fw_loader fw2) <> 0) by (by rewrite Hk).
  assert (Hmem1 : forall x, 0 <= x < FLASH_SIZE -> is_byte (fw_mem fw1 x)).
  { intros x Hx. rewrite E5 by assumption.
    destruct (erased_by_range _ _ _ _); [unfold is_byte; lia|by apply Hflash]. }
  assert (Hmem2 : forall x, 0 <= x < FLASH_SIZE -> is_byte (fw_mem fw2 x)).
  { intros x Hx. rewrite P2 by assumption.
    destruct (_ && _); [by apply byte_at_is_byte|by apply Hmem1]. }
  pose proof (Z.mul_div_le length 4 ltac:(lia)) as Hd.
  assert (Hdata : forall j, 0 <= j < 4 * (length / 4) ->
                    fw_mem fw2 (base_addr + j) = byte_at data (Z.to_nat j)).
  { intros j Hj. rewrite P2 by lia.
    replace (base_addr <=? base_addr + j) with true by (symmetry; apply Z.leb_le; lia).
    replace (base_addr + j <? base_addr + 4 * (length / 4)) with true
      by (symmetry; apply Z.ltb_lt; lia).
    cbn [andb]. f_equal. lia. }
  unfold mbind at 1, F_bind at 1.
  destruct (gpl_flash_verify_spec base_addr length data fw2 Hinit2 Hb Hmem2 Ha
              ltac:(lia) Hfit) as (V1 & V2).
  cbv zeta in V1, V2.
  destruct (gpl_flash_verify base_addr data length fw2) as [r fw3].
  cbn [fst snd] in V1, V2.
  destruct V2 as [[-> _]|[_ (j & Hj & Hne)]]; [|exfalso; apply Hne; by apply Hdata].
  cbn [Z.eqb negb]. unfold mret, F_ret. intros ->. cbn [fst snd].
  split; [reflexivity|].
  intros k Hk'. rewrite V1 by lia.
  destruct (k <? 4 * (length / 4)) eqn:Ek; zbool; [apply Hdata; lia|].
  rewrite P2 by lia.
  replace (base_addr + k <? base_addr + 4 * (length / 4)) with false
    by (symmetry; apply Z.ltb_ge; lia).
  rewrite andb_false_r. rewrite E5 by lia.
  pose proof (sector_of_in_range base_addr length k Ha Hk') as Hsec.
  rewrite erased_by_range_own; [reflexivity|lia|].
  apply Hfresh. lia.
Qed.

Lemma gpl_flash_program_binary_verified_tail_witness :
  let fw := FlashWorld (fun _ => 0) (VFlash 0 0 0 0 None 0 0 0)
                       (Loader 1 (replicate 128 0) 0 0) in
  let data := [0x11; 0x22; 0x33; 0x44; 0x55] in
  let res := gpl_flash_program_binary data 5 0x800 1 fw in
  fst res = 0
  /\ forall k, 0 <= k < 5 ->
       fw_mem (snd res) (0x800 + k)
       = if k <? 4 * (5 / 4) then byte_at data (Z.to_nat k) else 0xFF.
Proof.
  apply (gpl_flash_program_binary_verified_tail [0x11; 0x22; 0x33; 0x44; 0x55] 5 0x800
           (FlashWorld (fun _ => 0) (VFlash 0 0 0 0 None 0 0 0)
                       (Loader 1 (replicate 128 0) 0 0))).
  - simpl; lia.
  - reflexivity.
  - intros j Hj.
    change (sector_of 2048) with 1 in Hj.
    change (sector_of (2048 + 5 + FLASH_SECTOR_SIZE - 1)) with 2 in Hj.
    assert (Hj1 : j = 1) by lia. subst j. reflexivity.
  - repeat constructor; unfold is_byte; lia.
  - intros x Hx. unfold is_byte. simpl. lia.
  - lia.
  - lia.
  - unfold FLASH_SIZE; lia.
Defined.

(** ** The [p] packet *)

Lemma read_cpu_register_returns_0 reg v w :
  fst (fst (read_cpu_register reg v w)) = 0.
Proof.
  unfold read_cpu_register, mbind, M_bind.
  destruct (init_register_cache w) as [[] w0].
  repeat match goal with
         | |- context [if ?b then _ else _] => destruct b
         | |- context [let (_, _) := ?m ?w in _] =>
             let r := fresh "r" in let x := fresh "x" in let w' := fresh "w" in
             destruct (m w) as [[r x] w']
         end; reflexivity.
Qed.

(** X23.  A [p] packet is never answered with an error.  Whatever the
    packet and whatever the pod answers, [handle_read_register] sends
    exactly one reply: eight hex digits for every register number below
    18, negative ones included, 24 zeros for 18 to 25, eight zeros for 26
    to 28 and the empty packet above.  A register that could not be read is
    reported with a substitute value. *)
Theorem handle_read_register_never_errors (data : string) (w : world) :
  let reg_num := int_of_long (strtol16 data) in
  fst (handle_read_register data w) = 0
  /\ exists reply,
       tx (snd (handle_read_register data w)) = tx w ++ [rsp_frame reply]
       /\ if reg_num <? NUM_REGISTERS then exists v, reply = hex8 v
          else if reg_num <=? 25 then reply = "000000000000000000000000"
          else if reg_num <=? 28 then reply = "00000000"
          else reply = EmptyString.
Proof.
  cbv zeta. unfold handle_read_register, NUM_REGISTERS.
  set (reg_num := int_of_long (strtol16 data)).
  destruct (18 <=? reg_num) eqn:E18; zbool.
  - replace (reg_num <? 18) with false by (symmetry; apply Z.ltb_ge; lia).
    cbn [andb].
    destruct (reg_num <=? 25) eqn:E25; [split; [reflexivity|]; by eexists|].
    zbool. replace (26 <=? reg_num) with true by (symmetry; apply Z.leb_le; lia).
    cbn [andb].
    destruct (reg_num <=? 28); split; try reflexivity; by eexists.
  - replace (reg_num <? 18) with true by (symmetry; apply Z.ltb_lt; lia).
    unfold mbind, M_bind.
    pose proof (read_cpu_register_returns_0 reg_num 0 w) as Hr.
    pose proof (keeps_tx_read_cpu_register reg_num 0 w) as Hk.
    destruct (read_cpu_register reg_num 0 w) as [[r value] w1].
    cbn [fst snd] in Hr, Hk. subst r. cbn [Z.eqb negb].
    split; [reflexivity|]. exists (hex8 value). split; [|by eexists].
    cbn [send_packet snd tx]. by rewrite Hk.
Qed.

(** ** Memory reads: a response with groups missing *)

Lemma extract_groups_short (src : list Z) (total : Z) (n c : nat) fuel :
  forall (buffer : list Z) (g : nat),
  (g <= c)%nat -> (c - g <= fuel)%nat -> (4 * c < n)%nat -> (n <= length buffer)%nat ->
  6 * Z.of_nat c + 3 <= total < 6 * Z.of_nat c + 9 ->
  total <= Z.of_nat (length src) ->
  extract_groups fuel src total buffer (5 + 6 * g) (4 * g) (Z.of_nat (n - 4 * g))
  = take (4 * g) buffer ++ map (deinterleaved src) (seq (4 * g) (4 * c - 4 * g))
    ++ drop (4 * c) buffer.
Proof.
  induction fuel as [|fuel IH]; intros buffer g Hg Hf Hc Hn Ht Hs.
  - assert (g = c) as -> by lia.
    rewrite Nat.sub_diag. cbn [extract_groups seq map app].
    by rewrite take_drop.
  - cbn [extract_groups].
    replace (0 <? Z.of_nat (n - 4 * g)) with true by (symmetry; apply Z.ltb_lt; lia).
    destruct (decide (g = c)) as [->|Hne].
    { replace (Z.of_nat (5 + 6 * c) + 4 <=? total) with false
        by (symmetry; apply Z.leb_gt; lia).
      cbn [andb]. rewrite Nat.sub_diag. cbn [seq map app].
      by rewrite take_drop. }
    replace (Z.of_nat (5 + 6 * g) + 4 <=? total) with true
      by (symmetry; apply Z.leb_le; lia).
    cbn [andb].
    replace (4 <=? Z.of_nat (n - 4 * g)) with true by (symmetry; apply Z.leb_le; lia).
    change (Z.to_nat 4) with 4%nat.
    replace (5 + 6 * g + 6)%nat with (5 + 6 * S g)%nat by lia.
    replace (Z.of_nat (n - 4 * g) - 4) with (Z.of_nat (n - 4 * S g)) by lia.
    rewrite deinterleaved_group by lia.
    set (c4 := map (deinterleaved src) (seq (4 * g) 4)).
    assert (Hc4 : length c4 = 4%nat) by (unfold c4; by rewrite length_map, length_seq).
    replace (4 * g + 4)%nat with (4 * S g)%nat by lia.
    rewrite IH; try lia; [|rewrite copy_at_length; lia].
    replace (4 * S g)%nat with (4 * g + length c4)%nat at 1 by lia.
    rewrite copy_at_take by lia.
    rewrite copy_at_drop by lia.
    replace (4 * c - 4 * g)%nat with (4 + (4 * c - 4 * S g))%nat by lia.
    rewrite seq_app, map_app. fold c4.
    replace (4 * g + 4)%nat with (4 * S g)%nat by lia.
    by rewrite <- !app_assoc.
Qed.

(** X24.  [cmd_0717_read_memory] accepts a response with groups missing.
    The response is checked for [5 + length] bytes only, while [length]
    data bytes take [6 * ceil(length / 4) + 3] bytes.  For a response in
    between, with [c] complete groups, the call returns 0 and only the
    first [4 * c] bytes of the caller's buffer are filled: the rest of the
    requested bytes are what the buffer held before. *)
Theorem cmd_0717_read_memory_short_response (addr len : Z) (buffer : list Z)
    (w : world) (r m0 m1 l2 l3 : Z) (payload : list Z)
    (rest : list (Z * list Z)) :
  let n := Z.to_nat (u16 len) in
  let response := [m0; m1; l2; l3; 0xee] ++ payload in
  let c := Z.to_nat ((Z.of_nat (length response) - 3) / 6) in
  length (g_cmd_buffer w) = 256%nat ->
  next_out_ok w = true ->
  in_results w = (r, response) :: rest -> 0 <= r ->
  accepted_magic m0 m1 ->
  (length payload <= 251)%nat ->
  4 + u16 (Z.lor (Z.shiftl l2 8) l3) <= Z.of_nat (length response) ->
  5 + u16 len <= Z.of_nat (length response) ->
  (4 * c < n)%nat ->
  (n <= length buffer)%nat ->
  fst (cmd_0717_read_memory addr len buffer (Z.of_nat (length buffer)) w)
  = (0, map (deinterleaved response) (seq 0 (4 * c)) ++ drop (4 * c) buffer).
Proof.
  intros n response c Hbuf Hout Hin Hr Hm Hp Hdecl Hmin Hshort Hn.
  assert (Hu : 0 <= u16 len < 65536) by (unfold u16; apply Z.mod_pos_bound; lia).
  assert (Hnz : Z.of_nat n = u16 len) by (unfold n; lia).
  assert (Hrl : length response = (5 + length payload)%nat) by reflexivity.
  pose proof (Z.mul_div_le (Z.of_nat (length response) - 3) 6 ltac:(lia)) as Hc1.
  pose proof (Z.mul_succ_div_gt (Z.of_nat (length response) - 3) 6 ltac:(lia)) as Hc2.
  assert (Hc0 : 0 <= (Z.of_nat (length response) - 3) / 6)
    by (apply Z.div_pos; lia).
  assert (Hcz : Z.of_nat c = (Z.of_nat (length response) - 3) / 6) by (unfold c; lia).
  unfold cmd_0717_read_memory.
  replace (Z.of_nat (length buffer) <? u16 len) with false
    by (symmetry; apply Z.ltb_ge; lia).
  unfold mbind at 1, M_bind at 1. unfold with_cmd_buffer.
  set (cmd := cmd_0717_read_memory_request addr (u16 len) (g_cmd_buffer w)).
  assert (Hcmd : length cmd = 256%nat)
    by (unfold cmd, cmd_0717_read_memory_request; cbv zeta; by rewrite poke_length).
  set (w0 := set_buffer cmd w).
  unfold mbind at 1, M_bind at 1.
  pose proof (usb_out_ok cmd w0 Hout) as Ho.
  assert (Hin1 : in_results (snd (usb_out cmd w0)) = (r, response) :: rest) by exact Hin.
  assert (Hb1 : g_cmd_buffer (snd (usb_out cmd w0)) = cmd) by reflexivity.
  destruct (usb_out cmd w0) as [ro w1]. cbn [fst snd] in Ho, Hin1, Hb1. subst ro.
  cbn [Z.eqb negb].
  unfold mbind at 1, M_bind at 1.
  pose proof (usb_in_delivers 256 w1 r response rest Hin1 Hr) as Hi.
  assert (Hb2 : g_cmd_buffer (snd (usb_in 256 w1)) = cmd) by exact Hb1.
  destruct (usb_in 256 w1) as [[ri rx] w2]. cbn [fst snd] in Hi, Hb2.
  rewrite take_ge in Hi by (rewrite Hrl; lia).
  injection Hi as -> ->.
  unfold mbind at 1, M_bind at 1. unfold modify.
  replace (r <? 0) with false by (symmetry; apply Z.ltb_ge; lia).
  replace (Z.of_nat (length response) <? 4) with false
    by (symmetry; apply Z.ltb_ge; lia).
  unfold mbind at 1, M_bind at 1. unfold get at 1.
  cbn [g_cmd_buffer set_buffer]. rewrite Hb2.
  set (buf := recv_into cmd response).
  assert (H2 : byte_at buf 2 = l2)
    by (unfold buf; rewrite byte_at_recv_into by (rewrite Hrl; lia); reflexivity).
  assert (H3 : byte_at buf 3 = l3)
    by (unfold buf; rewrite byte_at_recv_into by (rewrite Hrl; lia); reflexivity).
  rewrite H2, H3.
  unfold mbind at 1, M_bind at 1.
  rewrite read_more_packets_S.
  replace (Z.of_nat (length response) <? 4 + u16 (Z.lor (Z.shiftl l2 8) l3))
    with false by (symmetry; apply Z.ltb_ge; lia).
  cbn [andb]. unfold mret at 1, M_ret at 1.
  cbn [Z.ltb Z.compare].
  unfold mbind at 1, M_bind at 1. unfold get at 1.
  cbn [g_cmd_buffer set_buffer]. fold buf.
  unfold buf at 1. rewrite validate_response_recv_into_min.
  assert (Hv : fst (validate_response response (Z.of_nat (length response))
                                      (5 + u16 len)) = 0).
  { unfold validate_response.
    replace (Z.of_nat (length response) <? 5 + u16 len) with false
      by (symmetry; apply Z.ltb_ge; lia).
    replace (5 <=? Z.of_nat (length response)) with true
      by (symmetry; apply Z.leb_le; rewrite Hrl; lia).
    unfold response, byte_at. cbn [app lookup list_lookup default].
    destruct Hm as [[-> ->]|[-> ->]]; reflexivity. }
  rewrite Hv. cbn [Z.eqb negb]. unfold mret, M_ret. cbn [fst].
  f_equal.
  pose proof (extract_groups_short buf (Z.of_nat (length response)) n c n buffer 0)
    as He.
  rewrite !Nat.mul_0_r, !Nat.sub_0_r, !Nat.add_0_r in He.
  rewrite Hnz in He. rewrite <- Hnz at 1. rewrite Nat2Z.id.
  rewrite He; try lia.
  - rewrite take_0. cbn [app]. f_equal.
    apply map_ext_in. intros k Hk. apply in_seq in Hk.
    unfold buf. apply deinterleaved_recv_into.
    pose proof (Nat.div_mod_eq k 4) as Hk4.
    pose proof (Nat.mod_upper_bound k 4 ltac:(lia)) as Hk5.
    lia.
  - unfold buf. rewrite recv_into_length by (rewrite Hrl, Hcmd; lia).
    rewrite Hcmd, Hrl. lia.
Qed.

Lemma cmd_0717_read_memory_short_response_witness :
  fst (cmd_0717_read_memory 0 8 [1; 2; 3; 4; 5; 6; 7; 8]
                            (Z.of_nat (length [1; 2; 3; 4; 5; 6; 7; 8]))
         (World (replicate 256 0) []
                [(0, [0x99; 0x66; 0x00; 0x09; 0xee]
                     ++ [0xde; 0xad; 0xbe; 0xef; 0x00; 0x00; 0xca; 0xfe])]
                [] 0 (replicate 256 0) (replicate 64 0) [] 0 1 0 0 1))
  = (0, map (deinterleaved ([0x99; 0x66; 0x00; 0x09; 0xee]
                            ++ [0xde; 0xad; 0xbe; 0xef; 0x00; 0x00; 0xca; 0xfe]))
            (seq 0 (4 * Z.to_nat ((Z.of_nat (length ([0x99; 0x66; 0x00; 0x09; 0xee]
                     ++ [0xde; 0xad; 0xbe; 0xef; 0x00; 0x00; 0xca; 0xfe])) - 3) / 6)))
        ++ drop (4 * Z.to_nat ((Z.of_nat (length ([0x99; 0x66; 0x00; 0x09; 0xee]
                     ++ [0xde; 0xad; 0xbe; 0xef; 0x00; 0x00; 0xca; 0xfe])) - 3) / 6))
                [1; 2; 3; 4; 5; 6; 7; 8]).
Proof.
  apply (cmd_0717_read_memory_short_response 0 8 [1; 2; 3; 4; 5; 6; 7; 8]
           (World (replicate 256 0) []
                  [(0, [0x99; 0x66; 0x00; 0x09; 0xee]
                       ++ [0xde; 0xad; 0xbe; 0xef; 0x00; 0x00; 0xca; 0xfe])]
                  [] 0 (replicate 256 0) (replicate 64 0) [] 0 1 0 0 1)
           0 0x99 0x66 0x00 0x09 [0xde; 0xad; 0xbe; 0xef; 0x00; 0x00; 0xca; 0xfe] []).
  - reflexivity.
  - reflexivity.
  - reflexivity.
  - lia.
  - left. split; reflexivity.
  - simpl; lia.
  - vm_compute. discriminate.
  - vm_compute. discriminate.
  - vm_compute. lia.
  - vm_compute. lia.
Defined.

(** ** The [Z] packet and software breakpoints *)

Lemma filter_seq_first (f : nat -> bool) (n : nat) : forall a : nat,
  match List.filter f (seq a n) with
  | [] => forall i : nat, (a <= i < a + n)%nat -> f i = false
  | i :: _ => (a <= i < a + n)%nat /\ f i = true
              /\ forall j : nat, (a <= j < i)%nat -> f j = false
  end.
Proof.
  induction n as [|n IH]; intros a; cbn [seq List.filter].
  - intros i Hi. lia.
  - destruct (f a) eqn:E.
    + split; [lia|]. split; [exact E|]. intros j Hj. lia.
    + specialize (IH (S a)). destruct (List.filter f (seq (S a) n)) as [|i rest].
      * intros i Hi. destruct (decide (i = a)) as [->|Hne]; [exact E|apply IH; lia].
      * destruct IH as (H1 & H2 & H3). split; [lia|]. split; [exact H2|].
        intros j Hj. destruct (decide (j = a)) as [->|Hne]; [exact E|apply H3; lia].
Qed.

Lemma first_sw_slot_spec (test : sw_breakpoint -> bool) (t : list sw_breakpoint) :
  (first_sw_slot test t = -1)
  \/ (exists i : nat, (i < MAX_SW_BREAKPOINTS)%nat /\ first_sw_slot test t = Z.of_nat i
                      /\ test (sw_at t i) = true
                      /\ forall j : nat, (j < i)%nat -> test (sw_at t j) = false).
Proof.
  unfold first_sw_slot.
  pose proof (filter_seq_first (fun i => test (sw_at t i)) MAX_SW_BREAKPOINTS 0) as H.
  destruct (List.filter _ (seq 0 MAX_SW_BREAKPOINTS)) as [|i rest]; [by left|].
  destruct H as (H1 & H2 & H3). right. exists i.
  split; [lia|]. split; [reflexivity|]. split; [exact H2|].
  intros j Hj. apply H3. lia.
Qed.

Lemma set_sw_breakpoint_spec addr t w :
  let r := fst (fst (set_sw_breakpoint addr t w)) in
  let t' := snd (fst (set_sw_breakpoint addr t w)) in
  (r = -1 /\ t' = t)
  \/ (r = 0
      /\ exists (i : nat) (original : Z),
           (i < MAX_SW_BREAKPOINTS)%nat
           /\ sw_active (sw_at t i) = 0
           /\ (forall j : nat, (j < i)%nat -> sw_active (sw_at t j) <> 0)
           /\ t' = <[i := SwBreakpoint addr original 1]> t).
Proof.
  cbv zeta. remember (set_sw_breakpoint addr t w) as res eqn:E. revert E.
  unfold set_sw_breakpoint. cbv zeta.
  destruct (first_sw_slot_spec (fun b => sw_active b =? 0) t)
    as [Hs|(i & Hi & Hs & Hti & Hbefore)]; rewrite Hs.
  { intros ->. by left. }
  replace (Z.of_nat i <? 0) with false by (symmetry; apply Z.ltb_ge; lia).
  unfold mbind at 1, M_bind at 1, get at 1.
  unfold mbind at 1, M_bind at 1.
  destruct (cmd_0717_read_memory addr 2 _ 2 w) as [[r1 insn] w1].
  destruct (negb (r1 =? 0)); [intros ->; by left|].
  unfold mbind at 1, M_bind at 1.
  destruct (cmd_0717_read_memory (u32 (addr + 2)) 2 _ 2 w1) as [[r2 next] w2].
  unfold mbind, M_bind.
  destruct (cmd_07_19 addr _ w2) as [r3 w3].
  destruct (negb (r3 =? 0)); intros ->; [by left|].
  right. unfold mret, M_ret. cbn [fst snd]. split; [reflexivity|].
  exists i. eexists. rewrite Nat2Z.id.
  split; [exact Hi|]. split; [by apply Z.eqb_eq|]. split; [|reflexivity].
  intros j Hj. apply Z.eqb_neq. by apply Hbefore.
Qed.

Lemma set_hw_breakpoint_full addr s w :
  (forall i : nat, (i < MAX_HW_BREAKPOINTS)%nat ->
                   byte_at (hw_breakpoint_used s) i <> 0) ->
  set_hw_breakpoint addr s w = ((-1, s), w).
Proof.
  intros Hall. unfold set_hw_breakpoint, MAX_HW_BREAKPOINTS in *.
  destruct (first_slot_spec (fun i => byte_at (hw_breakpoint_used s) i =? 0))
    as [[Hs _]|(i & Hi & _ & Hti & _)]; [by rewrite Hs|].
  apply Z.eqb_eq in Hti. by destruct (Hall i Hi).
Qed.

(** X25.  [Z0] falls back to a software breakpoint.  With all four
    hardware slots in use a [Z0] packet leaves the hardware breakpoint
    state alone and is answered either [OK], with the breakpoint recorded
    as active in the first inactive entry of the software table and the
    other entries unchanged, or [E0e], with the software table unchanged. *)
Theorem handle_set_breakpoint_software_fallback (data comma : string)
    (s : debug_state) (t : list sw_breakpoint) (w : world) :
  strchr data "," = Some comma ->
  breakpoint_type data = 0 ->
  (forall i : nat, (i < MAX_HW_BREAKPOINTS)%nat ->
                   byte_at (hw_breakpoint_used s) i <> 0) ->
  let addr := u32 (strtoul16 (string_tail comma)) in
  let res := handle_set_breakpoint data s t w in
  let t' := snd (snd (fst res)) in
  fst (snd (fst res)) = s
  /\ ((tx (snd res) = tx w ++ [rsp_frame "OK"]
       /\ exists (i : nat) (original : Z),
            (i < MAX_SW_BREAKPOINTS)%nat
            /\ sw_active (sw_at t i) = 0
            /\ (forall j : nat, (j < i)%nat -> sw_active (sw_at t j) <> 0)
            /\ t' = <[i := SwBreakpoint addr original 1]> t)
      \/ (tx (snd res) = tx w ++ [rsp_frame "E0e"] /\ t' = t)).
Proof.
  intros Hcomma Htype Hfull. cbv zeta.
  remember (handle_set_breakpoint data s t w) as res eqn:Eres. revert Eres.
  unfold handle_set_breakpoint. rewrite Hcomma, Htype. cbv zeta.
  cbn [Z.eqb]. unfold mbind at 1, M_bind at 1.
  rewrite (set_hw_breakpoint_full _ s w Hfull).
  cbn [Z.leb Z.compare]. unfold mbind at 1, M_bind at 1.
  set (addr := u32 (strtoul16 (string_tail comma))).
  pose proof (set_sw_breakpoint_spec addr t w) as Hsw. cbv zeta in Hsw.
  pose proof (keeps_tx_usb_only _ (usb_only_set_sw_breakpoint addr t) w) as Hk.
  destruct (set_sw_breakpoint addr t w) as [[r t'] w1]. cbn [fst snd] in Hsw, Hk.
  destruct Hsw as [[-> ->]|[-> Hrec]]; cbn [Z.eqb];
    unfold mbind, M_bind, send_ok, send_error, send_packet, mret, M_ret;
    intros ->; cbn [fst snd tx]; rewrite Hk; (split; [reflexivity|]).
  - right. by split.
  - left. by split.
Qed.

Lemma handle_set_breakpoint_software_fallback_witness :
  let s := Debug [0x400; 0x500; 0x600; 0x700] [1; 1; 1; 1]
                 (Z.lor (Z.lor (Z.lor TDR_TRC_HALT TDR_EBL1) TDR_EPC1)
                        (Z.shiftl 15 24))
                 0 0 WP_TYPE_NONE 0 in
  let addr := u32 (strtoul16 (string_tail ",800,2")) in
  let res := handle_set_breakpoint "0,800,2" s no_sw_breakpoints world_after_reset in
  let t' := snd (snd (fst res)) in
  fst (snd (fst res)) = s
  /\ ((tx (snd res) = tx world_after_reset ++ [rsp_frame "OK"]
       /\ exists (i : nat) (original : Z),
            (i < MAX_SW_BREAKPOINTS)%nat
            /\ sw_active (sw_at no_sw_breakpoints i) = 0
            /\ (forall j : nat, (j < i)%nat ->
                                sw_active (sw_at no_sw_breakpoints j) <> 0)
            /\ t' = <[i := SwBreakpoint addr original 1]> no_sw_breakpoints)
      \/ (tx (snd res) = tx world_after_reset ++ [rsp_frame "E0e"]
          /\ t' = no_sw_breakpoints)).
Proof.
  apply (handle_set_breakpoint_software_fallback "0,800,2" ",800,2"
           (Debug [0x400; 0x500; 0x600; 0x700] [1; 1; 1; 1]
                  (Z.lor (Z.lor (Z.lor TDR_TRC_HALT TDR_EBL1) TDR_EPC1)
                         (Z.shiftl 15 24))
                  0 0 WP_TYPE_NONE 0)
           no_sw_breakpoints world_after_reset).
  - reflexivity.
  - reflexivity.
  - intros i Hi. unfold MAX_HW_BREAKPOINTS in Hi.
    destruct i as [|[|[|[|i]]]]; [discriminate..|lia].
Defined.
